(** * Hands-On ML notebooks: a shallow embedding of the code cells

    The repository is a collection of Jupyter notebooks.  This development
    embeds their code cells in two ways.

    - The cells that compute something of their own are functions: the
      reinforcement-learning agents of chapter 18 ([DQNAgent], [PGAgent])
      in module [RL], the tabular Q-learning cell, the agent in use and the
      PPO skeleton in [QLearning], [PolicyGradient] and [PPO], the
      hand-written gradient descents of chapter 04 in module [Ch04] and its
      learning curves in [Curves], the transformer of chapter 02 in [Ch02],
      the activation of chapter 10 in [Ch10], the residual block of chapter
      14 in [Ch14] and the text encoding of chapter 15 in [Ch15].  Python
      lists, [collections.deque] and NumPy arrays are lists, a [dict] is a
      finite map, the mutable agents and NumPy's random generator are passed
      as explicit state, a fallible operation returns a [result], and
      Python's [float] / NumPy's [float64] is IEEE-754 binary64 through the
      executable specification [SpecFloat] of the standard library.
    - Every code cell of every notebook is a Python syntax tree in module
      [Py], with an interpreter of the control flow, the name bindings and
      the exceptions of a run.

    The definitions come first; the modules after them hold the
    properties. *)

From Stdlib Require Import ZArith List Bool Lia.
From Stdlib Require Import SpecFloat.
From stdpp Require Import base list strings gmap sorting.

Local Open Scope Z_scope.

(** ** Python exceptions and results *)

Inductive exn : Type :=
| NameError (name : string)
| IndexError
| ValueError
| ZeroDivisionError
| TypeError
| OSError
| LinAlgError
| Exception (what : string).

Inductive result (A : Type) : Type :=
| Ok (a : A)
| Raise (e : exn).

Arguments Ok {A} a.
Arguments Raise {A} e.

#[global] Instance result_ret : MRet result := fun A a => Ok a.

#[global] Instance result_bind : MBind result := fun A B k r =>
  match r with
  | Ok a => k a
  | Raise e => Raise e
  end.

(** ** The arithmetic of the notebooks

    The cells compute with Python numbers and NumPy [float64] arrays.  The
    code is written once over this interface; [binary64] below is the
    arithmetic the interpreter really uses.  The arrays that a Keras model
    predicts are [float32] arrays: a value assigned into one is rounded to
    the nearest [float32]. *)

Class Arith (F : Type) : Type := {
  of_int : Z -> F;                (* float(n) *)
  int_truediv : Z -> Z -> F;      (* n / d on two Python ints, d <> 0 *)
  add : F -> F -> F;
  sub : F -> F -> F;
  mul : F -> F -> F;
  div : F -> F -> F;              (* NumPy division: never raises *)
  sqrt : F -> F;
  maximum : F -> F -> F;          (* np.maximum *)
  float32 : F -> F;               (* np.float32(x): the nearest float32 *)
  leb : F -> F -> bool;
  ltb : F -> F -> bool
}.

(** ** [collections.deque] with [maxlen]

    The deque is the list of its items, oldest first.  CPython's [append]
    adds the item on the right and, when the size then exceeds [maxlen],
    pops one item from the left. *)

Definition deque_append {A : Type} (maxlen : nat) (d : list A) (x : A) : list A :=
  let d' := d ++ [x] in
  if (maxlen <? length d')%nat then drop 1 d' else d'.

(** ** NumPy indexing of a one-dimensional array

    An index [i] with [-n <= i < 0] counts from the end; anything outside
    [-n <= i < n] raises [IndexError]. *)

Definition np_index (n : nat) (i : Z) : result nat :=
  if (0 <=? i) && (i <? Z.of_nat n) then Ok (Z.to_nat i)
  else if (- Z.of_nat n <=? i) && (i <? 0) then Ok (Z.to_nat (Z.of_nat n + i))
  else Raise IndexError.

Definition np_getitem {A : Type} (a : list A) (i : Z) : result A :=
  k ← np_index (length a) i;
  match a !! k with
  | Some x => Ok x
  | None => Raise IndexError
  end.

Definition np_setitem {A : Type} (a : list A) (i : Z) (v : A) : result (list A) :=
  k ← np_index (length a) i;
  Ok (<[k := v]> a).

(** [np.amax] of a one-dimensional array; a zero-size array raises
    [ValueError]. *)

Definition amax {F : Type} `{Arith F} (a : list F) : result F :=
  match a with
  | [] => Raise ValueError
  | x :: a' => Ok (fold_left maximum a' x)
  end.

(** ** NumPy reductions on a one-dimensional [float64] array

    [add.reduce] starts from the first item ([0.0] for an empty array).
    The order in which NumPy adds the items (pairwise for long arrays)
    matters for the rounding only. *)

Section Reductions.

Context {F : Type} `{Arith F}.

Definition np_sum (a : list F) : F :=
  match a with
  | [] => of_int 0
  | x :: a' => fold_left add a' x
  end.

(** [np.mean]: [umr_sum(arr) / rcount] *)
Definition np_mean (a : list F) : F :=
  div (np_sum a) (of_int (Z.of_nat (length a))).

(** [np.std]: [x = arr - arrmean; x = x * x; sqrt(umr_sum(x) / rcount)] *)
Definition np_std (a : list F) : F :=
  let arrmean := np_mean a in
  let x := map (fun v => sub v arrmean) a in
  let x := map (fun v => mul v v) x in
  sqrt (div (np_sum x) (of_int (Z.of_nat (length a)))).

End Reductions.

(** [for x in xs: body] where the body may raise. *)
Fixpoint for_each {A S : Type} (xs : list A) (body : A -> S -> result S)
    (s : S) : result S :=
  match xs with
  | [] => Ok s
  | x :: xs' => s' ← body x s; for_each xs' body s'
  end.

(** [range(n)] *)
Definition range (n : Z) : list Z := map Z.of_nat (seq 0 (Z.to_nat n)).

(** [a[start:stop]] on a Python sequence or the rows of an array: negative
    bounds count from the end and both bounds are clamped. *)
Definition slice {A : Type} (a : list A) (start stop : Z) : list A :=
  let len := Z.of_nat (length a) in
  let clamp i := if i <? 0 then Z.max (i + len) 0 else Z.min i len in
  let start := clamp start in
  let stop := clamp stop in
  take (Z.to_nat (stop - start)) (drop (Z.to_nat start) a).

(** What the cells use of [np.random] and [np.linalg]: a generator state
    [Rng] threaded through the draws. *)
Class NumPyLib (F Rng : Type) : Type := {
  seed : Z -> Rng;                       (* the state set by np.random.seed(n) *)
  rand : nat -> Rng -> list F * Rng;     (* np.random.rand(n, 1) *)
  randn : nat -> Rng -> list F * Rng;    (* np.random.randn(n, 1) *)
  randn_2_1 : Rng -> (F * F) * Rng;      (* np.random.randn(2, 1) *)
  randint : Z -> Rng -> Z * Rng;         (* np.random.randint(n) *)
  (* np.linalg.inv of a 2 x 2 array, LinAlgError on a singular one *)
  linalg_inv : (F * F) * (F * F) -> result ((F * F) * (F * F))
}.

(** * Chapter 18: the reinforcement-learning agents *)

Module RL.

(** A stored transition [(state, action, reward, next_state, done)]. *)

Record transition (Obs F : Type) : Type := Transition {
  tr_state : Obs;
  tr_action : Z;
  tr_reward : F;
  tr_next_state : Obs;
  tr_done : bool
}.

Arguments Transition {Obs F}.
Arguments tr_state {Obs F}.
Arguments tr_action {Obs F}.
Arguments tr_reward {Obs F}.
Arguments tr_next_state {Obs F}.
Arguments tr_done {Obs F}.

(** What the agents use of Keras, NumPy's argmax and the random modules.
    These libraries are not part of the repository: a network is any type
    [Net] with a prediction and a one-epoch fit, a generator is any type
    [Rng] threaded through the calls that draw from it. *)

Class Keras (F Obs Net Rng : Type) : Type := {
  (* Sequential([Dense(24), Dense(24), Dense(action_size, activation)]),
     compiled with a loss and Adam(lr); the initial weights are random *)
  build_sequential : Z -> Z -> string -> string -> F -> Rng -> Net * Rng;
  predict : Net -> Obs -> list (list F);
  fit : Net -> Obs -> list (list F) -> Net;
  train_on_batch : Net -> list Obs -> list (list F) -> list F -> Net;
  copy_weights : Net -> Net -> Net;    (* dst.set_weights(src.get_weights()) *)
  to_categorical : list Z -> Z -> result (list (list F));
  argmax : list F -> Z;
  np_random_rand : Rng -> F * Rng;
  np_random_choice : Z -> list F -> Rng -> result (Z * Rng);
  randrange : Z -> Rng -> result (Z * Rng);
  sample : forall T : Type, list T -> Z -> Rng -> result (list T * Rng)
}.

Section DQN.

Context {F Obs Net Rng : Type} `{Arith F} `{Keras F Obs Net Rng}.

Record DQNAgent : Type := {
  state_size : Z;
  action_size : Z;
  memory : list (transition Obs F);
  gamma : F;
  epsilon : F;
  epsilon_min : F;
  epsilon_decay : F;
  learning_rate : F;
  model : Net;
  target_model : Net
}.

Definition memory_maxlen : nat := 2000.

(** [_build_model] *)
Definition _build_model (state_size action_size : Z) (learning_rate : F)
    (g : Rng) : Net * Rng :=
  build_sequential state_size action_size "linear" "mse" learning_rate g.

(** [__init__] *)
Definition init (state_size action_size : Z) (g : Rng) : DQNAgent * Rng :=
  let learning_rate := int_truediv 1 1000 in
  let '(model, g1) := _build_model state_size action_size learning_rate g in
  let '(target_model, g2) := _build_model state_size action_size learning_rate g1 in
  ({| state_size := state_size;
      action_size := action_size;
      memory := [];
      gamma := int_truediv 95 100;
      epsilon := of_int 1;
      epsilon_min := int_truediv 1 100;
      epsilon_decay := int_truediv 995 1000;
      learning_rate := learning_rate;
      model := model;
      target_model := target_model |}, g2).

Definition set_memory (a : DQNAgent) (m : list (transition Obs F)) : DQNAgent :=
  {| state_size := state_size a; action_size := action_size a; memory := m;
     gamma := gamma a; epsilon := epsilon a; epsilon_min := epsilon_min a;
     epsilon_decay := epsilon_decay a; learning_rate := learning_rate a;
     model := model a; target_model := target_model a |}.

Definition set_model (a : DQNAgent) (m : Net) : DQNAgent :=
  {| state_size := state_size a; action_size := action_size a; memory := memory a;
     gamma := gamma a; epsilon := epsilon a; epsilon_min := epsilon_min a;
     epsilon_decay := epsilon_decay a; learning_rate := learning_rate a;
     model := m; target_model := target_model a |}.

Definition set_target_model (a : DQNAgent) (m : Net) : DQNAgent :=
  {| state_size := state_size a; action_size := action_size a; memory := memory a;
     gamma := gamma a; epsilon := epsilon a; epsilon_min := epsilon_min a;
     epsilon_decay := epsilon_decay a; learning_rate := learning_rate a;
     model := model a; target_model := m |}.

Definition set_epsilon (a : DQNAgent) (e : F) : DQNAgent :=
  {| state_size := state_size a; action_size := action_size a; memory := memory a;
     gamma := gamma a; epsilon := e; epsilon_min := epsilon_min a;
     epsilon_decay := epsilon_decay a; learning_rate := learning_rate a;
     model := model a; target_model := target_model a |}.

(** [remember]: [self.memory.append((state, action, reward, next_state, done))] *)
Definition remember (a : DQNAgent) (state : Obs) (action : Z) (reward : F)
    (next_state : Obs) (done : bool) : DQNAgent :=
  set_memory a
    (deque_append memory_maxlen (memory a)
       (Transition state action reward next_state done)).

(** [act] *)
Definition act (a : DQNAgent) (state : Obs) (g : Rng) : result (Z * Rng) :=
  let '(u, g1) := np_random_rand g in
  if leb u (epsilon a) then randrange (action_size a) g1
  else
    let act_values := predict (model a) state in
    row ← np_getitem act_values 0;
    Ok (argmax row, g1).

(** The target of one transition: the body of the [for] loop of [replay]
    up to the call of [fit].  [predict] returns a [float32] array, so the
    assignment [target[0][action] = ...] stores the nearest [float32] of
    its right-hand side.  The right-hand side itself is a binary64 number:
    [reward] and [self.gamma] are Python floats, and the NumPy 1 that goes
    with the Keras 2 interface of the cell ([Adam(lr=...)]) multiplies a
    Python float and the [float32] scalar of [np.amax] in binary64. *)
Definition replay_target (online target_net : Net) (gamma : F)
    (tr : transition Obs F) : result (list (list F)) :=
  let target := predict online (tr_state tr) in
  v ← (if tr_done tr then Ok (tr_reward tr)
       else
         let t := predict target_net (tr_next_state tr) in
         t0 ← np_getitem t 0;
         m ← amax t0;
         Ok (add (tr_reward tr) (mul gamma m)));
  row ← np_getitem target 0;
  row' ← np_setitem row (tr_action tr) (float32 v);
  Ok (<[0%nat := row']> target).

(** The [for] loop of [replay].  Besides the fitted network it returns the
    arguments of every [fit] call, in order. *)
Fixpoint replay_loop (online target_net : Net) (gamma : F)
    (minibatch : list (transition Obs F))
    : result (Net * list (Obs * list (list F))) :=
  match minibatch with
  | [] => Ok (online, [])
  | tr :: rest =>
      target ← replay_target online target_net gamma tr;
      let online' := fit online (tr_state tr) target in
      '(final, calls) ← replay_loop online' target_net gamma rest;
      Ok (final, (tr_state tr, target) :: calls)
  end.

(** [fit] changes the online network in place.  The network that the loop
    leaves when it stops, be it at the end of the minibatch or at the first
    transition whose target raises: it has been fitted on the transitions
    before. *)
Fixpoint fitted_by_loop (online target_net : Net) (gamma : F)
    (minibatch : list (transition Obs F)) : Net :=
  match minibatch with
  | [] => online
  | tr :: rest =>
      match replay_target online target_net gamma tr with
      | Ok target =>
          fitted_by_loop (fit online (tr_state tr) target) target_net gamma rest
      | Raise _ => online
      end
  end.

(** The network that is fitted on the [k]-th transition: the online network
    after the first [k] calls of [fit]. *)
Definition online_after (online : Net) (calls : list (Obs * list (list F)))
    (k : nat) : Net :=
  fold_left (fun net '(s, t) => fit net s t) (take k calls) online.

(** The Q-learning target of the textbook for one transition, given the
    Q-values of the target network at the next state: the reward of a
    terminal transition, [reward + gamma * max] otherwise. *)
Definition td_target (gamma : F) (tr : transition Obs F) (q_next : list F)
    : result F :=
  if tr_done tr then Ok (tr_reward tr)
  else m ← amax q_next; Ok (add (tr_reward tr) (mul gamma m)).

(** [replay]: the agent and the generator after a call that returns, or
    the exception of a call that raises. *)
Definition replay (a : DQNAgent) (batch_size : Z) (g : Rng)
    : result (DQNAgent * Rng) :=
  '(minibatch, g1) ← sample _ (memory a) batch_size g;
  '(online, _) ← replay_loop (model a) (target_model a) (gamma a) minibatch;
  let a1 := set_model a online in
  let a2 := if ltb (epsilon_min a1) (epsilon a1)
            then set_epsilon a1 (mul (epsilon a1) (epsilon_decay a1))
            else a1 in
  Ok (a2, g1).

(** The agent that a call of [replay] which raises leaves behind.  When
    [random.sample] raises, nothing has changed; when the loop raises, the
    online network has been fitted on the transitions before the one that
    raised, and the exploration rate has not decayed. *)
Definition replay_raised (a : DQNAgent) (batch_size : Z) (g : Rng) : DQNAgent :=
  match sample _ (memory a) batch_size g with
  | Ok (minibatch, _) =>
      set_model a
        (fitted_by_loop (model a) (target_model a) (gamma a) minibatch)
  | Raise _ => a
  end.

(** [update_target_model] *)
Definition update_target_model (a : DQNAgent) : DQNAgent :=
  set_target_model a (copy_weights (target_model a) (model a)).

(** The operations of the agent, as steps on its state. *)
Inductive dqn_step : DQNAgent -> DQNAgent -> Prop :=
| step_remember a state action reward next_state done :
    dqn_step a (remember a state action reward next_state done)
| step_act a state g r :
    act a state g = r -> dqn_step a a
| step_replay a batch_size g a' g' :
    replay a batch_size g = Ok (a', g') -> dqn_step a a'
| step_replay_raises a batch_size g e :
    replay a batch_size g = Raise e ->
    dqn_step a (replay_raised a batch_size g)
| step_update_target_model a :
    dqn_step a (update_target_model a).

Inductive dqn_reachable : DQNAgent -> Prop :=
| reach_init ss asz g : dqn_reachable (init ss asz g).1
| reach_step a a' : dqn_reachable a -> dqn_step a a' -> dqn_reachable a'.

End DQN.

Section PG.

Context {F Obs Net Rng : Type} `{Arith F} `{Keras F Obs Net Rng}.

Record PGAgent : Type := {
  pg_state_size : Z;
  pg_action_size : Z;
  pg_gamma : F;
  pg_learning_rate : F;
  pg_states : list Obs;
  pg_actions : list Z;
  pg_rewards : list F;
  pg_model : Net
}.

(** [__init__] *)
Definition pg_init (state_size action_size : Z) (g : Rng) : PGAgent * Rng :=
  let learning_rate := int_truediv 1 1000 in
  let '(model, g1) :=
    build_sequential state_size action_size "softmax"
      "categorical_crossentropy" learning_rate g in
  ({| pg_state_size := state_size;
      pg_action_size := action_size;
      pg_gamma := int_truediv 95 100;
      pg_learning_rate := learning_rate;
      pg_states := [];
      pg_actions := [];
      pg_rewards := [];
      pg_model := model |}, g1).

(** [remember] *)
Definition pg_remember (a : PGAgent) (state : Obs) (action : Z) (reward : F)
    : PGAgent :=
  {| pg_state_size := pg_state_size a;
     pg_action_size := pg_action_size a;
     pg_gamma := pg_gamma a;
     pg_learning_rate := pg_learning_rate a;
     pg_states := pg_states a ++ [state];
     pg_actions := pg_actions a ++ [action];
     pg_rewards := pg_rewards a ++ [reward];
     pg_model := pg_model a |}.

(** The first loop of [train]: [Gt = reward + gamma * Gt] over the
    reversed rewards, each [Gt] inserted at the front ([G_t] here, [Gt]
    being a constructor of [comparison]). *)
Definition discounted_returns (gamma : F) (rewards : list F) : list F :=
  snd (fold_left
         (fun '(G_t, discounted_rewards) reward =>
            let G_t := add reward (mul gamma G_t) in
            (G_t, G_t :: discounted_rewards))
         (rev rewards) (of_int 0, [])).

(** "Normalize rewards":
    [(discounted_rewards - np.mean(discounted_rewards)) / np.std(discounted_rewards)] *)
Definition normalize (discounted_rewards : list F) : list F :=
  let mean := np_mean discounted_rewards in
  let std := np_std discounted_rewards in
  map (fun v => div (sub v mean) std) discounted_rewards.

(** The [sample_weight] that [train] hands to [train_on_batch]. *)
Definition sample_weights (a : PGAgent) : list F :=
  normalize (discounted_returns (pg_gamma a) (pg_rewards a)).

(** [train] *)
Definition pg_train (a : PGAgent) : result PGAgent :=
  let discounted_rewards := sample_weights a in
  actions ← to_categorical (pg_actions a) (pg_action_size a);
  (* np.vstack of an empty list raises ValueError *)
  states ← (if bool_decide (length (pg_states a) = 0%nat)
            then Raise ValueError else Ok (pg_states a));
  let model := train_on_batch (pg_model a) states actions discounted_rewards in
  Ok {| pg_state_size := pg_state_size a;
        pg_action_size := pg_action_size a;
        pg_gamma := pg_gamma a;
        pg_learning_rate := pg_learning_rate a;
        pg_states := [];
        pg_actions := [];
        pg_rewards := [];
        pg_model := model |}.

End PG.

End RL.

(** * Chapter 04: training models

    The arrays of the notebook have fixed shapes: [X_b] is an array of [m]
    rows of two numbers, [theta] is a column of two numbers, [X] and [y] are
    columns of [m] numbers.  A row of [X_b] and [theta] are pairs, a column
    of [m] numbers is a list. *)

Module Ch04.

Section Cells.

Context {F Rng : Type} `{Arith F} `{NumPyLib F Rng}.

Definition vec2 : Type := (F * F)%type.

(** The dot product of two columns; BLAS fixes no order for the sum. *)
Definition vdot (u v : list F) : F := np_sum (zip_with mul u v).

(** [X_b.dot(theta)]: an [m x 2] array times a [2 x 1] column. *)
Definition dot_X_theta (X_b : list vec2) (theta : vec2) : list F :=
  map (fun row => vdot [row.1; row.2] [theta.1; theta.2]) X_b.

(** [X_b.T.dot(v)]: a [2 x m] array times an [n x 1] column, which raises
    [ValueError] unless [m = n]. *)
Definition dot_XT (X_b : list vec2) (v : list F) : result vec2 :=
  if bool_decide (length X_b = length v)
  then Ok (vdot (map fst X_b) v, vdot (map snd X_b) v)
  else Raise ValueError.

(** [u - v] on two columns, with NumPy's broadcasting of a column of one
    item. *)
Definition col_sub (u v : list F) : result (list F) :=
  if bool_decide (length u = length v) then Ok (zip_with sub u v)
  else match u, v with
       | _, [b] => Ok (map (fun a => sub a b) u)
       | [a], _ => Ok (map (fun b => sub a b) v)
       | _, _ => Raise ValueError
       end.

(** [c * v] and [u - v] on [2 x 1] columns. *)
Definition scale2 (c : F) (v : vec2) : vec2 := (mul c v.1, mul c v.2).
Definition sub2 (u v : vec2) : vec2 := (sub u.1 v.1, sub u.2 v.2).

(** ** Cell 1: the data *)

Definition m : Z := 100.

(** [np.random.seed(42)], [X = 2 * np.random.rand(m, 1)],
    [y = 4 + 3 * X + np.random.randn(m, 1)].  The state the generator had
    before the cell is [g]. *)
Definition cell_data (g : Rng) : result (list F * list F * Rng) :=
  let g := seed 42 in
  let '(u, g) := rand (Z.to_nat m) g in
  let X := map (fun x => mul (of_int 2) x) u in
  let line := map (fun x => add (of_int 4) (mul (of_int 3) x)) X in
  let '(noise, g) := randn (Z.to_nat m) g in
  y ← (if bool_decide (length line = length noise)
       then Ok (zip_with add line noise) else Raise ValueError);
  Ok (X, y, g).

(** ** Cell 2: the normal equation *)

(** [X_b = np.c_[np.ones((m, 1)), X]] *)
Definition add_bias (X : list F) : list vec2 := map (fun x => (of_int 1, x)) X.

(** [theta_best = np.linalg.inv(X_b.T.dot(X_b)).dot(X_b.T).dot(y)] *)
Definition normal_equation (X_b : list vec2) (y : list F) : result vec2 :=
  let c0 := map fst X_b in
  let c1 := map snd X_b in
  let XtX := ((vdot c0 c0, vdot c0 c1), (vdot c1 c0, vdot c1 c1)) in
  inv ← linalg_inv XtX;
  let '((a, b), (c, d)) := inv in
  (* inv.dot(X_b.T), a 2 x m array *)
  let r0 := map (fun row => vdot [a; b] [row.1; row.2]) X_b in
  let r1 := map (fun row => vdot [c; d] [row.1; row.2]) X_b in
  if bool_decide (length X_b = length y)
  then Ok (vdot r0 y, vdot r1 y)
  else Raise ValueError.

(** ** Cell 4: batch gradient descent *)

Definition eta : F := int_truediv 1 10.
Definition n_iterations : Z := 1000.

(** The body of the loop:
    [gradients = 2/m * X_b.T.dot(X_b.dot(theta) - y)],
    [theta = theta - eta * gradients]. *)
Definition bgd_body (X_b : list vec2) (y : list F) (theta : vec2)
    : result vec2 :=
  residual ← col_sub (dot_X_theta X_b theta) y;
  g ← dot_XT X_b residual;
  let gradients := scale2 (int_truediv 2 m) g in
  Ok (sub2 theta (scale2 eta gradients)).

(** [theta = np.random.randn(2,1)] and the loop over
    [range(n_iterations)]. *)
Definition batch_gradient_descent (X_b : list vec2) (y : list F) (g : Rng)
    : result (vec2 * Rng) :=
  let '(theta, g) := randn_2_1 g in
  theta ← for_each (range n_iterations)
            (fun iteration theta => bgd_body X_b y theta) theta;
  Ok (theta, g).

(** ** Cell 5: stochastic gradient descent *)

Definition n_epochs : Z := 50.
Definition t0 : Z := 5.
Definition t1 : Z := 50.

(** [def learning_schedule(t): return t0 / (t + t1)] on a Python int. *)
Definition learning_schedule (t : Z) : result F :=
  if t + t1 =? 0 then Raise ZeroDivisionError
  else Ok (int_truediv t0 (t + t1)).

(** The body of the inner loop. *)
Definition sgd_body (X_b : list vec2) (y : list F) (epoch i : Z)
    (s : vec2 * Rng) : result (vec2 * Rng) :=
  let '(theta_sgd, g) := s in
  let '(random_index, g) := randint m g in
  let xi := slice X_b random_index (random_index + 1) in
  let yi := slice y random_index (random_index + 1) in
  residual ← col_sub (dot_X_theta xi theta_sgd) yi;
  gr ← dot_XT xi residual;
  let gradients := scale2 (of_int 2) gr in
  eta ← learning_schedule (epoch * m + i);
  Ok (sub2 theta_sgd (scale2 eta gradients), g).

(** [theta_sgd = np.random.randn(2, 1)] and the two nested loops. *)
Definition stochastic_gradient_descent (X_b : list vec2) (y : list F)
    (g : Rng) : result (vec2 * Rng) :=
  let '(theta_sgd, g) := randn_2_1 g in
  for_each (range n_epochs)
    (fun epoch s =>
       for_each (range m) (fun i s => sgd_body X_b y epoch i s) s)
    (theta_sgd, g).

(** ** The notebook from its first cell to [theta_best], and on to the two
    descents *)

Definition run_theta_best (g : Rng) : result vec2 :=
  '(X, y, g) ← cell_data g;
  normal_equation (add_bias X) y.

Definition run_theta (g : Rng) : result vec2 :=
  '(X, y, g) ← cell_data g;
  let X_b := add_bias X in
  _ ← normal_equation X_b y;
  '(theta, g) ← batch_gradient_descent X_b y g;
  Ok theta.

(** ** The textbook updates

    What the specification says the loops compute, on the instances
    [(x_i, y_i)] one by one. *)

(** The residual of one instance, [x_i theta - y_i]. *)
Definition residual_of (theta : vec2) (x : vec2) (yv : F) : F :=
  sub (add (mul x.1 theta.1) (mul x.2 theta.2)) yv.

(** One batch update: [theta - eta * (2/m) * X_b^T (X_b theta - y)], with
    [eta = 0.1] and [m = 100]. *)
Definition textbook_batch_update (X_b : list vec2) (y : list F) (theta : vec2)
    : vec2 :=
  let r := zip_with (residual_of theta) X_b y in
  let Xt_r := (np_sum (zip_with (fun x ri => mul x.1 ri) X_b r),
               np_sum (zip_with (fun x ri => mul x.2 ri) X_b r)) in
  (sub theta.1 (mul (int_truediv 1 10) (mul (int_truediv 2 100) Xt_r.1)),
   sub theta.2 (mul (int_truediv 1 10) (mul (int_truediv 2 100) Xt_r.2))).

(** One stochastic update on the instance [(x, yv)] with the learning rate
    [eta]: [theta - eta * 2 * x^T (x theta - yv)]. *)
Definition textbook_stochastic_update (eta : F) (x : vec2) (yv : F)
    (theta : vec2) : vec2 :=
  let r := residual_of theta x yv in
  (sub theta.1 (mul eta (mul (of_int 2) (mul x.1 r))),
   sub theta.2 (mul eta (mul (of_int 2) (mul x.2 r)))).

(** The stochastic descent of the textbook: steps [k = 0, 1, ...], each on
    one instance drawn with [randint] and with the learning rate
    [t0 / (k + t1)]. *)
Fixpoint textbook_sgd_steps (data : list (vec2 * F)) (steps : list Z)
    (theta : vec2) (g : Rng) : option (vec2 * Rng) :=
  match steps with
  | [] => Some (theta, g)
  | k :: steps' =>
      let '(random_index, g) := randint 100 g in
      match data !! Z.to_nat random_index with
      | Some (x, yv) =>
          textbook_sgd_steps data steps'
            (textbook_stochastic_update (int_truediv 5 (k + 50)) x yv theta) g
      | None => None
      end
  end.

End Cells.

End Ch04.

(** * Chapter 05: the data of the support vector regression

    The notebook never seeds NumPy's generator; the cell starts from
    whatever state [g] the generator has. *)

Module Ch05.

Section Cells.

Context {F Rng : Type} `{Arith F} `{NumPyLib F Rng}.

(** [X_reg = 2 * np.random.rand(100, 1)] *)
Definition X_reg (g : Rng) : list F :=
  map (fun x => mul (of_int 2) x) (rand 100 g).1.

End Cells.

End Ch05.

(** * IEEE-754 binary64

    Python's [float] and NumPy's [float64] are binary64 numbers with
    round-to-nearest-even.  [SpecFloat] gives their operations on
    [spec_float], a sign, a mantissa and an exponent, or a zero, an infinity
    or NaN. *)

Module Binary64.

Definition prec : Z := 53.
Definition emax : Z := 1024.

Definition float : Type := spec_float.

(** A Python int as an unrounded sign, mantissa and exponent 0. *)
Definition raw_int (z : Z) : float :=
  match z with
  | Z0 => S754_zero false
  | Zpos p => S754_finite false p 0
  | Zneg p => S754_finite true p 0
  end.

(** [float(z)]: the nearest binary64 (exact below 2^53). *)
Definition float_of_int (z : Z) : float := binary_normalize prec emax z 0 false.

(** [n / d] on two Python ints is the correctly rounded quotient, which is
    also how a decimal literal such as [0.95] is read ([95 / 100]). *)
Definition truediv (n d : Z) : float := SFdiv prec emax (raw_int n) (raw_int d).

(** [np.maximum]: NaN wins, otherwise the larger operand. *)
Definition fmaximum (x y : float) : float :=
  match SFcompare x y with
  | None => S754_nan
  | Some Lt => y
  | Some _ => x
  end.

(** The signed mantissa of a finite number. *)
Definition signed (s : bool) (m : positive) : Z :=
  if s then Zneg m else Zpos m.

(** [np.float32(x)]: [x] rounded to the nearest binary32 number (24 bits of
    precision, exponents up to 128; beyond them an infinity), written as
    the binary64 number that it also is. *)
Definition to_float32 (x : float) : float :=
  match x with
  | S754_finite s m e =>
      match binary_normalize 24 128 (signed s m) e s with
      | S754_finite s' m' e' => binary_normalize prec emax (signed s' m') e' s'
      | y => y
      end
  | _ => x
  end.

#[global] Instance binary64 : Arith float := {|
  of_int := float_of_int;
  int_truediv := truediv;
  add := SFadd prec emax;
  sub := SFsub prec emax;
  mul := SFmul prec emax;
  div := SFdiv prec emax;
  sqrt := SFsqrt prec emax;
  maximum := fmaximum;
  float32 := to_float32;
  leb := SFleb;
  ltb := SFltb
|}.

(** [np.isfinite] *)
Definition is_finite (x : float) : bool :=
  match x with
  | S754_zero _ | S754_finite _ _ _ => true
  | S754_infinity _ | S754_nan => false
  end.

Definition is_zero (x : float) : bool :=
  match x with S754_zero _ => true | _ => false end.

(** The binary64 numbers proper: canonical mantissa and exponent. *)
Definition valid (x : float) : bool := valid_binary prec emax x.

End Binary64.

(** * A small concrete Keras and generator

    Enough of a network to run the agents on data: a network for two
    actions (CartPole) that is just its row of two outputs, fitted by
    copying the target, and a generator that is a counter. *)

Module Toy.

Import Binary64.

Definition Net : Type := (float * float)%type.
Definition Rng : Type := Z.

Definition one_hot (n : Z) (k : Z) : list float :=
  map (fun i => if Z.of_nat i =? k then float_of_int 1 else float_of_int 0)
      (seq 0 (Z.to_nat n)).

Definition first_argmax (row : list float) : Z :=
  match row with
  | [] => 0
  | x :: rest =>
      fst (fst (fold_left
                  (fun '(best, i, v) y =>
                     if SFltb v y then (i, i + 1, y) else (best, i + 1, v))
                  rest (0, 1, x)))
  end.

#[global] Instance toy_keras : RL.Keras float Z Net Rng := {|
  RL.build_sequential := fun _ _ _ _ _ g =>
    ((float_of_int 0, float_of_int 0), g + 1);
  RL.predict := fun net _ => [[net.1; net.2]];
  RL.fit := fun net _ target =>
    match target with [q0; q1] :: _ => (q0, q1) | _ => net end;
  RL.train_on_batch := fun net _ _ _ => net;
  RL.copy_weights := fun _ src => src;
  RL.to_categorical := fun actions n => Ok (map (one_hot n) actions);
  RL.argmax := first_argmax;
  RL.np_random_rand := fun g => (truediv (g mod 100) 100, g + 1);
  RL.np_random_choice := fun n _ g =>
    if 0 <? n then Ok (g mod n, g + 1) else Raise ValueError;
  RL.randrange := fun n g =>
    if 0 <? n then Ok (g mod n, g + 1) else Raise ValueError;
  RL.sample := fun T population k g =>
    if (0 <=? k) && (k <=? Z.of_nat (length population))
    then Ok (take (Z.to_nat k) population, g + 1)
    else Raise ValueError
|}.

(** A linear congruential generator for [np.random], and the inverse of a
    2 x 2 array by its adjugate. *)

Definition lcg (g : Z) : Z := (g * 1103515245 + 12345) mod 2147483648.

Fixpoint draws (n : nat) (g : Z) : list float * Z :=
  match n with
  | O => ([], g)
  | S n' =>
      let g1 := lcg g in
      let '(rest, g2) := draws n' g1 in
      (truediv g1 2147483648 :: rest, g2)
  end.

Definition inv2 (a : (float * float) * (float * float))
    : result ((float * float) * (float * float)) :=
  let '((a, b), (c, d)) := a in
  let det := SFsub prec emax (SFmul prec emax a d) (SFmul prec emax b c) in
  if is_zero det then Raise LinAlgError
  else Ok ((SFdiv prec emax d det, SFdiv prec emax (SFopp b) det),
           (SFdiv prec emax (SFopp c) det, SFdiv prec emax a det)).

#[global] Instance toy_numpy : NumPyLib float Rng := {|
  seed := fun n => n;
  rand := draws;
  randn := fun n g =>
    let '(u, g') := draws n g in
    (map (fun x => SFsub prec emax x (truediv 1 2)) u, g');
  randn_2_1 := fun g =>
    let g1 := lcg g in
    let g2 := lcg g1 in
    ((truediv g1 2147483648, truediv g2 2147483648), g2);
  randint := fun n g => let g1 := lcg g in (g1 mod n, g1);
  linalg_inv := inv2
|}.

(** The data of chapter 04 drawn with this generator. *)
Definition dataset : list float * list float :=
  match Ch04.cell_data (F := float) (0 : Rng) with
  | Ok (X, y, _) => (X, y)
  | Raise _ => ([], [])
  end.

End Toy.

(** * Executing a computation twice

    A computation of a notebook starts from whatever state NumPy's global
    generator has when its kernel reaches it: for a fresh kernel that state
    comes from the operating system.  Two executions give equal results for
    sure when the result is the same whatever that state and whatever the
    generator. *)

Module Determinism.

Import Binary64.

Definition deterministic {A : Type}
    (run : forall Rng : Type, NumPyLib float Rng -> Rng -> A) : Prop :=
  forall (Rng : Type) (L : NumPyLib float Rng) (g1 g2 : Rng),
    run Rng L g1 = run Rng L g2.

(** Computations of the notebooks that draw random numbers. *)
Inductive computation : Type :=
| Ch04_theta_best   (* chapter 04, cells 1 and 2: the normal equation *)
| Ch04_theta        (* chapter 04, cells 1 to 4: batch gradient descent *)
| Ch05_X_reg.       (* chapter 05, cell 4: the regression data *)

Definition column (v : float * float) : list float := [v.1; v.2].

Definition observe (c : computation) (Rng : Type) (L : NumPyLib float Rng)
    (g : Rng) : result (list float) :=
  match c with
  | Ch04_theta_best => theta ← Ch04.run_theta_best g; Ok (column theta)
  | Ch04_theta => theta ← Ch04.run_theta g; Ok (column theta)
  | Ch05_X_reg => Ok (Ch05.X_reg g)
  end.

End Determinism.

(** * Chapter 18, continued: tabular Q-learning, the policy-gradient agent
    in use, and the PPO skeleton *)

(** ** Tabular Q-learning on a Gym environment (the first code cell) *)

Module QLearning.

(** What the cell uses of Gym and of [np.random].  The environment, its
    action space and NumPy's generator all carry state; [W] is that state,
    threaded through the calls.  States and actions are Python ints. *)
Class Gym (F W : Type) : Type := {
  observation_space_n : W -> Z;
  action_space_n : W -> Z;
  env_reset : W -> result (Z * W);                  (* env.reset()[0] *)
  (* new_state, reward, done, _, _ = env.step(action) *)
  env_step : W -> Z -> result (Z * F * bool * W);
  action_space_sample : W -> Z * W;
  np_random_uniform : W -> F * W                    (* np.random.uniform(0, 1) *)
}.

Section Cell.

Context {F W : Type} {arith : Arith F} {gym : Gym F W}.

(** The Q-table, row by row: [Q[state]] is a row of one value per action. *)
Definition table : Type := list (list F).

(** [np.zeros((n_states, n_actions))] *)
Definition np_zeros (n_states n_actions : Z) : table :=
  replicate (Z.to_nat n_states) (replicate (Z.to_nat n_actions) (of_int 0)).

Definition alpha : F := int_truediv 1 10.
Definition gamma : F := int_truediv 99 100.
Definition epsilon : F := int_truediv 1 10.
Definition n_episodes : Z := 1000.

(** [np.isnan], by comparison: only NaN is not [<=] itself. *)
Definition isnan (x : F) : bool := negb (leb x x).

(** [np.argmax] of a one-dimensional [float64] array, as NumPy's loop has
    it: the first item is the maximum so far; a later item replaces it
    unless it is [<=] the maximum; a NaN is maximal and ends the search.
    [i] is the index of the head of [ip]. *)
Fixpoint argmax_loop (ip : list F) (i : Z) (mp : F) (max_ind : Z) : Z :=
  match ip with
  | [] => max_ind
  | x :: ip' =>
      if negb (leb x mp)
      then if isnan x then i else argmax_loop ip' (i + 1) x i
      else argmax_loop ip' (i + 1) mp max_ind
  end.

(** An empty array raises [ValueError]. *)
Definition np_argmax (a : list F) : result Z :=
  match a with
  | [] => Raise ValueError
  | mp :: ip => Ok (if isnan mp then 0 else argmax_loop ip 1 mp 0)
  end.

(** "Epsilon-greedy action selection" *)
Definition select_action (Q : table) (state : Z) (w : W) : result (Z * W) :=
  let '(u, w) := np_random_uniform w in
  if ltb u epsilon then Ok (action_space_sample w)
  else
    row ← np_getitem Q state;
    action ← np_argmax row;
    Ok (action, w).

(** "Q-table update":
    [Q[state, action] = Q[state, action] + alpha * (
         reward + gamma * np.max(Q[new_state]) - Q[state, action])] *)
Definition q_update (Q : table) (state action : Z) (reward : F)
    (new_state : Z) : result table :=
  row ← np_getitem Q state;
  q ← np_getitem row action;
  next ← np_getitem Q new_state;
  best ← amax next;
  let v := add q (mul alpha (sub (add reward (mul gamma best)) q)) in
  i ← np_index (length Q) state;
  row' ← np_setitem row action v;
  Ok (<[i := row']> Q).

(** The body of the [while not done] loop. *)
Definition q_step (Q : table) (state : Z) (w : W)
    : result (table * Z * bool * W) :=
  '(action, w) ← select_action Q state w;
  '(new_state, reward, done, w) ← env_step w action;
  Q ← q_update Q state action reward new_state;
  Ok (Q, new_state, done, w).

(** The [while not done] loop.  Nothing bounds the number of its steps: the
    loop is run for at most [fuel] steps, and [None] is an episode that has
    not ended by then. *)
Fixpoint episode (fuel : nat) (Q : table) (state : Z) (w : W)
    : result (option (table * W)) :=
  match fuel with
  | O => Ok (@None (table * W))
  | S fuel' =>
      '(Q, new_state, done, w) ← q_step Q state w;
      if (done : bool) then Ok (Some (Q, w)) else episode fuel' Q new_state w
  end.

(** The loop over the episodes, from a given table. *)
Fixpoint episodes (fuel : nat) (n : nat) (Q : table) (w : W)
    : result (option (table * W)) :=
  match n with
  | O => Ok (Some (Q, w))
  | S n' =>
      '(state, w) ← env_reset w;
      r ← episode fuel Q state w;
      match r with
      | Some (Q, w) => episodes fuel n' Q w
      | None => Ok (@None (table * W))
      end
  end.

(** The cell: the table of zeros, then [n_episodes] episodes of at most
    [fuel] steps each. *)
Definition q_learning (fuel : nat) (w : W) : result (option (table * W)) :=
  let n_states := observation_space_n w in
  let n_actions := action_space_n w in
  let Q := np_zeros n_states n_actions in
  episodes fuel (Z.to_nat n_episodes) Q w.

End Cell.

End QLearning.

(** ** The policy-gradient agent in use *)

Module PolicyGradient.

Import RL.

(** [np.reshape(state, [1, state_size])], which raises [ValueError] when
    the observation has another number of items. *)
Class Reshape (Obs : Type) : Type :=
  np_reshape : Obs -> Z -> result Obs.

Section Agent.

Context {F Obs Net Rng : Type} {arith : Arith F} {keras : Keras F Obs Net Rng}
  {reshape : Reshape Obs}.

(** [PGAgent.act] *)
Definition pg_act (a : @PGAgent F Obs Net) (state : Obs) (g : Rng) : result (Z * Rng) :=
  state ← np_reshape state (pg_state_size a);
  let prob_weights := predict (pg_model a) state in
  p ← np_getitem prob_weights 0;
  np_random_choice (pg_action_size a) p g.

(** The operations of the agent, as steps on its state. *)
Inductive pg_step : @PGAgent F Obs Net -> @PGAgent F Obs Net -> Prop :=
| pg_step_remember a state action reward :
    pg_step a (pg_remember a state action reward)
| pg_step_act a state g r :
    pg_act a state g = r -> pg_step a a
| pg_step_train a a' :
    pg_train a = Ok a' -> pg_step a a'.

Inductive pg_reachable : @PGAgent F Obs Net -> Prop :=
| pg_reach_init ss asz g : pg_reachable (pg_init ss asz g).1
| pg_reach_step a a' : pg_reachable a -> pg_step a a' -> pg_reachable a'.

End Agent.

End PolicyGradient.

(** ** The PPO skeleton *)

Module PPO.

Section Memory.

(** The stored items are whatever the caller hands in. *)
Context {State Action Prob Val Reward Size : Type}.

Record PPOMemory : Type := {
  states : list State;
  actions : list Action;
  probs : list Prob;
  vals : list Val;
  rewards : list Reward;
  dones : list bool;
  batch_size : Size
}.

(** [PPOMemory.__init__(self, batch_size)] *)
Definition memory_init (batch_size : Size) : PPOMemory :=
  {| states := []; actions := []; probs := []; vals := []; rewards := [];
     dones := []; batch_size := batch_size |}.

(** The call of [PPOMemory] with the arguments [args]: [__init__] has one
    parameter besides [self] and no default for it, so any other number of
    arguments is a [TypeError]. *)
Definition PPOMemory_call (args : list Size) : result PPOMemory :=
  match args with
  | [batch_size] => Ok (memory_init batch_size)
  | _ => Raise TypeError
  end.

(** [store] *)
Definition store (self : PPOMemory) (state : State) (action : Action)
    (prob : Prob) (val : Val) (reward : Reward) (done : bool) : PPOMemory :=
  {| states := states self ++ [state];
     actions := actions self ++ [action];
     probs := probs self ++ [prob];
     vals := vals self ++ [val];
     rewards := rewards self ++ [reward];
     dones := dones self ++ [done];
     batch_size := batch_size self |}.

(** [clear] *)
Definition clear (self : PPOMemory) : PPOMemory :=
  {| states := []; actions := []; probs := []; vals := []; rewards := [];
     dones := []; batch_size := batch_size self |}.

(** The memories a caller can get to. *)
Inductive memory_reachable (b : Size) : PPOMemory -> Prop :=
| reach_new : memory_reachable b (memory_init b)
| reach_store m state action prob val reward done :
    memory_reachable b m ->
    memory_reachable b (store m state action prob val reward done)
| reach_clear m :
    memory_reachable b m -> memory_reachable b (clear m).

End Memory.

(** What [_build_network] uses of Keras.  Building a layer on a tensor
    draws the initial weights of the layer; each of the calls raises on
    arguments that it does not accept ([ValueError] for a negative
    dimension or a number of units that is not positive). *)
Class Layers (Tensor Net Rng : Type) : Type := {
  Input : Z -> result Tensor;          (* tf.keras.layers.Input(shape=(n,)) *)
  (* tf.keras.layers.Dense(units, activation=...)(x) *)
  Dense : Z -> string -> Tensor -> Rng -> result (Tensor * Rng);
  Model : Tensor -> list Tensor -> result Net  (* tf.keras.Model(inputs, outputs) *)
}.

Section Agent.

Context {State Action Prob Val Reward Size F Tensor Net Rng : Type}
  {layers : Layers Tensor Net Rng}.

(** [_build_network] *)
Definition _build_network (state_dim action_dim : Z) (g : Rng)
    : result (Net * Rng) :=
  inputs ← Input state_dim;
  '(x, g) ← Dense 64 "tanh" inputs g;
  '(x, g) ← Dense 64 "tanh" x g;
  '(mean, g) ← Dense action_dim "tanh" x g;
  '(std, g) ← Dense action_dim "softplus" x g;
  net ← Model inputs [mean; std];
  Ok (net, g).

Record PPOAgent : Type := {
  policy : Net;
  policy_old : Net;
  memory : PPOMemory (State := State) (Action := Action) (Prob := Prob)
             (Val := Val) (Reward := Reward) (Size := Size)
}.

(** [PPOAgent.__init__(self, state_dim, action_dim, action_std_init=0.6)]:
    the two networks are built first; the last statement is
    [self.memory = PPOMemory()]. *)
Definition agent_init (state_dim action_dim : Z) (action_std_init : F)
    (g : Rng) : result (PPOAgent * Rng) :=
  '(policy, g) ← _build_network state_dim action_dim g;
  '(policy_old, g) ← _build_network state_dim action_dim g;
  memory ← PPOMemory_call [];
  Ok ({| policy := policy; policy_old := policy_old; memory := memory |}, g).

(** [update]: [pass] *)
Definition update (self : PPOAgent) : PPOAgent := self.

End Agent.

End PPO.

(** * The functions and classes that the other notebooks define *)

(** [range(a, b)] *)
Definition range2 (a b : Z) : list Z :=
  map (fun i => a + Z.of_nat i) (seq 0 (Z.to_nat (b - a))).

(** ** Chapter 02: [CombinedAttributesAdder] *)

Module Ch02.

Section Adder.

Context {F : Type} `{Arith F}.

(** A two-dimensional [float64] array, column by column: [X[:, j]] is the
    [j]-th of [columns], and every column has [nrows] items. *)
Record ndarray : Type := {
  nrows : nat;
  columns : list (list F)
}.

Definition well_formed (X : ndarray) : Prop :=
  Forall (fun c => length c = nrows X) (columns X).

(** [X[:, j]] *)
Definition column (X : ndarray) (j : Z) : result (list F) :=
  np_getitem (columns X) j.

(** [a / b] on two one-dimensional arrays: item by item, an array of one
    item being broadcast; other lengths that differ raise [ValueError].
    NumPy's division itself never raises. *)
Definition divide (a b : list F) : result (list F) :=
  if bool_decide (length a = length b) then Ok (zip_with div a b)
  else match a, b with
       | _, [y] => Ok (map (fun x => div x y) a)
       | [x], _ => Ok (map (fun y => div x y) b)
       | _, _ => Raise ValueError
       end.

(** [np.c_[X, c1, ..., cn]]: the one-dimensional arrays become further
    columns; they must have as many items as [X] has rows. *)
Definition c_ (X : ndarray) (cs : list (list F)) : result ndarray :=
  if forallb (fun c => (length c =? nrows X)%nat) cs
  then Ok {| nrows := nrows X; columns := columns X ++ cs |}
  else Raise ValueError.

Record CombinedAttributesAdder : Type := {
  add_bedrooms_per_room : bool
}.

(** [__init__(self, add_bedrooms_per_room=True)] *)
Definition init (add_bedrooms_per_room : option bool) : CombinedAttributesAdder :=
  {| add_bedrooms_per_room := default true add_bedrooms_per_room |}.

(** [fit]: [return self] *)
Definition fit (self : CombinedAttributesAdder) (X : ndarray)
    : CombinedAttributesAdder := self.

(** [transform] *)
Definition transform (self : CombinedAttributesAdder) (X : ndarray)
    : result ndarray :=
  x3 ← column X 3;
  x6 ← column X 6;
  rooms_per_household ← divide x3 x6;
  x5 ← column X 5;
  x6 ← column X 6;
  population_per_household ← divide x5 x6;
  if add_bedrooms_per_room self then
    x4 ← column X 4;
    x3 ← column X 3;
    bedrooms_per_room ← divide x4 x3;
    c_ X [rooms_per_household; population_per_household; bedrooms_per_room]
  else
    c_ X [rooms_per_household; population_per_household].

End Adder.

End Ch02.

(** ** Chapter 04: [plot_learning_curves] *)

Module Curves.

(** What the function uses of scikit-learn.  [fit] changes the model in
    place: it returns the fitted model here. *)
Class Sklearn (F X Y Model : Type) : Type := {
  (* train_test_split(X, y, test_size=0.2, random_state=42), which raises
     ValueError when a part would be empty *)
  train_test_split :
    list X -> list Y -> result (list X * list X * list Y * list Y);
  fit : Model -> list X -> list Y -> Model;
  predict : Model -> list X -> list Y;
  mean_squared_error : list Y -> list Y -> F
}.

Section Function.

Context {F X Y Model : Type} {arith : Arith F} {sklearn : Sklearn F X Y Model}.

(** The body of the loop, for one [m]. *)
Definition curves_body (X_train X_val : list X) (y_train y_val : list Y)
    (m : Z) (s : Model * list F * list F) : Model * list F * list F :=
  let '(model, train_errors, val_errors) := s in
  let model := fit model (slice X_train 0 m) (slice y_train 0 m) in
  let y_train_predict := predict model (slice X_train 0 m) in
  let y_val_predict := predict model X_val in
  (model,
   train_errors ++ [mean_squared_error (slice y_train 0 m) y_train_predict],
   val_errors ++ [mean_squared_error y_val y_val_predict]).

(** The function returns nothing; what it leaves is the fitted model and
    the two curves that it plots, [np.sqrt(train_errors)] and
    [np.sqrt(val_errors)]. *)
Definition plot_learning_curves (model : Model) (X_ : list X) (y : list Y)
    : result (Model * list F * list F) :=
  '(X_train, X_val, y_train, y_val) ← train_test_split X_ y;
  let '(model, train_errors, val_errors) :=
    fold_left (fun s m => curves_body X_train X_val y_train y_val m s)
      (range2 1 (Z.of_nat (length X_train))) (model, [], []) in
  Ok (model, map sqrt train_errors, map sqrt val_errors).

End Function.

End Curves.

(** ** Chapter 10: the activation functions *)

Module Ch10.

Section Activations.

Context {F : Type} `{Arith F}.

(** [def relu(x): return np.maximum(0, x)] on an array *)
Definition relu (x : list F) : list F :=
  map (fun v => maximum (of_int 0) v) x.

End Activations.

End Ch10.

(** ** Chapter 14: [ResidualBlock]

    A layer is followed on the shape of its output only: a tensor is its
    shape [[height; width; channels]], without the batch dimension. *)

Module Ch14.

Definition shape : Type := list Z.

Inductive layer : Type :=
| Conv2D (filters kernel_size strides : Z)   (* padding="same", use_bias=False *)
| BatchNormalization
| Activation.

(** The shape of the output of a layer.  A convolution with the padding
    ["same"] divides height and width by the stride, rounding up, and has one
    channel per filter; it wants an input of three dimensions, and a positive
    number of filters and stride. *)
Definition output_shape (l : layer) (s : shape) : result shape :=
  match l with
  | Conv2D filters kernel_size strides =>
      match s with
      | [height; width; channels] =>
          if (0 <? filters) && (0 <? strides)
          then Ok [(height + strides - 1) / strides;
                   (width + strides - 1) / strides;
                   filters]
          else Raise ValueError
      | _ => Raise ValueError
      end
  | BatchNormalization | Activation => Ok s
  end.

(** A tensor is symbolic, as [tf.keras.Input] gives it and as it flows
    through a model that is being built, or concrete, holding data. *)
Inductive kind : Type := Symbolic | Concrete.

(** What an addition raises when the shapes cannot be broadcast:
    [ValueError] where the shapes of symbolic tensors are inferred,
    [tf.errors.InvalidArgumentError], which is no [ValueError], where the
    addition runs on data. *)
Definition incompatible_shapes (k : kind) : exn :=
  match k with
  | Symbolic => ValueError
  | Concrete => Exception "InvalidArgumentError"
  end.

(** [a + b] on two tensors of the kind [k]: the shapes are broadcast,
    dimension by dimension; two dimensions that differ, none of them 1,
    raise. *)
Fixpoint broadcast (k : kind) (a b : shape) : result shape :=
  match a, b with
  | [], [] => Ok []
  | x :: a', y :: b' =>
      d ← (if x =? y then Ok x
           else if x =? 1 then Ok y
           else if y =? 1 then Ok x
           else Raise (incompatible_shapes k));
      rest ← broadcast k a' b';
      Ok (d :: rest)
  | _, _ => Raise (incompatible_shapes k)
  end.

Record ResidualBlock : Type := {
  main_layers : list layer;
  skip_layers : list layer
}.

(** [__init__(self, filters, strides=1, activation="relu", **kwargs)] *)
Definition init (filters : Z) (strides : option Z) : ResidualBlock :=
  let strides := default 1 strides in
  {| main_layers :=
       [Conv2D filters 3 strides; BatchNormalization; Activation;
        Conv2D filters 3 1; BatchNormalization];
     skip_layers :=
       if 1 <? strides
       then [Conv2D filters 1 strides; BatchNormalization]
       else [] |}.

(** [for layer in layers: Z = layer(Z)] *)
Definition apply_layers (layers : list layer) (Z_ : shape) : result shape :=
  for_each layers (fun layer Z_ => output_shape layer Z_) Z_.

(** [call], on an input of the kind [k] *)
Definition call (self : ResidualBlock) (k : kind) (inputs : shape)
    : result shape :=
  Z_ ← apply_layers (main_layers self) inputs;
  skip_Z ← apply_layers (skip_layers self) inputs;
  sum ← broadcast k Z_ skip_Z;
  output_shape Activation sum.

End Ch14.

(** ** Chapter 15: the characters of a text as numbers

    The text-generation cell in pieces: the vocabulary and the dictionary,
    which are plain Python, the comprehension that encodes the text, and
    the two [tf.data] steps that cut a data set of numbers into examples.
    The cell itself, as a whole, is in [Py]. *)

Module Ch15.

(** A character is its code point. *)
Definition char : Type := Z.

(** [set(text)], as the list of its elements in some order, and
    [sorted(...)]. *)
Definition set_ (text : list char) : list char := remove_dups text.
Definition sorted (l : list char) : list char := merge_sort Z.le l.

(** [vocab = sorted(set(text))] *)
Definition vocab (text : list char) : list char := sorted (set_ text).

(** [enumerate] *)
Definition enumerate {A : Type} (l : list A) : list (Z * A) :=
  imap (fun i x => (Z.of_nat i, x)) l.

(** [char2idx = {u:i for i, u in enumerate(vocab)}] *)
Definition char2idx (text : list char) : gmap char Z :=
  fold_left (fun d '(i, u) => <[u := i]> d) (enumerate (vocab text)) ∅.

(** [d[k]] on a dict, a [KeyError] when the key is missing. *)
Definition dict_getitem (d : gmap char Z) (k : char) : result Z :=
  match d !! k with
  | Some v => Ok v
  | None => Raise (Exception "KeyError")
  end.

(** The list comprehension [[char2idx[c] for c in text]], which the cell
    hands to [np.array] for [text_as_int]. *)
Definition encoded (text : list char) : result (list Z) :=
  mapM (dict_getitem (char2idx text)) text.

Definition seq_length : Z := 10.

(** [examples_per_epoch = len(text)//(seq_length+1)] *)
Definition examples_per_epoch (text : list char) : Z :=
  Z.of_nat (length text) / (seq_length + 1).

(** [dataset.batch(n, drop_remainder=True)]: the items [n] by [n], without
    the items that are left at the end. *)
Definition batch {A : Type} (n : nat) (items : list A) : list (list A) :=
  map (fun k => take n (drop (k * n) items)) (seq 0 (length items / n)).

(** [sequences = char_dataset.batch(seq_length+1, drop_remainder=True)], on
    the items that [char_dataset] holds. *)
Definition sequences (char_dataset : list Z) : list (list Z) :=
  batch (Z.to_nat (seq_length + 1)) char_dataset.

(** [split_input_target] *)
Definition split_input_target {A : Type} (chunk : list A) : list A * list A :=
  let input_text := slice chunk 0 (-1) in
  let target_text := slice chunk 1 (Z.of_nat (length chunk)) in
  (input_text, target_text).

(** [dataset = sequences.map(split_input_target)] *)
Definition dataset (char_dataset : list Z) : list (list Z * list Z) :=
  map split_input_target (sequences char_dataset).

End Ch15.

(** * Small concrete environments

    Enough of Gym and of scikit-learn to run the cells on data. *)

Module ToyWorld.

Import Binary64.

(** A corridor of four states for the Q-learning cell: action 1 steps to
    the right, any other action to the left, the walls hold the agent back,
    and the episode ends in state 3 with the reward [goal].  The world is
    the position and the state of a generator. *)
Definition World : Type := (Z * Z)%type.

Definition corridor (goal : float) : QLearning.Gym float World := {|
  QLearning.observation_space_n := fun _ => 4;
  QLearning.action_space_n := fun _ => 2;
  QLearning.env_reset := fun w => Ok (0, (0, w.2));
  QLearning.env_step := fun w a =>
    let pos := Z.max 0 (Z.min 3 (if a =? 1 then w.1 + 1 else w.1 - 1)) in
    Ok (pos, (if pos =? 3 then goal else float_of_int 0), pos =? 3,
        (pos, Toy.lcg w.2));
  QLearning.action_space_sample := fun w =>
    (Toy.lcg w.2 mod 2, (w.1, Toy.lcg w.2));
  QLearning.np_random_uniform := fun w =>
    (truediv (Toy.lcg w.2 mod 100) 100, (w.1, Toy.lcg w.2))
|}.

(** The corridor with the goal in the direction of the first action:
    action 0 steps to the right, any other action to the left.  The greedy
    action of a table of zeros is action 0, so the episodes of the cell
    end. *)
Definition runway (goal : float) : QLearning.Gym float World := {|
  QLearning.observation_space_n := fun _ => 4;
  QLearning.action_space_n := fun _ => 2;
  QLearning.env_reset := fun w => Ok (0, (0, w.2));
  QLearning.env_step := fun w a =>
    let pos := Z.max 0 (Z.min 3 (if a =? 0 then w.1 + 1 else w.1 - 1)) in
    Ok (pos, (if pos =? 3 then goal else float_of_int 0), pos =? 3,
        (pos, Toy.lcg w.2));
  QLearning.action_space_sample := fun w =>
    (Toy.lcg w.2 mod 2, (w.1, Toy.lcg w.2));
  QLearning.np_random_uniform := fun w =>
    (truediv (Toy.lcg w.2 mod 100) 100, (w.1, Toy.lcg w.2))
|}.

(** Layers as Keras checks their arguments: a tensor is the number of its
    features, a model the numbers of features of its outputs; a negative
    input dimension and a number of units below 1 raise [ValueError]. *)
Definition checked_layers : PPO.Layers Z (list Z) Z := {|
  PPO.Input := fun n => if n <? 0 then Raise ValueError else Ok n;
  PPO.Dense := fun units _ _ g =>
    if units <? 1 then Raise ValueError else Ok (units, g + 1);
  PPO.Model := fun _ outputs => Ok outputs
|}.

(** Observations that are numbers already have the shape [[1, 1]]. *)
Definition reshape_number : PolicyGradient.Reshape Z := fun state _ => Ok state.

(** A model that remembers the targets it was fitted on and predicts the
    first of them; the last fifth of the data is the validation set, and an
    error is the number of instances it is taken over. *)
Definition memorizer : Curves.Sklearn float Z Z (list Z) := {|
  Curves.train_test_split := fun X_ y =>
    let k := (length X_ * 8 / 10)%nat in
    if (k =? 0)%nat || (k =? length X_)%nat then Raise ValueError
    else Ok (take k X_, drop k X_, take k y, drop k y);
  Curves.fit := fun _ _ y => y;
  Curves.predict := fun model X_ => map (fun _ => hd 0 model) X_;
  Curves.mean_squared_error := fun y_true _ =>
    float_of_int (Z.of_nat (length y_true))
|}.

(** The code points of a string of ASCII characters. *)
Definition code_points (s : string) : list Z :=
  map (fun c => Z.of_N (Ascii.N_of_ascii c)) (String.list_ascii_of_string s).

End ToyWorld.

(** * The code cells as Python syntax trees

    Every code cell of every notebook, statement by statement, in the
    abstract syntax of Python's own [ast] module (the constructor [SFoo] is
    the node [ast.Foo]).  A string constant is written as in the source,
    with a newline as the two characters of its escape. *)

Module Py.

#[local] Set Warnings "-register-all".

Inductive binop : Type :=
| OpAdd | OpSub | OpMult | OpDiv | OpFloorDiv | OpMod | OpPow | OpMatMult.

Inductive unaryop : Type :=
| OpUSub | OpNot | OpUAdd | OpInvert.

Inductive cmpop : Type :=
| CmpEq | CmpNotEq | CmpLt | CmpLtE | CmpGt | CmpGtE
| CmpIs | CmpIsNot | CmpIn | CmpNotIn.

Inductive expr : Type :=
| EName (id : string)
| EInt (n : Z)
| EFloat (literal : string)
| EStr (s : string)
| EBool (b : bool)
| ENone
| EJoinedStr (values : list expr)                         (* an f-string *)
| EFormattedValue (value : expr) (format_spec : option expr)
| EAttribute (value : expr) (attr : string)
| ECall (func : expr) (args : list expr)
        (keywords : list (option string * expr))          (* None: **kwargs *)
| ESubscript (value : expr) (index : expr)
| ESlice (lower upper step : option expr)
| ETuple (elts : list expr)
| EList (elts : list expr)
| EDict (items : list (option expr * expr))               (* None: **mapping *)
| EBinOp (left : expr) (op : binop) (right : expr)
| EUnaryOp (op : unaryop) (operand : expr)
| ECompare (left : expr) (rest : list (cmpop * expr))
| EListComp (elt : expr) (generators : list comprehension)
| EDictComp (key value : expr) (generators : list comprehension)
with comprehension : Type :=
| Comprehension (target iter : expr) (ifs : list expr).

(** [import a.b as c] is [("a.b", Some "c")]. *)
Definition alias : Type := (string * option string)%type.

Inductive stmt : Type :=
| SExpr (value : expr)
| SAssign (targets : list expr) (value : expr)
| SAugAssign (target : expr) (op : binop) (value : expr)
| SImport (names : list alias)
| SImportFrom (module : string) (names : list alias)
| SFunctionDef (name : string) (decorators : list expr)
    (params : list string) (defaults : list expr)
    (vararg kwarg : option string) (body : list stmt)
| SClassDef (name : string) (bases : list expr) (body : list stmt)
| SReturn (value : option expr)
| SFor (target iter : expr) (body orelse : list stmt)
| SWhile (test : expr) (body orelse : list stmt)
| SIf (test : expr) (body orelse : list stmt)
| SWith (items : list (expr * option expr)) (body : list stmt)
| STry (body : list stmt)
    (handlers : list (option expr * option string * list stmt))
    (orelse finalbody : list stmt)
| SRaise (exc cause : option expr)
| SPass
| SBreak
| SContinue
| SMagic (line : string).                                 (* an IPython magic *)

Record notebook : Type := {
  nb_file : string;
  nb_cells : list (list stmt)      (* the code cells, top to bottom *)
}.

(** ** Walking the syntax *)

(** The callee of a call as a dotted name: [tf.saved_model.save]. *)
Fixpoint dotted (e : expr) : string :=
  match e with
  | EName x => x
  | EAttribute v a => dotted v +:+ "." +:+ a
  | ECall f _ _ => dotted f +:+ "()"
  | ESubscript v _ => dotted v +:+ "[]"
  | _ => "<expr>"
  end.

Definition opt_list {A B : Type} (f : A -> list B) (x : option A) : list B :=
  match x with Some a => f a | None => [] end.

(** The expression [e] and all its subexpressions, in source order. *)
Fixpoint subexprs (e : expr) : list expr :=
  e ::
  match e with
  | EName _ | EInt _ | EFloat _ | EStr _ | EBool _ | ENone => []
  | EJoinedStr vs => flat_map subexprs vs
  | EFormattedValue v spec => subexprs v ++ opt_list subexprs spec
  | EAttribute v _ => subexprs v
  | ECall f args kws =>
      subexprs f ++ flat_map subexprs args
      ++ flat_map (fun kw => subexprs (snd kw)) kws
  | ESubscript v i => subexprs v ++ subexprs i
  | ESlice l u s =>
      opt_list subexprs l ++ opt_list subexprs u ++ opt_list subexprs s
  | ETuple es | EList es => flat_map subexprs es
  | EDict items =>
      flat_map (fun kv => opt_list subexprs (fst kv) ++ subexprs (snd kv)) items
  | EBinOp l _ r => subexprs l ++ subexprs r
  | EUnaryOp _ v => subexprs v
  | ECompare l rest => subexprs l ++ flat_map (fun c => subexprs (snd c)) rest
  | EListComp elt gens => subexprs elt ++ flat_map comp_subexprs gens
  | EDictComp k v gens =>
      subexprs k ++ subexprs v ++ flat_map comp_subexprs gens
  end
with comp_subexprs (c : comprehension) : list expr :=
  match c with
  | Comprehension t it ifs =>
      subexprs t ++ subexprs it ++ flat_map subexprs ifs
  end.

(** Does [q] hold of [s] or of a statement nested in it? *)
Fixpoint stmt_any (q : stmt -> bool) (s : stmt) : bool :=
  q s ||
  match s with
  | SFunctionDef _ _ _ _ _ _ body | SClassDef _ _ body | SWith _ body =>
      existsb (stmt_any q) body
  | SFor _ _ body orelse | SWhile _ body orelse | SIf _ body orelse =>
      existsb (stmt_any q) body || existsb (stmt_any q) orelse
  | STry body handlers orelse finalbody =>
      existsb (stmt_any q) body
      || existsb (fun h => existsb (stmt_any q) (snd h)) handlers
      || existsb (stmt_any q) orelse || existsb (stmt_any q) finalbody
  | _ => false
  end.

(** The expressions a statement holds directly, not those of the
    statements nested in it. *)
Definition own_exprs (s : stmt) : list expr :=
  let opt (x : option expr) := match x with Some e => [e] | None => [] end in
  match s with
  | SExpr v => [v]
  | SAssign ts v => ts ++ [v]
  | SAugAssign t _ v => [t; v]
  | SFunctionDef _ decorators _ defaults _ _ _ => decorators ++ defaults
  | SClassDef _ bases _ => bases
  | SReturn v => opt v
  | SFor t it _ _ => [t; it]
  | SWhile test _ _ | SIf test _ _ => [test]
  | SWith items _ => flat_map (fun i => fst i :: opt (snd i)) items
  | STry _ handlers _ _ => flat_map (fun h => opt (fst (fst h))) handlers
  | SRaise exc cause => opt exc ++ opt cause
  | SImport _ | SImportFrom _ _ | SPass | SBreak | SContinue | SMagic _ => []
  end.

(** All the expressions of [s], those of nested statements included. *)
Fixpoint all_exprs (s : stmt) : list expr :=
  flat_map subexprs (own_exprs s) ++
  match s with
  | SFunctionDef _ _ _ _ _ _ body | SClassDef _ _ body | SWith _ body =>
      flat_map all_exprs body
  | SFor _ _ body orelse | SWhile _ body orelse | SIf _ body orelse =>
      flat_map all_exprs body ++ flat_map all_exprs orelse
  | STry body handlers orelse finalbody =>
      flat_map all_exprs body
      ++ flat_map (fun h => flat_map all_exprs (snd h)) handlers
      ++ flat_map all_exprs orelse ++ flat_map all_exprs finalbody
  | _ => []
  end.

(** The cells of the repository for which [f] finds something: the file of
    the notebook, the number of the code cell in it (from 1) and what [f]
    found. *)
Definition report {A : Type} (f : list stmt -> list A)
    (repository : list notebook) : list (string * nat * list A) :=
  flat_map
    (fun nb =>
       flat_map (fun kc => match f (snd kc) with
                           | [] => []
                           | found => [(nb_file nb, S (fst kc), found)]
                           end)
                (imap pair (nb_cells nb)))
    repository.

(** ** Exception handlers *)

Definition is_try (s : stmt) : bool :=
  match s with STry _ _ _ _ => true | _ => false end.

(** [s] is or contains a [try] statement. *)
Definition has_handler (s : stmt) : bool := stmt_any is_try s.

(** ** Requests for parallel execution

    What the libraries document as running on several devices, processes or
    threads: a [tf.distribute] strategy, [n_jobs] other than 1 in
    scikit-learn, [num_parallel_calls] and [prefetch] in [tf.data], and
    [workers] / [use_multiprocessing] in Keras. *)

Definition strategy_names : list string :=
  ["MirroredStrategy"; "MultiWorkerMirroredStrategy"; "TPUStrategy";
   "ParameterServerStrategy"; "CentralStorageStrategy"].

Definition parallel_keywords : list string :=
  ["n_jobs"; "num_parallel_calls"; "workers"; "use_multiprocessing"].

Definition last_name (e : expr) : string :=
  match e with
  | EName x => x
  | EAttribute _ a => a
  | _ => ""
  end.

Definition in_list (x : string) (l : list string) : bool :=
  existsb (String.eqb x) l.

Definition is_serial_value (e : expr) : bool :=
  match e with
  | EInt 1 | ENone | EBool false => true
  | _ => false
  end.

Definition requests_parallelism (e : expr) : bool :=
  match e with
  | ECall f _ kws =>
      in_list (last_name f) strategy_names
      || String.eqb (last_name f) "prefetch"
      || existsb (fun kw =>
                    match fst kw with
                    | Some k => in_list k parallel_keywords
                                && negb (is_serial_value (snd kw))
                    | None => false
                    end) kws
  | _ => false
  end.

(** The calls of a cell that request parallel execution, by callee. *)
Definition parallel_requests (cell : list stmt) : list string :=
  flat_map (fun e => match e with
                     | ECall f _ _ =>
                         if requests_parallelism e then [dotted f] else []
                     | _ => []
                     end)
           (flat_map all_exprs cell).

Definition concurrency_modules : list string :=
  ["threading"; "multiprocessing"; "asyncio"; "concurrent"; "concurrent.futures";
   "queue"; "subprocess"; "sched"; "signal"; "joblib"; "dask"; "ray"].

(** [s] imports a module for threads, processes or coroutines. *)
Definition imports_concurrency (s : stmt) : bool :=
  match s with
  | SImport names => existsb (fun a => in_list (fst a) concurrency_modules) names
  | SImportFrom module _ => in_list module concurrency_modules
  | _ => false
  end.

Definition concurrency_imports (cell : list stmt) : list stmt :=
  List.filter (stmt_any imports_concurrency) cell.

(** ** Operations with an effect that outlives the kernel

    What the libraries document: creating a directory, writing or
    extracting files, saving a model, and the loaders that download a data
    set or pretrained weights into a cache directory under the user's
    home. *)

Inductive persistent_effect : Type :=
| MakesDirectory
| WritesFile
| SavesModel
| DownloadsToDisk.

Definition string_of_arg (e : expr) : string :=
  match e with EStr s => s | _ => "" end.

Definition has_write_mode (mode : string) : bool :=
  let cs := String.list_ascii_of_string mode in
  existsb (fun c => in_list (String c EmptyString) ["w"; "a"; "x"; "+"]) cs.

(** The mode of [open(file, mode)]: the second argument or the keyword. *)
Definition open_mode (args : list expr) (kws : list (option string * expr))
    : string :=
  match args with
  | _ :: mode :: _ => string_of_arg mode
  | _ =>
      match List.find (fun kw =>
                         match fst kw with
                         | Some k => String.eqb k "mode"
                         | None => false
                         end) kws with
      | Some kw => string_of_arg (snd kw)
      | None => "r"
      end
  end.

Definition keyword_is (k v : string) (kws : list (option string * expr)) : bool :=
  existsb (fun kw =>
             match fst kw with
             | Some k' => String.eqb k k' && String.eqb (string_of_arg (snd kw)) v
             | None => false
             end) kws.

Definition effect_of_call (e : expr) : option persistent_effect :=
  match e with
  | ECall f args kws =>
      let name := dotted f in
      if in_list name ["os.makedirs"; "os.mkdir"] then Some MakesDirectory
      else if String.eqb name "open" then
        if has_write_mode (open_mode args kws) then Some WritesFile else None
      else if in_list name ["tf.io.TFRecordWriter"] then Some WritesFile
      else if in_list (last_name f) ["extractall"; "extract"; "to_csv"; "savefig"]
      then Some WritesFile
      else if in_list name ["tf.saved_model.save"] then Some SavesModel
      else if in_list (last_name f) ["save"; "save_weights"; "dump"]
      then Some SavesModel
      else if in_list name ["urllib.request.urlretrieve"; "fetch_openml";
                            "tfds.load"; "fetch_california_housing"]
      then Some DownloadsToDisk
      else if in_list name ["ResNet50"] && keyword_is "weights" "imagenet" kws
      then Some DownloadsToDisk
      else None
  | _ => None
  end.

(** The calls of a cell that have such an effect, by callee. *)
Definition persistent_effects (cell : list stmt)
    : list (string * persistent_effect) :=
  flat_map (fun e => match e, effect_of_call e with
                     | ECall f _ _, Some eff => [(dotted f, eff)]
                     | _, _ => []
                     end)
           (flat_map all_exprs cell).

(** ** Executing a cell

    The interpreter follows the control flow and the name bindings of a
    cell; it does not compute values.  What depends on values is asked of an
    [oracle]: whether the [k]-th operation that may fail (a call of a
    library function, an attribute access, an import, ...) raises, and which
    way the [k]-th data-dependent decision goes (the test of an [if] or
    [while], whether an iteration has a next item). *)

Record oracle : Type := {
  fails : nat -> option exn;
  choose : nat -> bool
}.

(** What ends a statement abruptly. *)
Inductive signal : Type :=
| SigReturn
| SigBreak
| SigContinue
| SigRaise (e : exn)
| SigOutOfFuel.

Inductive res (A : Type) : Type :=
| Val (a : A)
| Sig (s : signal).

Arguments Val {A} a.
Arguments Sig {A} s.

(** A local scope: the names a function body assigns ([declared], empty for
    a class body or a comprehension) and the names bound so far. *)
Record scope : Type := {
  declared : list string;
  bound : list string
}.

Record state : Type := {
  globals : list string;                 (* the names bound in the kernel *)
  functions : list (string * (list string * list stmt));
                                         (* global names bound by a plain def *)
  scopes : list scope;                   (* innermost first *)
  ops : nat;                             (* operations performed *)
  decisions : nat;                       (* decisions taken *)
  log : list (nat * string)              (* the operations, numbered *)
}.

(** The kernel when it starts. *)
Definition fresh_kernel : state :=
  {| globals := []; functions := []; scopes := []; ops := 0; decisions := 0;
     log := [] |}.

Definition builtins : list string :=
  ["ArithmeticError"; "AssertionError"; "AttributeError"; "BaseException";
   "EOFError"; "Exception"; "FileExistsError"; "FileNotFoundError";
   "FloatingPointError"; "IOError"; "ImportError"; "IndexError"; "KeyError";
   "KeyboardInterrupt"; "LookupError"; "MemoryError"; "ModuleNotFoundError";
   "NameError"; "NotImplemented"; "NotImplementedError"; "OSError";
   "OverflowError"; "RuntimeError"; "StopIteration"; "SyntaxError";
   "TypeError"; "UnboundLocalError"; "ValueError"; "Warning";
   "ZeroDivisionError";
   "abs"; "all"; "any"; "ascii"; "bin"; "bool"; "bytearray"; "bytes";
   "callable"; "chr"; "classmethod"; "compile"; "complex"; "delattr"; "dict";
   "dir"; "divmod"; "enumerate"; "eval"; "exec"; "filter"; "float"; "format";
   "frozenset"; "getattr"; "globals"; "hasattr"; "hash"; "help"; "hex"; "id";
   "input"; "int"; "isinstance"; "issubclass"; "iter"; "len"; "list";
   "locals"; "map"; "max"; "memoryview"; "min"; "next"; "object"; "oct";
   "open"; "ord"; "pow"; "print"; "property"; "range"; "repr"; "reversed";
   "round"; "set"; "setattr"; "slice"; "sorted"; "staticmethod"; "str";
   "sum"; "super"; "tuple"; "type"; "vars"; "zip";
   "display"; "get_ipython"].

Definition set_scopes (st : state) (s : list scope) : state :=
  {| globals := globals st; functions := functions st; scopes := s;
     ops := ops st; decisions := decisions st; log := log st |}.

(** Is the name [x] unbound for a load?  The scopes are searched from the
    innermost: a scope that has bound [x] settles it; a function scope that
    assigns [x] somewhere but has not bound it yet makes the load an
    [UnboundLocalError] (a [NameError]); otherwise the kernel's names and
    the builtins decide. *)
Fixpoint bound_in (x : string) (ss : list scope) : bool :=
  match ss with
  | [] => false
  | s :: ss' => in_list x (bound s) || bound_in x ss'
  end.

Fixpoint unbound_in (x : string) (ss : list scope) (globals : list string)
    : bool :=
  match ss with
  | [] => negb (in_list x globals || in_list x builtins)
  | s :: ss' =>
      if in_list x (bound s) then false
      else if in_list x (declared s) then true
      else unbound_in x ss' globals
  end.

Definition unbound (x : string) (st : state) : bool :=
  unbound_in x (scopes st) (globals st).

Definition remove_function (x : string)
    (fs : list (string * (list string * list stmt)))
    : list (string * (list string * list stmt)) :=
  List.filter (fun f => negb (String.eqb (fst f) x)) fs.

(** Binding [x]: in the innermost scope, or in the kernel at top level,
    where it also replaces a function of that name. *)
Definition bind_name (x : string) (st : state) : state :=
  match scopes st with
  | s :: ss =>
      set_scopes st ({| declared := declared s; bound := x :: bound s |} :: ss)
  | [] =>
      {| globals := x :: globals st;
         functions := remove_function x (functions st);
         scopes := []; ops := ops st; decisions := decisions st;
         log := log st |}
  end.

(** After a plain [def] at top level the name is a known function. *)
Definition define_function (x : string) (params : list string)
    (body : list stmt) (st : state) : state :=
  match scopes st with
  | _ :: _ => bind_name x st
  | [] =>
      {| globals := x :: globals st;
         functions := (x, (params, body)) :: remove_function x (functions st);
         scopes := []; ops := ops st; decisions := decisions st;
         log := log st |}
  end.

Definition lookup_function (x : string) (st : state)
    : option (list string * list stmt) :=
  if bound_in x (scopes st) then None
  else option_map snd (List.find (fun f => String.eqb (fst f) x) (functions st)).

(** The names a block assigns, without the blocks of nested [def]s and
    classes: the local variables of a function with this body. *)
Fixpoint target_names (t : expr) : list string :=
  match t with
  | EName x => [x]
  | ETuple es | EList es => flat_map target_names es
  | _ => []
  end.

Definition alias_name (a : alias) : string :=
  match snd a with
  | Some asname => asname
  | None =>
      (* [import a.b] binds [a] *)
      match String.index 0 "." (fst a) with
      | Some i => String.substring 0 i (fst a)
      | None => fst a
      end
  end.

Fixpoint assigned (s : stmt) : list string :=
  match s with
  | SAssign ts _ => flat_map target_names ts
  | SAugAssign t _ _ => target_names t
  | SImport names | SImportFrom _ names => map alias_name names
  | SFunctionDef name _ _ _ _ _ _ | SClassDef name _ _ => [name]
  | SFor t _ body orelse =>
      target_names t ++ flat_map assigned body ++ flat_map assigned orelse
  | SWhile _ body orelse | SIf _ body orelse =>
      flat_map assigned body ++ flat_map assigned orelse
  | SWith items body =>
      flat_map (fun i => match snd i with
                         | Some t => target_names t
                         | None => []
                         end) items
      ++ flat_map assigned body
  | STry body handlers orelse finalbody =>
      flat_map assigned body
      ++ flat_map (fun h => match snd (fst h) with
                            | Some x => [x]
                            | None => []
                            end ++ flat_map assigned (snd h)) handlers
      ++ flat_map assigned orelse ++ flat_map assigned finalbody
  | _ => []
  end.

Section Interpreter.

Variable o : oracle.

(** The monad of the interpreter: a state transformer that yields a value
    or a signal. *)
Definition M (A : Type) : Type := state -> res A * state.

Definition ret {A : Type} (a : A) : M A := fun st => (Val a, st).

Definition bindM {A B : Type} (m : M A) (k : A -> M B) : M B :=
  fun st =>
    match m st with
    | (Val a, st') => k a st'
    | (Sig s, st') => (Sig s, st')
    end.

Notation "m1 ;; m2" := (bindM m1 (fun _ => m2))
  (at level 100, m2 at level 200, right associativity).
Notation "x <- m1 ;; m2" := (bindM m1 (fun x => m2))
  (at level 100, m1 at next level, m2 at level 200, right associativity).

Definition signal_ {A : Type} (s : signal) : M A := fun st => (Sig s, st).

(** An operation that may fail: it is counted and logged, and it raises
    when the oracle says so. *)
Definition perform (what : string) : M unit :=
  fun st =>
    let k := ops st in
    let st' := {| globals := globals st; functions := functions st;
                  scopes := scopes st; ops := S k; decisions := decisions st;
                  log := log st ++ [(k, what)] |} in
    match fails o k with
    | Some e => (Sig (SigRaise e), st')
    | None => (Val tt, st')
    end.

Definition decide_ : M bool :=
  fun st =>
    (Val (choose o (decisions st)),
     {| globals := globals st; functions := functions st; scopes := scopes st;
        ops := ops st; decisions := S (decisions st); log := log st |}).

Definition load (x : string) : M unit :=
  fun st => if unbound x st then (Sig (SigRaise (NameError x)), st)
            else (Val tt, st).

Definition store (x : string) : M unit := fun st => (Val tt, bind_name x st).

Definition def_ (x : string) (params : list string) (body : list stmt) : M unit :=
  fun st => (Val tt, define_function x params body st).

(** [m] in a new innermost scope (a class body, a comprehension), which is
    left again however [m] ends. *)
Definition with_scope {A : Type} (s : scope) (m : M A) : M A :=
  fun st =>
    let '(r, st') := m (set_scopes st (s :: scopes st)) in
    (r, set_scopes st' (scopes st)).

(** [m] as the body of a called function of the kernel: it sees its own
    scope and the kernel's names, not the scopes of its caller, which are
    back in place when it ends. *)
Definition with_frame {A : Type} (s : scope) (m : M A) : M A :=
  fun st =>
    let '(r, st') := m (set_scopes st [s]) in
    (r, set_scopes st' (scopes st)).

Fixpoint iterM {A : Type} (f : A -> M unit) (l : list A) : M unit :=
  match l with
  | [] => ret tt
  | x :: l' => f x;; iterM f l'
  end.

Definition optM {A : Type} (f : A -> M unit) (x : option A) : M unit :=
  match x with Some a => f a | None => ret tt end.

(** The body of a loop: [break] and [continue] end it; the value says
    whether the loop goes on. *)
Definition loop_body (m : M unit) : M bool :=
  fun st =>
    match m st with
    | (Val _, st') => (Val true, st')
    | (Sig SigContinue, st') => (Val true, st')
    | (Sig SigBreak, st') => (Val false, st')
    | (Sig s, st') => (Sig s, st')
    end.

(** The body of a called function: [return] ends it. *)
Definition function_body (m : M unit) : M unit :=
  fun st =>
    match m st with
    | (Sig SigReturn, st') => (Val tt, st')
    | r => r
    end.

(** [try]: the handlers see an exception of the body; the scopes are those
    of the [try] statement again. *)
Definition try_ (body : M unit) (handle : exn -> M unit) (orelse : M unit)
    (finalbody : M unit) : M unit :=
  fun st =>
    let '(r, st1) :=
      match body st with
      | (Sig (SigRaise e), st') => handle e (set_scopes st' (scopes st))
      | (Val _, st') => orelse st'
      | r => r
      end in
    match finalbody st1 with
    | (Val _, st2) => (r, st2)
    | r' => r'
    end.

Definition binop_name (op : binop) : string :=
  match op with
  | OpAdd => "+" | OpSub => "-" | OpMult => "*" | OpDiv => "/"
  | OpFloorDiv => "//" | OpMod => "%" | OpPow => "**" | OpMatMult => "@"
  end.

Definition unaryop_name (op : unaryop) : string :=
  match op with
  | OpUSub => "-" | OpNot => "not" | OpUAdd => "+" | OpInvert => "~"
  end.

Fixpoint eval (fuel : nat) (e : expr) {struct fuel} : M unit :=
  match fuel with
  | O => signal_ SigOutOfFuel
  | S n =>
      match e with
      | EName x => load x
      | EInt _ | EFloat _ | EStr _ | EBool _ | ENone => ret tt
      | EJoinedStr vs => iterM (eval n) vs
      | EFormattedValue v spec =>
          eval n v;; optM (eval n) spec;; perform "format"
      | EAttribute v a => eval n v;; perform ("." +:+ a)
      | ECall f args kws =>
          eval n f;;
          iterM (eval n) args;;
          iterM (fun kw => eval n (snd kw)) kws;;
          call n f
      | ESubscript v i => eval n v;; eval n i;; perform "[]"
      | ESlice l u s =>
          optM (eval n) l;; optM (eval n) u;; optM (eval n) s
      | ETuple es | EList es => iterM (eval n) es
      | EDict items =>
          iterM (fun kv => optM (eval n) (fst kv);; eval n (snd kv)) items
      | EBinOp l op r => eval n l;; eval n r;; perform (binop_name op)
      | EUnaryOp op v => eval n v;; perform (unaryop_name op)
      | ECompare l rest =>
          eval n l;; iterM (fun c => eval n (snd c)) rest;; perform "compare"
      | EListComp elt gens =>
          with_scope {| declared := []; bound := [] |} (comp n gens [elt])
      | EDictComp k v gens =>
          with_scope {| declared := []; bound := [] |} (comp n gens [k; v])
      end
  end

(** The call proper, after the callee and the arguments: the body of a
    function defined by a plain [def] of the kernel runs in a scope of its
    own; any other call is one operation. *)
with call (fuel : nat) (f : expr) {struct fuel} : M unit :=
  match fuel with
  | O => signal_ SigOutOfFuel
  | S n =>
      fun st =>
        match f with
        | EName x =>
            match lookup_function x st with
            | Some (params, body) =>
                with_frame {| declared := params ++ flat_map assigned body;
                              bound := params |}
                  (function_body (exec_block n body)) st
            | None => perform (dotted f +:+ "()") st
            end
        | _ => perform (dotted f +:+ "()") st
        end
  end

with comp (fuel : nat) (gens : list comprehension) (elts : list expr)
    {struct fuel} : M unit :=
  match fuel with
  | O => signal_ SigOutOfFuel
  | S n =>
      match gens with
      | [] => iterM (eval n) elts
      | Comprehension t it ifs :: gens' =>
          eval n it;; perform "iter";; comp_loop n t ifs gens' elts
      end
  end

with comp_loop (fuel : nat) (t : expr) (ifs : list expr)
    (gens : list comprehension) (elts : list expr) {struct fuel} : M unit :=
  match fuel with
  | O => signal_ SigOutOfFuel
  | S n =>
      perform "next";;
      more <- decide_;;
      if more then
        assign n t;; iterM (eval n) ifs;; comp n gens elts;;
        comp_loop n t ifs gens elts
      else ret tt
  end

(** Binding the target of an assignment. *)
with assign (fuel : nat) (t : expr) {struct fuel} : M unit :=
  match fuel with
  | O => signal_ SigOutOfFuel
  | S n =>
      match t with
      | EName x => store x
      | ETuple es | EList es => perform "unpack";; iterM (assign n) es
      | ESubscript v i => eval n v;; eval n i;; perform "[]="
      | EAttribute v a => eval n v;; perform ("." +:+ a +:+ "=")
      | _ => ret tt
      end
  end

with exec (fuel : nat) (s : stmt) {struct fuel} : M unit :=
  match fuel with
  | O => signal_ SigOutOfFuel
  | S n =>
      match s with
      | SExpr v => eval n v
      | SAssign ts v => eval n v;; iterM (assign n) ts
      | SAugAssign t op v =>
          eval n t;; eval n v;; perform (binop_name op +:+ "=");; assign n t
      | SImport names =>
          iterM (fun a => perform ("import " +:+ fst a);; store (alias_name a))
                names
      | SImportFrom module names =>
          perform ("import " +:+ module);;
          iterM (fun a => store (alias_name a)) names
      | SFunctionDef name decorators params defaults vararg kwarg body =>
          iterM (eval n) decorators;;
          iterM (eval n) defaults;;
          match decorators with
          | [] =>
              def_ name
                (params ++ match vararg with Some x => [x] | None => [] end
                        ++ match kwarg with Some x => [x] | None => [] end)
                body
          | _ => perform "decorate";; store name
          end
      | SClassDef name bases body =>
          iterM (eval n) bases;;
          with_scope {| declared := []; bound := [] |} (exec_block n body);;
          perform "class";;
          store name
      | SReturn v => optM (eval n) v;; signal_ SigReturn
      | SFor t it body orelse =>
          eval n it;; perform "iter";; for_loop n t body orelse
      | SWhile test body orelse => while_loop n test body orelse
      | SIf test body orelse =>
          eval n test;;
          b <- decide_;;
          if b then exec_block n body else exec_block n orelse
      | SWith items body =>
          (* the context managers of the notebooks (files, tar archives,
             record writers, gradient tapes, strategy scopes) let an
             exception of the body through *)
          iterM (fun i => eval n (fst i);; perform "enter";;
                          optM (assign n) (snd i)) items;;
          exec_block n body
      | STry body handlers orelse finalbody =>
          try_ (exec_block n body)
               (fun e =>
                  fold_right
                    (fun h next =>
                       matches <- match fst (fst h) with
                                  | None => ret true
                                  | Some ty => eval n ty;; decide_
                                  end;;
                       if matches
                       then optM store (snd (fst h));; exec_block n (snd h)
                       else next)
                    (signal_ (SigRaise e)) handlers)
               (exec_block n orelse)
               (exec_block n finalbody)
      | SRaise exc cause =>
          optM (eval n) exc;; optM (eval n) cause;;
          signal_ (SigRaise (Exception "raise"))
      | SPass => ret tt
      | SBreak => signal_ SigBreak
      | SContinue => signal_ SigContinue
      | SMagic line => perform line
      end
  end

with exec_block (fuel : nat) (body : list stmt) {struct fuel} : M unit :=
  match fuel with
  | O => signal_ SigOutOfFuel
  | S n =>
      match body with
      | [] => ret tt
      | s :: body' => exec n s;; exec_block n body'
      end
  end

with for_loop (fuel : nat) (t : expr) (body orelse : list stmt)
    {struct fuel} : M unit :=
  match fuel with
  | O => signal_ SigOutOfFuel
  | S n =>
      perform "next";;
      more <- decide_;;
      if more then
        assign n t;;
        go_on <- loop_body (exec_block n body);;
        if go_on then for_loop n t body orelse else ret tt
      else exec_block n orelse
  end

with while_loop (fuel : nat) (test : expr) (body orelse : list stmt)
    {struct fuel} : M unit :=
  match fuel with
  | O => signal_ SigOutOfFuel
  | S n =>
      eval n test;;
      b <- decide_;;
      if b then
        go_on <- loop_body (exec_block n body);;
        if go_on then while_loop n test body orelse else ret tt
      else exec_block n orelse
  end.

(** ** Running a notebook top to bottom

    The cells run in order in one kernel; the run stops at the first cell
    that raises. *)

Inductive run_result : Type :=
| Completed
| StoppedAt (cell : nat) (e : exn)      (* cells are numbered from 1 *)
| OutOfFuel (cell : nat).

Fixpoint run_cells (fuel : nat) (k : nat) (cells : list (list stmt))
    (st : state) : run_result * state :=
  match cells with
  | [] => (Completed, st)
  | c :: cells' =>
      match exec_block fuel c st with
      | (Sig (SigRaise e), st') => (StoppedAt k e, st')
      | (Sig SigOutOfFuel, st') => (OutOfFuel k, st')
      | (_, st') => run_cells fuel (S k) cells' st'
      end
  end.

Definition run_notebook (fuel : nat) (nb : notebook) : run_result * state :=
  run_cells fuel 1 (nb_cells nb) fresh_kernel.

End Interpreter.

(** The oracle under which nothing fails and the first [n] decisions are
    positive (the test holds, the iteration has a next item), all later
    ones negative. *)
Definition all_succeed (n : nat) : oracle :=
  {| fails := fun _ => None; choose := fun k => (k <? n)%nat |}.

(** The oracle under which exactly the operation numbered [k] fails, with
    the exception [e]. *)
Definition fails_at (k : nat) (e : exn) (choose : nat -> bool) : oracle :=
  {| fails := fun j => if (j =? k)%nat then Some e else None;
     choose := choose |}.

(** The oracle under which nothing fails and the decisions alternate,
    positive first: a loop with no decision in its body runs the body
    once. *)
Definition one_item_each : oracle :=
  {| fails := fun _ => None; choose := Nat.even |}.

(** The operations a run performed, in order. *)
Definition performed (x : run_result * state) : list string :=
  map snd (log (snd x)).

(** ** The notebooks *)

(** ** [Part1 Fundamental of Machine Learning/Chapter 01/01 Machine Learning Landscape.ipynb]

    Chapter 1: The Machine Learning Landscape *)

Definition ch01_cell_1 : list stmt :=
  [SImport [("numpy", Some "np")];
   SImport [("pandas", Some "pd")];
   SImport [("matplotlib.pyplot", Some "plt")];
   SImportFrom "sklearn.linear_model" [("LinearRegression", None)];
   SAssign [EName "X"]
     (ECall
       (EAttribute (EName "np") "array")
       [EList
          [EList [EInt 12240];
           EList [EInt 27195];
           EList [EInt 37675];
           EList [EInt 50962];
           EList [EInt 55805]]]
       []);
   SAssign [EName "y"]
     (ECall
       (EAttribute (EName "np") "array")
       [EList
          [EList [EFloat "4.9"];
           EList [EFloat "5.8"];
           EList [EFloat "6.5"];
           EList [EFloat "7.3"];
           EList [EFloat "7.2"]]]
       []);
   SAssign [EName "model"] (ECall (EName "LinearRegression") [] []);
   SExpr (ECall (EAttribute (EName "model") "fit") [EName "X"; EName "y"] []);
   SAssign [EName "X_new"] (EList [EList [EInt 22587]]);
   SExpr
     (ECall (EName "print")
       [EStr "Prediksi Life Satisfaction:";
        ECall (EAttribute (EName "model") "predict") [EName "X_new"] []]
       [])].

Definition ch01 : notebook :=
  {| nb_file := "Part1 Fundamental of Machine Learning/Chapter 01/01 Machine Learning Landscape.ipynb";
     nb_cells := [ch01_cell_1] |}.

(** ** [Part1 Fundamental of Machine Learning/Chapter 02/02 End to End Machine Learning Project.ipynb]

    End-to-End Machine Learning Project *)

Definition ch02_cell_1 : list stmt :=
  [SImport [("os", None)];
   SImport [("tarfile", None)];
   SImport [("urllib.request", None)];
   SImport [("numpy", Some "np")];
   SImport [("pandas", Some "pd")];
   SImport [("matplotlib.pyplot", Some "plt")];
   SImportFrom "sklearn.model_selection"
     [("train_test_split", None); ("StratifiedShuffleSplit", None)];
   SImportFrom "sklearn.impute" [("SimpleImputer", None)];
   SImportFrom "sklearn.preprocessing"
     [("StandardScaler", None); ("OrdinalEncoder", None); ("OneHotEncoder", None)];
   SImportFrom "sklearn.base" [("BaseEstimator", None); ("TransformerMixin", None)];
   SImportFrom "sklearn.pipeline" [("Pipeline", None)];
   SImportFrom "sklearn.compose" [("ColumnTransformer", None)];
   SMagic "%matplotlib inline"].

Definition ch02_cell_2 : list stmt :=
  [SAssign [EName "DOWNLOAD_ROOT"]
     (EStr "https://raw.githubusercontent.com/ageron/handson-ml2/master/");
   SAssign [EName "HOUSING_PATH"]
     (ECall
       (EAttribute (EAttribute (EName "os") "path") "join")
       [EStr "datasets"; EStr "housing"]
       []);
   SAssign [EName "HOUSING_URL"]
     (EBinOp (EName "DOWNLOAD_ROOT") OpAdd (EStr "datasets/housing/housing.tgz"));
   SFunctionDef "fetch_housing_data" []
     ["housing_url"; "housing_path"]
     [EName "HOUSING_URL"; EName "HOUSING_PATH"]
     None
     None
     [SExpr
        (ECall
          (EAttribute (EName "os") "makedirs")
          [EName "housing_path"]
          [(Some "exist_ok", EBool true)]);
      SAssign [EName "tgz_path"]
        (ECall
          (EAttribute (EAttribute (EName "os") "path") "join")
          [EName "housing_path"; EStr "housing.tgz"]
          []);
      SExpr
        (ECall
          (EAttribute (EAttribute (EName "urllib") "request") "urlretrieve")
          [EName "housing_url"; EName "tgz_path"]
          []);
      SWith
        [(ECall (EAttribute (EName "tarfile") "open") [EName "tgz_path"] [],
          Some (EName "housing_tgz"))]
        [SExpr
           (ECall
             (EAttribute (EName "housing_tgz") "extractall")
             []
             [(Some "path", EName "housing_path")])]];
   SFunctionDef "load_housing_data" [] ["housing_path"] [EName "HOUSING_PATH"] None None
     [SAssign [EName "csv_path"]
        (ECall
          (EAttribute (EAttribute (EName "os") "path") "join")
          [EName "housing_path"; EStr "housing.csv"]
          []);
      SReturn (Some (ECall (EAttribute (EName "pd") "read_csv") [EName "csv_path"] []))];
   SExpr (ECall (EName "fetch_housing_data") [] []);
   SAssign [EName "housing"] (ECall (EName "load_housing_data") [] []);
   SExpr (ECall (EAttribute (EName "housing") "head") [] [])].

Definition ch02_cell_3 : list stmt :=
  [SExpr (ECall (EAttribute (EName "housing") "info") [] [])].

Definition ch02_cell_4 : list stmt :=
  [SExpr (ECall (EAttribute (EName "housing") "describe") [] [])].

Definition ch02_cell_5 : list stmt :=
  [SExpr
     (ECall
       (EAttribute (ESubscript (EName "housing") (EStr "ocean_proximity")) "value_counts")
       []
       [])].

Definition ch02_cell_6 : list stmt :=
  [SExpr
     (ECall
       (EAttribute (EName "housing") "hist")
       []
       [(Some "bins", EInt 50); (Some "figsize", ETuple [EInt 20; EInt 15])]);
   SExpr (ECall (EAttribute (EName "plt") "show") [] [])].

Definition ch02_cell_7 : list stmt :=
  [SAssign
     [ESubscript (EName "housing") (EStr "income_cat")]
     (ECall
       (EAttribute (EName "pd") "cut")
       [ESubscript (EName "housing") (EStr "median_income")]
       [(Some "bins",
         EList
           [EFloat "0.0";
            EFloat "1.5";
            EFloat "3.0";
            EFloat "4.5";
            EFloat "6.0";
            EAttribute (EName "np") "inf"]);
        (Some "labels", EList [EInt 1; EInt 2; EInt 3; EInt 4; EInt 5])]);
   SAssign [EName "split"]
     (ECall
       (EName "StratifiedShuffleSplit")
       []
       [(Some "n_splits", EInt 1);
        (Some "test_size", EFloat "0.2");
        (Some "random_state", EInt 42)]);
   SFor
     (ETuple [EName "train_index"; EName "test_index"])
     (ECall
       (EAttribute (EName "split") "split")
       [EName "housing"; ESubscript (EName "housing") (EStr "income_cat")]
       [])
     [SAssign
        [EName "strat_train_set"]
        (ESubscript (EAttribute (EName "housing") "loc") (EName "train_index"));
      SAssign [EName "strat_test_set"]
        (ESubscript (EAttribute (EName "housing") "loc") (EName "test_index"))]
     [];
   SFor (EName "set_")
     (ETuple [EName "strat_train_set"; EName "strat_test_set"])
     [SExpr
        (ECall
          (EAttribute (EName "set_") "drop")
          [EStr "income_cat"]
          [(Some "axis", EInt 1); (Some "inplace", EBool true)])]
     []].

Definition ch02_cell_8 : list stmt :=
  [SAssign [EName "housing"] (ECall (EAttribute (EName "strat_train_set") "copy") [] []);
   SExpr
     (ECall
       (EAttribute (EName "housing") "plot")
       []
       [(Some "kind", EStr "scatter");
        (Some "x", EStr "longitude");
        (Some "y", EStr "latitude");
        (Some "alpha", EFloat "0.4");
        (Some "s", EBinOp (ESubscript (EName "housing") (EStr "population")) OpDiv (EInt 100));
        (Some "label", EStr "population");
        (Some "figsize", ETuple [EInt 10; EInt 7]);
        (Some "c", EStr "median_house_value");
        (Some "cmap", ECall (EAttribute (EName "plt") "get_cmap") [EStr "jet"] []);
        (Some "colorbar", EBool true)]);
   SExpr (ECall (EAttribute (EName "plt") "legend") [] []);
   SExpr (ECall (EAttribute (EName "plt") "show") [] [])].

Definition ch02_cell_9 : list stmt :=
  [SAssign
     [ESubscript (EName "housing") (EStr "rooms_per_household")]
     (EBinOp
       (ESubscript (EName "housing") (EStr "total_rooms"))
       OpDiv
       (ESubscript (EName "housing") (EStr "households")));
   SAssign
     [ESubscript (EName "housing") (EStr "bedrooms_per_room")]
     (EBinOp
       (ESubscript (EName "housing") (EStr "total_bedrooms"))
       OpDiv
       (ESubscript (EName "housing") (EStr "total_rooms")));
   SAssign
     [ESubscript (EName "housing") (EStr "population_per_household")]
     (EBinOp
       (ESubscript (EName "housing") (EStr "population"))
       OpDiv
       (ESubscript (EName "housing") (EStr "households")));
   SAssign [EName "corr_matrix"] (ECall (EAttribute (EName "housing") "corr") [] []);
   SExpr
     (ECall
       (EAttribute (ESubscript (EName "corr_matrix") (EStr "median_house_value")) "sort_values")
       []
       [(Some "ascending", EBool false)])].

Definition ch02_cell_10 : list stmt :=
  [SAssign [EName "housing_labels"]
     (ECall
       (EAttribute (ESubscript (EName "housing") (EStr "median_house_value")) "copy")
       []
       []);
   SAssign [EName "housing"]
     (ECall
       (EAttribute (EName "housing") "drop")
       [EStr "median_house_value"]
       [(Some "axis", EInt 1)]);
   SClassDef "CombinedAttributesAdder"
     [EName "BaseEstimator"; EName "TransformerMixin"]
     [SFunctionDef "__init__" []
        ["self"; "add_bedrooms_per_room"]
        [EBool true]
        None
        None
        [SAssign
           [EAttribute (EName "self") "add_bedrooms_per_room"]
           (EName "add_bedrooms_per_room")];
      SFunctionDef "fit" [] ["self"; "X"; "y"] [ENone] None None [SReturn (Some (EName "self"))];
      SFunctionDef "transform" [] ["self"; "X"] [] None None
        [SAssign
           [EName "rooms_per_household"]
           (EBinOp
             (ESubscript (EName "X") (ETuple [ESlice None None None; EInt 3]))
             OpDiv
             (ESubscript (EName "X") (ETuple [ESlice None None None; EInt 6])));
         SAssign
           [EName "population_per_household"]
           (EBinOp
             (ESubscript (EName "X") (ETuple [ESlice None None None; EInt 5]))
             OpDiv
             (ESubscript (EName "X") (ETuple [ESlice None None None; EInt 6])));
         SIf
           (EAttribute (EName "self") "add_bedrooms_per_room")
           [SAssign
              [EName "bedrooms_per_room"]
              (EBinOp
                (ESubscript (EName "X") (ETuple [ESlice None None None; EInt 4]))
                OpDiv
                (ESubscript (EName "X") (ETuple [ESlice None None None; EInt 3])));
            SReturn
              (Some
                (ESubscript
                  (EAttribute (EName "np") "c_")
                  (ETuple
                    [EName "X";
                     EName "rooms_per_household";
                     EName "population_per_household";
                     EName "bedrooms_per_room"])))]
           [SReturn
              (Some
                (ESubscript
                  (EAttribute (EName "np") "c_")
                  (ETuple
                    [EName "X"; EName "rooms_per_household"; EName "population_per_household"])))]]]].

Definition ch02_cell_11 : list stmt :=
  [SAssign [EName "housing_num"]
     (ECall
       (EAttribute (EName "housing") "drop")
       [EStr "ocean_proximity"]
       [(Some "axis", EInt 1)]);
   SAssign [EName "num_pipeline"]
     (ECall (EName "Pipeline")
       [EList
          [ETuple
             [EStr "imputer";
              ECall (EName "SimpleImputer") [] [(Some "strategy", EStr "median")]];
           ETuple [EStr "attribs_adder"; ECall (EName "CombinedAttributesAdder") [] []];
           ETuple [EStr "std_scaler"; ECall (EName "StandardScaler") [] []]]]
       []);
   SAssign [EName "num_attribs"] (ECall (EName "list") [EName "housing_num"] []);
   SAssign [EName "cat_attribs"] (EList [EStr "ocean_proximity"]);
   SAssign [EName "full_pipeline"]
     (ECall
       (EName "ColumnTransformer")
       [EList
          [ETuple [EStr "num"; EName "num_pipeline"; EName "num_attribs"];
           ETuple [EStr "cat"; ECall (EName "OneHotEncoder") [] []; EName "cat_attribs"]]]
       []);
   SAssign
     [EName "housing_prepared"]
     (ECall (EAttribute (EName "full_pipeline") "fit_transform") [EName "housing"] []);
   SExpr (EAttribute (EName "housing_prepared") "shape")].

Definition ch02 : notebook :=
  {| nb_file := "Part1 Fundamental of Machine Learning/Chapter 02/02 End to End Machine Learning Project.ipynb";
     nb_cells := [ch02_cell_1;
                  ch02_cell_2;
                  ch02_cell_3;
                  ch02_cell_4;
                  ch02_cell_5;
                  ch02_cell_6;
                  ch02_cell_7;
                  ch02_cell_8;
                  ch02_cell_9;
                  ch02_cell_10;
                  ch02_cell_11] |}.

(** ** [Part1 Fundamental of Machine Learning/Chapter 03/03 Classification.ipynb]

    Chapter 3: Classification *)

Definition ch03_cell_1 : list stmt :=
  [SImport [("numpy", Some "np")];
   SImport [("matplotlib.pyplot", Some "plt")];
   SImportFrom "sklearn.datasets" [("fetch_openml", None)];
   SAssign [EName "mnist"]
     (ECall (EName "fetch_openml") [EStr "mnist_784"]
       [(Some "version", EInt 1); (Some "as_frame", EBool false)]);
   SAssign
     [ETuple [EName "X"; EName "y"]]
     (ETuple
       [ESubscript (EName "mnist") (EStr "data"); ESubscript (EName "mnist") (EStr "target")]);
   SAssign [EName "y"]
     (ECall (EAttribute (EName "y") "astype") [EAttribute (EName "np") "uint8"] []);
   SExpr (ETuple [EAttribute (EName "X") "shape"; EAttribute (EName "y") "shape"])].

Definition ch03_cell_2 : list stmt :=
  [SAssign [EName "some_digit"] (ESubscript (EName "X") (EInt 0));
   SAssign
     [EName "some_digit_image"]
     (ECall (EAttribute (EName "some_digit") "reshape") [EInt 28; EInt 28] []);
   SExpr
     (ECall
       (EAttribute (EName "plt") "imshow")
       [EName "some_digit_image"]
       [(Some "cmap", EStr "binary")]);
   SExpr (ECall (EAttribute (EName "plt") "axis") [EStr "off"] []);
   SExpr
     (ECall
       (EAttribute (EName "plt") "title")
       [EJoinedStr [EStr "Label: "; EFormattedValue (ESubscript (EName "y") (EInt 0)) None]]
       []);
   SExpr (ECall (EAttribute (EName "plt") "show") [] [])].

Definition ch03_cell_3 : list stmt :=
  [SImportFrom "sklearn.linear_model" [("SGDClassifier", None)];
   SAssign
     [ETuple [EName "X_train"; EName "X_test"; EName "y_train"; EName "y_test"]]
     (ETuple
       [ESubscript (EName "X") (ESlice None (Some (EInt 60000)) None);
        ESubscript (EName "X") (ESlice (Some (EInt 60000)) None None);
        ESubscript (EName "y") (ESlice None (Some (EInt 60000)) None);
        ESubscript (EName "y") (ESlice (Some (EInt 60000)) None None)]);
   SAssign [EName "y_train_5"] (ECompare (EName "y_train") [(CmpEq, EInt 5)]);
   SAssign [EName "y_test_5"] (ECompare (EName "y_test") [(CmpEq, EInt 5)]);
   SAssign [EName "sgd_clf"] (ECall (EName "SGDClassifier") [] [(Some "random_state", EInt 42)]);
   SExpr (ECall (EAttribute (EName "sgd_clf") "fit") [EName "X_train"; EName "y_train_5"] []);
   SExpr (ECall (EAttribute (EName "sgd_clf") "predict") [EList [EName "some_digit"]] [])].

Definition ch03_cell_4 : list stmt :=
  [SImportFrom "sklearn.model_selection" [("cross_val_score", None)];
   SExpr
     (ECall
       (EName "cross_val_score")
       [EName "sgd_clf"; EName "X_train"; EName "y_train_5"]
       [(Some "cv", EInt 3); (Some "scoring", EStr "accuracy")])].

Definition ch03_cell_5 : list stmt :=
  [SImportFrom "sklearn.base" [("BaseEstimator", None)];
   SClassDef "Never5Classifier" [EName "BaseEstimator"]
     [SFunctionDef "fit" [] ["self"; "X"; "y"] [ENone] None None [SReturn (Some (EName "self"))];
      SFunctionDef "predict" [] ["self"; "X"] [] None None
        [SReturn
           (Some
             (ECall
               (EAttribute (EName "np") "zeros")
               [ETuple [ECall (EName "len") [EName "X"] []]]
               [(Some "dtype", EName "bool")]))]];
   SAssign [EName "never_5_clf"] (ECall (EName "Never5Classifier") [] []);
   SExpr
     (ECall
       (EName "cross_val_score")
       [EName "never_5_clf"; EName "X_train"; EName "y_train_5"]
       [(Some "cv", EInt 3); (Some "scoring", EStr "accuracy")])].

Definition ch03_cell_6 : list stmt :=
  [SImportFrom "sklearn.model_selection" [("cross_val_predict", None)];
   SImportFrom "sklearn.metrics"
     [("confusion_matrix", None);
      ("precision_score", None);
      ("recall_score", None);
      ("f1_score", None)];
   SAssign [EName "y_train_pred"]
     (ECall
       (EName "cross_val_predict")
       [EName "sgd_clf"; EName "X_train"; EName "y_train_5"]
       [(Some "cv", EInt 3)]);
   SExpr (ECall (EName "confusion_matrix") [EName "y_train_5"; EName "y_train_pred"] []);
   SExpr
     (ETuple
       [ECall (EName "precision_score") [EName "y_train_5"; EName "y_train_pred"] [];
        ECall (EName "recall_score") [EName "y_train_5"; EName "y_train_pred"] [];
        ECall (EName "f1_score") [EName "y_train_5"; EName "y_train_pred"] []])].

Definition ch03 : notebook :=
  {| nb_file := "Part1 Fundamental of Machine Learning/Chapter 03/03 Classification.ipynb";
     nb_cells := [ch03_cell_1; ch03_cell_2; ch03_cell_3; ch03_cell_4; ch03_cell_5; ch03_cell_6] |}.

(** ** [Part1 Fundamental of Machine Learning/Chapter 04/04 Training Models.ipynb]

    Machine Learning: Training Models *)

Definition ch04_cell_1 : list stmt :=
  [SImport [("numpy", Some "np")];
   SImport [("matplotlib.pyplot", Some "plt")];
   SExpr (ECall (EAttribute (EAttribute (EName "np") "random") "seed") [EInt 42] []);
   SAssign [EName "m"] (EInt 100);
   SAssign [EName "X"]
     (EBinOp (EInt 2) OpMult
       (ECall (EAttribute (EAttribute (EName "np") "random") "rand") [EName "m"; EInt 1] []));
   SAssign [EName "y"]
     (EBinOp
       (EBinOp (EInt 4) OpAdd (EBinOp (EInt 3) OpMult (EName "X")))
       OpAdd
       (ECall (EAttribute (EAttribute (EName "np") "random") "randn") [EName "m"; EInt 1] []));
   SExpr (ECall (EAttribute (EName "plt") "scatter") [EName "X"; EName "y"] []);
   SExpr (ECall (EAttribute (EName "plt") "xlabel") [EStr "Feature X"] []);
   SExpr (ECall (EAttribute (EName "plt") "ylabel") [EStr "Target y"] []);
   SExpr (ECall (EAttribute (EName "plt") "title") [EStr "Random Linear Dataset"] []);
   SExpr (ECall (EAttribute (EName "plt") "show") [] [])].

Definition ch04_cell_2 : list stmt :=
  [SAssign [EName "X_b"]
     (ESubscript
       (EAttribute (EName "np") "c_")
       (ETuple
         [ECall (EAttribute (EName "np") "ones") [ETuple [EName "m"; EInt 1]] []; EName "X"]));
   SAssign [EName "theta_best"]
     (ECall
       (EAttribute
         (ECall
           (EAttribute
             (ECall
               (EAttribute (EAttribute (EName "np") "linalg") "inv")
               [ECall (EAttribute (EAttribute (EName "X_b") "T") "dot") [EName "X_b"] []]
               [])
             "dot")
           [EAttribute (EName "X_b") "T"]
           [])
         "dot")
       [EName "y"]
       []);
   SExpr
     (ECall (EName "print")
       [EJoinedStr
          [EStr "Theta computed from Normal Equation:\n";
           EFormattedValue (EName "theta_best") None]]
       [])].

Definition ch04_cell_3 : list stmt :=
  [SImportFrom "sklearn.linear_model" [("LinearRegression", None)];
   SAssign [EName "lin_reg"] (ECall (EName "LinearRegression") [] []);
   SExpr (ECall (EAttribute (EName "lin_reg") "fit") [EName "X"; EName "y"] []);
   SExpr
     (ECall (EName "print")
       [EJoinedStr
          [EStr "Intercept: "; EFormattedValue (EAttribute (EName "lin_reg") "intercept_") None]]
       []);
   SExpr
     (ECall (EName "print")
       [EJoinedStr
          [EStr "Coefficients: "; EFormattedValue (EAttribute (EName "lin_reg") "coef_") None]]
       [])].

Definition ch04_cell_4 : list stmt :=
  [SAssign [EName "eta"] (EFloat "0.1");
   SAssign [EName "n_iterations"] (EInt 1000);
   SAssign [EName "theta"]
     (ECall (EAttribute (EAttribute (EName "np") "random") "randn") [EInt 2; EInt 1] []);
   SFor (EName "iteration")
     (ECall (EName "range") [EName "n_iterations"] [])
     [SAssign [EName "gradients"]
        (EBinOp
          (EBinOp (EInt 2) OpDiv (EName "m"))
          OpMult
          (ECall
            (EAttribute (EAttribute (EName "X_b") "T") "dot")
            [EBinOp
               (ECall (EAttribute (EName "X_b") "dot") [EName "theta"] [])
               OpSub
               (EName "y")]
            []));
      SAssign [EName "theta"]
        (EBinOp (EName "theta") OpSub (EBinOp (EName "eta") OpMult (EName "gradients")))]
     [];
   SExpr
     (ECall (EName "print")
       [EJoinedStr
          [EStr "Theta found by Gradient Descent:\n"; EFormattedValue (EName "theta") None]]
       [])].

Definition ch04_cell_5 : list stmt :=
  [SAssign [EName "n_epochs"] (EInt 50);
   SAssign [ETuple [EName "t0"; EName "t1"]] (ETuple [EInt 5; EInt 50]);
   SFunctionDef "learning_schedule" [] ["t"] [] None None
     [SReturn (Some (EBinOp (EName "t0") OpDiv (EBinOp (EName "t") OpAdd (EName "t1"))))];
   SAssign [EName "theta_sgd"]
     (ECall (EAttribute (EAttribute (EName "np") "random") "randn") [EInt 2; EInt 1] []);
   SFor (EName "epoch")
     (ECall (EName "range") [EName "n_epochs"] [])
     [SFor (EName "i")
        (ECall (EName "range") [EName "m"] [])
        [SAssign [EName "random_index"]
           (ECall (EAttribute (EAttribute (EName "np") "random") "randint") [EName "m"] []);
         SAssign [EName "xi"]
           (ESubscript (EName "X_b")
             (ESlice
               (Some (EName "random_index"))
               (Some (EBinOp (EName "random_index") OpAdd (EInt 1)))
               None));
         SAssign [EName "yi"]
           (ESubscript (EName "y")
             (ESlice
               (Some (EName "random_index"))
               (Some (EBinOp (EName "random_index") OpAdd (EInt 1)))
               None));
         SAssign [EName "gradients"]
           (EBinOp (EInt 2) OpMult
             (ECall
               (EAttribute (EAttribute (EName "xi") "T") "dot")
               [EBinOp
                  (ECall (EAttribute (EName "xi") "dot") [EName "theta_sgd"] [])
                  OpSub
                  (EName "yi")]
               []));
         SAssign [EName "eta"]
           (ECall
             (EName "learning_schedule")
             [EBinOp (EBinOp (EName "epoch") OpMult (EName "m")) OpAdd (EName "i")]
             []);
         SAssign [EName "theta_sgd"]
           (EBinOp (EName "theta_sgd") OpSub (EBinOp (EName "eta") OpMult (EName "gradients")))]
        []]
     [];
   SExpr
     (ECall (EName "print")
       [EJoinedStr
          [EStr "Theta found by Stochastic Gradient Descent:\n";
           EFormattedValue (EName "theta_sgd") None]]
       [])].

Definition ch04_cell_6 : list stmt :=
  [SImportFrom "sklearn.preprocessing" [("PolynomialFeatures", None)];
   SImportFrom "sklearn.pipeline" [("Pipeline", None)];
   SImportFrom "sklearn.linear_model" [("LinearRegression", None)];
   SAssign [EName "m"] (EInt 100);
   SAssign [EName "X_nl"]
     (EBinOp
       (EBinOp (EInt 6) OpMult
         (ECall (EAttribute (EAttribute (EName "np") "random") "rand") [EName "m"; EInt 1] []))
       OpSub
       (EInt 3));
   SAssign [EName "y_nl"]
     (EBinOp
       (EBinOp
         (EBinOp
           (EBinOp (EFloat "0.5") OpMult (EBinOp (EName "X_nl") OpPow (EInt 2)))
           OpAdd
           (EName "X_nl"))
         OpAdd
         (EInt 2))
       OpAdd
       (ECall (EAttribute (EAttribute (EName "np") "random") "randn") [EName "m"; EInt 1] []));
   SAssign [EName "poly_features"]
     (ECall
       (EName "PolynomialFeatures")
       []
       [(Some "degree", EInt 2); (Some "include_bias", EBool false)]);
   SAssign [EName "X_poly"]
     (ECall (EAttribute (EName "poly_features") "fit_transform") [EName "X_nl"] []);
   SAssign [EName "lin_reg_poly"] (ECall (EName "LinearRegression") [] []);
   SExpr (ECall (EAttribute (EName "lin_reg_poly") "fit") [EName "X_poly"; EName "y_nl"] []);
   SExpr
     (ECall (EName "print")
       [EJoinedStr
          [EStr "Intercept: ";
           EFormattedValue (EAttribute (EName "lin_reg_poly") "intercept_") None]]
       []);
   SExpr
     (ECall (EName "print")
       [EJoinedStr
          [EStr "Coefficients: ";
           EFormattedValue (EAttribute (EName "lin_reg_poly") "coef_") None]]
       [])].

Definition ch04_cell_7 : list stmt :=
  [SImportFrom "sklearn.model_selection" [("train_test_split", None)];
   SImportFrom "sklearn.metrics" [("mean_squared_error", None)];
   SFunctionDef "plot_learning_curves" [] ["model"; "X"; "y"] [] None None
     [SAssign
        [ETuple [EName "X_train"; EName "X_val"; EName "y_train"; EName "y_val"]]
        (ECall
          (EName "train_test_split")
          [EName "X"; EName "y"]
          [(Some "test_size", EFloat "0.2"); (Some "random_state", EInt 42)]);
      SAssign [ETuple [EName "train_errors"; EName "val_errors"]] (ETuple [EList []; EList []]);
      SFor (EName "m")
        (ECall (EName "range") [EInt 1; ECall (EName "len") [EName "X_train"] []] [])
        [SExpr
           (ECall
             (EAttribute (EName "model") "fit")
             [ESubscript (EName "X_train") (ESlice None (Some (EName "m")) None);
              ESubscript (EName "y_train") (ESlice None (Some (EName "m")) None)]
             []);
         SAssign
           [EName "y_train_predict"]
           (ECall
             (EAttribute (EName "model") "predict")
             [ESubscript (EName "X_train") (ESlice None (Some (EName "m")) None)]
             []);
         SAssign [EName "y_val_predict"]
           (ECall (EAttribute (EName "model") "predict") [EName "X_val"] []);
         SExpr
           (ECall
             (EAttribute (EName "train_errors") "append")
             [ECall
                (EName "mean_squared_error")
                [ESubscript (EName "y_train") (ESlice None (Some (EName "m")) None);
                 EName "y_train_predict"]
                []]
             []);
         SExpr
           (ECall
             (EAttribute (EName "val_errors") "append")
             [ECall (EName "mean_squared_error") [EName "y_val"; EName "y_val_predict"] []]
             [])]
        [];
      SExpr
        (ECall
          (EAttribute (EName "plt") "plot")
          [ECall (EAttribute (EName "np") "sqrt") [EName "train_errors"] []; EStr "r-+"]
          [(Some "linewidth", EInt 2); (Some "label", EStr "Train")]);
      SExpr
        (ECall
          (EAttribute (EName "plt") "plot")
          [ECall (EAttribute (EName "np") "sqrt") [EName "val_errors"] []; EStr "b-"]
          [(Some "linewidth", EInt 3); (Some "label", EStr "Validation")]);
      SExpr (ECall (EAttribute (EName "plt") "legend") [] []);
      SExpr (ECall (EAttribute (EName "plt") "xlabel") [EStr "Training set size"] []);
      SExpr (ECall (EAttribute (EName "plt") "ylabel") [EStr "RMSE"] []);
      SExpr (ECall (EAttribute (EName "plt") "title") [EStr "Learning Curves"] []);
      SExpr (ECall (EAttribute (EName "plt") "show") [] [])]].

Definition ch04_cell_8 : list stmt :=
  [SAssign [EName "lin_reg"] (ECall (EName "LinearRegression") [] []);
   SExpr (ECall (EName "plot_learning_curves") [EName "lin_reg"; EName "X_nl"; EName "y_nl"] [])].

Definition ch04_cell_9 : list stmt :=
  [SImportFrom "sklearn.linear_model" [("LogisticRegression", None)];
   SImportFrom "sklearn" [("datasets", None)];
   SAssign [EName "iris"] (ECall (EAttribute (EName "datasets") "load_iris") [] []);
   SAssign [EName "X_log"]
     (ESubscript
       (ESubscript (EName "iris") (EStr "data"))
       (ETuple [ESlice None None None; ESlice (Some (EInt 3)) None None]));
   SAssign [EName "y_log"]
     (ECall
       (EAttribute
         (ECompare (ESubscript (EName "iris") (EStr "target")) [(CmpEq, EInt 2)])
         "astype")
       [EName "int"]
       []);
   SAssign [EName "log_reg"] (ECall (EName "LogisticRegression") [] []);
   SExpr (ECall (EAttribute (EName "log_reg") "fit") [EName "X_log"; EName "y_log"] []);
   SImport [("matplotlib.pyplot", Some "plt")];
   SImport [("numpy", Some "np")];
   SAssign [EName "X_new"]
     (ECall
       (EAttribute
         (ECall (EAttribute (EName "np") "linspace") [EInt 0; EInt 3; EInt 1000] [])
         "reshape")
       [EUnaryOp OpUSub (EInt 1); EInt 1]
       []);
   SAssign [EName "y_proba"]
     (ECall (EAttribute (EName "log_reg") "predict_proba") [EName "X_new"] []);
   SExpr
     (ECall
       (EAttribute (EName "plt") "plot")
       [EName "X_new";
        ESubscript (EName "y_proba") (ETuple [ESlice None None None; EInt 1]);
        EStr "g-"]
       [(Some "label", EStr "Iris virginica")]);
   SExpr
     (ECall
       (EAttribute (EName "plt") "plot")
       [EName "X_new";
        ESubscript (EName "y_proba") (ETuple [ESlice None None None; EInt 0]);
        EStr "b--"]
       [(Some "label", EStr "Not Iris virginica")]);
   SExpr (ECall (EAttribute (EName "plt") "legend") [] []);
   SExpr
     (ECall
       (EAttribute (EName "plt") "title")
       [EStr "Logistic Regression Estimated Probabilities"]
       []);
   SExpr (ECall (EAttribute (EName "plt") "xlabel") [EStr "Petal width (cm)"] []);
   SExpr (ECall (EAttribute (EName "plt") "ylabel") [EStr "Probability"] []);
   SExpr (ECall (EAttribute (EName "plt") "show") [] [])].

Definition ch04_cell_10 : list stmt :=
  [SAssign [EName "X_multi"]
     (ESubscript
       (ESubscript (EName "iris") (EStr "data"))
       (ETuple [ESlice None None None; ETuple [EInt 2; EInt 3]]));
   SAssign [EName "y_multi"] (ESubscript (EName "iris") (EStr "target"));
   SAssign [EName "softmax_reg"]
     (ECall
       (EName "LogisticRegression")
       []
       [(Some "multi_class", EStr "multinomial");
        (Some "solver", EStr "lbfgs");
        (Some "C", EInt 10)]);
   SExpr (ECall (EAttribute (EName "softmax_reg") "fit") [EName "X_multi"; EName "y_multi"] []);
   SExpr
     (ECall (EName "print")
       [EJoinedStr
          [EStr "Prediction for a flower with petals 5cm x 2cm: ";
           EFormattedValue
             (ECall
               (EAttribute (EName "softmax_reg") "predict")
               [EList [EList [EInt 5; EInt 2]]]
               [])
             None]]
       []);
   SExpr
     (ECall (EName "print")
       [EJoinedStr
          [EStr "Class probabilities: ";
           EFormattedValue
             (ECall
               (EAttribute (EName "softmax_reg") "predict_proba")
               [EList [EList [EInt 5; EInt 2]]]
               [])
             None]]
       [])].

Definition ch04 : notebook :=
  {| nb_file := "Part1 Fundamental of Machine Learning/Chapter 04/04 Training Models.ipynb";
     nb_cells := [ch04_cell_1;
                  ch04_cell_2;
                  ch04_cell_3;
                  ch04_cell_4;
                  ch04_cell_5;
                  ch04_cell_6;
                  ch04_cell_7;
                  ch04_cell_8;
                  ch04_cell_9;
                  ch04_cell_10] |}.

(** ** [Part1 Fundamental of Machine Learning/Chapter 05/05 Support Vector Machines.ipynb]

    Support Vector Machines (SVM) - Summary and Practical Examples *)

Definition ch05_cell_1 : list stmt :=
  [SImportFrom "sklearn.datasets" [("load_iris", None)];
   SImportFrom "sklearn.svm" [("LinearSVC", None)];
   SImportFrom "sklearn.preprocessing" [("StandardScaler", None)];
   SImportFrom "sklearn.pipeline" [("Pipeline", None)];
   SImport [("numpy", Some "np")];
   SAssign [EName "iris"] (ECall (EName "load_iris") [] []);
   SAssign [EName "X"]
     (ESubscript
       (EAttribute (EName "iris") "data")
       (ETuple [ESlice None None None; ETuple [EInt 2; EInt 3]]));
   SAssign [EName "y"]
     (ECall
       (EAttribute (ECompare (EAttribute (EName "iris") "target") [(CmpEq, EInt 2)]) "astype")
       [EAttribute (EName "np") "float64"]
       []);
   SAssign [EName "svm_clf"]
     (ECall (EName "Pipeline")
       [EList
          [ETuple [EStr "scaler"; ECall (EName "StandardScaler") [] []];
           ETuple
             [EStr "linear_svc";
              ECall (EName "LinearSVC") [] [(Some "C", EInt 1); (Some "loss", EStr "hinge")]]]]
       []);
   SExpr (ECall (EAttribute (EName "svm_clf") "fit") [EName "X"; EName "y"] []);
   SExpr
     (ECall (EName "print")
       [ECall
          (EAttribute (EName "svm_clf") "predict")
          [EList [EList [EFloat "5.5"; EFloat "1.7"]]]
          []]
       [])].

Definition ch05_cell_2 : list stmt :=
  [SImportFrom "sklearn.datasets" [("make_moons", None)];
   SImportFrom "sklearn.svm" [("SVC", None)];
   SImportFrom "sklearn.pipeline" [("Pipeline", None)];
   SImportFrom "sklearn.preprocessing" [("StandardScaler", None)];
   SAssign
     [ETuple [EName "X"; EName "y"]]
     (ECall (EName "make_moons") []
       [(Some "n_samples", EInt 100);
        (Some "noise", EFloat "0.15");
        (Some "random_state", EInt 42)]);
   SAssign
     [EName "poly_kernel_svm_clf"]
     (ECall (EName "Pipeline")
       [EList
          [ETuple [EStr "scaler"; ECall (EName "StandardScaler") [] []];
           ETuple
             [EStr "svm_clf";
              ECall (EName "SVC") []
                [(Some "kernel", EStr "poly");
                 (Some "degree", EInt 3);
                 (Some "coef0", EInt 1);
                 (Some "C", EInt 5)]]]]
       []);
   SExpr (ECall (EAttribute (EName "poly_kernel_svm_clf") "fit") [EName "X"; EName "y"] []);
   SExpr
     (ECall (EName "print")
       [EStr "Support vectors count:";
        ECall (EName "len")
          [EAttribute
             (ESubscript
               (EAttribute (EName "poly_kernel_svm_clf") "named_steps")
               (EStr "svm_clf"))
             "support_"]
          []]
       [])].

Definition ch05_cell_3 : list stmt :=
  [SAssign
     [EName "rbf_kernel_svm_clf"]
     (ECall (EName "Pipeline")
       [EList
          [ETuple [EStr "scaler"; ECall (EName "StandardScaler") [] []];
           ETuple
             [EStr "svm_clf";
              ECall (EName "SVC") []
                [(Some "kernel", EStr "rbf"); (Some "gamma", EInt 2); (Some "C", EInt 1)]]]]
       []);
   SExpr (ECall (EAttribute (EName "rbf_kernel_svm_clf") "fit") [EName "X"; EName "y"] []);
   SExpr
     (ECall (EName "print")
       [EStr "Support vectors count:";
        ECall (EName "len")
          [EAttribute
             (ESubscript
               (EAttribute (EName "rbf_kernel_svm_clf") "named_steps")
               (EStr "svm_clf"))
             "support_"]
          []]
       [])].

Definition ch05_cell_4 : list stmt :=
  [SImportFrom "sklearn.svm" [("LinearSVR", None)];
   SAssign [EName "X_reg"]
     (EBinOp (EInt 2) OpMult
       (ECall (EAttribute (EAttribute (EName "np") "random") "rand") [EInt 100; EInt 1] []));
   SAssign [EName "y_reg"]
     (EBinOp
       (EBinOp (EInt 4) OpAdd
         (EBinOp (EInt 3) OpMult (ECall (EAttribute (EName "X_reg") "ravel") [] [])))
       OpAdd
       (ECall (EAttribute (EAttribute (EName "np") "random") "randn") [EInt 100] []));
   SAssign [EName "svr_reg"]
     (ECall (EName "LinearSVR") []
       [(Some "epsilon", EFloat "0.5"); (Some "C", EFloat "1.0"); (Some "max_iter", EInt 10000)]);
   SExpr (ECall (EAttribute (EName "svr_reg") "fit") [EName "X_reg"; EName "y_reg"] []);
   SExpr
     (ECall (EName "print")
       [EJoinedStr
          [EStr "SVR coefficient: ";
           EFormattedValue (EAttribute (EName "svr_reg") "coef_") None]]
       [])].

Definition ch05 : notebook :=
  {| nb_file := "Part1 Fundamental of Machine Learning/Chapter 05/05 Support Vector Machines.ipynb";
     nb_cells := [ch05_cell_1; ch05_cell_2; ch05_cell_3; ch05_cell_4] |}.

(** ** [Part1 Fundamental of Machine Learning/Chapter 06/06 Decision Tree.ipynb]

    Decision Trees: Theory and Practice *)

Definition ch06_cell_1 : list stmt :=
  [SImportFrom "sklearn.datasets" [("load_iris", None)];
   SImportFrom "sklearn.tree" [("DecisionTreeClassifier", None); ("plot_tree", None)];
   SImport [("matplotlib.pyplot", Some "plt")];
   SAssign [EName "iris"] (ECall (EName "load_iris") [] []);
   SAssign [EName "X"]
     (ESubscript
       (EAttribute (EName "iris") "data")
       (ETuple [ESlice None None None; ESlice (Some (EInt 2)) None None]));
   SAssign [EName "y"] (EAttribute (EName "iris") "target");
   SAssign [EName "tree_clf"]
     (ECall
       (EName "DecisionTreeClassifier")
       []
       [(Some "max_depth", EInt 2); (Some "random_state", EInt 42)]);
   SExpr (ECall (EAttribute (EName "tree_clf") "fit") [EName "X"; EName "y"] []);
   SExpr
     (ECall (EAttribute (EName "plt") "figure") [] [(Some "figsize", ETuple [EInt 12; EInt 8])]);
   SExpr
     (ECall (EName "plot_tree") [EName "tree_clf"]
       [(Some "feature_names",
         ESubscript
           (EAttribute (EName "iris") "feature_names")
           (ESlice (Some (EInt 2)) None None));
        (Some "class_names", EAttribute (EName "iris") "target_names");
        (Some "filled", EBool true);
        (Some "rounded", EBool true)]);
   SExpr
     (ECall
       (EAttribute (EName "plt") "title")
       [EStr "Decision Tree Trained on Iris Data (max_depth=2)"]
       []);
   SExpr (ECall (EAttribute (EName "plt") "show") [] [])].

Definition ch06_cell_2 : list stmt :=
  [SAssign [EName "tree_reg_clf"]
     (ECall
       (EName "DecisionTreeClassifier")
       []
       [(Some "max_depth", EInt 3);
        (Some "min_samples_leaf", EInt 5);
        (Some "random_state", EInt 42)]);
   SExpr (ECall (EAttribute (EName "tree_reg_clf") "fit") [EName "X"; EName "y"] []);
   SExpr
     (ECall (EAttribute (EName "plt") "figure") [] [(Some "figsize", ETuple [EInt 12; EInt 8])]);
   SExpr
     (ECall (EName "plot_tree") [EName "tree_reg_clf"]
       [(Some "feature_names",
         ESubscript
           (EAttribute (EName "iris") "feature_names")
           (ESlice (Some (EInt 2)) None None));
        (Some "class_names", EAttribute (EName "iris") "target_names");
        (Some "filled", EBool true);
        (Some "rounded", EBool true)]);
   SExpr
     (ECall
       (EAttribute (EName "plt") "title")
       [EStr "Regularized Decision Tree (max_depth=3, min_samples_leaf=5)"]
       []);
   SExpr (ECall (EAttribute (EName "plt") "show") [] [])].

Definition ch06_cell_3 : list stmt :=
  [SImportFrom "sklearn.tree" [("DecisionTreeRegressor", None)];
   SImport [("numpy", Some "np")];
   SExpr (ECall (EAttribute (EAttribute (EName "np") "random") "seed") [EInt 42] []);
   SAssign [EName "m"] (EInt 200);
   SAssign [EName "X_reg"]
     (ECall
       (EAttribute (EName "np") "sort")
       [EBinOp (EInt 5) OpMult
          (ECall (EAttribute (EAttribute (EName "np") "random") "rand") [EName "m"; EInt 1] [])]
       [(Some "axis", EInt 0)]);
   SAssign [EName "y_reg"]
     (EBinOp
       (ECall
         (EAttribute (ECall (EAttribute (EName "np") "sin") [EName "X_reg"] []) "ravel")
         []
         [])
       OpAdd
       (EBinOp (EFloat "0.5") OpMult
         (ECall (EAttribute (EAttribute (EName "np") "random") "randn") [EName "m"] [])));
   SAssign [EName "tree_reg"]
     (ECall (EName "DecisionTreeRegressor") [] [(Some "max_depth", EInt 3)]);
   SExpr (ECall (EAttribute (EName "tree_reg") "fit") [EName "X_reg"; EName "y_reg"] []);
   SAssign [EName "X_test"]
     (ECall
       (EAttribute
         (ECall (EAttribute (EName "np") "linspace") [EInt 0; EInt 5; EInt 1000] [])
         "reshape")
       [EUnaryOp OpUSub (EInt 1); EInt 1]
       []);
   SAssign [EName "y_pred"]
     (ECall (EAttribute (EName "tree_reg") "predict") [EName "X_test"] []);
   SImport [("matplotlib.pyplot", Some "plt")];
   SExpr
     (ECall
       (EAttribute (EName "plt") "scatter")
       [EName "X_reg"; EName "y_reg"]
       [(Some "s", EInt 20); (Some "label", EStr "Training data")]);
   SExpr
     (ECall
       (EAttribute (EName "plt") "plot")
       [EName "X_test"; EName "y_pred"]
       [(Some "color", EStr "r");
        (Some "linewidth", EInt 2);
        (Some "label", EStr "Predictions")]);
   SExpr (ECall (EAttribute (EName "plt") "title") [EStr "Decision Tree Regression"] []);
   SExpr (ECall (EAttribute (EName "plt") "xlabel") [EStr "x"] []);
   SExpr (ECall (EAttribute (EName "plt") "ylabel") [EStr "y"] []);
   SExpr (ECall (EAttribute (EName "plt") "legend") [] []);
   SExpr (ECall (EAttribute (EName "plt") "show") [] [])].

Definition ch06 : notebook :=
  {| nb_file := "Part1 Fundamental of Machine Learning/Chapter 06/06 Decision Tree.ipynb";
     nb_cells := [ch06_cell_1; ch06_cell_2; ch06_cell_3] |}.

(** ** [Part1 Fundamental of Machine Learning/Chapter 07/07 Ensemble Learning and Random Forests.ipynb]

    Ensemble Learning and Random Forests: Theory and Practice *)

Definition ch07_cell_1 : list stmt :=
  [SImportFrom "sklearn.datasets" [("make_moons", None)];
   SImportFrom "sklearn.model_selection" [("train_test_split", None)];
   SImportFrom "sklearn.ensemble" [("VotingClassifier", None); ("RandomForestClassifier", None)];
   SImportFrom "sklearn.linear_model" [("LogisticRegression", None)];
   SImportFrom "sklearn.svm" [("SVC", None)];
   SImportFrom "sklearn.metrics" [("accuracy_score", None)];
   SAssign
     [ETuple [EName "X"; EName "y"]]
     (ECall (EName "make_moons") []
       [(Some "n_samples", EInt 500);
        (Some "noise", EFloat "0.3");
        (Some "random_state", EInt 42)]);
   SAssign
     [ETuple [EName "X_train"; EName "X_test"; EName "y_train"; EName "y_test"]]
     (ECall
       (EName "train_test_split")
       [EName "X"; EName "y"]
       [(Some "test_size", EFloat "0.3"); (Some "random_state", EInt 42)]);
   SAssign [EName "log_clf"]
     (ECall (EName "LogisticRegression") [] [(Some "random_state", EInt 42)]);
   SAssign [EName "rnd_clf"]
     (ECall (EName "RandomForestClassifier") [] [(Some "random_state", EInt 42)]);
   SAssign [EName "svm_clf"]
     (ECall (EName "SVC") [] [(Some "probability", EBool true); (Some "random_state", EInt 42)]);
   SAssign [EName "voting_clf"]
     (ECall
       (EName "VotingClassifier")
       []
       [(Some "estimators",
         EList
           [ETuple [EStr "lr"; EName "log_clf"];
            ETuple [EStr "rf"; EName "rnd_clf"];
            ETuple [EStr "svc"; EName "svm_clf"]]);
        (Some "voting", EStr "hard")]);
   SExpr (ECall (EAttribute (EName "voting_clf") "fit") [EName "X_train"; EName "y_train"] []);
   SFor (EName "clf")
     (ETuple [EName "log_clf"; EName "rnd_clf"; EName "svm_clf"; EName "voting_clf"])
     [SExpr (ECall (EAttribute (EName "clf") "fit") [EName "X_train"; EName "y_train"] []);
      SAssign [EName "y_pred"] (ECall (EAttribute (EName "clf") "predict") [EName "X_test"] []);
      SExpr
        (ECall (EName "print")
          [EJoinedStr
             [EFormattedValue
                (EAttribute (EAttribute (EName "clf") "__class__") "__name__")
                None;
              EStr " Accuracy: ";
              EFormattedValue
                (ECall (EName "accuracy_score") [EName "y_test"; EName "y_pred"] [])
                (Some (EJoinedStr [EStr ".3f"]))]]
          [])]
     []].

Definition ch07_cell_2 : list stmt :=
  [SAssign
     [EName "voting_clf_soft"]
     (ECall
       (EName "VotingClassifier")
       []
       [(Some "estimators",
         EList
           [ETuple [EStr "lr"; EName "log_clf"];
            ETuple [EStr "rf"; EName "rnd_clf"];
            ETuple [EStr "svc"; EName "svm_clf"]]);
        (Some "voting", EStr "soft")]);
   SExpr
     (ECall (EAttribute (EName "voting_clf_soft") "fit") [EName "X_train"; EName "y_train"] []);
   SAssign [EName "y_pred_soft"]
     (ECall (EAttribute (EName "voting_clf_soft") "predict") [EName "X_test"] []);
   SExpr
     (ECall (EName "print")
       [EJoinedStr
          [EStr "Soft Voting Classifier Accuracy: ";
           EFormattedValue
             (ECall (EName "accuracy_score") [EName "y_test"; EName "y_pred_soft"] [])
             (Some (EJoinedStr [EStr ".3f"]))]]
       [])].

Definition ch07_cell_3 : list stmt :=
  [SImportFrom "sklearn.ensemble" [("BaggingClassifier", None)];
   SImportFrom "sklearn.tree" [("DecisionTreeClassifier", None)];
   SAssign [EName "bag_clf"]
     (ECall
       (EName "BaggingClassifier")
       [ECall (EName "DecisionTreeClassifier") [] [(Some "random_state", EInt 42)]]
       [(Some "n_estimators", EInt 500);
        (Some "max_samples", EInt 100);
        (Some "bootstrap", EBool true);
        (Some "n_jobs", EUnaryOp OpUSub (EInt 1));
        (Some "random_state", EInt 42)]);
   SExpr (ECall (EAttribute (EName "bag_clf") "fit") [EName "X_train"; EName "y_train"] []);
   SAssign [EName "y_pred_bag"]
     (ECall (EAttribute (EName "bag_clf") "predict") [EName "X_test"] []);
   SExpr
     (ECall (EName "print")
       [EJoinedStr
          [EStr "Bagging Classifier Accuracy: ";
           EFormattedValue
             (ECall (EName "accuracy_score") [EName "y_test"; EName "y_pred_bag"] [])
             (Some (EJoinedStr [EStr ".3f"]))]]
       [])].

Definition ch07_cell_4 : list stmt :=
  [SAssign [EName "bag_clf_oob"]
     (ECall
       (EName "BaggingClassifier")
       [ECall (EName "DecisionTreeClassifier") [] [(Some "random_state", EInt 42)]]
       [(Some "n_estimators", EInt 500);
        (Some "bootstrap", EBool true);
        (Some "oob_score", EBool true);
        (Some "n_jobs", EUnaryOp OpUSub (EInt 1));
        (Some "random_state", EInt 42)]);
   SExpr (ECall (EAttribute (EName "bag_clf_oob") "fit") [EName "X_train"; EName "y_train"] []);
   SExpr
     (ECall (EName "print")
       [EJoinedStr
          [EStr "OOB Score: ";
           EFormattedValue
             (EAttribute (EName "bag_clf_oob") "oob_score_")
             (Some (EJoinedStr [EStr ".3f"]))]]
       [])].

Definition ch07_cell_5 : list stmt :=
  [SImportFrom "sklearn.ensemble" [("RandomForestClassifier", None)];
   SAssign [EName "rf_clf"]
     (ECall
       (EName "RandomForestClassifier")
       []
       [(Some "n_estimators", EInt 500);
        (Some "max_leaf_nodes", EInt 16);
        (Some "n_jobs", EUnaryOp OpUSub (EInt 1));
        (Some "random_state", EInt 42)]);
   SExpr (ECall (EAttribute (EName "rf_clf") "fit") [EName "X_train"; EName "y_train"] []);
   SAssign [EName "y_pred_rf"]
     (ECall (EAttribute (EName "rf_clf") "predict") [EName "X_test"] []);
   SExpr
     (ECall (EName "print")
       [EJoinedStr
          [EStr "Random Forest Accuracy: ";
           EFormattedValue
             (ECall (EName "accuracy_score") [EName "y_test"; EName "y_pred_rf"] [])
             (Some (EJoinedStr [EStr ".3f"]))]]
       [])].

Definition ch07_cell_6 : list stmt :=
  [SImportFrom "sklearn.ensemble" [("ExtraTreesClassifier", None)];
   SAssign [EName "et_clf"]
     (ECall
       (EName "ExtraTreesClassifier")
       []
       [(Some "n_estimators", EInt 500);
        (Some "max_leaf_nodes", EInt 16);
        (Some "n_jobs", EUnaryOp OpUSub (EInt 1));
        (Some "random_state", EInt 42)]);
   SExpr (ECall (EAttribute (EName "et_clf") "fit") [EName "X_train"; EName "y_train"] []);
   SAssign [EName "y_pred_et"]
     (ECall (EAttribute (EName "et_clf") "predict") [EName "X_test"] []);
   SExpr
     (ECall (EName "print")
       [EJoinedStr
          [EStr "Extra-Trees Accuracy: ";
           EFormattedValue
             (ECall (EName "accuracy_score") [EName "y_test"; EName "y_pred_et"] [])
             (Some (EJoinedStr [EStr ".3f"]))]]
       [])].

Definition ch07_cell_7 : list stmt :=
  [SImport [("numpy", Some "np")];
   SImport [("matplotlib.pyplot", Some "plt")];
   SAssign [EName "iris"] (ECall (EName "load_iris") [] []);
   SAssign [EName "rf_clf_full"]
     (ECall
       (EName "RandomForestClassifier")
       []
       [(Some "n_estimators", EInt 500); (Some "random_state", EInt 42)]);
   SExpr
     (ECall
       (EAttribute (EName "rf_clf_full") "fit")
       [EAttribute (EName "iris") "data"; EAttribute (EName "iris") "target"]
       []);
   SAssign [EName "importances"] (EAttribute (EName "rf_clf_full") "feature_importances_");
   SExpr
     (ECall
       (EAttribute (EName "plt") "barh")
       [EAttribute (EName "iris") "feature_names"; EName "importances"]
       []);
   SExpr (ECall (EAttribute (EName "plt") "xlabel") [EStr "Feature Importance"] []);
   SExpr
     (ECall
       (EAttribute (EName "plt") "title")
       [EStr "Random Forest Feature Importance (Iris)"]
       []);
   SExpr (ECall (EAttribute (EName "plt") "show") [] [])].

Definition ch07_cell_8 : list stmt :=
  [SImportFrom "sklearn.ensemble" [("AdaBoostClassifier", None)];
   SAssign [EName "ada_clf"]
     (ECall
       (EName "AdaBoostClassifier")
       [ECall (EName "DecisionTreeClassifier") [] [(Some "max_depth", EInt 1)]]
       [(Some "n_estimators", EInt 200);
        (Some "learning_rate", EFloat "0.5");
        (Some "random_state", EInt 42)]);
   SExpr (ECall (EAttribute (EName "ada_clf") "fit") [EName "X_train"; EName "y_train"] []);
   SExpr
     (ECall (EName "print")
       [EJoinedStr
          [EStr "AdaBoost Accuracy: ";
           EFormattedValue
             (ECall (EName "accuracy_score")
               [EName "y_test";
                ECall (EAttribute (EName "ada_clf") "predict") [EName "X_test"] []]
               [])
             (Some (EJoinedStr [EStr ".3f"]))]]
       [])].

Definition ch07 : notebook :=
  {| nb_file := "Part1 Fundamental of Machine Learning/Chapter 07/07 Ensemble Learning and Random Forests.ipynb";
     nb_cells := [ch07_cell_1;
                  ch07_cell_2;
                  ch07_cell_3;
                  ch07_cell_4;
                  ch07_cell_5;
                  ch07_cell_6;
                  ch07_cell_7;
                  ch07_cell_8] |}.

(** ** [Part1 Fundamental of Machine Learning/Chapter 08/08 Dimensionality Reduction.ipynb]

    Dimensionality Reduction: Theory and Examples *)

Definition ch08_cell_1 : list stmt :=
  [SImport [("numpy", Some "np")];
   SImportFrom "sklearn.decomposition" [("PCA", None)];
   SImport [("matplotlib.pyplot", Some "plt")];
   SExpr (ECall (EAttribute (EAttribute (EName "np") "random") "seed") [EInt 42] []);
   SAssign [EName "X"]
     (EAttribute
       (ECall
         (EAttribute (EName "np") "dot")
         [ECall (EAttribute (EAttribute (EName "np") "random") "rand") [EInt 2; EInt 2] [];
          ECall (EAttribute (EAttribute (EName "np") "random") "randn") [EInt 2; EInt 200] []]
         [])
       "T");
   SAssign [EName "pca"] (ECall (EName "PCA") [] [(Some "n_components", EInt 1)]);
   SAssign [EName "X_pca"] (ECall (EAttribute (EName "pca") "fit_transform") [EName "X"] []);
   SExpr
     (ECall (EName "print")
       [EJoinedStr
          [EStr "Explained variance ratio: ";
           EFormattedValue (EAttribute (EName "pca") "explained_variance_ratio_") None]]
       []);
   SExpr
     (ECall
       (EAttribute (EName "plt") "scatter")
       [ESubscript (EName "X") (ETuple [ESlice None None None; EInt 0]);
        ESubscript (EName "X") (ETuple [ESlice None None None; EInt 1])]
       [(Some "alpha", EFloat "0.2")]);
   SAssign [EName "origin"]
     (ECall (EAttribute (EName "np") "mean") [EName "X"] [(Some "axis", EInt 0)]);
   SExpr
     (ECall
       (EAttribute (EName "plt") "arrow")
       [ESubscript (EName "origin") (EInt 0);
        ESubscript (EName "origin") (EInt 1);
        EBinOp
          (ESubscript (EAttribute (EName "pca") "components_") (ETuple [EInt 0; EInt 0]))
          OpMult
          (EInt 3);
        EBinOp
          (ESubscript (EAttribute (EName "pca") "components_") (ETuple [EInt 0; EInt 1]))
          OpMult
          (EInt 3)]
       [(Some "color", EStr "red"); (Some "width", EFloat "0.05")]);
   SExpr (ECall (EAttribute (EName "plt") "title") [EStr "PCA Direction"] []);
   SExpr (ECall (EAttribute (EName "plt") "axis") [EStr "equal"] []);
   SExpr (ECall (EAttribute (EName "plt") "show") [] [])].

Definition ch08_cell_2 : list stmt :=
  [SAssign [EName "X_hd"]
     (EAttribute
       (ECall
         (EAttribute (EName "np") "dot")
         [ECall (EAttribute (EAttribute (EName "np") "random") "rand") [EInt 5; EInt 5] [];
          ECall (EAttribute (EAttribute (EName "np") "random") "randn") [EInt 5; EInt 500] []]
         [])
       "T");
   SAssign [EName "pca_full"] (ECall (EName "PCA") [] []);
   SExpr (ECall (EAttribute (EName "pca_full") "fit") [EName "X_hd"] []);
   SAssign [EName "cumsum"]
     (ECall
       (EAttribute (EName "np") "cumsum")
       [EAttribute (EName "pca_full") "explained_variance_ratio_"]
       []);
   SExpr (ECall (EAttribute (EName "plt") "plot") [EName "cumsum"] [(Some "linewidth", EInt 3)]);
   SExpr (ECall (EAttribute (EName "plt") "xlabel") [EStr "Number of Components"] []);
   SExpr (ECall (EAttribute (EName "plt") "ylabel") [EStr "Cumulative Explained Variance"] []);
   SExpr (ECall (EAttribute (EName "plt") "grid") [EBool true] []);
   SExpr
     (ECall
       (EAttribute (EName "plt") "title")
       [EStr "Explained Variance as Function of Number of Components"]
       []);
   SExpr (ECall (EAttribute (EName "plt") "show") [] [])].

Definition ch08_cell_3 : list stmt :=
  [SImportFrom "sklearn.decomposition" [("KernelPCA", None)];
   SImportFrom "sklearn.datasets" [("make_swiss_roll", None)];
   SAssign
     [ETuple [EName "X_swiss"; EName "color"]]
     (ECall
       (EName "make_swiss_roll")
       []
       [(Some "n_samples", EInt 1000);
        (Some "noise", EFloat "0.1");
        (Some "random_state", EInt 42)]);
   SAssign [EName "kpca"]
     (ECall (EName "KernelPCA") []
       [(Some "n_components", EInt 2);
        (Some "kernel", EStr "rbf");
        (Some "gamma", EFloat "0.04")]);
   SAssign [EName "X_kpca"]
     (ECall (EAttribute (EName "kpca") "fit_transform") [EName "X_swiss"] []);
   SExpr
     (ECall
       (EAttribute (EName "plt") "scatter")
       [ESubscript (EName "X_kpca") (ETuple [ESlice None None None; EInt 0]);
        ESubscript (EName "X_kpca") (ETuple [ESlice None None None; EInt 1])]
       [(Some "c", EName "color");
        (Some "cmap", EAttribute (EAttribute (EName "plt") "cm") "Spectral")]);
   SExpr
     (ECall
       (EAttribute (EName "plt") "title")
       [EStr "Kernel PCA of Swiss Roll (RBF Kernel)"]
       []);
   SExpr (ECall (EAttribute (EName "plt") "xlabel") [EStr "PC1"] []);
   SExpr (ECall (EAttribute (EName "plt") "ylabel") [EStr "PC2"] []);
   SExpr (ECall (EAttribute (EName "plt") "show") [] [])].

Definition ch08_cell_4 : list stmt :=
  [SImportFrom "sklearn.manifold" [("LocallyLinearEmbedding", None)];
   SAssign [EName "lle"]
     (ECall
       (EName "LocallyLinearEmbedding")
       []
       [(Some "n_components", EInt 2); (Some "n_neighbors", EInt 12)]);
   SAssign [EName "X_lle"]
     (ECall (EAttribute (EName "lle") "fit_transform") [EName "X_swiss"] []);
   SExpr
     (ECall
       (EAttribute (EName "plt") "scatter")
       [ESubscript (EName "X_lle") (ETuple [ESlice None None None; EInt 0]);
        ESubscript (EName "X_lle") (ETuple [ESlice None None None; EInt 1])]
       [(Some "c", EName "color");
        (Some "cmap", EAttribute (EAttribute (EName "plt") "cm") "Spectral")]);
   SExpr
     (ECall
       (EAttribute (EName "plt") "title")
       [EStr "Locally Linear Embedding of Swiss Roll"]
       []);
   SExpr (ECall (EAttribute (EName "plt") "xlabel") [EStr "Dimension 1"] []);
   SExpr (ECall (EAttribute (EName "plt") "ylabel") [EStr "Dimension 2"] []);
   SExpr (ECall (EAttribute (EName "plt") "show") [] [])].

Definition ch08 : notebook :=
  {| nb_file := "Part1 Fundamental of Machine Learning/Chapter 08/08 Dimensionality Reduction.ipynb";
     nb_cells := [ch08_cell_1; ch08_cell_2; ch08_cell_3; ch08_cell_4] |}.

(** ** [Part2 Neural Network and Deep Learning/Chapter 13/13  Loading and Preprocessing Data.ipynb]

    Loading and Preprocessing Data with TensorFlow (Chapter 13 - Efficient Data Pipelines Guide) *)

Definition ch13_cell_1 : list stmt :=
  [SImport [("tensorflow", Some "tf")];
   SImport [("numpy", Some "np")];
   SAssign [EName "data"]
     (ECall
       (EAttribute (EName "np") "array")
       [EList [EInt 1; EInt 2; EInt 3; EInt 4; EInt 5]]
       []);
   SAssign [EName "dataset"]
     (ECall
       (EAttribute (EAttribute (EAttribute (EName "tf") "data") "Dataset") "from_tensor_slices")
       [EName "data"]
       []);
   SAssign [EName "features"]
     (ECall (EAttribute (EAttribute (EName "np") "random") "rand") [EInt 100; EInt 5] []);
   SAssign [EName "labels"]
     (ECall
       (EAttribute (EAttribute (EName "np") "random") "randint")
       [EInt 0; EInt 2]
       [(Some "size", ETuple [EInt 100; EInt 1])]);
   SAssign [EName "dataset"]
     (ECall
       (EAttribute (EAttribute (EAttribute (EName "tf") "data") "Dataset") "from_tensor_slices")
       [ETuple [EName "features"; EName "labels"]]
       []);
   SFor (EName "element")
     (ECall (EAttribute (EName "dataset") "take") [EInt 3] [])
     [SExpr (ECall (EName "print") [EName "element"] [])]
     []].

Definition ch13_cell_2 : list stmt :=
  [SImport [("os", None)];
   SExpr
     (ECall (EAttribute (EName "os") "makedirs") [EStr "data"] [(Some "exist_ok", EBool true)]);
   SFor (EName "i")
     (ECall (EName "range") [EInt 3] [])
     [SWith
        [(ECall (EName "open")
            [EJoinedStr [EStr "data/file_"; EFormattedValue (EName "i") None; EStr ".txt"];
             EStr "w"]
            [],
          Some (EName "f"))]
        [SExpr
           (ECall
             (EAttribute (EName "f") "write")
             [EJoinedStr
                [EStr "Sample line 1 in file "; EFormattedValue (EName "i") None; EStr "\n"]]
             []);
         SExpr
           (ECall
             (EAttribute (EName "f") "write")
             [EJoinedStr
                [EStr "Sample line 2 in file "; EFormattedValue (EName "i") None; EStr "\n"]]
             [])]]
     [];
   SAssign [EName "file_pattern"] (EStr "data/file_*.txt");
   SAssign [EName "dataset"]
     (ECall
       (EAttribute (EAttribute (EAttribute (EName "tf") "data") "Dataset") "list_files")
       [EName "file_pattern"]
       []);
   SFunctionDef "read_file" [] ["file_path"] [] None None
     [SReturn
        (Some
          (ECall
            (EAttribute (EAttribute (EName "tf") "data") "TextLineDataset")
            [EName "file_path"]
            []))];
   SAssign [EName "dataset"]
     (ECall
       (EAttribute (EName "dataset") "interleave")
       [EName "read_file"]
       [(Some "cycle_length", EInt 3);
        (Some "num_parallel_calls", EAttribute (EAttribute (EName "tf") "data") "AUTOTUNE")]);
   SFor (EName "line")
     (ECall (EAttribute (EName "dataset") "take") [EInt 4] [])
     [SExpr (ECall (EName "print") [ECall (EAttribute (EName "line") "numpy") [] []] [])]
     []].

Definition ch13_cell_3 : list stmt :=
  [SAssign [EName "dataset"]
     (ECall
       (EAttribute (EAttribute (EAttribute (EName "tf") "data") "Dataset") "range")
       [EInt 10]
       []);
   SFunctionDef "square" [] ["x"] [] None None
     [SReturn (Some (EBinOp (EName "x") OpPow (EInt 2)))];
   SFunctionDef "add_noise" [] ["x"] [] None None
     [SReturn
        (Some
          (EBinOp (EName "x") OpAdd
            (ECall
              (EAttribute (EAttribute (EName "tf") "random") "normal")
              []
              [(Some "shape", EList []);
               (Some "mean", EFloat "0.0");
               (Some "stddev", EFloat "0.1")])))];
   SAssign [EName "dataset"]
     (ECall
       (EAttribute (ECall (EAttribute (EName "dataset") "map") [EName "square"] []) "map")
       [EName "add_noise"]
       []);
   SFor (EName "element")
     (ECall (EAttribute (EName "dataset") "take") [EInt 5] [])
     [SExpr (ECall (EName "print") [ECall (EAttribute (EName "element") "numpy") [] []] [])]
     []].

Definition ch13_cell_4 : list stmt :=
  [SFunctionDef "preprocess_image" [] ["image_path"; "label"] [] None None
     [SAssign [EName "image"]
        (ECall (EAttribute (EAttribute (EName "tf") "io") "read_file") [EName "image_path"] []);
      SAssign [EName "image"]
        (ECall
          (EAttribute (EAttribute (EName "tf") "image") "decode_jpeg")
          [EName "image"]
          [(Some "channels", EInt 3)]);
      SAssign [EName "image"]
        (ECall
          (EAttribute (EAttribute (EName "tf") "image") "resize")
          [EName "image"; EList [EInt 224; EInt 224]]
          []);
      SAssign [EName "image"] (EBinOp (EName "image") OpDiv (EFloat "255.0"));
      SReturn (Some (ETuple [EName "image"; EName "label"]))];
   SAssign [EName "image_paths"] (EList [EStr "path/to/image1.jpg"; EStr "path/to/image2.jpg"]);
   SAssign [EName "labels"] (EList [EInt 0; EInt 1]);
   SAssign [EName "dataset"]
     (ECall
       (EAttribute (EAttribute (EAttribute (EName "tf") "data") "Dataset") "from_tensor_slices")
       [ETuple [EName "image_paths"; EName "labels"]]
       []);
   SAssign [EName "dataset"]
     (ECall
       (EAttribute (EName "dataset") "map")
       [EName "preprocess_image"]
       [(Some "num_parallel_calls", EAttribute (EAttribute (EName "tf") "data") "AUTOTUNE")])].

Definition ch13_cell_5 : list stmt :=
  [SFunctionDef "create_optimized_pipeline" []
     ["file_pattern"; "batch_size"]
     [EInt 32]
     None
     None
     [SAssign [EName "dataset"]
        (ECall
          (EAttribute (EAttribute (EAttribute (EName "tf") "data") "Dataset") "list_files")
          [EName "file_pattern"]
          []);
      SAssign [EName "dataset"]
        (ECall
          (EAttribute (EName "dataset") "interleave")
          [EAttribute (EAttribute (EName "tf") "data") "TextLineDataset"]
          [(Some "cycle_length", EAttribute (EAttribute (EName "tf") "data") "AUTOTUNE");
           (Some "num_parallel_calls", EAttribute (EAttribute (EName "tf") "data") "AUTOTUNE")]);
      SAssign [EName "dataset"]
        (ECall (EAttribute (EName "dataset") "shuffle") [] [(Some "buffer_size", EInt 1000)]);
      SAssign [EName "dataset"]
        (ECall (EAttribute (EName "dataset") "batch") [EName "batch_size"] []);
      SAssign [EName "dataset"]
        (ECall
          (EAttribute (EName "dataset") "prefetch")
          []
          [(Some "buffer_size", EAttribute (EAttribute (EName "tf") "data") "AUTOTUNE")]);
      SReturn (Some (EName "dataset"))];
   SAssign
     [EName "optimized_dataset"]
     (ECall (EName "create_optimized_pipeline") [EStr "data/*.txt"] [])].

Definition ch13_cell_6 : list stmt :=
  [SFunctionDef "create_tfrecord_example" [] ["feature"; "label"] [] None None
     [SAssign [EName "feature_dict"]
        (EDict
          [(Some (EStr "feature"),
            ECall
              (EAttribute (EAttribute (EName "tf") "train") "Feature")
              []
              [(Some "float_list",
                ECall
                  (EAttribute (EAttribute (EName "tf") "train") "FloatList")
                  []
                  [(Some "value", EName "feature")])]);
           (Some (EStr "label"),
            ECall
              (EAttribute (EAttribute (EName "tf") "train") "Feature")
              []
              [(Some "int64_list",
                ECall
                  (EAttribute (EAttribute (EName "tf") "train") "Int64List")
                  []
                  [(Some "value", EList [EName "label"])])])]);
      SAssign [EName "example"]
        (ECall
          (EAttribute (EAttribute (EName "tf") "train") "Example")
          []
          [(Some "features",
            ECall
              (EAttribute (EAttribute (EName "tf") "train") "Features")
              []
              [(Some "feature", EName "feature_dict")])]);
      SReturn (Some (ECall (EAttribute (EName "example") "SerializeToString") [] []))];
   SWith
     [(ECall
         (EAttribute (EAttribute (EName "tf") "io") "TFRecordWriter")
         [EStr "data/sample.tfrecord"]
         [],
       Some (EName "writer"))]
     [SFor (EName "i")
        (ECall (EName "range") [EInt 10] [])
        [SAssign [EName "feature"]
           (ECall
             (EAttribute
               (ECall (EAttribute (EAttribute (EName "np") "random") "rand") [EInt 5] [])
               "astype")
             [EAttribute (EName "np") "float32"]
             []);
         SAssign [EName "label"] (EBinOp (EName "i") OpMod (EInt 2));
         SAssign [EName "example"]
           (ECall (EName "create_tfrecord_example") [EName "feature"; EName "label"] []);
         SExpr (ECall (EAttribute (EName "writer") "write") [EName "example"] [])]
        []]].

Definition ch13_cell_7 : list stmt :=
  [SAssign
     [EName "feature_description"]
     (EDict
       [(Some (EStr "feature"),
         ECall
           (EAttribute (EAttribute (EName "tf") "io") "FixedLenFeature")
           [EList [EInt 5]; EAttribute (EName "tf") "float32"]
           []);
        (Some (EStr "label"),
         ECall
           (EAttribute (EAttribute (EName "tf") "io") "FixedLenFeature")
           [EList []; EAttribute (EName "tf") "int64"]
           [])]);
   SFunctionDef "parse_tfrecord" [] ["example_proto"] [] None None
     [SReturn
        (Some
          (ECall
            (EAttribute (EAttribute (EName "tf") "io") "parse_single_example")
            [EName "example_proto"; EName "feature_description"]
            []))];
   SAssign [EName "dataset"]
     (ECall
       (EAttribute (EAttribute (EName "tf") "data") "TFRecordDataset")
       [EStr "data/sample.tfrecord"]
       []);
   SAssign [EName "dataset"]
     (ECall (EAttribute (EName "dataset") "map") [EName "parse_tfrecord"] []);
   SFor (EName "parsed_record")
     (ECall (EAttribute (EName "dataset") "take") [EInt 3] [])
     [SExpr (ECall (EName "print") [EName "parsed_record"] [])]
     []].

Definition ch13_cell_8 : list stmt :=
  [SImportFrom "tensorflow.keras.layers" [("Normalization", None); ("StringLookup", None)];
   SImport [("numpy", Some "np")];
   SAssign [EName "data"]
     (EBinOp
       (ECall (EAttribute (EAttribute (EName "np") "random") "rand") [EInt 100; EInt 1] [])
       OpMult
       (EInt 100));
   SAssign [EName "norm_layer"] (ECall (EName "Normalization") [] []);
   SExpr (ECall (EAttribute (EName "norm_layer") "adapt") [EName "data"] []);
   SAssign [EName "normalized_data"] (ECall (EName "norm_layer") [EName "data"] []);
   SExpr
     (ECall (EName "print")
       [EStr "Normalized mean:";
        ECall (EAttribute (EName "np") "mean") [EName "normalized_data"] []]
       []);
   SAssign [EName "categories"] (EList [EStr "cat"; EStr "dog"; EStr "bird"]);
   SAssign [EName "lookup_layer"]
     (ECall (EName "StringLookup") [] [(Some "vocabulary", EName "categories")]);
   SAssign [EName "encoded"]
     (ECall (EName "lookup_layer") [EList [EStr "dog"; EStr "cat"; EStr "bird"; EStr "dog"]] []);
   SExpr
     (ECall (EName "print")
       [EStr "Encoded categories:"; ECall (EAttribute (EName "encoded") "numpy") [] []]
       [])].

Definition ch13 : notebook :=
  {| nb_file := "Part2 Neural Network and Deep Learning/Chapter 13/13  Loading and Preprocessing Data.ipynb";
     nb_cells := [ch13_cell_1;
                  ch13_cell_2;
                  ch13_cell_3;
                  ch13_cell_4;
                  ch13_cell_5;
                  ch13_cell_6;
                  ch13_cell_7;
                  ch13_cell_8] |}.

(** ** [Part2 Neural Network and Deep Learning/Chapter 15/15 Processing Sequences Using.ipynb]

    Processing Sequences with RNNs and CNNs (Chapter 15 - Sequence Modeling Implementation Guide) *)

Definition ch15_cell_1 : list stmt :=
  [SImport [("tensorflow", Some "tf")];
   SImportFrom "tensorflow.keras.layers" [("SimpleRNN", None)];
   SAssign [EName "model"]
     (ECall
       (EAttribute (EAttribute (EName "tf") "keras") "Sequential")
       [EList
          [ECall
             (EAttribute (EAttribute (EAttribute (EName "tf") "keras") "layers") "SimpleRNN")
             []
             [(Some "units", EInt 32); (Some "input_shape", ETuple [ENone; EInt 10])];
           ECall
             (EAttribute (EAttribute (EAttribute (EName "tf") "keras") "layers") "Dense")
             [EInt 1]
             []]]
       []);
   SExpr
     (ECall
       (EAttribute (EName "model") "compile")
       []
       [(Some "optimizer", EStr "adam"); (Some "loss", EStr "mse")]);
   SExpr (ECall (EAttribute (EName "model") "summary") [] [])].

Definition ch15_cell_2 : list stmt :=
  [SAssign [EName "model"]
     (ECall
       (EAttribute (EAttribute (EName "tf") "keras") "Sequential")
       [EList
          [ECall
             (EAttribute (EAttribute (EAttribute (EName "tf") "keras") "layers") "LSTM")
             [EInt 64]
             [(Some "return_sequences", EBool true);
              (Some "input_shape", ETuple [ENone; EInt 10])];
           ECall
             (EAttribute (EAttribute (EAttribute (EName "tf") "keras") "layers") "LSTM")
             [EInt 32]
             [];
           ECall
             (EAttribute (EAttribute (EAttribute (EName "tf") "keras") "layers") "Dense")
             [EInt 1]
             []]]
       []);
   SExpr
     (ECall
       (EAttribute (EName "model") "compile")
       []
       [(Some "optimizer", EStr "adam"); (Some "loss", EStr "mse")]);
   SExpr (ECall (EAttribute (EName "model") "summary") [] [])].

Definition ch15_cell_3 : list stmt :=
  [SAssign [EName "encoder_inputs"]
     (ECall
       (EAttribute (EAttribute (EName "tf") "keras") "Input")
       []
       [(Some "shape", ETuple [ENone; EInt 10])]);
   SAssign [EName "encoder"]
     (ECall
       (EAttribute (EAttribute (EAttribute (EName "tf") "keras") "layers") "LSTM")
       [EInt 32]
       [(Some "return_state", EBool true)]);
   SAssign
     [ETuple [EName "encoder_outputs"; EName "state_h"; EName "state_c"]]
     (ECall (EName "encoder") [EName "encoder_inputs"] []);
   SAssign [EName "encoder_states"] (EList [EName "state_h"; EName "state_c"]);
   SAssign [EName "decoder_inputs"]
     (ECall
       (EAttribute (EAttribute (EName "tf") "keras") "Input")
       []
       [(Some "shape", ETuple [ENone; EInt 8])]);
   SAssign [EName "decoder_lstm"]
     (ECall
       (EAttribute (EAttribute (EAttribute (EName "tf") "keras") "layers") "LSTM")
       [EInt 32]
       [(Some "return_sequences", EBool true); (Some "return_state", EBool true)]);
   SAssign
     [ETuple [EName "decoder_outputs"; EName "_"; EName "_"]]
     (ECall (EName "decoder_lstm") [EName "decoder_inputs"]
       [(Some "initial_state", EName "encoder_states")]);
   SAssign [EName "decoder_dense"]
     (ECall
       (EAttribute (EAttribute (EAttribute (EName "tf") "keras") "layers") "Dense")
       [EInt 8]
       [(Some "activation", EStr "softmax")]);
   SAssign
     [EName "decoder_outputs"]
     (ECall (EName "decoder_dense") [EName "decoder_outputs"] []);
   SAssign [EName "model"]
     (ECall
       (EAttribute (EAttribute (EName "tf") "keras") "Model")
       [EList [EName "encoder_inputs"; EName "decoder_inputs"]; EName "decoder_outputs"]
       []);
   SExpr
     (ECall
       (EAttribute (EName "model") "compile")
       []
       [(Some "optimizer", EStr "adam"); (Some "loss", EStr "categorical_crossentropy")]);
   SExpr (ECall (EAttribute (EName "model") "summary") [] [])].

Definition ch15_cell_4 : list stmt :=
  [SAssign [EName "model"]
     (ECall (EAttribute (EAttribute (EName "tf") "keras") "Sequential") [] []);
   SExpr
     (ECall
       (EAttribute (EName "model") "add")
       [ECall
          (EAttribute (EAttribute (EAttribute (EName "tf") "keras") "layers") "InputLayer")
          []
          [(Some "input_shape", EList [ENone; EInt 1])]]
       []);
   SFor (EName "rate")
     (EBinOp (ETuple [EInt 1; EInt 2; EInt 4; EInt 8]) OpMult (EInt 2))
     [SExpr
        (ECall
          (EAttribute (EName "model") "add")
          [ECall
             (EAttribute (EAttribute (EAttribute (EName "tf") "keras") "layers") "Conv1D")
             []
             [(Some "filters", EInt 20);
              (Some "kernel_size", EInt 2);
              (Some "padding", EStr "causal");
              (Some "activation", EStr "relu");
              (Some "dilation_rate", EName "rate")]]
          [])]
     [];
   SExpr
     (ECall
       (EAttribute (EName "model") "add")
       [ECall
          (EAttribute (EAttribute (EAttribute (EName "tf") "keras") "layers") "Conv1D")
          []
          [(Some "filters", EInt 10); (Some "kernel_size", EInt 1)]]
       []);
   SExpr
     (ECall
       (EAttribute (EName "model") "compile")
       []
       [(Some "loss", EStr "mse"); (Some "optimizer", EStr "adam")]);
   SExpr (ECall (EAttribute (EName "model") "summary") [] [])].

Definition ch15_cell_5 : list stmt :=
  [SClassDef "AttentionLayer"
     [EAttribute (EAttribute (EAttribute (EName "tf") "keras") "layers") "Layer"]
     [SFunctionDef "__init__" [] ["self"; "units"] [] None None
        [SExpr (ECall (EAttribute (ECall (EName "super") [] []) "__init__") [] []);
         SAssign
           [EAttribute (EName "self") "W1"]
           (ECall
             (EAttribute (EAttribute (EAttribute (EName "tf") "keras") "layers") "Dense")
             [EName "units"]
             []);
         SAssign
           [EAttribute (EName "self") "W2"]
           (ECall
             (EAttribute (EAttribute (EAttribute (EName "tf") "keras") "layers") "Dense")
             [EName "units"]
             []);
         SAssign
           [EAttribute (EName "self") "V"]
           (ECall
             (EAttribute (EAttribute (EAttribute (EName "tf") "keras") "layers") "Dense")
             [EInt 1]
             [])];
      SFunctionDef "call" []
        ["self"; "query"; "values"]
        []
        None
        None
        [SAssign [EName "score"]
           (ECall
             (EAttribute (EName "self") "V")
             [ECall
                (EAttribute (EAttribute (EName "tf") "nn") "tanh")
                [EBinOp
                   (ECall (EAttribute (EName "self") "W1") [EName "query"] [])
                   OpAdd
                   (ECall (EAttribute (EName "self") "W2") [EName "values"] [])]
                []]
             []);
         SAssign
           [EName "attention_weights"]
           (ECall
             (EAttribute (EAttribute (EName "tf") "nn") "softmax")
             [EName "score"]
             [(Some "axis", EInt 1)]);
         SAssign [EName "context_vector"]
           (EBinOp (EName "attention_weights") OpMult (EName "values"));
         SAssign [EName "context_vector"]
           (ECall
             (EAttribute (EName "tf") "reduce_sum")
             [EName "context_vector"]
             [(Some "axis", EInt 1)]);
         SReturn (Some (ETuple [EName "context_vector"; EName "attention_weights"]))]];
   SAssign [EName "attention"] (ECall (EName "AttentionLayer") [EInt 10] []);
   SAssign [EName "query"]
     (ECall
       (EAttribute (EAttribute (EName "tf") "random") "normal")
       [ETuple [EInt 32; EInt 1; EInt 64]]
       []);
   SAssign [EName "values"]
     (ECall
       (EAttribute (EAttribute (EName "tf") "random") "normal")
       [ETuple [EInt 32; EInt 10; EInt 64]]
       []);
   SAssign
     [ETuple [EName "context"; EName "weights"]]
     (ECall (EName "attention") [EName "query"; EName "values"] []);
   SExpr
     (ECall (EName "print")
       [EStr "Context vector shape:"; EAttribute (EName "context") "shape"]
       []);
   SExpr
     (ECall (EName "print")
       [EStr "Attention weights shape:"; EAttribute (EName "weights") "shape"]
       [])].

Definition ch15_cell_6 : list stmt :=
  [SAssign [EName "text"] (EStr "The quick brown fox jumps over the lazy dog.");
   SAssign [EName "vocab"] (ECall (EName "sorted") [ECall (EName "set") [EName "text"] []] []);
   SAssign [EName "char2idx"]
     (EDictComp (EName "u") (EName "i")
       [Comprehension
          (ETuple [EName "i"; EName "u"])
          (ECall (EName "enumerate") [EName "vocab"] [])
          []]);
   SAssign [EName "idx2char"] (ECall (EAttribute (EName "np") "array") [EName "vocab"] []);
   SAssign [EName "text_as_int"]
     (ECall
       (EAttribute (EName "np") "array")
       [EListComp
          (ESubscript (EName "char2idx") (EName "c"))
          [Comprehension (EName "c") (EName "text") []]]
       []);
   SAssign [EName "seq_length"] (EInt 10);
   SAssign
     [EName "examples_per_epoch"]
     (EBinOp
       (ECall (EName "len") [EName "text"] [])
       OpFloorDiv
       (EBinOp (EName "seq_length") OpAdd (EInt 1)));
   SAssign [EName "char_dataset"]
     (ECall
       (EAttribute (EAttribute (EAttribute (EName "tf") "data") "Dataset") "from_tensor_slices")
       [EName "text_as_int"]
       []);
   SAssign [EName "sequences"]
     (ECall
       (EAttribute (EName "char_dataset") "batch")
       [EBinOp (EName "seq_length") OpAdd (EInt 1)]
       [(Some "drop_remainder", EBool true)]);
   SFunctionDef "split_input_target" [] ["chunk"] [] None None
     [SAssign [EName "input_text"]
        (ESubscript (EName "chunk") (ESlice None (Some (EUnaryOp OpUSub (EInt 1))) None));
      SAssign [EName "target_text"]
        (ESubscript (EName "chunk") (ESlice (Some (EInt 1)) None None));
      SReturn (Some (ETuple [EName "input_text"; EName "target_text"]))];
   SAssign [EName "dataset"]
     (ECall (EAttribute (EName "sequences") "map") [EName "split_input_target"] []);
   SAssign [EName "dataset"]
     (ECall
       (EAttribute (ECall (EAttribute (EName "dataset") "shuffle") [EInt 10000] []) "batch")
       [EInt 1]
       [(Some "drop_remainder", EBool true)]);
   SAssign [EName "model"]
     (ECall
       (EAttribute (EAttribute (EName "tf") "keras") "Sequential")
       [EList
          [ECall
             (EAttribute (EAttribute (EAttribute (EName "tf") "keras") "layers") "Embedding")
             [ECall (EName "len") [EName "vocab"] []; EInt 8]
             [(Some "batch_input_shape", EList [EInt 1; ENone])];
           ECall
             (EAttribute (EAttribute (EAttribute (EName "tf") "keras") "layers") "GRU")
             [EInt 32]
             [(Some "return_sequences", EBool true); (Some "stateful", EBool true)];
           ECall
             (EAttribute (EAttribute (EAttribute (EName "tf") "keras") "layers") "Dense")
             [ECall (EName "len") [EName "vocab"] []]
             []]]
       []);
   SExpr
     (ECall
       (EAttribute (EName "model") "compile")
       []
       [(Some "optimizer", EStr "adam");
        (Some "loss",
         ECall
           (EAttribute
             (EAttribute (EAttribute (EName "tf") "keras") "losses")
             "SparseCategoricalCrossentropy")
           []
           [(Some "from_logits", EBool true)])]);
   SExpr (ECall (EAttribute (EName "model") "summary") [] [])].

Definition ch15 : notebook :=
  {| nb_file := "Part2 Neural Network and Deep Learning/Chapter 15/15 Processing Sequences Using.ipynb";
     nb_cells := [ch15_cell_1; ch15_cell_2; ch15_cell_3; ch15_cell_4; ch15_cell_5; ch15_cell_6] |}.

(** ** [Part2 Neural Network and Deep Learning/Chapter 16/16 Natural Language Processing RNNs and Attention.ipynb]

    Natural Language Processing with RNNs and Attention (Chapter 16 - NLP Implementation Guide) *)

Definition ch16_cell_1 : list stmt :=
  [SImportFrom "tensorflow.keras.preprocessing.text" [("Tokenizer", None)];
   SImportFrom "tensorflow.keras.preprocessing.sequence" [("pad_sequences", None)];
   SAssign [EName "texts"]
     (EList
       [EStr "Natural language processing is fascinating";
        EStr "Deep learning models can understand text"]);
   SAssign [EName "tokenizer"]
     (ECall (EName "Tokenizer") []
       [(Some "num_words", EInt 100); (Some "oov_token", EStr "<OOV>")]);
   SExpr (ECall (EAttribute (EName "tokenizer") "fit_on_texts") [EName "texts"] []);
   SAssign [EName "sequences"]
     (ECall (EAttribute (EName "tokenizer") "texts_to_sequences") [EName "texts"] []);
   SAssign [EName "padded"]
     (ECall (EName "pad_sequences") [EName "sequences"] [(Some "padding", EStr "post")]);
   SExpr
     (ECall (EName "print")
       [EStr "Word index:"; EAttribute (EName "tokenizer") "word_index"]
       []);
   SExpr (ECall (EName "print") [EStr "Padded sequences:\n"; EName "padded"] [])].

Definition ch16_cell_2 : list stmt :=
  [SImportFrom "tensorflow.keras.layers" [("Embedding", None)];
   SAssign
     [EName "embedding_layer"]
     (ECall (EName "Embedding") []
       [(Some "input_dim", EInt 100);
        (Some "output_dim", EInt 64);
        (Some "input_length", EInt 10)]);
   SImport [("numpy", Some "np")];
   SAssign [EName "sample_input"]
     (ECall
       (EAttribute (EAttribute (EName "np") "random") "randint")
       [EInt 0; EInt 100]
       [(Some "size", ETuple [EInt 32; EInt 10])]);
   SAssign [EName "embedded"] (ECall (EName "embedding_layer") [EName "sample_input"] []);
   SExpr
     (ECall (EName "print") [EStr "Embedded shape:"; EAttribute (EName "embedded") "shape"] [])].

Definition ch16_cell_3 : list stmt :=
  [SImportFrom "tensorflow.keras.models" [("Sequential", None)];
   SImportFrom "tensorflow.keras.layers" [("LSTM", None); ("Dense", None)];
   SAssign [EName "model"]
     (ECall (EName "Sequential")
       [EList
          [ECall (EName "Embedding") [EInt 10000; EInt 128] [(Some "input_length", EInt 100)];
           ECall (EName "LSTM") [EInt 64] [(Some "return_sequences", EBool true)];
           ECall (EName "LSTM") [EInt 32] [];
           ECall (EName "Dense") [EInt 1] [(Some "activation", EStr "sigmoid")]]]
       []);
   SExpr
     (ECall
       (EAttribute (EName "model") "compile")
       []
       [(Some "loss", EStr "binary_crossentropy");
        (Some "optimizer", EStr "adam");
        (Some "metrics", EList [EStr "accuracy"])]);
   SExpr (ECall (EAttribute (EName "model") "summary") [] [])].

Definition ch16_cell_4 : list stmt :=
  [SImportFrom "tensorflow.keras.layers" [("Conv1D", None); ("GlobalMaxPooling1D", None)];
   SAssign [EName "textcnn"]
     (ECall (EName "Sequential")
       [EList
          [ECall (EName "Embedding") [EInt 10000; EInt 128] [(Some "input_length", EInt 100)];
           ECall (EName "Conv1D") [EInt 128; EInt 5] [(Some "activation", EStr "relu")];
           ECall (EName "GlobalMaxPooling1D") [] [];
           ECall (EName "Dense") [EInt 1] [(Some "activation", EStr "sigmoid")]]]
       []);
   SExpr
     (ECall
       (EAttribute (EName "textcnn") "compile")
       []
       [(Some "loss", EStr "binary_crossentropy"); (Some "optimizer", EStr "adam")]);
   SExpr (ECall (EAttribute (EName "textcnn") "summary") [] [])].

Definition ch16_cell_5 : list stmt :=
  [SClassDef "BahdanauAttention"
     [EAttribute (EAttribute (EAttribute (EName "tf") "keras") "layers") "Layer"]
     [SFunctionDef "__init__" [] ["self"; "units"] [] None None
        [SExpr (ECall (EAttribute (ECall (EName "super") [] []) "__init__") [] []);
         SAssign
           [EAttribute (EName "self") "W1"]
           (ECall
             (EAttribute (EAttribute (EAttribute (EName "tf") "keras") "layers") "Dense")
             [EName "units"]
             []);
         SAssign
           [EAttribute (EName "self") "W2"]
           (ECall
             (EAttribute (EAttribute (EAttribute (EName "tf") "keras") "layers") "Dense")
             [EName "units"]
             []);
         SAssign
           [EAttribute (EName "self") "V"]
           (ECall
             (EAttribute (EAttribute (EAttribute (EName "tf") "keras") "layers") "Dense")
             [EInt 1]
             [])];
      SFunctionDef "call" []
        ["self"; "query"; "values"]
        []
        None
        None
        [SAssign
           [EName "hidden_with_time_axis"]
           (ECall (EAttribute (EName "tf") "expand_dims") [EName "query"; EInt 1] []);
         SAssign [EName "score"]
           (ECall
             (EAttribute (EName "self") "V")
             [ECall
                (EAttribute (EAttribute (EName "tf") "nn") "tanh")
                [EBinOp
                   (ECall (EAttribute (EName "self") "W1") [EName "values"] [])
                   OpAdd
                   (ECall (EAttribute (EName "self") "W2") [EName "hidden_with_time_axis"] [])]
                []]
             []);
         SAssign
           [EName "attention_weights"]
           (ECall
             (EAttribute (EAttribute (EName "tf") "nn") "softmax")
             [EName "score"]
             [(Some "axis", EInt 1)]);
         SAssign [EName "context_vector"]
           (EBinOp (EName "attention_weights") OpMult (EName "values"));
         SAssign [EName "context_vector"]
           (ECall
             (EAttribute (EName "tf") "reduce_sum")
             [EName "context_vector"]
             [(Some "axis", EInt 1)]);
         SReturn (Some (ETuple [EName "context_vector"; EName "attention_weights"]))]];
   SAssign [EName "attention_layer"] (ECall (EName "BahdanauAttention") [EInt 10] []);
   SAssign [EName "query"]
     (ECall
       (EAttribute (EAttribute (EName "tf") "random") "normal")
       [ETuple [EInt 1; EInt 20]]
       []);
   SAssign [EName "values"]
     (ECall
       (EAttribute (EAttribute (EName "tf") "random") "normal")
       [ETuple [EInt 1; EInt 50; EInt 20]]
       []);
   SAssign
     [ETuple [EName "context_vector"; EName "attention_weights"]]
     (ECall (EName "attention_layer") [EName "query"; EName "values"] []);
   SExpr
     (ECall (EName "print")
       [EStr "Context vector shape:"; EAttribute (EName "context_vector") "shape"]
       [])].

Definition ch16_cell_6 : list stmt :=
  [SClassDef "TransformerBlock"
     [EAttribute (EAttribute (EAttribute (EName "tf") "keras") "layers") "Layer"]
     [SFunctionDef "__init__" []
        ["self"; "embed_dim"; "num_heads"; "ff_dim"; "rate"]
        [EFloat "0.1"]
        None
        None
        [SExpr (ECall (EAttribute (ECall (EName "super") [] []) "__init__") [] []);
         SAssign
           [EAttribute (EName "self") "att"]
           (ECall
             (EAttribute
               (EAttribute (EAttribute (EName "tf") "keras") "layers")
               "MultiHeadAttention")
             []
             [(Some "num_heads", EName "num_heads"); (Some "key_dim", EName "embed_dim")]);
         SAssign
           [EAttribute (EName "self") "ffn"]
           (ECall
             (EAttribute (EAttribute (EName "tf") "keras") "Sequential")
             [EList
                [ECall
                   (EAttribute (EAttribute (EAttribute (EName "tf") "keras") "layers") "Dense")
                   [EName "ff_dim"]
                   [(Some "activation", EStr "relu")];
                 ECall
                   (EAttribute (EAttribute (EAttribute (EName "tf") "keras") "layers") "Dense")
                   [EName "embed_dim"]
                   []]]
             []);
         SAssign
           [EAttribute (EName "self") "layernorm1"]
           (ECall
             (EAttribute
               (EAttribute (EAttribute (EName "tf") "keras") "layers")
               "LayerNormalization")
             []
             [(Some "epsilon", EFloat "1e-06")]);
         SAssign
           [EAttribute (EName "self") "layernorm2"]
           (ECall
             (EAttribute
               (EAttribute (EAttribute (EName "tf") "keras") "layers")
               "LayerNormalization")
             []
             [(Some "epsilon", EFloat "1e-06")]);
         SAssign
           [EAttribute (EName "self") "dropout1"]
           (ECall
             (EAttribute (EAttribute (EAttribute (EName "tf") "keras") "layers") "Dropout")
             [EName "rate"]
             []);
         SAssign
           [EAttribute (EName "self") "dropout2"]
           (ECall
             (EAttribute (EAttribute (EAttribute (EName "tf") "keras") "layers") "Dropout")
             [EName "rate"]
             [])];
      SFunctionDef "call" []
        ["self"; "inputs"; "training"]
        []
        None
        None
        [SAssign [EName "attn_output"]
           (ECall (EAttribute (EName "self") "att") [EName "inputs"; EName "inputs"] []);
         SAssign [EName "attn_output"]
           (ECall
             (EAttribute (EName "self") "dropout1")
             [EName "attn_output"]
             [(Some "training", EName "training")]);
         SAssign [EName "out1"]
           (ECall
             (EAttribute (EName "self") "layernorm1")
             [EBinOp (EName "inputs") OpAdd (EName "attn_output")]
             []);
         SAssign [EName "ffn_output"]
           (ECall (EAttribute (EName "self") "ffn") [EName "out1"] []);
         SAssign [EName "ffn_output"]
           (ECall
             (EAttribute (EName "self") "dropout2")
             [EName "ffn_output"]
             [(Some "training", EName "training")]);
         SReturn
           (Some
             (ECall
               (EAttribute (EName "self") "layernorm2")
               [EBinOp (EName "out1") OpAdd (EName "ffn_output")]
               []))]];
   SAssign
     [EName "transformer_block"]
     (ECall
       (EName "TransformerBlock")
       []
       [(Some "embed_dim", EInt 32); (Some "num_heads", EInt 2); (Some "ff_dim", EInt 64)]);
   SExpr
     (ECall (EName "print")
       [EAttribute
          (ECall
            (EName "transformer_block")
            [ECall
               (EAttribute (EAttribute (EName "tf") "random") "uniform")
               [ETuple [EInt 1; EInt 10; EInt 32]]
               []]
            [(Some "training", EBool false)])
          "shape"]
       [])].

Definition ch16 : notebook :=
  {| nb_file := "Part2 Neural Network and Deep Learning/Chapter 16/16 Natural Language Processing RNNs and Attention.ipynb";
     nb_cells := [ch16_cell_1; ch16_cell_2; ch16_cell_3; ch16_cell_4; ch16_cell_5; ch16_cell_6] |}.

(** ** [Part2 Neural Network and Deep Learning/Chapter 17/17 Representation Learning and Generative Learning Using Autoencoders and GANs..ipynb]

    Representation Learning with Autoencoders & GANs (Chapter 17 - Generative Models Implementation Guide) *)

Definition ch17_cell_1 : list stmt :=
  [SImportFrom "tensorflow.keras" [("layers", None); ("Model", None)];
   SAssign [EName "input_dim"] (EInt 784);
   SAssign [EName "latent_dim"] (EInt 32);
   SAssign [EName "encoder_input"]
     (ECall
       (EAttribute (EName "layers") "Input")
       []
       [(Some "shape", ETuple [EName "input_dim"])]);
   SAssign [EName "x"]
     (ECall
       (ECall
         (EAttribute (EName "layers") "Dense")
         [EInt 256]
         [(Some "activation", EStr "relu")])
       [EName "encoder_input"]
       []);
   SAssign [EName "z"]
     (ECall
       (ECall
         (EAttribute (EName "layers") "Dense")
         [EName "latent_dim"]
         [(Some "activation", EStr "relu")])
       [EName "x"]
       []);
   SAssign [EName "encoder"]
     (ECall (EName "Model") [EName "encoder_input"; EName "z"] [(Some "name", EStr "encoder")]);
   SAssign [EName "decoder_input"]
     (ECall
       (EAttribute (EName "layers") "Input")
       []
       [(Some "shape", ETuple [EName "latent_dim"])]);
   SAssign [EName "x"]
     (ECall
       (ECall
         (EAttribute (EName "layers") "Dense")
         [EInt 256]
         [(Some "activation", EStr "relu")])
       [EName "decoder_input"]
       []);
   SAssign [EName "output"]
     (ECall
       (ECall
         (EAttribute (EName "layers") "Dense")
         [EName "input_dim"]
         [(Some "activation", EStr "sigmoid")])
       [EName "x"]
       []);
   SAssign [EName "decoder"]
     (ECall (EName "Model")
       [EName "decoder_input"; EName "output"]
       [(Some "name", EStr "decoder")]);
   SAssign
     [EName "autoencoder_input"]
     (ECall
       (EAttribute (EName "layers") "Input")
       []
       [(Some "shape", ETuple [EName "input_dim"])]);
   SAssign [EName "encoded"] (ECall (EName "encoder") [EName "autoencoder_input"] []);
   SAssign [EName "decoded"] (ECall (EName "decoder") [EName "encoded"] []);
   SAssign [EName "autoencoder"]
     (ECall (EName "Model")
       [EName "autoencoder_input"; EName "decoded"]
       [(Some "name", EStr "autoencoder")]);
   SExpr
     (ECall
       (EAttribute (EName "autoencoder") "compile")
       []
       [(Some "optimizer", EStr "adam"); (Some "loss", EStr "binary_crossentropy")]);
   SExpr (ECall (EAttribute (EName "autoencoder") "summary") [] [])].

Definition ch17_cell_2 : list stmt :=
  [SClassDef "Sampling"
     [EAttribute (EName "layers") "Layer"]
     [SFunctionDef "call" [] ["self"; "inputs"] [] None None
        [SAssign [ETuple [EName "z_mean"; EName "z_log_var"]] (EName "inputs");
         SAssign [EName "batch"]
           (ESubscript (ECall (EAttribute (EName "tf") "shape") [EName "z_mean"] []) (EInt 0));
         SAssign [EName "dim"]
           (ESubscript (ECall (EAttribute (EName "tf") "shape") [EName "z_mean"] []) (EInt 1));
         SAssign [EName "epsilon"]
           (ECall
             (EAttribute
               (EAttribute (EAttribute (EName "tf") "keras") "backend")
               "random_normal")
             []
             [(Some "shape", ETuple [EName "batch"; EName "dim"])]);
         SReturn
           (Some
             (EBinOp (EName "z_mean") OpAdd
               (EBinOp
                 (ECall
                   (EAttribute (EName "tf") "exp")
                   [EBinOp (EFloat "0.5") OpMult (EName "z_log_var")]
                   [])
                 OpMult
                 (EName "epsilon"))))]];
   SAssign [EName "encoder_input"]
     (ECall
       (EAttribute (EName "layers") "Input")
       []
       [(Some "shape", ETuple [EName "input_dim"])]);
   SAssign [EName "x"]
     (ECall
       (ECall
         (EAttribute (EName "layers") "Dense")
         [EInt 256]
         [(Some "activation", EStr "relu")])
       [EName "encoder_input"]
       []);
   SAssign [EName "z_mean"]
     (ECall
       (ECall (EAttribute (EName "layers") "Dense") [EName "latent_dim"] [])
       [EName "x"]
       []);
   SAssign [EName "z_log_var"]
     (ECall
       (ECall (EAttribute (EName "layers") "Dense") [EName "latent_dim"] [])
       [EName "x"]
       []);
   SAssign [EName "z"]
     (ECall (ECall (EName "Sampling") [] []) [EList [EName "z_mean"; EName "z_log_var"]] []);
   SAssign [EName "encoder"]
     (ECall (EName "Model")
       [EName "encoder_input"; EList [EName "z_mean"; EName "z_log_var"; EName "z"]]
       [(Some "name", EStr "encoder")]);
   SAssign [EName "outputs"]
     (ECall (EName "decoder")
       [ESubscript (ECall (EName "encoder") [EName "encoder_input"] []) (EInt 2)]
       []);
   SAssign [EName "vae"]
     (ECall (EName "Model")
       [EName "encoder_input"; EName "outputs"]
       [(Some "name", EStr "vae")]);
   SAssign [EName "kl_loss"]
     (EBinOp
       (EUnaryOp OpUSub (EFloat "0.5"))
       OpMult
       (ECall
         (EAttribute (EName "tf") "reduce_mean")
         [EBinOp
            (EBinOp
              (EBinOp (EName "z_log_var") OpSub
                (ECall (EAttribute (EName "tf") "square") [EName "z_mean"] []))
              OpSub
              (ECall (EAttribute (EName "tf") "exp") [EName "z_log_var"] []))
            OpAdd
            (EInt 1)]
         []));
   SExpr (ECall (EAttribute (EName "vae") "add_loss") [EName "kl_loss"] []);
   SExpr (ECall (EAttribute (EName "vae") "compile") [] [(Some "optimizer", EStr "adam")]);
   SExpr (ECall (EAttribute (EName "vae") "summary") [] [])].

Definition ch17_cell_3 : list stmt :=
  [SAssign [EName "latent_dim"] (EInt 100);
   SAssign [EName "generator"]
     (ECall
       (EAttribute (EAttribute (EName "tf") "keras") "Sequential")
       [EList
          [ECall
             (EAttribute (EName "layers") "Dense")
             [EInt 256]
             [(Some "activation", EStr "relu"); (Some "input_dim", EName "latent_dim")];
           ECall (EAttribute (EName "layers") "BatchNormalization") [] [];
           ECall
             (EAttribute (EName "layers") "Dense")
             [EInt 512]
             [(Some "activation", EStr "relu")];
           ECall (EAttribute (EName "layers") "BatchNormalization") [] [];
           ECall
             (EAttribute (EName "layers") "Dense")
             [EInt 784]
             [(Some "activation", EStr "tanh")];
           ECall (EAttribute (EName "layers") "Reshape") [ETuple [EInt 28; EInt 28; EInt 1]] []]]
       [(Some "name", EStr "generator")]);
   SAssign [EName "discriminator"]
     (ECall
       (EAttribute (EAttribute (EName "tf") "keras") "Sequential")
       [EList
          [ECall
             (EAttribute (EName "layers") "Flatten")
             []
             [(Some "input_shape", ETuple [EInt 28; EInt 28; EInt 1])];
           ECall
             (EAttribute (EName "layers") "Dense")
             [EInt 512]
             [(Some "activation", EStr "relu")];
           ECall
             (EAttribute (EName "layers") "Dense")
             [EInt 256]
             [(Some "activation", EStr "relu")];
           ECall
             (EAttribute (EName "layers") "Dense")
             [EInt 1]
             [(Some "activation", EStr "sigmoid")]]]
       [(Some "name", EStr "discriminator")]);
   SAssign [EName "gan"]
     (ECall
       (EAttribute (EAttribute (EName "tf") "keras") "Sequential")
       [EList [EName "generator"; EName "discriminator"]]
       []);
   SExpr
     (ECall
       (EAttribute (EName "discriminator") "compile")
       []
       [(Some "optimizer", EStr "adam");
        (Some "loss", EStr "binary_crossentropy");
        (Some "metrics", EList [EStr "accuracy"])]);
   SAssign [EAttribute (EName "discriminator") "trainable"] (EBool false);
   SExpr
     (ECall
       (EAttribute (EName "gan") "compile")
       []
       [(Some "optimizer", EStr "adam"); (Some "loss", EStr "binary_crossentropy")]);
   SExpr (ECall (EAttribute (EName "generator") "summary") [] [])].

Definition ch17_cell_4 : list stmt :=
  [SFunctionDef "train_gan" []
     ["generator"; "discriminator"; "gan"; "dataset"; "epochs"; "batch_size"]
     [EInt 10; EInt 128]
     None
     None
     [SAssign [EName "valid"]
        (ECall (EAttribute (EName "np") "ones") [ETuple [EName "batch_size"; EInt 1]] []);
      SAssign [EName "fake"]
        (ECall (EAttribute (EName "np") "zeros") [ETuple [EName "batch_size"; EInt 1]] []);
      SFor (EName "epoch")
        (ECall (EName "range") [EName "epochs"] [])
        [SFor (EName "batch") (EName "dataset")
           [SAssign [EName "noise"]
              (ECall
                (EAttribute (EAttribute (EName "np") "random") "normal")
                [EInt 0; EInt 1; ETuple [EName "batch_size"; EName "latent_dim"]]
                []);
            SAssign [EName "gen_images"]
              (ECall (EAttribute (EName "generator") "predict") [EName "noise"] []);
            SAssign [EName "d_loss_real"]
              (ECall
                (EAttribute (EName "discriminator") "train_on_batch")
                [EName "batch"; EName "valid"]
                []);
            SAssign [EName "d_loss_fake"]
              (ECall
                (EAttribute (EName "discriminator") "train_on_batch")
                [EName "gen_images"; EName "fake"]
                []);
            SAssign [EName "d_loss"]
              (EBinOp (EFloat "0.5") OpMult
                (ECall
                  (EAttribute (EName "np") "add")
                  [EName "d_loss_real"; EName "d_loss_fake"]
                  []));
            SAssign [EName "noise"]
              (ECall
                (EAttribute (EAttribute (EName "np") "random") "normal")
                [EInt 0; EInt 1; ETuple [EName "batch_size"; EName "latent_dim"]]
                []);
            SAssign [EName "g_loss"]
              (ECall
                (EAttribute (EName "gan") "train_on_batch")
                [EName "noise"; EName "valid"]
                [])]
           [];
         SExpr
           (ECall (EName "print")
             [EJoinedStr
                [EStr "Epoch ";
                 EFormattedValue (EBinOp (EName "epoch") OpAdd (EInt 1)) None;
                 EStr ", D Loss: ";
                 EFormattedValue (ESubscript (EName "d_loss") (EInt 0)) None;
                 EStr ", G Loss: ";
                 EFormattedValue (EName "g_loss") None]]
             [])]
        []]].

Definition ch17 : notebook :=
  {| nb_file := "Part2 Neural Network and Deep Learning/Chapter 17/17 Representation Learning and Generative Learning Using Autoencoders and GANs..ipynb";
     nb_cells := [ch17_cell_1; ch17_cell_2; ch17_cell_3; ch17_cell_4] |}.

(** ** [Part2 Neural Network and Deep Learning/Chapter 19/19 Training and Deploying TensorFlow Models at Scale.ipynb]

    Chapter 19: Training and Deploying TensorFlow Models at Scale *)

Definition ch19_cell_1 : list stmt :=
  [SImport [("tensorflow", Some "tf")];
   SImportFrom "tensorflow" [("keras", None)];
   SImport [("os", None)];
   SAssign [EName "model"]
     (ECall
       (EAttribute (EAttribute (EName "keras") "models") "Sequential")
       [EList
          [ECall
             (EAttribute (EAttribute (EName "keras") "layers") "Flatten")
             []
             [(Some "input_shape", EList [EInt 28; EInt 28])];
           ECall
             (EAttribute (EAttribute (EName "keras") "layers") "Dense")
             [EInt 128]
             [(Some "activation", EStr "relu")];
           ECall
             (EAttribute (EAttribute (EName "keras") "layers") "Dense")
             [EInt 10]
             [(Some "activation", EStr "softmax")]]]
       []);
   SExpr
     (ECall
       (EAttribute (EName "model") "compile")
       []
       [(Some "loss", EStr "sparse_categorical_crossentropy");
        (Some "optimizer", EStr "adam");
        (Some "metrics", EList [EStr "accuracy"])]);
   SAssign [EName "model_name"] (EStr "my_mnist_model");
   SAssign [EName "version"] (EStr "0001");
   SAssign [EName "model_path"]
     (ECall
       (EAttribute (EAttribute (EName "os") "path") "join")
       [EName "model_name"; EName "version"]
       []);
   SExpr
     (ECall
       (EAttribute (EAttribute (EName "tf") "saved_model") "save")
       [EName "model"; EName "model_path"]
       [])].

Definition ch19_cell_2 : list stmt :=
  [].

Definition ch19_cell_3 : list stmt :=
  [SImport [("numpy", Some "np")]; SImport [("json", None)]; SImport [("requests", None)]].

Definition ch19_cell_4 : list stmt :=
  [SAssign [EName "converter"]
     (ECall
       (EAttribute
         (EAttribute (EAttribute (EName "tf") "lite") "TFLiteConverter")
         "from_saved_model")
       [EName "model_path"]
       []);
   SAssign
     [EAttribute (EName "converter") "optimizations"]
     (EList
       [EAttribute (EAttribute (EAttribute (EName "tf") "lite") "Optimize") "OPTIMIZE_FOR_SIZE"]);
   SAssign [EName "tflite_model"] (ECall (EAttribute (EName "converter") "convert") [] []);
   SWith
     [(ECall (EName "open") [EStr "converted_model.tflite"; EStr "wb"] [], Some (EName "f"))]
     [SExpr (ECall (EAttribute (EName "f") "write") [EName "tflite_model"] [])]].

Definition ch19_cell_5 : list stmt :=
  [SExpr
     (ECall (EName "print")
       [EStr "GPU Available:";
        ECall
          (EAttribute (EAttribute (EName "tf") "config") "list_physical_devices")
          [EStr "GPU"]
          []]
       []);
   SFor (EName "gpu")
     (ECall
       (EAttribute (EAttribute (EName "tf") "config") "list_physical_devices")
       [EStr "GPU"]
       [])
     [SExpr
        (ECall
          (EAttribute
            (EAttribute (EAttribute (EName "tf") "config") "experimental")
            "set_virtual_device_configuration")
          [EName "gpu";
           EList
             [ECall
                (EAttribute
                  (EAttribute (EAttribute (EName "tf") "config") "experimental")
                  "VirtualDeviceConfiguration")
                []
                [(Some "memory_limit", EInt 2048)]]]
          [])]
     []].

Definition ch19_cell_6 : list stmt :=
  [SAssign [EName "strategy"]
     (ECall (EAttribute (EAttribute (EName "tf") "distribute") "MirroredStrategy") [] []);
   SWith
     [(ECall (EAttribute (EName "strategy") "scope") [] [], None)]
     [SAssign [EName "model"]
        (ECall
          (EAttribute (EAttribute (EName "keras") "models") "Sequential")
          [EList
             [ECall
                (EAttribute (EAttribute (EName "keras") "layers") "Flatten")
                []
                [(Some "input_shape", EList [EInt 28; EInt 28])];
              ECall
                (EAttribute (EAttribute (EName "keras") "layers") "Dense")
                [EInt 128]
                [(Some "activation", EStr "relu")];
              ECall
                (EAttribute (EAttribute (EName "keras") "layers") "Dense")
                [EInt 10]
                [(Some "activation", EStr "softmax")]]]
          []);
      SExpr
        (ECall
          (EAttribute (EName "model") "compile")
          []
          [(Some "loss", EStr "sparse_categorical_crossentropy");
           (Some "optimizer", EStr "adam");
           (Some "metrics", EList [EStr "accuracy"])])]].

Definition ch19 : notebook :=
  {| nb_file := "Part2 Neural Network and Deep Learning/Chapter 19/19 Training and Deploying TensorFlow Models at Scale.ipynb";
     nb_cells := [ch19_cell_1; ch19_cell_2; ch19_cell_3; ch19_cell_4; ch19_cell_5; ch19_cell_6] |}.

(** ** [unnamed/part_000]

    Training Deep Neural Networks: Comprehensive Summary (Chapter 11 - Training Deep Neural Networks) *)

Definition part_000_cell_1 : list stmt :=
  [SImportFrom "tensorflow" [("keras", None)];
   SAssign [EName "model"]
     (ECall
       (EAttribute (EName "keras") "Sequential")
       [EList
          [ECall
             (EAttribute (EAttribute (EName "keras") "layers") "Dense")
             [EInt 64]
             [(Some "activation", EStr "relu");
              (Some "kernel_initializer", EStr "he_normal");
              (Some "input_shape", ETuple [EName "input_dim"])];
           ECall
             (EAttribute (EAttribute (EName "keras") "layers") "Dense")
             [EInt 32]
             [(Some "activation", EStr "relu"); (Some "kernel_initializer", EStr "he_normal")];
           ECall
             (EAttribute (EAttribute (EName "keras") "layers") "Dense")
             [EInt 1]
             [(Some "activation", EStr "sigmoid")]]]
       []);
   SExpr
     (ECall
       (EAttribute (EName "model") "compile")
       []
       [(Some "optimizer", EStr "adam");
        (Some "loss", EStr "binary_crossentropy");
        (Some "metrics", EList [EStr "accuracy"])])].

Definition part_000_cell_2 : list stmt :=
  [SAssign [EName "model"]
     (ECall
       (EAttribute (EName "keras") "Sequential")
       [EList
          [ECall
             (EAttribute (EAttribute (EName "keras") "layers") "Dense")
             [EInt 64]
             [(Some "activation", EStr "relu");
              (Some "input_shape", ETuple [EName "input_dim"])];
           ECall (EAttribute (EAttribute (EName "keras") "layers") "BatchNormalization") [] [];
           ECall
             (EAttribute (EAttribute (EName "keras") "layers") "Dense")
             [EInt 32]
             [(Some "activation", EStr "relu")];
           ECall (EAttribute (EAttribute (EName "keras") "layers") "BatchNormalization") [] [];
           ECall
             (EAttribute (EAttribute (EName "keras") "layers") "Dense")
             [EInt 1]
             [(Some "activation", EStr "sigmoid")]]]
       []);
   SExpr
     (ECall
       (EAttribute (EName "model") "compile")
       []
       [(Some "optimizer", EStr "adam");
        (Some "loss", EStr "binary_crossentropy");
        (Some "metrics", EList [EStr "accuracy"])])].

Definition part_000_cell_3 : list stmt :=
  [SExpr
     (ECall
       (EAttribute (EName "model") "compile")
       []
       [(Some "optimizer", EStr "adam");
        (Some "loss", EStr "binary_crossentropy");
        (Some "metrics", EList [EStr "accuracy"])])].

Definition part_000_cell_4 : list stmt :=
  [SAssign [EName "model"]
     (ECall
       (EAttribute (EName "keras") "Sequential")
       [EList
          [ECall
             (EAttribute (EAttribute (EName "keras") "layers") "Dense")
             [EInt 64]
             [(Some "activation", EStr "relu");
              (Some "input_shape", ETuple [EName "input_dim"])];
           ECall (EAttribute (EAttribute (EName "keras") "layers") "Dropout") [EFloat "0.5"] [];
           ECall
             (EAttribute (EAttribute (EName "keras") "layers") "Dense")
             [EInt 32]
             [(Some "activation", EStr "relu")];
           ECall (EAttribute (EAttribute (EName "keras") "layers") "Dropout") [EFloat "0.5"] [];
           ECall
             (EAttribute (EAttribute (EName "keras") "layers") "Dense")
             [EInt 1]
             [(Some "activation", EStr "sigmoid")]]]
       []);
   SExpr
     (ECall
       (EAttribute (EName "model") "compile")
       []
       [(Some "optimizer", EStr "adam");
        (Some "loss", EStr "binary_crossentropy");
        (Some "metrics", EList [EStr "accuracy"])])].

Definition part_000_cell_5 : list stmt :=
  [SImportFrom "tensorflow.keras" [("regularizers", None)];
   SAssign [EName "model"]
     (ECall
       (EAttribute (EName "keras") "Sequential")
       [EList
          [ECall
             (EAttribute (EAttribute (EName "keras") "layers") "Dense")
             [EInt 64]
             [(Some "activation", EStr "relu");
              (Some "input_shape", ETuple [EName "input_dim"]);
              (Some "kernel_regularizer",
               ECall (EAttribute (EName "regularizers") "l2") [EFloat "0.01"] [])];
           ECall
             (EAttribute (EAttribute (EName "keras") "layers") "Dense")
             [EInt 32]
             [(Some "activation", EStr "relu");
              (Some "kernel_regularizer",
               ECall (EAttribute (EName "regularizers") "l2") [EFloat "0.01"] [])];
           ECall
             (EAttribute (EAttribute (EName "keras") "layers") "Dense")
             [EInt 1]
             [(Some "activation", EStr "sigmoid")]]]
       []);
   SExpr
     (ECall
       (EAttribute (EName "model") "compile")
       []
       [(Some "optimizer", EStr "adam");
        (Some "loss", EStr "binary_crossentropy");
        (Some "metrics", EList [EStr "accuracy"])])].

Definition part_000 : notebook :=
  {| nb_file := "unnamed/part_000";
     nb_cells := [part_000_cell_1;
                  part_000_cell_2;
                  part_000_cell_3;
                  part_000_cell_4;
                  part_000_cell_5] |}.

(** ** [unnamed/part_001], notebook 1 of the file

    Artificial Neural Networks: Comprehensive Summary (Chapter 10 - Neural Network Fundamentals) *)

Definition part_001_a_cell_1 : list stmt :=
  [SImport [("numpy", Some "np")];
   SImport [("matplotlib.pyplot", Some "plt")];
   SAssign [EName "x"]
     (ECall
       (EAttribute (EName "np") "linspace")
       [EUnaryOp OpUSub (EInt 5); EInt 5; EInt 100]
       []);
   SFunctionDef "relu" [] ["x"] [] None None
     [SReturn (Some (ECall (EAttribute (EName "np") "maximum") [EInt 0; EName "x"] []))];
   SFunctionDef "sigmoid" [] ["x"] [] None None
     [SReturn
        (Some
          (EBinOp (EInt 1) OpDiv
            (EBinOp (EInt 1) OpAdd
              (ECall (EAttribute (EName "np") "exp") [EUnaryOp OpUSub (EName "x")] []))))];
   SFunctionDef "tanh" [] ["x"] [] None None
     [SReturn (Some (ECall (EAttribute (EName "np") "tanh") [EName "x"] []))];
   SExpr
     (ECall (EAttribute (EName "plt") "figure") [] [(Some "figsize", ETuple [EInt 12; EInt 4])]);
   SExpr (ECall (EAttribute (EName "plt") "subplot") [EInt 1; EInt 3; EInt 1] []);
   SExpr
     (ECall
       (EAttribute (EName "plt") "plot")
       [EName "x"; ECall (EName "relu") [EName "x"] []]
       []);
   SExpr (ECall (EAttribute (EName "plt") "title") [EStr "ReLU Activation"] []);
   SExpr (ECall (EAttribute (EName "plt") "subplot") [EInt 1; EInt 3; EInt 2] []);
   SExpr
     (ECall
       (EAttribute (EName "plt") "plot")
       [EName "x"; ECall (EName "sigmoid") [EName "x"] []]
       []);
   SExpr (ECall (EAttribute (EName "plt") "title") [EStr "Sigmoid Activation"] []);
   SExpr (ECall (EAttribute (EName "plt") "subplot") [EInt 1; EInt 3; EInt 3] []);
   SExpr
     (ECall
       (EAttribute (EName "plt") "plot")
       [EName "x"; ECall (EName "tanh") [EName "x"] []]
       []);
   SExpr (ECall (EAttribute (EName "plt") "title") [EStr "Tanh Activation"] []);
   SExpr (ECall (EAttribute (EName "plt") "tight_layout") [] []);
   SExpr (ECall (EAttribute (EName "plt") "show") [] [])].

Definition part_001_a_cell_2 : list stmt :=
  [SImport [("tensorflow", Some "tf")];
   SImportFrom "tensorflow" [("keras", None)];
   SImportFrom "sklearn.datasets" [("load_iris", None)];
   SImportFrom "sklearn.model_selection" [("train_test_split", None)];
   SAssign [EName "iris"] (ECall (EName "load_iris") [] []);
   SAssign
     [ETuple [EName "X_train"; EName "X_test"; EName "y_train"; EName "y_test"]]
     (ECall
       (EName "train_test_split")
       [EAttribute (EName "iris") "data"; EAttribute (EName "iris") "target"]
       [(Some "test_size", EFloat "0.2"); (Some "random_state", EInt 42)]);
   SAssign [EName "model"]
     (ECall
       (EAttribute (EName "keras") "Sequential")
       [EList
          [ECall
             (EAttribute (EAttribute (EName "keras") "layers") "Dense")
             [EInt 64]
             [(Some "activation", EStr "relu"); (Some "input_shape", ETuple [EInt 4])];
           ECall
             (EAttribute (EAttribute (EName "keras") "layers") "Dense")
             [EInt 32]
             [(Some "activation", EStr "relu")];
           ECall
             (EAttribute (EAttribute (EName "keras") "layers") "Dense")
             [EInt 3]
             [(Some "activation", EStr "softmax")]]]
       []);
   SExpr
     (ECall
       (EAttribute (EName "model") "compile")
       []
       [(Some "optimizer", EStr "adam");
        (Some "loss", EStr "sparse_categorical_crossentropy");
        (Some "metrics", EList [EStr "accuracy"])]);
   SAssign [EName "history"]
     (ECall
       (EAttribute (EName "model") "fit")
       [EName "X_train"; EName "y_train"]
       [(Some "epochs", EInt 50); (Some "validation_split", EFloat "0.2")]);
   SAssign
     [ETuple [EName "test_loss"; EName "test_acc"]]
     (ECall (EAttribute (EName "model") "evaluate") [EName "X_test"; EName "y_test"] []);
   SExpr
     (ECall (EName "print")
       [EJoinedStr [EStr "Test accuracy: "; EFormattedValue (EName "test_acc") None]]
       [])].

Definition part_001_a : notebook :=
  {| nb_file := "unnamed/part_001";
     nb_cells := [part_001_a_cell_1; part_001_a_cell_2] |}.

(** ** [unnamed/part_001], notebook 2 of the file

    Custom Models and Training with TensorFlow (Chapter 12 - Advanced TensorFlow Implementation Guide) *)

Definition part_001_b_cell_1 : list stmt :=
  [SImport [("tensorflow", Some "tf")];
   SFunctionDef "huber_loss" []
     ["y_true"; "y_pred"; "delta"]
     [EFloat "1.0"]
     None
     None
     [SAssign [EName "error"] (EBinOp (EName "y_true") OpSub (EName "y_pred"));
      SAssign [EName "is_small_error"]
        (ECompare
          (ECall (EAttribute (EName "tf") "abs") [EName "error"] [])
          [(CmpLt, EName "delta")]);
      SAssign [EName "squared_loss"]
        (EBinOp (ECall (EAttribute (EName "tf") "square") [EName "error"] []) OpDiv (EInt 2));
      SAssign [EName "linear_loss"]
        (EBinOp (EName "delta") OpMult
          (EBinOp
            (ECall (EAttribute (EName "tf") "abs") [EName "error"] [])
            OpSub
            (EBinOp (EName "delta") OpDiv (EInt 2))));
      SReturn
        (Some
          (ECall
            (EAttribute (EName "tf") "where")
            [EName "is_small_error"; EName "squared_loss"; EName "linear_loss"]
            []))];
   SAssign [EName "y_true"]
     (ECall
       (EAttribute (EName "tf") "constant")
       [EList [EFloat "0.0"; EFloat "1.0"; EFloat "2.0"]]
       []);
   SAssign [EName "y_pred"]
     (ECall
       (EAttribute (EName "tf") "constant")
       [EList [EFloat "0.1"; EFloat "1.2"; EFloat "1.9"]]
       []);
   SExpr
     (ECall (EName "print")
       [EStr "Huber loss:"; ECall (EName "huber_loss") [EName "y_true"; EName "y_pred"] []]
       [])].

Definition part_001_b_cell_2 : list stmt :=
  [SImportFrom "tensorflow" [("keras", None)];
   SImportFrom "tensorflow.keras" [("layers", None)];
   SAssign [EName "model"]
     (ECall
       (EAttribute (EName "keras") "Sequential")
       [EList
          [ECall
             (EAttribute (EName "layers") "Dense")
             [EInt 10]
             [(Some "activation", EStr "relu"); (Some "input_shape", ETuple [EInt 8])];
           ECall (EAttribute (EName "layers") "Dense") [EInt 1] []]]
       []);
   SExpr
     (ECall
       (EAttribute (EName "model") "compile")
       []
       [(Some "optimizer", EStr "adam"); (Some "loss", EName "huber_loss")]);
   SExpr (ECall (EName "print") [EStr "Model compiled with custom Huber loss"] [])].

Definition part_001_b_cell_3 : list stmt :=
  [SClassDef "MyDenseLayer"
     [EAttribute (EAttribute (EAttribute (EName "tf") "keras") "layers") "Layer"]
     [SFunctionDef "__init__" []
        ["self"; "units"; "activation"]
        [ENone]
        None
        (Some "kwargs")
        [SExpr
           (ECall
             (EAttribute (ECall (EName "super") [] []) "__init__")
             []
             [(None, EName "kwargs")]);
         SAssign [EAttribute (EName "self") "units"] (EName "units");
         SAssign
           [EAttribute (EName "self") "activation"]
           (ECall
             (EAttribute (EAttribute (EAttribute (EName "tf") "keras") "activations") "get")
             [EName "activation"]
             [])];
      SFunctionDef "build" [] ["self"; "input_shape"] [] None None
        [SAssign
           [EAttribute (EName "self") "kernel"]
           (ECall
             (EAttribute (EName "self") "add_weight")
             []
             [(Some "name", EStr "kernel");
              (Some "shape",
               ETuple
                 [ESubscript (EName "input_shape") (EUnaryOp OpUSub (EInt 1));
                  EAttribute (EName "self") "units"]);
              (Some "initializer", EStr "glorot_normal");
              (Some "trainable", EBool true)]);
         SAssign
           [EAttribute (EName "self") "bias"]
           (ECall
             (EAttribute (EName "self") "add_weight")
             []
             [(Some "name", EStr "bias");
              (Some "shape", ETuple [EAttribute (EName "self") "units"]);
              (Some "initializer", EStr "zeros");
              (Some "trainable", EBool true)]);
         SExpr
           (ECall (EAttribute (ECall (EName "super") [] []) "build") [EName "input_shape"] [])];
      SFunctionDef "call" [] ["self"; "inputs"] [] None None
        [SReturn
           (Some
             (ECall
               (EAttribute (EName "self") "activation")
               [EBinOp
                  (ECall
                    (EAttribute (EName "tf") "matmul")
                    [EName "inputs"; EAttribute (EName "self") "kernel"]
                    [])
                  OpAdd
                  (EAttribute (EName "self") "bias")]
               []))];
      SFunctionDef "get_config" [] ["self"] [] None None
        [SAssign [EName "base_config"]
           (ECall (EAttribute (ECall (EName "super") [] []) "get_config") [] []);
         SReturn
           (Some
             (EDict
               [(None, EName "base_config");
                (Some (EStr "units"), EAttribute (EName "self") "units");
                (Some (EStr "activation"),
                 ECall
                   (EAttribute
                     (EAttribute (EAttribute (EName "tf") "keras") "activations")
                     "serialize")
                   [EAttribute (EName "self") "activation"]
                   [])]))]];
   SAssign [EName "custom_layer"]
     (ECall (EName "MyDenseLayer") [EInt 32] [(Some "activation", EStr "relu")]);
   SExpr
     (ECall (EName "print")
       [EStr "Output shape:";
        EAttribute
          (ECall (EName "custom_layer")
            [ECall (EAttribute (EName "tf") "zeros") [EList [EInt 1; EInt 10]] []]
            [])
          "shape"]
       [])].

Definition part_001_b_cell_4 : list stmt :=
  [SAssign [EName "model"]
     (ECall
       (EAttribute (EAttribute (EName "tf") "keras") "Sequential")
       [EList
          [ECall
             (EAttribute (EAttribute (EAttribute (EName "tf") "keras") "layers") "Dense")
             [EInt 10]
             [(Some "activation", EStr "relu"); (Some "input_shape", ETuple [EInt 8])];
           ECall
             (EAttribute (EAttribute (EAttribute (EName "tf") "keras") "layers") "Dense")
             [EInt 1]
             []]]
       []);
   SAssign [EName "optimizer"]
     (ECall
       (EAttribute (EAttribute (EAttribute (EName "tf") "keras") "optimizers") "Adam")
       []
       []);
   SAssign [EName "loss_fn"]
     (ECall
       (EAttribute (EAttribute (EAttribute (EName "tf") "keras") "losses") "MeanSquaredError")
       []
       []);
   SImport [("numpy", Some "np")];
   SAssign [EName "x_train"]
     (ECall
       (EAttribute (EAttribute (EName "np") "random") "random")
       [ETuple [EInt 1000; EInt 8]]
       []);
   SAssign [EName "y_train"]
     (ECall
       (EAttribute (EAttribute (EName "np") "random") "random")
       [ETuple [EInt 1000; EInt 1]]
       []);
   SAssign [EName "batch_size"] (EInt 32);
   SAssign [EName "dataset"]
     (ECall
       (EAttribute (EAttribute (EAttribute (EName "tf") "data") "Dataset") "from_tensor_slices")
       [ETuple [EName "x_train"; EName "y_train"]]
       []);
   SAssign [EName "dataset"]
     (ECall
       (EAttribute
         (ECall (EAttribute (EName "dataset") "shuffle") [] [(Some "buffer_size", EInt 1024)])
         "batch")
       [EName "batch_size"]
       []);
   SAssign [EName "epochs"] (EInt 3);
   SFor (EName "epoch")
     (ECall (EName "range") [EName "epochs"] [])
     [SExpr
        (ECall (EName "print")
          [EJoinedStr
             [EStr "\nStart of epoch ";
              EFormattedValue (EBinOp (EName "epoch") OpAdd (EInt 1)) None]]
          []);
      SFor
        (ETuple [EName "step"; ETuple [EName "x_batch"; EName "y_batch"]])
        (ECall (EName "enumerate") [EName "dataset"] [])
        [SWith
           [(ECall (EAttribute (EName "tf") "GradientTape") [] [], Some (EName "tape"))]
           [SAssign [EName "logits"]
              (ECall (EName "model") [EName "x_batch"] [(Some "training", EBool true)]);
            SAssign [EName "loss_value"]
              (ECall (EName "loss_fn") [EName "y_batch"; EName "logits"] [])];
         SAssign [EName "grads"]
           (ECall
             (EAttribute (EName "tape") "gradient")
             [EName "loss_value"; EAttribute (EName "model") "trainable_weights"]
             []);
         SExpr
           (ECall
             (EAttribute (EName "optimizer") "apply_gradients")
             [ECall (EName "zip")
                [EName "grads"; EAttribute (EName "model") "trainable_weights"]
                []]
             []);
         SIf
           (ECompare (EBinOp (EName "step") OpMod (EInt 10)) [(CmpEq, EInt 0)])
           [SExpr
              (ECall (EName "print")
                [EJoinedStr
                   [EStr "Training loss at step ";
                    EFormattedValue (EName "step") None;
                    EStr ": ";
                    EFormattedValue
                      (ECall (EName "float") [EName "loss_value"] [])
                      (Some (EJoinedStr [EStr ".4f"]))]]
                [])]
           []]
        []]
     []].

Definition part_001_b_cell_5 : list stmt :=
  [SFunctionDef "my_function"
     [EAttribute (EName "tf") "function"]
     ["x"]
     []
     None
     None
     [SReturn
        (Some
          (ECall (EAttribute (EName "tf") "reduce_sum") [EBinOp (EName "x") OpPow (EInt 2)] []))];
   SAssign [EName "x"]
     (ECall
       (EAttribute (EName "tf") "constant")
       [EList [EFloat "1.0"; EFloat "2.0"; EFloat "3.0"]]
       []);
   SExpr
     (ECall (EName "print")
       [EStr "Function output:"; ECall (EName "my_function") [EName "x"] []]
       [])].

Definition part_001_b : notebook :=
  {| nb_file := "unnamed/part_001";
     nb_cells := [part_001_b_cell_1;
                  part_001_b_cell_2;
                  part_001_b_cell_3;
                  part_001_b_cell_4;
                  part_001_b_cell_5] |}.

(** ** [unnamed/part_002]

    Deep Computer Vision with CNNs (Chapter 14 - Convolutional Neural Networks Implementation Guide) *)

Definition part_002_cell_1 : list stmt :=
  [SImport [("tensorflow", Some "tf")];
   SImportFrom "tensorflow.keras" [("layers", None)];
   SAssign [EName "model"]
     (ECall
       (EAttribute (EAttribute (EName "tf") "keras") "Sequential")
       [EList
          [ECall
             (EAttribute (EName "layers") "Conv2D")
             [EInt 32; ETuple [EInt 3; EInt 3]]
             [(Some "activation", EStr "relu");
              (Some "input_shape", ETuple [EInt 28; EInt 28; EInt 1])];
           ECall (EAttribute (EName "layers") "MaxPooling2D") [ETuple [EInt 2; EInt 2]] [];
           ECall
             (EAttribute (EName "layers") "Conv2D")
             [EInt 64; ETuple [EInt 3; EInt 3]]
             [(Some "activation", EStr "relu")];
           ECall (EAttribute (EName "layers") "MaxPooling2D") [ETuple [EInt 2; EInt 2]] [];
           ECall (EAttribute (EName "layers") "Flatten") [] [];
           ECall
             (EAttribute (EName "layers") "Dense")
             [EInt 64]
             [(Some "activation", EStr "relu")];
           ECall
             (EAttribute (EName "layers") "Dense")
             [EInt 10]
             [(Some "activation", EStr "softmax")]]]
       []);
   SExpr (ECall (EAttribute (EName "model") "summary") [] [])].

Definition part_002_cell_2 : list stmt :=
  [SClassDef "ResidualBlock"
     [EAttribute (EAttribute (EAttribute (EName "tf") "keras") "layers") "Layer"]
     [SFunctionDef "__init__" []
        ["self"; "filters"; "strides"; "activation"]
        [EInt 1; EStr "relu"]
        None
        (Some "kwargs")
        [SExpr
           (ECall
             (EAttribute (ECall (EName "super") [] []) "__init__")
             []
             [(None, EName "kwargs")]);
         SAssign
           [EAttribute (EName "self") "activation"]
           (ECall
             (EAttribute (EAttribute (EAttribute (EName "tf") "keras") "activations") "get")
             [EName "activation"]
             []);
         SAssign
           [EAttribute (EName "self") "main_layers"]
           (EList
             [ECall
                (EAttribute (EAttribute (EAttribute (EName "tf") "keras") "layers") "Conv2D")
                [EName "filters"; EInt 3]
                [(Some "strides", EName "strides");
                 (Some "padding", EStr "same");
                 (Some "use_bias", EBool false)];
              ECall
                (EAttribute
                  (EAttribute (EAttribute (EName "tf") "keras") "layers")
                  "BatchNormalization")
                []
                [];
              EAttribute (EName "self") "activation";
              ECall
                (EAttribute (EAttribute (EAttribute (EName "tf") "keras") "layers") "Conv2D")
                [EName "filters"; EInt 3]
                [(Some "strides", EInt 1);
                 (Some "padding", EStr "same");
                 (Some "use_bias", EBool false)];
              ECall
                (EAttribute
                  (EAttribute (EAttribute (EName "tf") "keras") "layers")
                  "BatchNormalization")
                []
                []]);
         SAssign [EAttribute (EName "self") "skip_layers"] (EList []);
         SIf
           (ECompare (EName "strides") [(CmpGt, EInt 1)])
           [SAssign
              [EAttribute (EName "self") "skip_layers"]
              (EList
                [ECall
                   (EAttribute (EAttribute (EAttribute (EName "tf") "keras") "layers") "Conv2D")
                   [EName "filters"; EInt 1]
                   [(Some "strides", EName "strides");
                    (Some "padding", EStr "same");
                    (Some "use_bias", EBool false)];
                 ECall
                   (EAttribute
                     (EAttribute (EAttribute (EName "tf") "keras") "layers")
                     "BatchNormalization")
                   []
                   []])]
           []];
      SFunctionDef "call" [] ["self"; "inputs"] [] None None
        [SAssign [EName "Z"] (EName "inputs");
         SFor (EName "layer")
           (EAttribute (EName "self") "main_layers")
           [SAssign [EName "Z"] (ECall (EName "layer") [EName "Z"] [])]
           [];
         SAssign [EName "skip_Z"] (EName "inputs");
         SFor (EName "layer")
           (EAttribute (EName "self") "skip_layers")
           [SAssign [EName "skip_Z"] (ECall (EName "layer") [EName "skip_Z"] [])]
           [];
         SReturn
           (Some
             (ECall
               (EAttribute (EName "self") "activation")
               [EBinOp (EName "Z") OpAdd (EName "skip_Z")]
               []))]];
   SAssign [EName "inputs"]
     (ECall
       (EAttribute (EAttribute (EName "tf") "keras") "Input")
       []
       [(Some "shape", ETuple [EInt 32; EInt 32; EInt 3])]);
   SAssign [EName "x"] (ECall (ECall (EName "ResidualBlock") [EInt 64] []) [EName "inputs"] []);
   SAssign [EName "x"]
     (ECall
       (ECall (EName "ResidualBlock") [EInt 128] [(Some "strides", EInt 2)])
       [EName "x"]
       []);
   SAssign [EName "outputs"]
     (ECall
       (ECall
         (EAttribute (EAttribute (EAttribute (EName "tf") "keras") "layers") "GlobalAvgPool2D")
         []
         [])
       [EName "x"]
       []);
   SAssign [EName "model"]
     (ECall
       (EAttribute (EAttribute (EName "tf") "keras") "Model")
       []
       [(Some "inputs", EName "inputs"); (Some "outputs", EName "outputs")]);
   SExpr (ECall (EAttribute (EName "model") "summary") [] [])].

Definition part_002_cell_3 : list stmt :=
  [SImportFrom "tensorflow.keras.applications" [("ResNet50", None)];
   SImportFrom "tensorflow.keras.preprocessing" [("image", None)];
   SImportFrom "tensorflow.keras.applications.resnet50"
     [("preprocess_input", None); ("decode_predictions", None)];
   SImport [("numpy", Some "np")];
   SAssign [EName "model"] (ECall (EName "ResNet50") [] [(Some "weights", EStr "imagenet")]);
   SAssign [EName "img_path"] (EStr "example.jpg");
   SAssign [EName "img"]
     (ECall
       (EAttribute (EName "image") "load_img")
       [EName "img_path"]
       [(Some "target_size", ETuple [EInt 224; EInt 224])]);
   SAssign [EName "x"] (ECall (EAttribute (EName "image") "img_to_array") [EName "img"] []);
   SAssign [EName "x"]
     (ECall (EAttribute (EName "np") "expand_dims") [EName "x"] [(Some "axis", EInt 0)]);
   SAssign [EName "x"] (ECall (EName "preprocess_input") [EName "x"] []);
   SAssign [EName "preds"] (ECall (EAttribute (EName "model") "predict") [EName "x"] []);
   SExpr
     (ECall (EName "print")
       [EStr "Top predictions:";
        ESubscript
          (ECall (EName "decode_predictions") [EName "preds"] [(Some "top", EInt 3)])
          (EInt 0)]
       [])].

Definition part_002_cell_4 : list stmt :=
  [SImport [("tensorflow_datasets", Some "tfds")];
   SAssign
     [ETuple [EName "dataset"; EName "info"]]
     (ECall
       (EAttribute (EName "tfds") "load")
       [EStr "tf_flowers"]
       [(Some "as_supervised", EBool true); (Some "with_info", EBool true)]);
   SAssign [EName "n_classes"]
     (EAttribute
       (ESubscript (EAttribute (EName "info") "features") (EStr "label"))
       "num_classes");
   SFunctionDef "preprocess" [] ["image"; "label"] [] None None
     [SAssign [EName "image"]
        (ECall
          (EAttribute (EAttribute (EName "tf") "image") "resize")
          [EName "image"; EList [EInt 224; EInt 224]]
          []);
      SAssign [EName "image"] (ECall (EName "preprocess_input") [EName "image"] []);
      SReturn (Some (ETuple [EName "image"; EName "label"]))];
   SAssign [EName "batch_size"] (EInt 32);
   SAssign [EName "train_set"]
     (ECall
       (EAttribute
         (ECall
           (EAttribute
             (ECall
               (EAttribute (ESubscript (EName "dataset") (EStr "train")) "map")
               [EName "preprocess"]
               [])
             "batch")
           [EName "batch_size"]
           [])
         "prefetch")
       [EInt 1]
       []);
   SAssign [EName "base_model"]
     (ECall (EName "ResNet50") []
       [(Some "weights", EStr "imagenet"); (Some "include_top", EBool false)]);
   SAssign [EName "avg"]
     (ECall
       (ECall
         (EAttribute
           (EAttribute (EAttribute (EName "tf") "keras") "layers")
           "GlobalAveragePooling2D")
         []
         [])
       [EAttribute (EName "base_model") "output"]
       []);
   SAssign [EName "output"]
     (ECall
       (ECall
         (EAttribute (EAttribute (EAttribute (EName "tf") "keras") "layers") "Dense")
         [EName "n_classes"]
         [(Some "activation", EStr "softmax")])
       [EName "avg"]
       []);
   SAssign [EName "model"]
     (ECall
       (EAttribute (EAttribute (EName "tf") "keras") "Model")
       []
       [(Some "inputs", EAttribute (EName "base_model") "input");
        (Some "outputs", EName "output")]);
   SFor (EName "layer")
     (EAttribute (EName "base_model") "layers")
     [SAssign [EAttribute (EName "layer") "trainable"] (EBool false)]
     [];
   SExpr
     (ECall
       (EAttribute (EName "model") "compile")
       []
       [(Some "optimizer", EStr "adam");
        (Some "loss", EStr "sparse_categorical_crossentropy");
        (Some "metrics", EList [EStr "accuracy"])]);
   SExpr
     (ECall (EAttribute (EName "model") "fit") [EName "train_set"] [(Some "epochs", EInt 5)])].

Definition part_002 : notebook :=
  {| nb_file := "unnamed/part_002";
     nb_cells := [part_002_cell_1; part_002_cell_2; part_002_cell_3; part_002_cell_4] |}.

(** ** [unnamed/part_003]

    Reinforcement Learning (Chapter 18 - From Theory to Implementation) *)

Definition part_003_cell_1 : list stmt :=
  [SImport [("numpy", Some "np")];
   SImport [("gym", None)];
   SAssign [EName "env"]
     (ECall
       (EAttribute (EName "gym") "make")
       [EStr "FrozenLake-v1"]
       [(Some "is_slippery", EBool false)]);
   SAssign [EName "n_states"] (EAttribute (EAttribute (EName "env") "observation_space") "n");
   SAssign [EName "n_actions"] (EAttribute (EAttribute (EName "env") "action_space") "n");
   SAssign [EName "Q"]
     (ECall (EAttribute (EName "np") "zeros") [ETuple [EName "n_states"; EName "n_actions"]] []);
   SAssign [EName "alpha"] (EFloat "0.1");
   SAssign [EName "gamma"] (EFloat "0.99");
   SAssign [EName "epsilon"] (EFloat "0.1");
   SAssign [EName "n_episodes"] (EInt 1000);
   SFor (EName "episode")
     (ECall (EName "range") [EName "n_episodes"] [])
     [SAssign [EName "state"]
        (ESubscript (ECall (EAttribute (EName "env") "reset") [] []) (EInt 0));
      SAssign [EName "done"] (EBool false);
      SWhile
        (EUnaryOp OpNot (EName "done"))
        [SIf
           (ECompare
             (ECall
               (EAttribute (EAttribute (EName "np") "random") "uniform")
               [EInt 0; EInt 1]
               [])
             [(CmpLt, EName "epsilon")])
           [SAssign [EName "action"]
              (ECall (EAttribute (EAttribute (EName "env") "action_space") "sample") [] [])]
           [SAssign [EName "action"]
              (ECall
                (EAttribute (EName "np") "argmax")
                [ESubscript (EName "Q") (EName "state")]
                [])];
         SAssign
           [ETuple [EName "new_state"; EName "reward"; EName "done"; EName "_"; EName "_"]]
           (ECall (EAttribute (EName "env") "step") [EName "action"] []);
         SAssign
           [ESubscript (EName "Q") (ETuple [EName "state"; EName "action"])]
           (EBinOp
             (ESubscript (EName "Q") (ETuple [EName "state"; EName "action"]))
             OpAdd
             (EBinOp (EName "alpha") OpMult
               (EBinOp
                 (EBinOp (EName "reward") OpAdd
                   (EBinOp (EName "gamma") OpMult
                     (ECall
                       (EAttribute (EName "np") "max")
                       [ESubscript (EName "Q") (EName "new_state")]
                       [])))
                 OpSub
                 (ESubscript (EName "Q") (ETuple [EName "state"; EName "action"])))));
         SAssign [EName "state"] (EName "new_state")]
        []]
     [];
   SExpr (ECall (EName "print") [EStr "Q-table after training:"] []);
   SExpr (ECall (EName "print") [EName "Q"] [])].

Definition part_003_cell_2 : list stmt :=
  [SImport [("tensorflow", Some "tf")];
   SImportFrom "collections" [("deque", None)];
   SImport [("random", None)];
   SClassDef "DQNAgent" []
     [SFunctionDef "__init__" []
        ["self"; "state_size"; "action_size"]
        []
        None
        None
        [SAssign [EAttribute (EName "self") "state_size"] (EName "state_size");
         SAssign [EAttribute (EName "self") "action_size"] (EName "action_size");
         SAssign
           [EAttribute (EName "self") "memory"]
           (ECall (EName "deque") [] [(Some "maxlen", EInt 2000)]);
         SAssign [EAttribute (EName "self") "gamma"] (EFloat "0.95");
         SAssign [EAttribute (EName "self") "epsilon"] (EFloat "1.0");
         SAssign [EAttribute (EName "self") "epsilon_min"] (EFloat "0.01");
         SAssign [EAttribute (EName "self") "epsilon_decay"] (EFloat "0.995");
         SAssign [EAttribute (EName "self") "learning_rate"] (EFloat "0.001");
         SAssign
           [EAttribute (EName "self") "model"]
           (ECall (EAttribute (EName "self") "_build_model") [] []);
         SAssign
           [EAttribute (EName "self") "target_model"]
           (ECall (EAttribute (EName "self") "_build_model") [] [])];
      SFunctionDef "_build_model" [] ["self"] [] None None
        [SAssign [EName "model"]
           (ECall
             (EAttribute (EAttribute (EName "tf") "keras") "Sequential")
             [EList
                [ECall
                   (EAttribute (EAttribute (EAttribute (EName "tf") "keras") "layers") "Dense")
                   [EInt 24]
                   [(Some "input_dim", EAttribute (EName "self") "state_size");
                    (Some "activation", EStr "relu")];
                 ECall
                   (EAttribute (EAttribute (EAttribute (EName "tf") "keras") "layers") "Dense")
                   [EInt 24]
                   [(Some "activation", EStr "relu")];
                 ECall
                   (EAttribute (EAttribute (EAttribute (EName "tf") "keras") "layers") "Dense")
                   [EAttribute (EName "self") "action_size"]
                   [(Some "activation", EStr "linear")]]]
             []);
         SExpr
           (ECall
             (EAttribute (EName "model") "compile")
             []
             [(Some "loss", EStr "mse");
              (Some "optimizer",
               ECall
                 (EAttribute (EAttribute (EAttribute (EName "tf") "keras") "optimizers") "Adam")
                 []
                 [(Some "lr", EAttribute (EName "self") "learning_rate")])]);
         SReturn (Some (EName "model"))];
      SFunctionDef "remember" []
        ["self"; "state"; "action"; "reward"; "next_state"; "done"]
        []
        None
        None
        [SExpr
           (ECall
             (EAttribute (EAttribute (EName "self") "memory") "append")
             [ETuple
                [EName "state";
                 EName "action";
                 EName "reward";
                 EName "next_state";
                 EName "done"]]
             [])];
      SFunctionDef "act" [] ["self"; "state"] [] None None
        [SIf
           (ECompare
             (ECall (EAttribute (EAttribute (EName "np") "random") "rand") [] [])
             [(CmpLtE, EAttribute (EName "self") "epsilon")])
           [SReturn
              (Some
                (ECall
                  (EAttribute (EName "random") "randrange")
                  [EAttribute (EName "self") "action_size"]
                  []))]
           [];
         SAssign [EName "act_values"]
           (ECall (EAttribute (EAttribute (EName "self") "model") "predict") [EName "state"] []);
         SReturn
           (Some
             (ECall
               (EAttribute (EName "np") "argmax")
               [ESubscript (EName "act_values") (EInt 0)]
               []))];
      SFunctionDef "replay" [] ["self"; "batch_size"] [] None None
        [SAssign [EName "minibatch"]
           (ECall
             (EAttribute (EName "random") "sample")
             [EAttribute (EName "self") "memory"; EName "batch_size"]
             []);
         SFor
           (ETuple
             [EName "state"; EName "action"; EName "reward"; EName "next_state"; EName "done"])
           (EName "minibatch")
           [SAssign [EName "target"]
              (ECall
                (EAttribute (EAttribute (EName "self") "model") "predict")
                [EName "state"]
                []);
            SIf (EName "done")
              [SAssign
                 [ESubscript (ESubscript (EName "target") (EInt 0)) (EName "action")]
                 (EName "reward")]
              [SAssign [EName "t"]
                 (ECall
                   (EAttribute (EAttribute (EName "self") "target_model") "predict")
                   [EName "next_state"]
                   []);
               SAssign
                 [ESubscript (ESubscript (EName "target") (EInt 0)) (EName "action")]
                 (EBinOp (EName "reward") OpAdd
                   (EBinOp
                     (EAttribute (EName "self") "gamma")
                     OpMult
                     (ECall
                       (EAttribute (EName "np") "amax")
                       [ESubscript (EName "t") (EInt 0)]
                       [])))];
            SExpr
              (ECall
                (EAttribute (EAttribute (EName "self") "model") "fit")
                [EName "state"; EName "target"]
                [(Some "epochs", EInt 1); (Some "verbose", EInt 0)])]
           [];
         SIf
           (ECompare
             (EAttribute (EName "self") "epsilon")
             [(CmpGt, EAttribute (EName "self") "epsilon_min")])
           [SAugAssign
              (EAttribute (EName "self") "epsilon")
              OpMult
              (EAttribute (EName "self") "epsilon_decay")]
           []];
      SFunctionDef "update_target_model" [] ["self"] [] None None
        [SExpr
           (ECall
             (EAttribute (EAttribute (EName "self") "target_model") "set_weights")
             [ECall (EAttribute (EAttribute (EName "self") "model") "get_weights") [] []]
             [])]]].

Definition part_003_cell_3 : list stmt :=
  [SClassDef "PGAgent" []
     [SFunctionDef "__init__" []
        ["self"; "state_size"; "action_size"]
        []
        None
        None
        [SAssign [EAttribute (EName "self") "state_size"] (EName "state_size");
         SAssign [EAttribute (EName "self") "action_size"] (EName "action_size");
         SAssign [EAttribute (EName "self") "gamma"] (EFloat "0.95");
         SAssign [EAttribute (EName "self") "learning_rate"] (EFloat "0.001");
         SAssign [EAttribute (EName "self") "states"] (EList []);
         SAssign [EAttribute (EName "self") "actions"] (EList []);
         SAssign [EAttribute (EName "self") "rewards"] (EList []);
         SAssign
           [EAttribute (EName "self") "model"]
           (ECall (EAttribute (EName "self") "_build_model") [] [])];
      SFunctionDef "_build_model" [] ["self"] [] None None
        [SAssign [EName "model"]
           (ECall
             (EAttribute (EAttribute (EName "tf") "keras") "Sequential")
             [EList
                [ECall
                   (EAttribute (EAttribute (EAttribute (EName "tf") "keras") "layers") "Dense")
                   [EInt 24]
                   [(Some "input_dim", EAttribute (EName "self") "state_size");
                    (Some "activation", EStr "relu")];
                 ECall
                   (EAttribute (EAttribute (EAttribute (EName "tf") "keras") "layers") "Dense")
                   [EInt 24]
                   [(Some "activation", EStr "relu")];
                 ECall
                   (EAttribute (EAttribute (EAttribute (EName "tf") "keras") "layers") "Dense")
                   [EAttribute (EName "self") "action_size"]
                   [(Some "activation", EStr "softmax")]]]
             []);
         SExpr
           (ECall
             (EAttribute (EName "model") "compile")
             []
             [(Some "loss", EStr "categorical_crossentropy");
              (Some "optimizer",
               ECall
                 (EAttribute (EAttribute (EAttribute (EName "tf") "keras") "optimizers") "Adam")
                 []
                 [(Some "lr", EAttribute (EName "self") "learning_rate")])]);
         SReturn (Some (EName "model"))];
      SFunctionDef "remember" []
        ["self"; "state"; "action"; "reward"]
        []
        None
        None
        [SExpr
           (ECall (EAttribute (EAttribute (EName "self") "states") "append") [EName "state"] []);
         SExpr
           (ECall
             (EAttribute (EAttribute (EName "self") "actions") "append")
             [EName "action"]
             []);
         SExpr
           (ECall
             (EAttribute (EAttribute (EName "self") "rewards") "append")
             [EName "reward"]
             [])];
      SFunctionDef "act" [] ["self"; "state"] [] None None
        [SAssign [EName "state"]
           (ECall
             (EAttribute (EName "np") "reshape")
             [EName "state"; EList [EInt 1; EAttribute (EName "self") "state_size"]]
             []);
         SAssign [EName "prob_weights"]
           (ECall (EAttribute (EAttribute (EName "self") "model") "predict") [EName "state"] []);
         SAssign [EName "action"]
           (ECall
             (EAttribute (EAttribute (EName "np") "random") "choice")
             [EAttribute (EName "self") "action_size"]
             [(Some "p", ESubscript (EName "prob_weights") (EInt 0))]);
         SReturn (Some (EName "action"))];
      SFunctionDef "train" [] ["self"] [] None None
        [SAssign [EName "discounted_rewards"] (EList []);
         SAssign [EName "Gt"] (EInt 0);
         SFor (EName "reward")
           (ECall (EName "reversed") [EAttribute (EName "self") "rewards"] [])
           [SAssign [EName "Gt"]
              (EBinOp (EName "reward") OpAdd
                (EBinOp (EAttribute (EName "self") "gamma") OpMult (EName "Gt")));
            SExpr
              (ECall (EAttribute (EName "discounted_rewards") "insert") [EInt 0; EName "Gt"] [])]
           [];
         SAssign
           [EName "discounted_rewards"]
           (ECall (EAttribute (EName "np") "array") [EName "discounted_rewards"] []);
         SAssign
           [EName "discounted_rewards"]
           (EBinOp
             (EBinOp
               (EName "discounted_rewards")
               OpSub
               (ECall (EAttribute (EName "np") "mean") [EName "discounted_rewards"] []))
             OpDiv
             (ECall (EAttribute (EName "np") "std") [EName "discounted_rewards"] []));
         SAssign [EName "actions"]
           (ECall
             (EAttribute
               (EAttribute (EAttribute (EName "tf") "keras") "utils")
               "to_categorical")
             [EAttribute (EName "self") "actions"]
             [(Some "num_classes", EAttribute (EName "self") "action_size")]);
         SExpr
           (ECall
             (EAttribute (EAttribute (EName "self") "model") "train_on_batch")
             [ECall (EAttribute (EName "np") "vstack") [EAttribute (EName "self") "states"] [];
              EName "actions"]
             [(Some "sample_weight", EName "discounted_rewards")]);
         SAssign
           [ETuple
              [EAttribute (EName "self") "states";
               EAttribute (EName "self") "actions";
               EAttribute (EName "self") "rewards"]]
           (ETuple [EList []; EList []; EList []])]]].

Definition part_003_cell_4 : list stmt :=
  [SClassDef "PPOMemory" []
     [SFunctionDef "__init__" [] ["self"; "batch_size"] [] None None
        [SAssign [EAttribute (EName "self") "states"] (EList []);
         SAssign [EAttribute (EName "self") "actions"] (EList []);
         SAssign [EAttribute (EName "self") "probs"] (EList []);
         SAssign [EAttribute (EName "self") "vals"] (EList []);
         SAssign [EAttribute (EName "self") "rewards"] (EList []);
         SAssign [EAttribute (EName "self") "dones"] (EList []);
         SAssign [EAttribute (EName "self") "batch_size"] (EName "batch_size")];
      SFunctionDef "store" []
        ["self"; "state"; "action"; "prob"; "val"; "reward"; "done"]
        []
        None
        None
        [SExpr
           (ECall (EAttribute (EAttribute (EName "self") "states") "append") [EName "state"] []);
         SExpr
           (ECall
             (EAttribute (EAttribute (EName "self") "actions") "append")
             [EName "action"]
             []);
         SExpr
           (ECall (EAttribute (EAttribute (EName "self") "probs") "append") [EName "prob"] []);
         SExpr (ECall (EAttribute (EAttribute (EName "self") "vals") "append") [EName "val"] []);
         SExpr
           (ECall
             (EAttribute (EAttribute (EName "self") "rewards") "append")
             [EName "reward"]
             []);
         SExpr
           (ECall (EAttribute (EAttribute (EName "self") "dones") "append") [EName "done"] [])];
      SFunctionDef "clear" [] ["self"] [] None None
        [SAssign [EAttribute (EName "self") "states"] (EList []);
         SAssign [EAttribute (EName "self") "actions"] (EList []);
         SAssign [EAttribute (EName "self") "probs"] (EList []);
         SAssign [EAttribute (EName "self") "vals"] (EList []);
         SAssign [EAttribute (EName "self") "rewards"] (EList []);
         SAssign [EAttribute (EName "self") "dones"] (EList [])]];
   SClassDef "PPOAgent" []
     [SFunctionDef "__init__" []
        ["self"; "state_dim"; "action_dim"; "action_std_init"]
        [EFloat "0.6"]
        None
        None
        [SAssign
           [EAttribute (EName "self") "policy"]
           (ECall
             (EAttribute (EName "self") "_build_network")
             [EName "state_dim"; EName "action_dim"]
             []);
         SAssign
           [EAttribute (EName "self") "policy_old"]
           (ECall
             (EAttribute (EName "self") "_build_network")
             [EName "state_dim"; EName "action_dim"]
             []);
         SAssign [EAttribute (EName "self") "memory"] (ECall (EName "PPOMemory") [] [])];
      SFunctionDef "_build_network" []
        ["self"; "state_dim"; "action_dim"]
        []
        None
        None
        [SAssign [EName "inputs"]
           (ECall
             (EAttribute (EAttribute (EAttribute (EName "tf") "keras") "layers") "Input")
             []
             [(Some "shape", ETuple [EName "state_dim"])]);
         SAssign [EName "x"]
           (ECall
             (ECall
               (EAttribute (EAttribute (EAttribute (EName "tf") "keras") "layers") "Dense")
               [EInt 64]
               [(Some "activation", EStr "tanh")])
             [EName "inputs"]
             []);
         SAssign [EName "x"]
           (ECall
             (ECall
               (EAttribute (EAttribute (EAttribute (EName "tf") "keras") "layers") "Dense")
               [EInt 64]
               [(Some "activation", EStr "tanh")])
             [EName "x"]
             []);
         SAssign [EName "mean"]
           (ECall
             (ECall
               (EAttribute (EAttribute (EAttribute (EName "tf") "keras") "layers") "Dense")
               [EName "action_dim"]
               [(Some "activation", EStr "tanh")])
             [EName "x"]
             []);
         SAssign [EName "std"]
           (ECall
             (ECall
               (EAttribute (EAttribute (EAttribute (EName "tf") "keras") "layers") "Dense")
               [EName "action_dim"]
               [(Some "activation", EStr "softplus")])
             [EName "x"]
             []);
         SReturn
           (Some
             (ECall
               (EAttribute (EAttribute (EName "tf") "keras") "Model")
               [EName "inputs"; EList [EName "mean"; EName "std"]]
               []))];
      SFunctionDef "update" [] ["self"] [] None None [SPass]]].

Definition part_003_cell_5 : list stmt :=
  [SImportFrom "tf_agents.environments" [("suite_gym", None)];
   SImportFrom "tf_agents.agents.dqn" [("dqn_agent", None)];
   SImportFrom "tf_agents.networks" [("q_network", None)];
   SImportFrom "tf_agents.replay_buffers" [("tf_uniform_replay_buffer", None)];
   SAssign [EName "env"] (ECall (EAttribute (EName "suite_gym") "load") [EStr "CartPole-v1"] []);
   SAssign [EName "train_env"]
     (ECall (EAttribute (EName "suite_gym") "load") [EStr "CartPole-v1"] []);
   SAssign [EName "q_net"]
     (ECall
       (EAttribute (EName "q_network") "QNetwork")
       [ECall (EAttribute (EName "env") "observation_spec") [] [];
        ECall (EAttribute (EName "env") "action_spec") [] []]
       [(Some "fc_layer_params", ETuple [EInt 100])]);
   SAssign [EName "agent"]
     (ECall
       (EAttribute (EName "dqn_agent") "DqnAgent")
       [ECall (EAttribute (EName "env") "time_step_spec") [] [];
        ECall (EAttribute (EName "env") "action_spec") [] []]
       [(Some "q_network", EName "q_net");
        (Some "optimizer",
         ECall
           (EAttribute (EAttribute (EAttribute (EName "tf") "keras") "optimizers") "Adam")
           []
           [(Some "learning_rate", EFloat "0.001")])]);
   SAssign [EName "replay_buffer"]
     (ECall
       (EAttribute (EName "tf_uniform_replay_buffer") "TFUniformReplayBuffer")
       []
       [(Some "data_spec", EAttribute (EName "agent") "collect_data_spec");
        (Some "batch_size", EAttribute (EName "train_env") "batch_size");
        (Some "max_length", EInt 100000)]);
   SExpr (ECall (EName "print") [EStr "TF-Agents DQN initialized successfully"] [])].

Definition part_003_cell_6 : list stmt :=
  [SFunctionDef "train_agent" []
     ["agent"; "env"; "replay_buffer"; "num_iterations"]
     [EInt 20000]
     None
     None
     [SAssign [EName "dataset"]
        (ECall
          (EAttribute
            (ECall
              (EAttribute (EName "replay_buffer") "as_dataset")
              []
              [(Some "num_parallel_calls", EInt 3);
               (Some "sample_batch_size", EInt 64);
               (Some "num_steps", EInt 2)])
            "prefetch")
          [EInt 3]
          []);
      SFor (EName "_")
        (ECall (EName "range") [EName "num_iterations"] [])
        [SAssign [EName "time_step"]
           (ECall (EAttribute (EName "env") "current_time_step") [] []);
         SAssign [EName "action_step"]
           (ECall
             (EAttribute (EAttribute (EName "agent") "policy") "action")
             [EName "time_step"]
             []);
         SAssign [EName "next_time_step"]
           (ECall
             (EAttribute (EName "env") "step")
             [EAttribute (EName "action_step") "action"]
             []);
         SAssign [EName "traj"]
           (ECall
             (EAttribute (EName "trajectory") "from_transition")
             [EName "time_step"; EName "action_step"; EName "next_time_step"]
             []);
         SExpr (ECall (EAttribute (EName "replay_buffer") "add_batch") [EName "traj"] []);
         SAssign
           [ETuple [EName "experience"; EName "_"]]
           (ECall (EName "next") [ECall (EName "iter") [EName "dataset"] []] []);
         SAssign [EName "train_loss"]
           (EAttribute
             (ECall (EAttribute (EName "agent") "train") [EName "experience"] [])
             "loss");
         SIf
           (ECompare (EBinOp (EName "_") OpMod (EInt 1000)) [(CmpEq, EInt 0)])
           [SExpr
              (ECall (EName "print")
                [EJoinedStr
                   [EStr "Iteration ";
                    EFormattedValue (EName "_") None;
                    EStr ": Loss = ";
                    EFormattedValue (EName "train_loss") None]]
                [])]
           []]
        [];
      SReturn (Some (EName "agent"))]].

Definition part_003 : notebook :=
  {| nb_file := "unnamed/part_003";
     nb_cells := [part_003_cell_1;
                  part_003_cell_2;
                  part_003_cell_3;
                  part_003_cell_4;
                  part_003_cell_5;
                  part_003_cell_6] |}.

(** ** [unnamed/part_004]

    Unsupervised Learning Techniques: Summary and Examples *)

Definition part_004_cell_1 : list stmt :=
  [SImportFrom "sklearn.cluster" [("KMeans", None)];
   SImport [("numpy", Some "np")];
   SImport [("matplotlib.pyplot", Some "plt")];
   SImportFrom "sklearn.datasets" [("make_blobs", None)];
   SAssign
     [ETuple [EName "X"; EName "y_true"]]
     (ECall (EName "make_blobs") []
       [(Some "n_samples", EInt 500);
        (Some "centers", EInt 5);
        (Some "cluster_std", EFloat "0.6");
        (Some "random_state", EInt 0)]);
   SAssign [EName "kmeans"]
     (ECall (EName "KMeans") []
       [(Some "n_clusters", EInt 5);
        (Some "init", EStr "k-means++");
        (Some "n_init", EInt 10);
        (Some "random_state", EInt 0)]);
   SAssign [EName "y_kmeans"] (ECall (EAttribute (EName "kmeans") "fit_predict") [EName "X"] []);
   SExpr
     (ECall
       (EAttribute (EName "plt") "scatter")
       [ESubscript (EName "X") (ETuple [ESlice None None None; EInt 0]);
        ESubscript (EName "X") (ETuple [ESlice None None None; EInt 1])]
       [(Some "c", EName "y_kmeans"); (Some "s", EInt 50); (Some "cmap", EStr "viridis")]);
   SAssign [EName "centers"] (EAttribute (EName "kmeans") "cluster_centers_");
   SExpr
     (ECall
       (EAttribute (EName "plt") "scatter")
       [ESubscript (EName "centers") (ETuple [ESlice None None None; EInt 0]);
        ESubscript (EName "centers") (ETuple [ESlice None None None; EInt 1])]
       [(Some "c", EStr "red"); (Some "s", EInt 200); (Some "alpha", EFloat "0.75")]);
   SExpr (ECall (EAttribute (EName "plt") "title") [EStr "K-Means Clustering Results"] []);
   SExpr (ECall (EAttribute (EName "plt") "show") [] [])].

Definition part_004_cell_2 : list stmt :=
  [SAssign [EName "inertia"] (EList []);
   SAssign [EName "K"] (ECall (EName "range") [EInt 1; EInt 10] []);
   SFor (EName "k") (EName "K")
     [SAssign [EName "kmeans"]
        (ECall (EName "KMeans") []
          [(Some "n_clusters", EName "k"); (Some "random_state", EInt 0)]);
      SExpr (ECall (EAttribute (EName "kmeans") "fit") [EName "X"] []);
      SExpr
        (ECall
          (EAttribute (EName "inertia") "append")
          [EAttribute (EName "kmeans") "inertia_"]
          [])]
     [];
   SExpr (ECall (EAttribute (EName "plt") "plot") [EName "K"; EName "inertia"; EStr "bx-"] []);
   SExpr (ECall (EAttribute (EName "plt") "xlabel") [EStr "Number of clusters k"] []);
   SExpr (ECall (EAttribute (EName "plt") "ylabel") [EStr "Inertia"] []);
   SExpr (ECall (EAttribute (EName "plt") "title") [EStr "Elbow Method For Optimal k"] []);
   SExpr (ECall (EAttribute (EName "plt") "show") [] [])].

Definition part_004_cell_3 : list stmt :=
  [SImportFrom "sklearn.cluster" [("DBSCAN", None)];
   SAssign [EName "dbscan"]
     (ECall (EName "DBSCAN") [] [(Some "eps", EFloat "0.3"); (Some "min_samples", EInt 10)]);
   SAssign [EName "y_dbscan"] (ECall (EAttribute (EName "dbscan") "fit_predict") [EName "X"] []);
   SExpr
     (ECall
       (EAttribute (EName "plt") "scatter")
       [ESubscript (EName "X") (ETuple [ESlice None None None; EInt 0]);
        ESubscript (EName "X") (ETuple [ESlice None None None; EInt 1])]
       [(Some "c", EName "y_dbscan"); (Some "cmap", EStr "plasma"); (Some "s", EInt 50)]);
   SExpr (ECall (EAttribute (EName "plt") "title") [EStr "DBSCAN Clustering Results"] []);
   SExpr (ECall (EAttribute (EName "plt") "show") [] [])].

Definition part_004_cell_4 : list stmt :=
  [SImportFrom "sklearn.mixture" [("GaussianMixture", None)];
   SAssign [EName "gmm"]
     (ECall
       (EName "GaussianMixture")
       []
       [(Some "n_components", EInt 5); (Some "random_state", EInt 0)]);
   SAssign [EName "gmm_labels"] (ECall (EAttribute (EName "gmm") "fit_predict") [EName "X"] []);
   SExpr
     (ECall
       (EAttribute (EName "plt") "scatter")
       [ESubscript (EName "X") (ETuple [ESlice None None None; EInt 0]);
        ESubscript (EName "X") (ETuple [ESlice None None None; EInt 1])]
       [(Some "c", EName "gmm_labels"); (Some "cmap", EStr "viridis"); (Some "s", EInt 50)]);
   SExpr
     (ECall (EAttribute (EName "plt") "title") [EStr "Gaussian Mixture Model Clustering"] []);
   SExpr (ECall (EAttribute (EName "plt") "show") [] [])].

Definition part_004_cell_5 : list stmt :=
  [SImport [("numpy", Some "np")];
   SAssign [EName "densities"] (ECall (EAttribute (EName "gmm") "score_samples") [EName "X"] []);
   SAssign [EName "threshold"]
     (ECall (EAttribute (EName "np") "percentile") [EName "densities"; EInt 5] []);
   SAssign [EName "anomalies"]
     (ESubscript (EName "X") (ECompare (EName "densities") [(CmpLt, EName "threshold")]));
   SExpr
     (ECall
       (EAttribute (EName "plt") "scatter")
       [ESubscript (EName "X") (ETuple [ESlice None None None; EInt 0]);
        ESubscript (EName "X") (ETuple [ESlice None None None; EInt 1])]
       [(Some "c", EStr "blue"); (Some "label", EStr "Data Points")]);
   SExpr
     (ECall
       (EAttribute (EName "plt") "scatter")
       [ESubscript (EName "anomalies") (ETuple [ESlice None None None; EInt 0]);
        ESubscript (EName "anomalies") (ETuple [ESlice None None None; EInt 1])]
       [(Some "c", EStr "red"); (Some "label", EStr "Anomalies")]);
   SExpr (ECall (EAttribute (EName "plt") "legend") [] []);
   SExpr
     (ECall
       (EAttribute (EName "plt") "title")
       [EStr "Anomaly Detection Using Gaussian Mixture Model"]
       []);
   SExpr (ECall (EAttribute (EName "plt") "show") [] [])].

Definition part_004 : notebook :=
  {| nb_file := "unnamed/part_004";
     nb_cells := [part_004_cell_1;
                  part_004_cell_2;
                  part_004_cell_3;
                  part_004_cell_4;
                  part_004_cell_5] |}.

(** The notebooks of the repository. *)
Definition repository : list notebook :=
  [ch01;
   ch02;
   ch03;
   ch04;
   ch05;
   ch06;
   ch07;
   ch08;
   ch13;
   ch15;
   ch16;
   ch17;
   ch19;
   part_000;
   part_001_a;
   part_001_b;
   part_002;
   part_003;
   part_004].

End Py.

(** * Classes, constructors and names in the syntax *)

Module PyClasses.

Import Py.

(** The signature of [__init__] of the class [cls] that a cell of the
    notebook defines at top level: its parameters, [self] first, and how
    many of them have a default. *)
Definition init_of (cls : string) (nb : notebook) : option (list string * nat) :=
  match
    List.find (fun s => match s with
                        | SClassDef name _ _ => String.eqb name cls
                        | _ => false
                        end) (concat (nb_cells nb))
  with
  | Some (SClassDef _ _ body) =>
      match
        List.find (fun s => match s with
                            | SFunctionDef name _ _ _ _ _ _ =>
                                String.eqb name "__init__"
                            | _ => false
                            end) body
      with
      | Some (SFunctionDef _ _ params defaults None None _) =>
          Some (params, length defaults)
      | _ => None
      end
  | _ => None
  end.

(** The calls of the name [f] in the notebook, nested statements included:
    for each call the numbers of its positional and of its keyword
    arguments. *)
Definition calls_of (f : string) (nb : notebook) : list (nat * nat) :=
  flat_map
    (fun e => match e with
              | ECall (EName g) args keywords =>
                  if String.eqb g f then [(length args, length keywords)]
                  else []
              | _ => []
              end)
    (flat_map all_exprs (concat (nb_cells nb))).

(** The names that the cells of a notebook bind at top level. *)
Definition bound_at_top_level (nb : notebook) : list string :=
  flat_map (flat_map assigned) (nb_cells nb).

End PyClasses.

(** * Facts about binary64 arithmetic *)

Module Binary64Facts.

Import Binary64.

Definition one : float := float_of_int 1.
Definition zero : float := float_of_int 0.

Lemma one_eq : one = S754_finite false 4503599627370496 (-52).
Proof. reflexivity. Qed.

Lemma div_eucl_mul (a b : Z) : 0 < b -> Z.div_eucl (a * b) b = (a, 0).
Proof.
  intros Hb.
  pose proof (Z.div_mul a b ltac:(lia)) as Hq.
  pose proof (Z.mod_mul a b ltac:(lia)) as Hr.
  unfold Z.div, Z.modulo in Hq, Hr.
  destruct (Z.div_eucl (a * b) b) as [q r]. simpl in Hq, Hr. congruence.
Qed.

(** A finite binary64 number is either subnormal-or-smallest-exponent, or
    has a full mantissa of 53 bits. *)
Lemma valid_finite_cases (s : bool) (m : positive) (e : Z) :
  valid (S754_finite s m e) = true ->
  e <= 971 /\
  ((e = -1074 /\ Zpos (digits2_pos m) <= 53) \/
   (-1074 < e /\ Zpos (digits2_pos m) = 53)).
Proof.
  unfold valid, valid_binary, bounded, canonical_mantissa, fexp, emin, prec, emax.
  intros Hv. apply andb_prop in Hv as [Hc Hb].
  apply Z.eqb_eq in Hc. apply Z.leb_le in Hb. lia.
Qed.

(** Rounding a number that is already canonical changes nothing. *)
Lemma binary_round_aux_canonical (s : bool) (m : positive) (e : Z) :
  valid (S754_finite s m e) = true ->
  binary_round_aux prec emax s (Zpos m) e loc_Exact = S754_finite s m e.
Proof.
  unfold valid, valid_binary, bounded, canonical_mantissa.
  intros Hv. apply andb_prop in Hv as [Hc Hb]. apply Z.eqb_eq in Hc.
  unfold binary_round_aux, shr_fexp. simpl Zdigits2. rewrite Hc, Z.sub_diag.
  simpl. rewrite Hc, Z.sub_diag. simpl. rewrite Hb. reflexivity.
Qed.

(** Dividing by 1.0 is exact. *)
Lemma div_one (x : float) : valid x = true -> SFdiv prec emax x one = x.
Proof.
  destruct x as [s | s | | s m e]; intros Hv; rewrite one_eq; simpl;
    try reflexivity; try (destruct s; reflexivity).
  pose proof (valid_finite_cases s m e Hv) as (Hmax & Hcase).
  replace (xorb s false) with s by (destruct s; reflexivity).
  unfold SFdiv_core_binary, fexp, emin, prec, emax. simpl Zdigits2.
  destruct Hcase as [(-> & Hd) | (He & Hd)].
  - replace (Z.min _ _) with (-1074) by lia.
    change (-1074 - -52 - -1074) with 52.
    rewrite Z.shiftl_mul_pow2 by lia.
    rewrite div_eucl_mul by reflexivity.
    change (new_location (Z.pos 4503599627370496) 0) with loc_Exact.
    apply binary_round_aux_canonical. exact Hv.
  - rewrite Hd.
    replace (Z.min _ _) with (e - 1) by lia.
    replace (e - -52 - (e - 1)) with 53 by lia.
    rewrite Z.shiftl_mul_pow2 by lia.
    replace (Z.pos m * 2 ^ 53) with (Z.pos m~0 * 4503599627370496) by lia.
    rewrite div_eucl_mul by reflexivity.
    change (new_location (Z.pos 4503599627370496) 0) with loc_Exact.
    unfold binary_round_aux, shr_fexp, fexp, emin, prec, emax.
    simpl Zdigits2.
    replace (Z.pos (Pos.succ (digits2_pos m))) with 54 by lia.
    replace (Z.max (54 + (e - 1) - 53) (3 - 1024 - 53) - (e - 1)) with 1 by lia.
    simpl. rewrite Hd.
    replace (Z.max (53 + (e - 1 + 1) - 53) (3 - 1024 - 53) - (e - 1 + 1)) with 0
      by lia.
    simpl. replace (e - 1 + 1) with e by lia.
    change (1024 - 53) with 971.
    destruct (e <=? 971) eqn:E; [reflexivity|]. apply Z.leb_gt in E. lia.
Qed.

(** A finite number minus itself is [+0.0]. *)
Lemma sub_diag_finite (s : bool) (m : positive) (e : Z) :
  SFsub prec emax (S754_finite s m e) (S754_finite s m e) = S754_zero false.
Proof.
  simpl. rewrite Z.min_id. unfold shl_align. rewrite Z.sub_diag. simpl.
  reflexivity.
Qed.

(** Whatever is divided by a zero, the quotient is an infinity or NaN. *)
Lemma div_zero_not_finite (x d : float) :
  is_zero d = true -> is_finite (SFdiv prec emax x d) = false.
Proof.
  destruct d; try discriminate. intros _. destruct x; reflexivity.
Qed.

End Binary64Facts.

(** * Properties of the chapter 18 agents *)

Module RLFacts.

Import RL.

(** ** The bounded deque *)

Lemma deque_append_length {A : Type} (n : nat) (d : list A) (x : A) :
  (length d <= n)%nat -> (length (deque_append n d x) <= n)%nat.
Proof.
  intros Hd. unfold deque_append.
  destruct (n <? length (d ++ [x]))%nat eqn:E.
  - rewrite length_drop, length_app. simpl. lia.
  - apply Nat.ltb_ge in E. exact E.
Qed.

Lemma deque_append_room {A : Type} (n : nat) (d : list A) (x : A) :
  (length d < n)%nat -> deque_append n d x = d ++ [x].
Proof.
  intros Hd. unfold deque_append.
  destruct (n <? length (d ++ [x]))%nat eqn:E; [|reflexivity].
  apply Nat.ltb_lt in E. rewrite length_app in E. simpl in E. lia.
Qed.

Lemma deque_append_full {A : Type} (n : nat) (d : list A) (x : A) :
  length d = n -> (0 < n)%nat -> deque_append n d x = drop 1 d ++ [x].
Proof.
  intros Hd Hn. unfold deque_append.
  destruct (n <? length (d ++ [x]))%nat eqn:E.
  - destruct d as [|y d]; [simpl in Hd; lia|]. reflexivity.
  - apply Nat.ltb_ge in E. rewrite length_app in E. simpl in E. lia.
Qed.

Section DQNFacts.

Context {F Obs Net Rng : Type} `{Arith F} `{Keras F Obs Net Rng}.

Lemma replay_memory (a a' : DQNAgent) (batch_size : Z) (g g' : Rng) :
  replay a batch_size g = Ok (a', g') -> memory a' = memory a.
Proof.
  unfold replay. intros Hr.
  destruct (sample _ (memory a) batch_size g) as [[minibatch g1]|e];
    simpl in Hr; [|discriminate].
  destruct (replay_loop (model a) (target_model a) (gamma a) minibatch)
    as [[online calls]|e]; simpl in Hr; [|discriminate].
  destruct (ltb _ _); inversion Hr; reflexivity.
Qed.

Lemma replay_raised_memory (a : DQNAgent) (batch_size : Z) (g : Rng) :
  memory (replay_raised a batch_size g) = memory a.
Proof.
  unfold replay_raised.
  destruct (sample _ (memory a) batch_size g) as [[minibatch g1]|e];
    reflexivity.
Qed.

Lemma dqn_step_memory_bound (a a' : DQNAgent) :
  dqn_step a a' ->
  (length (memory a) <= memory_maxlen)%nat ->
  (length (memory a') <= memory_maxlen)%nat.
Proof.
  intros Hstep Hlen.
  destruct Hstep as [a s k r s' d | | a n g a' g' Hr | a n g e Hr | a ].
  - simpl. apply deque_append_length. exact Hlen.
  - exact Hlen.
  - rewrite (replay_memory _ _ _ _ _ Hr). exact Hlen.
  - rewrite replay_raised_memory. exact Hlen.
  - exact Hlen.
Qed.

Lemma dqn_reachable_memory_bound (a : DQNAgent) :
  dqn_reachable a -> (length (memory a) <= memory_maxlen)%nat.
Proof.
  induction 1 as [ss asz g | a a' _ IH Hstep].
  - unfold init, _build_model.
    destruct (build_sequential ss asz _ _ _ g) as [m g1].
    destruct (build_sequential ss asz _ _ _ g1) as [m' g2].
    simpl. unfold memory_maxlen. lia.
  - eapply dqn_step_memory_bound; eassumption.
Qed.

(** C8.  The replay memory of a [DQNAgent] is a bounded buffer: in every
    state the agent can reach it holds at most 2000 transitions; after
    [remember] it still does; [remember] on a full memory drops exactly the
    oldest transition and appends the new one (and simply appends while
    there is room); and no operation of the agent takes the memory past
    2000 entries. *)
Theorem dqn_memory_is_bounded_buffer (a : DQNAgent) :
  dqn_reachable a ->
  (length (memory a) <= 2000)%nat /\
  (forall state action reward next_state done,
     let a' := remember a state action reward next_state done in
     let new := Transition state action reward next_state done in
     (length (memory a') <= 2000)%nat /\
     (length (memory a) = 2000%nat -> memory a' = drop 1 (memory a) ++ [new]) /\
     ((length (memory a) < 2000)%nat -> memory a' = memory a ++ [new])) /\
  (forall a', dqn_step a a' -> (length (memory a') <= 2000)%nat).
Proof.
  intros Hreach.
  pose proof (dqn_reachable_memory_bound a Hreach) as Hlen.
  change memory_maxlen with 2000%nat in Hlen.
  split; [exact Hlen|]. split.
  - intros state action reward next_state done. simpl.
    split; [|split].
    + apply (deque_append_length 2000). exact Hlen.
    + intros Hfull. apply deque_append_full; [exact Hfull|unfold memory_maxlen; lia].
    + intros Hroom. apply deque_append_room. exact Hroom.
  - intros a' Hstep. apply (dqn_step_memory_bound a a' Hstep). exact Hlen.
Qed.

End DQNFacts.

(** The theorem at a freshly built agent for CartPole (4 observations, 2
    actions). *)
Lemma dqn_memory_is_bounded_buffer_witness :
  let a : DQNAgent (F := Binary64.float) (Obs := Z) (Net := Toy.Net) :=
    (init 4 2 (0 : Toy.Rng)).1 in
  dqn_reachable a /\
  (length (memory a) <= 2000)%nat /\
  (forall a', dqn_step a a' -> (length (memory a') <= 2000)%nat).
Proof.
  intros a.
  assert (Hreach : dqn_reachable a) by apply reach_init.
  split; [exact Hreach|].
  destruct (dqn_memory_is_bounded_buffer a Hreach) as (Hlen & _ & Hstep).
  split; [exact Hlen | exact Hstep].
Defined.

(** ** The Q-learning targets of [replay] *)

Section ReplayFacts.

Context {F Obs Net Rng : Type} `{Arith F} `{Keras F Obs Net Rng}.

(** The networks have one output row with [n] Q-values, [n] positive. *)
Variable n : nat.
Hypothesis n_pos : (0 < n)%nat.
Hypothesis predict_shape :
  forall (net : Net) (s : Obs), exists row, predict net s = [row] /\ length row = n.

Lemma np_index_in_range (i : Z) :
  0 <= i < Z.of_nat n -> np_index n i = Ok (Z.to_nat i).
Proof.
  intros Hi. unfold np_index.
  destruct (0 <=? i) eqn:E1; [|apply Z.leb_gt in E1; lia].
  destruct (i <? Z.of_nat n) eqn:E2; [|apply Z.ltb_ge in E2; lia].
  reflexivity.
Qed.

Lemma amax_nonempty (row : list F) :
  length row = n -> exists m, amax row = Ok m.
Proof.
  destruct row as [|x row]; simpl; intros Hlen; [lia|]. eexists; reflexivity.
Qed.

Lemma replay_target_ok (online target_net : Net) (gamma : F)
    (tr : transition Obs F) :
  0 <= tr_action tr < Z.of_nat n ->
  exists row q_next v,
    predict online (tr_state tr) = [row] /\ length row = n /\
    predict target_net (tr_next_state tr) = [q_next] /\
    td_target gamma tr q_next = Ok v /\
    replay_target online target_net gamma tr
      = Ok [<[Z.to_nat (tr_action tr) := float32 v]> row].
Proof.
  intros Ha.
  destruct (predict_shape online (tr_state tr)) as (row & Hrow & Hlen).
  destruct (predict_shape target_net (tr_next_state tr)) as (q_next & Hq & Hqlen).
  destruct (amax_nonempty q_next Hqlen) as (m & Hm).
  exists row, q_next.
  exists (if tr_done tr then tr_reward tr else add (tr_reward tr) (mul gamma m)).
  split; [exact Hrow|]. split; [exact Hlen|]. split; [exact Hq|].
  unfold td_target, replay_target. rewrite Hrow, Hq.
  destruct (tr_done tr); simpl.
  - split; [reflexivity|].
    unfold np_setitem. rewrite Hlen, (np_index_in_range _ Ha). reflexivity.
  - rewrite Hm. simpl. split; [reflexivity|].
    unfold np_setitem. rewrite Hlen, (np_index_in_range _ Ha). reflexivity.
Qed.

(** What the loop of [replay] does on the [k]-th transition: the textbook
    target, rounded to [float32], is written into the prediction. *)
Definition fits_textbook_target (online target_net : Net) (gamma : F)
    (calls : list (Obs * list (list F))) (k : nat) (tr : transition Obs F)
    : Prop :=
  exists row q_next v,
    predict (online_after online calls k) (tr_state tr) = [row] /\
    predict target_net (tr_next_state tr) = [q_next] /\
    td_target gamma tr q_next = Ok v /\
    calls !! k
    = Some (tr_state tr, [<[Z.to_nat (tr_action tr) := float32 v]> row]).

Lemma replay_loop_spec (target_net : Net) (gamma : F)
    (minibatch : list (transition Obs F)) :
  Forall (fun tr => 0 <= tr_action tr < Z.of_nat n) minibatch ->
  forall online, exists final calls,
    replay_loop online target_net gamma minibatch = Ok (final, calls) /\
    length calls = length minibatch /\
    final = online_after online calls (length minibatch) /\
    forall k tr, minibatch !! k = Some tr ->
      fits_textbook_target online target_net gamma calls k tr.
Proof.
  induction 1 as [|tr rest Ha _ IH]; intros online.
  - exists online, []. simpl. repeat split; try reflexivity.
    intros k tr Hk. rewrite lookup_nil in Hk. discriminate.
  - destruct (replay_target_ok online target_net gamma tr Ha)
      as (row & q_next & v & Hrow & Hlen & Hq & Hv & Ht).
    set (target := [<[Z.to_nat (tr_action tr) := float32 v]> row]) in *.
    destruct (IH (fit online (tr_state tr) target))
      as (final & calls & Hloop & Hcalls & Hfinal & Hall).
    exists final, ((tr_state tr, target) :: calls).
    split; [|split; [|split]].
    + simpl. rewrite Ht. simpl. rewrite Hloop. reflexivity.
    + simpl. rewrite Hcalls. reflexivity.
    + exact Hfinal.
    + intros [|k] tr' Hk; simpl in Hk.
      * inversion Hk; subst tr'. exists row, q_next, v.
        repeat split; assumption || reflexivity.
      * destruct (Hall k tr' Hk) as (row' & q' & v' & H1 & H2 & H3 & H4).
        exists row', q', v'. repeat split; assumption.
Qed.

(** C6, as the code behaves.  The loop of [DQNAgent.replay] fits the
    textbook Q-learning targets, rounded to [float32].  It makes one [fit]
    call per transition of the minibatch, and in the target of each call
    the entry of the taken action is the nearest [float32] of [reward] when
    [done] holds and of [reward + gamma * max] of the target network's
    Q-values at [next_state] otherwise, while every other entry is the
    online network's own prediction for [state]. *)
Theorem replay_fits_q_learning_targets (online target_net : Net) (gamma : F)
    (minibatch : list (transition Obs F)) :
  Forall (fun tr => 0 <= tr_action tr < Z.of_nat n) minibatch ->
  exists final calls,
    replay_loop online target_net gamma minibatch = Ok (final, calls) /\
    length calls = length minibatch /\
    forall k tr, minibatch !! k = Some tr ->
      exists prediction q_next target,
        calls !! k = Some (tr_state tr, [target]) /\
        predict (online_after online calls k) (tr_state tr) = [prediction] /\
        predict target_net (tr_next_state tr) = [q_next] /\
        target !! Z.to_nat (tr_action tr)
          = (if tr_done tr then Some (float32 (tr_reward tr))
             else match amax q_next with
                  | Ok m => Some (float32 (add (tr_reward tr) (mul gamma m)))
                  | Raise _ => None
                  end) /\
        is_Some (target !! Z.to_nat (tr_action tr)) /\
        forall j, j <> Z.to_nat (tr_action tr) -> target !! j = prediction !! j.
Proof.
  intros Hact.
  destruct (replay_loop_spec target_net gamma minibatch Hact online)
    as (final & calls & Hloop & Hlen & _ & Hall).
  exists final, calls. split; [exact Hloop|]. split; [exact Hlen|].
  intros k tr Hk.
  destruct (Hall k tr Hk) as (row & q_next & v & Hrow & Hq & Hv & Hcall).
  exists row, q_next, (<[Z.to_nat (tr_action tr) := float32 v]> row).
  assert (Hin : (Z.to_nat (tr_action tr) < length row)%nat).
  { destruct (predict_shape (online_after online calls k) (tr_state tr))
      as (row' & Hrow' & Hlen').
    rewrite Hrow in Hrow'. inversion Hrow'; subst row'.
    rewrite Forall_forall in Hact.
    assert (Htr : tr ∈ minibatch) by (eapply list_elem_of_lookup_2; exact Hk).
    specialize (Hact tr Htr). lia. }
  assert (Hval : <[Z.to_nat (tr_action tr) := float32 v]> row
                   !! Z.to_nat (tr_action tr)
                 = Some (float32 v))
    by (apply list_lookup_insert_eq; exact Hin).
  split; [exact Hcall|]. split; [exact Hrow|]. split; [exact Hq|].
  split; [|split].
  - rewrite Hval. unfold td_target in Hv.
    destruct (tr_done tr); [inversion Hv; reflexivity|].
    destruct (amax q_next) as [m|e]; simpl in Hv; [|discriminate].
    inversion Hv; reflexivity.
  - rewrite Hval. eexists; reflexivity.
  - intros j Hj. apply list_lookup_insert_ne. congruence.
Qed.

End ReplayFacts.

(** The theorem on a minibatch of two CartPole transitions, the second one
    terminal, with the two-action network; the rewards are 0.1 and 1. *)
Lemma replay_fits_q_learning_targets_witness :
  let minibatch : list (transition Z Binary64.float) :=
    [Transition 0 1 (Binary64.truediv 1 10) 1 false;
     Transition 1 0 (Binary64.float_of_int 1) 2 true] in
  let online : Toy.Net := (Binary64.float_of_int 0, Binary64.float_of_int 0) in
  let gamma := Binary64.truediv 95 100 in
  Forall (fun tr => 0 <= tr_action tr < Z.of_nat 2) minibatch /\
  exists final calls,
    replay_loop online online gamma minibatch = Ok (final, calls) /\
    length calls = length minibatch /\
    forall k tr, minibatch !! k = Some tr ->
      exists prediction q_next target,
        calls !! k = Some (tr_state tr, [target]) /\
        predict (online_after online calls k) (tr_state tr) = [prediction] /\
        predict online (tr_next_state tr) = [q_next] /\
        target !! Z.to_nat (tr_action tr)
          = (if tr_done tr then Some (float32 (tr_reward tr))
             else match amax q_next with
                  | Ok m => Some (float32 (add (tr_reward tr) (mul gamma m)))
                  | Raise _ => None
                  end) /\
        is_Some (target !! Z.to_nat (tr_action tr)) /\
        forall j, j <> Z.to_nat (tr_action tr) -> target !! j = prediction !! j.
Proof.
  intros minibatch online gamma.
  assert (Hact : Forall (fun tr => 0 <= tr_action tr < Z.of_nat 2) minibatch).
  { repeat constructor; simpl; lia. }
  split; [exact Hact|].
  apply (replay_fits_q_learning_targets 2).
  - lia.
  - intros [q0 q1] s. exists [q0; q1]. split; reflexivity.
  - exact Hact.
Defined.

(** The entry is not always the reward itself: a terminal transition with
    the reward 0.1 is fitted on 0.100000001490116..., the nearest [float32],
    and a transition with the reward 1 whose next state has the greatest
    Q-value 0.5 on [float32 (1 + 0.95 * 0.5)], which is not the binary64
    number [1 + 0.95 * 0.5]. *)
Lemma fit_target_is_not_the_reward_itself :
  let terminal : transition Z Binary64.float :=
    Transition 0 0 (Binary64.truediv 1 10) 1 true in
  let running : transition Z Binary64.float :=
    Transition 0 1 (Binary64.float_of_int 1) 1 false in
  let online : Toy.Net := (Binary64.float_of_int 0, Binary64.float_of_int 0) in
  let target_net : Toy.Net := (Binary64.truediv 1 2, Binary64.float_of_int 0) in
  let gamma := Binary64.truediv 95 100 in
  (exists final target,
     replay_loop online target_net gamma [terminal]
     = Ok (final, [(tr_state terminal, [target])]) /\
     target !! Z.to_nat (tr_action terminal)
     = Some (Binary64.to_float32 (tr_reward terminal)) /\
     target !! Z.to_nat (tr_action terminal) <> Some (tr_reward terminal)) /\
  (exists final target,
     replay_loop online target_net gamma [running]
     = Ok (final, [(tr_state running, [target])]) /\
     predict (Rng := Toy.Rng) target_net (tr_next_state running)
     = [[Binary64.truediv 1 2; Binary64.float_of_int 0]] /\
     amax [Binary64.truediv 1 2; Binary64.float_of_int 0]
     = Ok (Binary64.truediv 1 2) /\
     target !! Z.to_nat (tr_action running)
     <> Some (add (tr_reward running) (mul gamma (Binary64.truediv 1 2)))).
Proof.
  intros terminal running online target_net gamma. split.
  - eexists _, _. split; [vm_compute; reflexivity|].
    split; [vm_compute; reflexivity|]. vm_compute. discriminate.
  - eexists _, _. split; [vm_compute; reflexivity|].
    split; [reflexivity|]. split; [vm_compute; reflexivity|].
    vm_compute. discriminate.
Qed.

End RLFacts.

(** * The normalisation of the returns in [PGAgent.train] *)

Module PGFacts.

Import RL Binary64 Binary64Facts.

Definition gamma95 : float := truediv 95 100.

(** Three CartPole-like transitions whose rewards make the three
    discounted returns equal to 0.1: the last reward is 0.1 and the two
    before are [0.1 - 0.95 * 0.1]. *)
Definition tenth : float := truediv 1 10.
Definition small_reward : float := SFsub prec emax tenth (SFmul prec emax gamma95 tenth).

Definition agent0 : PGAgent (F := float) (Obs := Z) (Net := Toy.Net) :=
  (pg_init 4 2 (0 : Toy.Rng)).1.

Definition agent3 : PGAgent (F := float) (Obs := Z) (Net := Toy.Net) :=
  pg_remember (pg_remember (pg_remember agent0 0 1 small_reward)
                 1 0 small_reward) 2 1 tenth.

Definition minus_one : float := float_of_int (-1).

(** Unfold the reductions on a literal array down to binary64 operations. *)
Ltac unfold_reductions :=
  cbv [normalize np_std np_mean np_sum map length fold_left div sub mul sqrt
       of_int binary64 Z.of_nat Pos.of_succ_nat];
  change (float_of_int 1) with one.

Lemma normalize_singleton (x : float) :
  valid x = true -> normalize [x] = [S754_nan].
Proof.
  intros Hv. unfold_reductions.
  rewrite !(div_one x Hv).
  destruct x as [s | s | | s m e]; try reflexivity.
  - destruct s; reflexivity.
  - destruct s; reflexivity.
  - rewrite sub_diag_finite. reflexivity.
Qed.

Lemma std_singleton_finite (x : float) :
  valid x = true -> is_finite x = true -> np_std [x] = S754_zero false.
Proof.
  intros Hv Hf. unfold_reductions.
  rewrite !(div_one x Hv).
  destruct x as [s | s | | s m e]; try discriminate.
  - destruct s; reflexivity.
  - rewrite sub_diag_finite. reflexivity.
Qed.

(** The return of a single stored reward: [reward + gamma * 0]. *)
Lemma single_return (gamma reward : float) :
  is_finite gamma = true -> valid reward = true ->
  exists G, discounted_returns gamma [reward] = [G] /\ valid G = true /\
            is_finite G = is_finite reward.
Proof.
  intros Hg Hv. exists (SFadd prec emax reward (SFmul prec emax gamma zero)).
  split; [reflexivity|].
  assert (Hz : exists s, SFmul prec emax gamma zero = S754_zero s).
  { destruct gamma; try discriminate; eexists; reflexivity. }
  destruct Hz as [s Hz]. rewrite Hz.
  destruct reward as [s' | s' | | s' m e]; simpl.
  - destruct s', s; split; reflexivity.
  - split; reflexivity.
  - split; reflexivity.
  - split; [exact Hv | reflexivity].
Qed.

Section Unguarded.

Context {Obs Net Rng : Type} `{Keras float Obs Net Rng}.

(** C9, as the code behaves.  [PGAgent.train] divides the centred returns by
    [np.std] without a guard.  Whenever the computed standard deviation is
    zero, every sample weight is an infinity or NaN; and whenever exactly one
    transition has been stored the single weight is NaN, the standard
    deviation being zero for a finite reward. *)
Theorem pg_train_normalization_unguarded :
  (forall d : list float,
     is_zero (np_std d) = true ->
     Forall (fun w => is_finite w = false) (normalize d)) /\
  (forall (a : PGAgent (F := float) (Obs := Obs) (Net := Net))
          (state : Obs) (action : Z) (reward : float),
     pg_rewards a = [] -> is_finite (pg_gamma a) = true ->
     valid reward = true ->
     let a' := pg_remember a state action reward in
     sample_weights a' = [S754_nan] /\
     (is_finite reward = true ->
      np_std (discounted_returns (pg_gamma a') (pg_rewards a')) = S754_zero false)).
Proof.
  split.
  - intros d Hz. unfold normalize. apply Forall_forall.
    intros w Hw. apply list_elem_of_fmap in Hw as (v & -> & _).
    apply div_zero_not_finite. exact Hz.
  - intros a state action reward Hempty Hg Hv a'.
    unfold sample_weights. subst a'. simpl. rewrite Hempty. simpl app.
    destruct (single_return (pg_gamma a) reward Hg Hv) as (G & HG & HvG & HfG).
    rewrite HG. split.
    + apply normalize_singleton. exact HvG.
    + intros Hf. apply std_singleton_finite; [exact HvG | congruence].
Qed.

End Unguarded.

(** The theorem at the freshly built agent with one stored reward of 1.0
    (one CartPole step). *)
Lemma pg_train_normalization_unguarded_witness :
  pg_rewards agent0 = [] /\ is_finite (pg_gamma agent0) = true /\
  valid (float_of_int 1) = true /\
  sample_weights (pg_remember agent0 0 1 (float_of_int 1)) = [S754_nan] /\
  is_zero (np_std [float_of_int 1]) = true /\
  Forall (fun w => is_finite w = false) (normalize [float_of_int 1]).
Proof.
  destruct (pg_train_normalization_unguarded (Obs := Z) (Net := Toy.Net))
    as [Hzero Hone].
  assert (Hz : is_zero (np_std [float_of_int 1]) = true) by reflexivity.
  destruct (Hone agent0 0 1 (float_of_int 1)
              ltac:(reflexivity) ltac:(reflexivity) ltac:(reflexivity))
    as [Hw _].
  split; [reflexivity|]. split; [reflexivity|]. split; [reflexivity|].
  split; [exact Hw|]. split; [exact Hz|].
  exact (Hzero [float_of_int 1] Hz).
Defined.

(** Equal returns do not make the divisor zero.  The three stored rewards of
    [agent3] give the discounted returns 0.1, 0.1, 0.1; their rounded mean
    is the next binary64 number above 0.1, the standard deviation is not
    zero and the three sample weights are the finite number -1.0. *)
Lemma pg_equal_returns_finite_weights :
  let d := discounted_returns (pg_gamma agent3) (pg_rewards agent3) in
  d = [tenth; tenth; tenth] /\
  is_zero (np_std d) = false /\
  sample_weights agent3 = [minus_one; minus_one; minus_one] /\
  Forall (fun w => is_finite w = true) (sample_weights agent3).
Proof.
  vm_compute. repeat split; repeat constructor.
Qed.

End PGFacts.

(** * Properties of the chapter 04 cells *)

Module Ch04Facts.

Import Ch04 Binary64 Binary64Facts.

(** ** The learning schedule in binary64 *)

Definition pos_finite (x : float) : bool :=
  match x with S754_finite false _ _ => true | _ => false end.

(** Every item is a positive finite number strictly below the one before. *)
Fixpoint decreasing_chain (l : list float) : bool :=
  match l with
  | [] => true
  | x :: l' =>
      pos_finite x &&
      match l' with
      | [] => true
      | y :: _ => SFltb y x && decreasing_chain l'
      end
  end.

Lemma ltb_pos_finite_spec (ma mb : positive) (ea eb : Z) :
  SFltb (S754_finite false ma ea) (S754_finite false mb eb) = true <->
  ea < eb \/ (ea = eb /\ (ma < mb)%positive).
Proof.
  unfold SFltb, SFcompare.
  change (Pos.compare_cont Eq ma mb) with (ma ?= mb)%positive.
  destruct (ea ?= eb) eqn:Ee.
  - apply Z.compare_eq_iff in Ee.
    destruct (ma ?= mb)%positive eqn:Em.
    + apply Pos.compare_eq_iff in Em. split; [discriminate | intros; exfalso; lia].
    + change (ma < mb)%positive in Em. split; [lia | reflexivity].
    + apply Pos.compare_gt_iff in Em. split; [discriminate | intros; exfalso; lia].
  - change (ea < eb) in Ee. split; [lia | reflexivity].
  - apply Z.compare_gt_iff in Ee. split; [discriminate | intros; exfalso; lia].
Qed.

Lemma ltb_pos_finite_trans (a b c : float) :
  pos_finite a = true -> pos_finite b = true -> pos_finite c = true ->
  SFltb a b = true -> SFltb b c = true -> SFltb a c = true.
Proof.
  destruct a as [| | |[] ma ea]; try discriminate.
  destruct b as [| | |[] mb eb]; try discriminate.
  destruct c as [| | |[] mc ec]; try discriminate.
  intros _ _ _. rewrite !ltb_pos_finite_spec. lia.
Qed.

Lemma zero_ltb_pos_finite (x : float) :
  pos_finite x = true -> SFltb zero x = true.
Proof. destruct x as [| | |[] mx ex]; try discriminate. reflexivity. Qed.

Lemma decreasing_chain_head (x : float) (l : list float) :
  decreasing_chain (x :: l) = true ->
  pos_finite x = true /\ decreasing_chain l = true /\
  forall j y, l !! j = Some y -> pos_finite y = true /\ SFltb y x = true.
Proof.
  revert x. induction l as [|y l IH]; intros x Hc.
  - simpl in Hc. rewrite andb_true_r in Hc.
    split; [exact Hc|]. split; [reflexivity|].
    intros j z Hj. rewrite lookup_nil in Hj. discriminate.
  - change (pos_finite x && (SFltb y x && decreasing_chain (y :: l)) = true)
      in Hc.
    apply andb_prop in Hc as [Hx Hc]. apply andb_prop in Hc as [Hyx Hc].
    destruct (IH y Hc) as (Hy & Hl & Hall).
    split; [exact Hx|]. split; [exact Hc|].
    intros [|j] z Hj; simpl in Hj.
    + inversion Hj; subst z. split; assumption.
    + destruct (Hall j z Hj) as [Hz Hzy]. split; [exact Hz|].
      exact (ltb_pos_finite_trans z y x Hz Hy Hx Hzy Hyx).
Qed.

Lemma decreasing_chain_lookup (l : list float) :
  decreasing_chain l = true ->
  forall i j x y, (i < j)%nat -> l !! i = Some x -> l !! j = Some y ->
    pos_finite x = true /\ pos_finite y = true /\ SFltb y x = true.
Proof.
  induction l as [|z l IH]; intros Hc i j x y Hij Hi Hj.
  - rewrite lookup_nil in Hi. discriminate.
  - destruct (decreasing_chain_head z l Hc) as (Hz & Hl & Hall).
    destruct j as [|j]; [lia|]. simpl in Hj.
    destruct i as [|i]; simpl in Hi.
    + inversion Hi; subst x. destruct (Hall j y Hj) as [Hy Hyz].
      split; [exact Hz|]. split; [exact Hy | exact Hyz].
    + apply (IH Hl i j x y); [lia | assumption | assumption].
Qed.

(** The learning rates of the 5000 steps of the run, in order. *)
Definition run_rates : list float :=
  map (fun t => truediv t0 (t + t1)) (range (n_epochs * m)).

Lemma run_rates_chain : decreasing_chain run_rates = true.
Proof. vm_compute. reflexivity. Qed.

Lemma run_rates_lookup (t : Z) :
  0 <= t < n_epochs * m ->
  run_rates !! Z.to_nat t = Some (truediv t0 (t + t1)) /\
  learning_schedule (F := float) t = Ok (truediv t0 (t + t1)).
Proof.
  intros Ht. split.
  - unfold run_rates, range. rewrite list_lookup_fmap, list_lookup_fmap.
    rewrite lookup_seq_lt by (change (n_epochs * m) with 5000 in *; lia).
    simpl. rewrite Z2Nat.id by lia. reflexivity.
  - unfold learning_schedule, t1.
    destruct (t + 50 =? 0) eqn:E; [apply Z.eqb_eq in E; lia|]. reflexivity.
Qed.

(** C10, as the code behaves.  Within the run, that is for the steps
    [0 <= t < n_epochs * m = 5000], the learning rate
    [learning_schedule(t) = t0 / (t + t1)] is computed without an exception,
    is strictly positive, and is strictly smaller at every later step than
    at every earlier one. *)
Theorem learning_schedule_decreasing_within_run (t t' : Z) :
  0 <= t -> t < t' -> t' < n_epochs * m ->
  exists eta eta' : float,
    learning_schedule t = Ok eta /\
    learning_schedule t' = Ok eta' /\
    SFltb zero eta = true /\ SFltb zero eta' = true /\
    SFltb eta' eta = true.
Proof.
  intros H0 Hlt Hrun.
  destruct (run_rates_lookup t ltac:(lia)) as [Hl Hs].
  destruct (run_rates_lookup t' ltac:(lia)) as [Hl' Hs'].
  exists (truediv t0 (t + t1)), (truediv t0 (t' + t1)).
  destruct (decreasing_chain_lookup run_rates run_rates_chain
              (Z.to_nat t) (Z.to_nat t') _ _ ltac:(lia) Hl Hl')
    as (Hp & Hp' & Hdec).
  split; [exact Hs|]. split; [exact Hs'|].
  split; [apply zero_ltb_pos_finite; exact Hp|].
  split; [apply zero_ltb_pos_finite; exact Hp'|].
  exact Hdec.
Qed.

(** The theorem on the first and the last step of the run. *)
Lemma learning_schedule_decreasing_within_run_witness :
  0 <= 0 /\ 0 < 4999 /\ 4999 < n_epochs * m /\
  exists eta eta' : float,
    learning_schedule 0 = Ok eta /\
    learning_schedule 4999 = Ok eta' /\
    SFltb zero eta = true /\ SFltb zero eta' = true /\
    SFltb eta' eta = true.
Proof.
  split; [lia|]. split; [lia|]. split; [reflexivity|].
  apply learning_schedule_decreasing_within_run; [lia | lia | reflexivity].
Defined.

(** Beyond the run the schedule is neither strictly decreasing nor strictly
    positive.  The steps [2^53 - 52] and [2^53 - 51] divide 5 by
    [2^53 - 2] and by [2^53 - 1], two quotients that round to the same
    binary64 number; and at step [10^400] the quotient rounds to [0.0]. *)
Lemma learning_schedule_not_strictly_decreasing :
  let t := 2 ^ 53 - 52 in
  let t' := 2 ^ 53 - 51 in
  (0 <= t /\ t < t') /\
  (exists eta : float,
     learning_schedule t = Ok eta /\ learning_schedule t' = Ok eta /\
     SFltb eta eta = false) /\
  (0 <= 10 ^ 400 /\
   learning_schedule (F := float) (10 ^ 400) = Ok (S754_zero false) /\
   SFltb zero (S754_zero false) = false).
Proof.
  intros t t'. split; [subst t t'; lia|]. split.
  - exists (S754_finite false 5629499534213121 (-103)).
    split; [|split]; vm_compute; reflexivity.
  - split; [lia|]. split; vm_compute; reflexivity.
Qed.

(** ** The two gradient descents against the textbook updates *)

Section Descent.

Context {F Rng : Type} `{Arith F} `{NumPyLib F Rng}.

Lemma for_each_total {A S : Type} (xs : list A) (body : A -> S -> result S)
    (f : A -> S -> S) (s : S) :
  (forall x s, body x s = Ok (f x s)) ->
  for_each xs body s = Ok (fold_left (fun s x => f x s) xs s).
Proof.
  intros Hbody. revert s. induction xs as [|x xs IH]; intros s; simpl.
  - reflexivity.
  - rewrite Hbody. simpl. apply IH.
Qed.

Lemma fold_left_const_iter {A S : Type} (xs : list A) (f : S -> S) (s : S) :
  fold_left (fun s _ => f s) xs s = Nat.iter (length xs) f s.
Proof.
  revert s. induction xs as [|x xs IH]; intros s; simpl; [reflexivity|].
  rewrite IH. symmetry. apply (Nat.iter_succ_r (length xs) f s).
Qed.

Lemma length_range (n : Z) : length (range n) = Z.to_nat n.
Proof. unfold range. rewrite length_map, length_seq. reflexivity. Qed.

Lemma length_dot_X_theta (X_b : list vec2) (theta : vec2) :
  length (dot_X_theta X_b theta) = length X_b.
Proof. unfold dot_X_theta. apply length_map. Qed.

Lemma residual_zip (X_b : list vec2) (y : list F) (theta : vec2) :
  zip_with sub (dot_X_theta X_b theta) y = zip_with (residual_of theta) X_b y.
Proof.
  unfold dot_X_theta. revert y.
  induction X_b as [|x X_b IH]; intros [|yv y]; simpl; try reflexivity.
  rewrite IH. reflexivity.
Qed.

Lemma vdot_column {A : Type} (p : A -> F) (X_b : list A) (r : list F) :
  vdot (map p X_b) r = np_sum (zip_with (fun x ri => mul (p x) ri) X_b r).
Proof.
  unfold vdot. f_equal. revert r.
  induction X_b as [|x X_b IH]; intros [|ri r]; simpl; try reflexivity.
  rewrite IH. reflexivity.
Qed.

(** One pass through the loop body of batch gradient descent is one
    textbook update. *)
Lemma bgd_body_textbook (X_b : list vec2) (y : list F) (theta : vec2) :
  length X_b = length y ->
  bgd_body X_b y theta = Ok (textbook_batch_update X_b y theta).
Proof.
  intros Hlen. unfold bgd_body, col_sub.
  rewrite bool_decide_eq_true_2 by (rewrite length_dot_X_theta; exact Hlen).
  simpl. unfold dot_XT.
  rewrite bool_decide_eq_true_2
    by (rewrite length_zip_with, length_dot_X_theta; lia).
  simpl. rewrite residual_zip, !vdot_column. reflexivity.
Qed.

(** One pass through the inner loop body of stochastic gradient descent is
    one textbook update on the drawn instance. *)
Lemma sgd_body_textbook (X_b : list vec2) (y : list F) (epoch i : Z)
    (theta : vec2) (g : Rng) (x : vec2) (yv : F) :
  length X_b = length y ->
  0 <= epoch -> 0 <= i ->
  0 <= (randint m g).1 ->
  X_b !! Z.to_nat (randint m g).1 = Some x ->
  y !! Z.to_nat (randint m g).1 = Some yv ->
  sgd_body X_b y epoch i (theta, g)
  = Ok (textbook_stochastic_update
          (int_truediv 5 (epoch * 100 + i + 50)) x yv theta,
        (randint m g).2).
Proof.
  intros Hlen He Hi Hidx Hx Hy. unfold sgd_body.
  destruct (randint m g) as [k g'] eqn:Hk. simpl in Hidx, Hx, Hy |- *.
  assert (Hkx : (Z.to_nat k < length X_b)%nat)
    by (apply lookup_lt_is_Some; eexists; exact Hx).
  assert (Hsx : slice X_b k (k + 1) = [x]).
  { unfold slice.
    destruct (k <? 0) eqn:E1; [apply Z.ltb_lt in E1; lia|].
    destruct (k + 1 <? 0) eqn:E2; [apply Z.ltb_lt in E2; lia|].
    replace (Z.to_nat (Z.min (k + 1) (Z.of_nat (length X_b))
                       - Z.min k (Z.of_nat (length X_b)))) with 1%nat by lia.
    replace (Z.to_nat (Z.min k (Z.of_nat (length X_b)))) with (Z.to_nat k) by lia.
    rewrite (drop_S _ _ _ Hx). reflexivity. }
  assert (Hsy : slice y k (k + 1) = [yv]).
  { unfold slice. rewrite <- Hlen.
    destruct (k <? 0) eqn:E1; [apply Z.ltb_lt in E1; lia|].
    destruct (k + 1 <? 0) eqn:E2; [apply Z.ltb_lt in E2; lia|].
    replace (Z.to_nat (Z.min (k + 1) (Z.of_nat (length X_b))
                       - Z.min k (Z.of_nat (length X_b)))) with 1%nat by lia.
    replace (Z.to_nat (Z.min k (Z.of_nat (length X_b)))) with (Z.to_nat k) by lia.
    rewrite (drop_S _ _ _ Hy). reflexivity. }
  rewrite Hsx, Hsy. simpl.
  unfold learning_schedule, t0, t1, m.
  destruct (epoch * 100 + i + 50 =? 0) eqn:E; [apply Z.eqb_eq in E; lia|].
  reflexivity.
Qed.

Lemma textbook_sgd_steps_app (data : list (vec2 * F)) (s1 s2 : list Z)
    (theta : vec2) (g : Rng) :
  textbook_sgd_steps data (s1 ++ s2) theta g
  = match textbook_sgd_steps data s1 theta g with
    | Some (theta', g') => textbook_sgd_steps data s2 theta' g'
    | None => None
    end.
Proof.
  revert theta g. induction s1 as [|k s1 IH]; intros theta g; simpl.
  - reflexivity.
  - destruct (randint 100 g) as [idx g'].
    destruct (data !! Z.to_nat idx) as [[x yv]|]; [apply IH | reflexivity].
Qed.

(** The steps of all the inner loops of the given epochs, in order. *)
Definition steps_of (epochs : list Z) : list Z :=
  concat (map (fun epoch => map (fun i => epoch * 100 + i) (range m)) epochs).

Lemma range_nonneg (n : Z) : Forall (fun i => 0 <= i) (range n).
Proof.
  unfold range. apply Forall_forall. intros i Hi.
  apply list_elem_of_fmap in Hi as (k & -> & _). lia.
Qed.

Lemma steps_of_all_epochs : steps_of (range n_epochs) = range (n_epochs * m).
Proof. vm_compute. reflexivity. Qed.

Section Loops.

Variables (X_b : list (@vec2 F)) (y : list F).
Hypothesis X_b_rows : length X_b = Z.to_nat m.
Hypothesis y_rows : length y = Z.to_nat m.
Hypothesis randint_range : forall g : Rng, 0 <= (randint m g).1 < m.

Lemma drawn_instance (g : Rng) :
  exists x yv,
    X_b !! Z.to_nat (randint m g).1 = Some x /\
    y !! Z.to_nat (randint m g).1 = Some yv /\
    zip X_b y !! Z.to_nat (randint m g).1 = Some (x, yv).
Proof.
  pose proof (randint_range g) as Hr.
  destruct (lookup_lt_is_Some_2 X_b (Z.to_nat (randint m g).1)) as [x Hx];
    [rewrite X_b_rows; lia|].
  destruct (lookup_lt_is_Some_2 y (Z.to_nat (randint m g).1)) as [yv Hy];
    [rewrite y_rows; lia|].
  exists x, yv. split; [exact Hx|]. split; [exact Hy|].
  apply lookup_zip_with_Some. exists x, yv. split; [reflexivity|]. split; assumption.
Qed.

(** The inner loop of one epoch is the run of the textbook steps
    [epoch * m + i]. *)
Lemma sgd_inner_loop (epoch : Z) (steps : list Z) :
  0 <= epoch -> Forall (fun i => 0 <= i) steps ->
  forall theta g, exists r,
    textbook_sgd_steps (zip X_b y) (map (fun i => epoch * 100 + i) steps) theta g
      = Some r /\
    for_each steps (fun i s => sgd_body X_b y epoch i s) (theta, g) = Ok r.
Proof.
  intros He Hsteps. induction Hsteps as [|i steps Hi _ IH]; intros theta g.
  - exists (theta, g). split; reflexivity.
  - destruct (drawn_instance g) as (x & yv & Hx & Hy & Hxy).
    pose proof (randint_range g) as Hr.
    cbn [for_each map textbook_sgd_steps].
    rewrite (sgd_body_textbook X_b y epoch i theta g x yv
               ltac:(congruence) He Hi ltac:(lia) Hx Hy).
    change (randint 100 g) with (randint m g).
    destruct (randint m g) as [idx g'] eqn:Hd.
    cbn [fst snd] in Hxy |- *. rewrite Hxy. apply IH.
Qed.

Lemma sgd_outer_loop (epochs : list Z) :
  Forall (fun epoch => 0 <= epoch) epochs ->
  forall theta g, exists r,
    textbook_sgd_steps (zip X_b y) (steps_of epochs) theta g = Some r /\
    for_each epochs
      (fun epoch s => for_each (range m) (fun i s => sgd_body X_b y epoch i s) s)
      (theta, g) = Ok r.
Proof.
  induction 1 as [|epoch epochs He _ IH]; intros theta g.
  - exists (theta, g). split; reflexivity.
  - destruct (sgd_inner_loop epoch (range m) He (range_nonneg m) theta g)
      as ([theta' g'] & Ht & Hc).
    destruct (IH theta' g') as (r & Ht' & Hc').
    exists r. split.
    + unfold steps_of. cbn [map concat].
      rewrite textbook_sgd_steps_app, Ht. exact Ht'.
    + cbn [for_each]. rewrite Hc. exact Hc'.
Qed.

End Loops.

(** C5.  The two hand-written descents are the textbook algorithms.
    Batch gradient descent starts from the [theta] drawn by
    [np.random.randn(2, 1)] and applies the update
    [theta - eta * (2/m) * X_b^T (X_b theta - y)], with [eta = 0.1],
    exactly [n_iterations = 1000] times.  Stochastic gradient descent starts
    from its own random [theta_sgd] and makes the [n_epochs * m = 50 * 100]
    steps [k = epoch * m + i], each one the update
    [theta_sgd - eta * 2 * xi^T (xi theta_sgd - yi)] on the one instance
    drawn by [np.random.randint(m)], [eta] being the value of
    [learning_schedule] at the step. *)
Theorem gradient_descents_are_textbook (X_b : list vec2) (y : list F) (g : Rng) :
  length X_b = Z.to_nat m -> length y = Z.to_nat m ->
  (forall g : Rng, 0 <= (randint m g).1 < m) ->
  batch_gradient_descent X_b y g
    = Ok (Nat.iter 1000 (textbook_batch_update X_b y) (randn_2_1 g).1,
          (randn_2_1 g).2) /\
  exists theta_sgd g',
    textbook_sgd_steps (zip X_b y) (range (50 * 100))
      (randn_2_1 g).1 (randn_2_1 g).2 = Some (theta_sgd, g') /\
    stochastic_gradient_descent X_b y g = Ok (theta_sgd, g').
Proof.
  intros HX Hy Hrange. split.
  - unfold batch_gradient_descent. destruct (randn_2_1 g) as [theta g1].
    cbn [fst snd].
    rewrite (for_each_total _ _ (fun _ => textbook_batch_update X_b y))
      by (intros; apply bgd_body_textbook; congruence).
    rewrite fold_left_const_iter, length_range. reflexivity.
  - unfold stochastic_gradient_descent.
    destruct (randn_2_1 g) as [theta g1]. cbn [fst snd].
    destruct (sgd_outer_loop X_b y HX Hy Hrange (range n_epochs)
                (range_nonneg n_epochs) theta g1) as ([theta' g'] & Ht & Hc).
    exists theta', g'. split; [|exact Hc].
    rewrite steps_of_all_epochs in Ht. exact Ht.
Qed.

End Descent.

(** The theorem on the data set the notebook builds, with the linear
    congruential generator in place of NumPy's. *)
Lemma gradient_descents_are_textbook_witness :
  let X_b := add_bias (F := float) Toy.dataset.1 in
  let y := Toy.dataset.2 in
  let g : Toy.Rng := 7 in
  length X_b = Z.to_nat m /\ length y = Z.to_nat m /\
  (forall g : Toy.Rng, 0 <= (randint m g).1 < m) /\
  batch_gradient_descent X_b y g
    = Ok (Nat.iter 1000 (textbook_batch_update X_b y) (randn_2_1 g).1,
          (randn_2_1 g).2) /\
  exists theta_sgd g',
    textbook_sgd_steps (zip X_b y) (range (50 * 100))
      (randn_2_1 g).1 (randn_2_1 g).2 = Some (theta_sgd, g') /\
    stochastic_gradient_descent X_b y g = Ok (theta_sgd, g').
Proof.
  intros X_b y g.
  assert (HX : length X_b = Z.to_nat m) by (vm_compute; reflexivity).
  assert (Hy : length y = Z.to_nat m) by (vm_compute; reflexivity).
  assert (Hr : forall g : Toy.Rng, 0 <= (randint m g).1 < m).
  { intros g0. simpl. apply Z.mod_pos_bound. reflexivity. }
  split; [exact HX|]. split; [exact Hy|]. split; [exact Hr|].
  exact (gradient_descents_are_textbook X_b y g HX Hy Hr).
Defined.

End Ch04Facts.
(** * Which computations are deterministic *)

Module DeterminismFacts.

Import Determinism.

Lemma seeded_run_ignores_state (c : computation) :
  c = Ch04_theta_best \/ c = Ch04_theta -> deterministic (observe c).
Proof.
  intros [-> | ->]; intros Rng L g1 g2; reflexivity.
Qed.

Lemma unseeded_draw_depends_on_state : ~ deterministic (observe Ch05_X_reg).
Proof.
  intros Hdet.
  specialize (Hdet Toy.Rng Toy.toy_numpy 1 2).
  vm_compute in Hdet. discriminate Hdet.
Qed.

(** C7, as the code behaves.  The computations of chapter 04 that follow
    [np.random.seed(42)] have a deterministic contract: [theta_best] of the
    normal equation, and the [theta] that batch gradient descent ends with,
    are the same on every execution, whatever the generator's state was
    before the notebook ran.  A cell that draws from the generator without
    seeding it, as [X_reg] of chapter 05, has no such guarantee. *)
Theorem seeded_computations_are_deterministic :
  deterministic (observe Ch04_theta_best) /\
  deterministic (observe Ch04_theta) /\
  ~ deterministic (observe Ch05_X_reg).
Proof.
  split; [apply seeded_run_ignores_state; left; reflexivity|].
  split; [apply seeded_run_ignores_state; right; reflexivity|].
  exact unseeded_draw_depends_on_state.
Qed.

(** It is not so that no computation has a deterministic contract:
    [theta_best] has one. *)
Lemma some_computation_is_deterministic :
  ~ (forall c : computation, ~ deterministic (observe c)).
Proof.
  intros Hnone. apply (Hnone Ch04_theta_best).
  apply seeded_run_ignores_state. left. reflexivity.
Qed.

End DeterminismFacts.

(** * Properties of the notebooks' cells *)

Module PyFacts.

Import Py.

(** ** Failures in code without handlers *)

Definition handler_free (body : list stmt) : Prop :=
  forallb (fun s => negb (has_handler s)) body = true.

Lemma existsb_false_forallb {A : Type} (p : A -> bool) (l : list A) :
  existsb p l = false -> forallb (fun x => negb (p x)) l = true.
Proof.
  induction l as [|x l IH]; simpl; [reflexivity|].
  intros H. apply orb_false_elim in H as [Hx Hl].
  rewrite Hx, (IH Hl). reflexivity.
Qed.

Lemma handler_free_cons (s : stmt) (body : list stmt) :
  handler_free (s :: body) -> has_handler s = false /\ handler_free body.
Proof.
  unfold handler_free. simpl. intros H. apply andb_prop in H as [Hs Hb].
  split; [apply negb_true_iff; exact Hs | exact Hb].
Qed.

Lemma handler_free_blocks (s : stmt) :
  has_handler s = false ->
  match s with
  | SFunctionDef _ _ _ _ _ _ body | SClassDef _ _ body | SWith _ body =>
      handler_free body
  | SFor _ _ body orelse | SWhile _ body orelse | SIf _ body orelse =>
      handler_free body /\ handler_free orelse
  | STry _ _ _ _ => False
  | _ => True
  end.
Proof.
  unfold has_handler, handler_free.
  destruct s; simpl; intros H; try exact I;
    try (apply existsb_false_forallb; exact H);
    try (apply orb_false_elim in H as [H1 H2];
         split; apply existsb_false_forallb; assumption).
  discriminate H.
Qed.

Section Propagation.

Variable o : oracle.

(** No operation numbered from [a] up to [b], [b] excluded, fails. *)
Definition clean (a b : nat) : Prop :=
  forall k, (a <= k < b)%nat -> fails o k = None.

(** What a run from [st] to [x.2] with the result [x.1] did: either none
    of its operations failed, or its last operation failed and the
    exception of that operation is the result. *)
Definition post {A : Type} (st : state) (x : res A * state) : Prop :=
  (ops st <= ops x.2)%nat /\
  (clean (ops st) (ops x.2) \/
   exists e, x.1 = Sig (SigRaise e) /\ (ops st < ops x.2)%nat /\
             clean (ops st) (ops x.2 - 1) /\
             fails o (ops x.2 - 1) = Some e).

(** The functions the kernel knows have no handlers. *)
Definition good (st : state) : Prop :=
  Forall (fun f => handler_free (snd (snd f))) (functions st).

Definition sound {A : Type} (m : M A) : Prop :=
  forall st, good st -> post st (m st) /\ good (m st).2.

Lemma post_same_ops {A : Type} (st st' : state) (r : res A) :
  ops st' = ops st -> post st (r, st').
Proof.
  intros Hops. unfold post. simpl. rewrite Hops. split; [lia|].
  left. intros k Hk. lia.
Qed.

Lemma sound_ret {A : Type} (a : A) : sound (ret a).
Proof. intros st Hg. split; [apply post_same_ops; reflexivity | exact Hg]. Qed.

Lemma sound_signal {A : Type} (s : signal) : sound (signal_ (A := A) s).
Proof. intros st Hg. split; [apply post_same_ops; reflexivity | exact Hg]. Qed.

Lemma sound_bind {A B : Type} (m : M A) (k : A -> M B) :
  sound m -> (forall a, sound (k a)) -> sound (bindM m k).
Proof.
  intros Hm Hk st Hg. unfold bindM.
  destruct (Hm st Hg) as [[Hle Hpost] Hg1].
  destruct (m st) as [[a|s] st1]; simpl in *.
  - destruct (Hk a st1 Hg1) as [[Hle2 Hpost2] Hg2].
    split; [|exact Hg2]. split; [lia|].
    destruct Hpost as [Hc | (e & He & _)]; [|discriminate He].
    destruct Hpost2 as [Hc2 | (e & He & Hlt & Hc2 & Hf)].
    + left. intros j Hj.
      destruct (Nat.lt_ge_cases j (ops st1)); [apply Hc | apply Hc2]; lia.
    + right. exists e. split; [exact He|]. split; [lia|]. split; [|exact Hf].
      intros j Hj.
      destruct (Nat.lt_ge_cases j (ops st1)); [apply Hc | apply Hc2]; lia.
  - split; [|exact Hg1]. split; [exact Hle|].
    destruct Hpost as [Hc | (e & He & Hlt & Hc & Hf)].
    + left. exact Hc.
    + right. exists e. inversion He; subst s.
      split; [reflexivity|]. split; [exact Hlt|]. split; [exact Hc | exact Hf].
Qed.

Lemma sound_perform (what : string) : sound (perform o what).
Proof.
  intros st Hg. unfold perform.
  destruct (fails o (ops st)) as [e|] eqn:Hf; simpl.
  - split; [|exact Hg]. split; [simpl; lia|]. right. exists e. simpl.
    split; [reflexivity|]. split; [lia|].
    rewrite Nat.sub_0_r. split; [intros j Hj; lia | exact Hf].
  - split; [|exact Hg]. split; [simpl; lia|]. left. simpl.
    intros j Hj. assert (j = ops st) as -> by lia. exact Hf.
Qed.

Lemma sound_decide : sound (decide_ o).
Proof. intros st Hg. split; [apply post_same_ops; reflexivity | exact Hg]. Qed.

Lemma sound_load (x : string) : sound (load x).
Proof.
  intros st Hg. unfold load.
  destruct (unbound x st); (split; [apply post_same_ops; reflexivity | exact Hg]).
Qed.

Lemma good_remove_function (x : string) fs :
  Forall (fun f => handler_free (snd (snd f))) fs ->
  Forall (fun f : string * (list string * list stmt) => handler_free (snd (snd f)))
         (remove_function x fs).
Proof.
  intros H. unfold remove_function. rewrite Forall_forall in *.
  intros f Hf. apply H. apply list_elem_of_In. apply list_elem_of_In in Hf.
  apply filter_In in Hf as [Hf _]. exact Hf.
Qed.

Lemma good_bind_name (x : string) (st : state) :
  good st -> good (bind_name x st) /\ ops (bind_name x st) = ops st.
Proof.
  intros Hg. unfold bind_name.
  destruct (scopes st) as [|s ss]; simpl.
  - split; [|reflexivity]. unfold good. simpl.
    apply good_remove_function. exact Hg.
  - split; [exact Hg | reflexivity].
Qed.

Lemma sound_store (x : string) : sound (store x).
Proof.
  intros st Hg. unfold store. destruct (good_bind_name x st Hg) as [Hg' Hops].
  split; [apply post_same_ops; exact Hops | exact Hg'].
Qed.

Lemma sound_def (x : string) (params : list string) (body : list stmt) :
  handler_free body -> sound (def_ x params body).
Proof.
  intros Hb st Hg. unfold def_, define_function.
  destruct (scopes st) as [|s ss] eqn:Hs.
  - split; [apply post_same_ops; reflexivity|]. unfold good. simpl.
    constructor; [exact Hb | apply good_remove_function; exact Hg].
  - destruct (good_bind_name x st Hg) as [Hg' Hops].
    split; [apply post_same_ops; exact Hops | exact Hg'].
Qed.

Lemma sound_with_scope {A : Type} (s : scope) (m : M A) :
  sound m -> sound (with_scope s m).
Proof.
  intros Hm st Hg. unfold with_scope.
  destruct (Hm (set_scopes st (s :: scopes st)) Hg) as [Hpost Hg1].
  destruct (m (set_scopes st (s :: scopes st))) as [r st1].
  split; [exact Hpost | exact Hg1].
Qed.

Lemma sound_with_frame {A : Type} (s : scope) (m : M A) :
  sound m -> sound (with_frame s m).
Proof.
  intros Hm st Hg. unfold with_frame.
  destruct (Hm (set_scopes st [s]) Hg) as [Hpost Hg1].
  destruct (m (set_scopes st [s])) as [r st1].
  split; [exact Hpost | exact Hg1].
Qed.

Lemma sound_iterM {A : Type} (f : A -> M unit) (l : list A) :
  (forall x, sound (f x)) -> sound (iterM f l).
Proof.
  intros Hf. induction l as [|x l IH]; simpl.
  - apply sound_ret.
  - apply sound_bind; [apply Hf | intros _; exact IH].
Qed.

Lemma sound_optM {A : Type} (f : A -> M unit) (x : option A) :
  (forall a, sound (f a)) -> sound (optM f x).
Proof. intros Hf. destruct x; simpl; [apply Hf | apply sound_ret]. Qed.

Lemma post_not_raise {A B : Type} (st st1 : state) (r : res A) (r' : res B) :
  post st (r, st1) -> (forall e, r <> Sig (SigRaise e)) -> post st (r', st1).
Proof.
  intros [Hle Hp] Hr. split; [exact Hle|].
  destruct Hp as [Hc | (e & He & _)]; [left; exact Hc|].
  exfalso. exact (Hr e He).
Qed.

Lemma post_sig {A B : Type} (st st1 : state) (s : signal) :
  post (A := A) st (Sig s, st1) -> post (A := B) st (Sig s, st1).
Proof.
  intros [Hle Hp]. split; [exact Hle|].
  destruct Hp as [Hc | (e & He & Hrest)]; [left; exact Hc|].
  right. exists e. inversion He; subst s. split; [reflexivity | exact Hrest].
Qed.

Lemma sound_loop_body (m : M unit) : sound m -> sound (loop_body m).
Proof.
  intros Hm st Hg. unfold loop_body. destruct (Hm st Hg) as [Hpost Hg1].
  destruct (m st) as [[[]|s] st1]; simpl in *.
  - split; [|exact Hg1]. eapply post_not_raise; [exact Hpost | discriminate].
  - destruct s; (split; [|exact Hg1]);
      try (eapply post_not_raise; [exact Hpost | discriminate]);
      exact (post_sig _ _ _ Hpost).
Qed.

Lemma sound_function_body (m : M unit) : sound m -> sound (function_body m).
Proof.
  intros Hm st Hg. unfold function_body. destruct (Hm st Hg) as [Hpost Hg1].
  destruct (m st) as [[[]|s] st1]; simpl in *.
  - split; assumption.
  - destruct s; (split; [|exact Hg1]);
      try (eapply post_not_raise; [exact Hpost | discriminate]);
      exact Hpost.
Qed.

Definition sound_at (n : nat) : Prop :=
  (forall e, sound (eval o n e)) /\
  (forall f, sound (call o n f)) /\
  (forall gens elts, sound (comp o n gens elts)) /\
  (forall t ifs gens elts, sound (comp_loop o n t ifs gens elts)) /\
  (forall t, sound (assign o n t)) /\
  (forall s, has_handler s = false -> sound (exec o n s)) /\
  (forall body, handler_free body -> sound (exec_block o n body)) /\
  (forall t body orelse, handler_free body -> handler_free orelse ->
     sound (for_loop o n t body orelse)) /\
  (forall test body orelse, handler_free body -> handler_free orelse ->
     sound (while_loop o n test body orelse)).

Lemma lookup_function_good (x : string) (st : state) params body :
  good st -> lookup_function x st = Some (params, body) -> handler_free body.
Proof.
  intros Hg. unfold lookup_function.
  destruct (bound_in x (scopes st)); [discriminate|].
  destruct (List.find _ (functions st)) as [[y pb]|] eqn:Hf; [|discriminate].
  simpl. intros Heq. inversion Heq; subst pb.
  apply find_some in Hf as [Hin _].
  unfold good in Hg. rewrite Forall_forall in Hg.
  apply (Hg (y, (params, body))). apply list_elem_of_In. exact Hin.
Qed.

(** Break a goal [sound m] down along the structure of [m]. *)
Ltac sound_step :=
  match goal with
  | |- sound (ret _) => apply sound_ret
  | |- sound (signal_ _) => apply sound_signal
  | |- sound (perform _ _) => apply sound_perform
  | |- sound (decide_ _) => apply sound_decide
  | |- sound (load _) => apply sound_load
  | |- sound (store _) => apply sound_store
  | |- sound (bindM _ _) => apply sound_bind; [|intros ?]
  | |- sound (iterM _ _) => apply sound_iterM; intros ?
  | |- sound (optM _ _) => apply sound_optM; intros ?
  | |- sound (with_scope _ _) => apply sound_with_scope
  | |- sound (loop_body _) => apply sound_loop_body
  | |- sound (function_body _) => apply sound_function_body
  | |- sound (if ?b then _ else _) => destruct b
  | |- sound _ => solve [auto]
  end.

Lemma interp_sound (n : nat) : sound_at n.
Proof.
  induction n as [|n IH].
  - unfold sound_at. repeat apply conj; intros; apply sound_signal.
  - destruct IH as (He & Hcall & Hcomp & Hcl & Hassign & Hexec & Hblock
                    & Hfor & Hwhile).
    split; [|split; [|split; [|split; [|split; [|split; [|split; [|split]]]]]]].
    + intros e. destruct e; simpl; repeat sound_step.
    + intros f st Hg. destruct f; try (apply sound_perform; exact Hg).
      simpl. destruct (lookup_function id st) as [[params body]|] eqn:Hl;
        [|apply sound_perform; exact Hg].
      apply sound_with_frame; [|exact Hg]. apply sound_function_body.
      apply Hblock. exact (lookup_function_good id st params body Hg Hl).
    + intros gens elts. destruct gens as [|[t it ifs] gens]; simpl;
        repeat sound_step.
    + intros t ifs gens elts. simpl. repeat sound_step.
    + intros t. destruct t; simpl; repeat sound_step.
    + intros s Hs. pose proof (handler_free_blocks s Hs) as Hb.
      destruct s; simpl in Hb |- *;
        try match type of Hb with _ /\ _ => destruct Hb as [Hb1 Hb2] end;
        try match type of Hb with False => destruct Hb end;
        try solve [repeat sound_step].
      (* def *)
      apply sound_bind; [repeat sound_step|intros _].
      apply sound_bind; [repeat sound_step|intros _].
      destruct decorators; [apply sound_def; exact Hb | repeat sound_step].
    + intros body Hb. destruct body as [|s body]; simpl; [apply sound_ret|].
      apply handler_free_cons in Hb as [Hs Hb]. repeat sound_step.
    + intros t body orelse Hb Ho. simpl. repeat sound_step.
    + intros test body orelse Hb Ho. simpl. repeat sound_step.
Qed.

(** A run of cells without handlers, from a kernel in which no operation
    has failed so far. *)
Lemma run_cells_sound (fuel : nat) (cells : list (list stmt)) :
  Forall handler_free cells ->
  forall (k : nat) (st : state),
    good st -> clean 0 (ops st) ->
    let x := run_cells o fuel k cells st in
    (ops st <= ops x.2)%nat /\
    (clean 0 (ops x.2) \/
     exists cell e, x.1 = StoppedAt cell e /\ (0 < ops x.2)%nat /\
                    clean 0 (ops x.2 - 1) /\ fails o (ops x.2 - 1) = Some e).
Proof.
  induction 1 as [|c cells Hc _ IH]; intros k st Hg Hclean; simpl.
  - split; [lia | left; exact Hclean].
  - destruct (interp_sound fuel) as (_ & _ & _ & _ & _ & _ & Hblock & _).
    destruct (Hblock c Hc st Hg) as [[Hle Hpost] Hg1].
    destruct (exec_block o fuel c st) as [r st1]. simpl in Hle, Hpost, Hg1.
    assert (Hcase :
      clean 0 (ops st1) \/
      exists e, r = Sig (SigRaise e) /\ (0 < ops st1)%nat /\
                clean 0 (ops st1 - 1) /\ fails o (ops st1 - 1) = Some e).
    { destruct Hpost as [Hc1 | (e & He & Hlt & Hc1 & Hf)].
      - left. intros j Hj.
        destruct (Nat.lt_ge_cases j (ops st)); [apply Hclean | apply Hc1]; lia.
      - right. exists e. split; [exact He|]. split; [lia|]. split; [|exact Hf].
        intros j Hj.
        destruct (Nat.lt_ge_cases j (ops st)); [apply Hclean | apply Hc1]; lia. }
    destruct Hcase as [Hc1 | (e & -> & Hlt & Hc1 & Hf)].
    + destruct r as [[]|s].
      * destruct (IH (S k) st1 Hg1 Hc1) as [Hle2 Hrest]. split; [lia | exact Hrest].
      * destruct s; try (destruct (IH (S k) st1 Hg1 Hc1) as [Hle2 Hrest];
                         split; [lia | exact Hrest]);
          (split; [exact Hle | left; exact Hc1]).
    + simpl. split; [exact Hle|]. right. exists k, e.
      split; [reflexivity|]. split; [exact Hlt|]. split; [exact Hc1 | exact Hf].
Qed.

End Propagation.

Lemma repository_handler_free :
  Forall (fun nb => Forall handler_free (nb_cells nb)) repository.
Proof.
  assert (H : forallb (fun nb =>
                forallb (fun c => forallb (fun s => negb (has_handler s)) c)
                        (nb_cells nb)) repository = true)
    by (vm_compute; reflexivity).
  rewrite forallb_forall in H. apply Forall_forall. intros nb Hnb.
  apply list_elem_of_In in Hnb. specialize (H nb Hnb).
  rewrite forallb_forall in H. apply Forall_forall. intros c Hc.
  apply list_elem_of_In in Hc. exact (H c Hc).
Qed.



(** ** Names *)

(** C1.  Every notebook should run top to bottom on its own cells, every
    name being bound by an earlier cell or import.  The first code cell of
    [unnamed/part_000] (chapter 11) does not: whatever the data, as long as
    no operation fails beforehand, the run stops there with a [NameError]
    for [input_dim], which [keras.layers.Dense] is given as
    [input_shape=(input_dim,)] and which no cell defines. *)
Theorem part_000_first_cell_raises_NameError (choose : nat -> bool) (n : nat) :
  (run_notebook {| fails := fun _ => None; choose := choose |} (20 + n)
     part_000).1
  = StoppedAt 1 (NameError "input_dim").
Proof. vm_compute. reflexivity. Qed.

(** How the run of each notebook ends when nothing fails and the first
    iteration met has one item: five notebooks stop on an unbound name. *)
Lemma runs_of_the_notebooks :
  map (fun nb => (run_notebook (all_succeed 1) 100 nb).1) repository
  = [Completed; Completed; Completed; Completed; Completed; Completed;
     StoppedAt 7 (NameError "load_iris"); Completed; Completed;
     StoppedAt 6 (NameError "np"); StoppedAt 5 (NameError "tf");
     StoppedAt 2 (NameError "tf"); Completed;
     StoppedAt 1 (NameError "input_dim");
     Completed; Completed; Completed; Completed; Completed].
Proof. vm_compute. reflexivity. Qed.

(** ** Persistent effects *)

(** Find an operation in the list of those a run performed. *)
Ltac find_performed :=
  vm_compute; repeat first [left; reflexivity | right].

Definition ch02_file : string :=
  "Part1 Fundamental of Machine Learning/Chapter 02/02 End to End Machine Learning Project.ipynb".
Definition ch03_file : string :=
  "Part1 Fundamental of Machine Learning/Chapter 03/03 Classification.ipynb".
Definition ch07_file : string :=
  "Part1 Fundamental of Machine Learning/Chapter 07/07 Ensemble Learning and Random Forests.ipynb".
Definition ch13_file : string :=
  "Part2 Neural Network and Deep Learning/Chapter 13/13  Loading and Preprocessing Data.ipynb".
Definition ch19_file : string :=
  "Part2 Neural Network and Deep Learning/Chapter 19/19 Training and Deploying TensorFlow Models at Scale.ipynb".

(** C2, as the code behaves.  Eight code cells call operations whose effect
    outlives the kernel, and no other cell does: chapter 02 creates a
    directory, downloads an archive and extracts it; chapter 03 downloads
    MNIST; chapter 13 writes text files and a TFRecord file; chapter 19
    saves a model and writes its TFLite conversion; chapter 14 downloads
    pretrained weights and a data set.  In chapters 02, 13 and 19 these
    operations are performed when the notebook runs, nothing fails and
    each loop has one item. *)
Theorem cells_with_persistent_effects :
  report persistent_effects repository
  = [(ch02_file, 2%nat,
      [("os.makedirs", MakesDirectory);
       ("urllib.request.urlretrieve", DownloadsToDisk);
       ("housing_tgz.extractall", WritesFile)]);
     (ch03_file, 1%nat, [("fetch_openml", DownloadsToDisk)]);
     (ch13_file, 2%nat, [("os.makedirs", MakesDirectory); ("open", WritesFile)]);
     (ch13_file, 6%nat, [("tf.io.TFRecordWriter", WritesFile)]);
     (ch19_file, 1%nat, [("tf.saved_model.save", SavesModel)]);
     (ch19_file, 4%nat, [("open", WritesFile)]);
     ("unnamed/part_002", 3%nat, [("ResNet50", DownloadsToDisk)]);
     ("unnamed/part_002", 4%nat,
      [("tfds.load", DownloadsToDisk); ("ResNet50", DownloadsToDisk)])] /\
  (let o := one_item_each in
   In "urllib.request.urlretrieve()" (performed (run_notebook o 100 ch02)) /\
   In "housing_tgz.extractall()" (performed (run_notebook o 100 ch02)) /\
   In "open()" (performed (run_notebook o 100 ch13)) /\
   In "tf.saved_model.save()" (performed (run_notebook o 100 ch19))).
Proof.
  split; [vm_compute; reflexivity|].
  split; [find_performed|]. split; [find_performed|].
  split; find_performed.
Qed.

(** It is not so that no operation writes files, downloads to persistent
    storage or saves a model: the first code cell of chapter 19 calls
    [tf.saved_model.save], and the call is performed when the notebook
    runs. *)
Lemma chapter_19_saves_a_model :
  ch19 ∈ repository /\
  nb_cells ch19 !! 0%nat = Some ch19_cell_1 /\
  persistent_effects ch19_cell_1 = [("tf.saved_model.save", SavesModel)] /\
  In "tf.saved_model.save()" (performed (run_notebook one_item_each 100 ch19)).
Proof.
  split; [apply list_elem_of_In; simpl; tauto|].
  split; [reflexivity|]. split; [vm_compute; reflexivity|].
  find_performed.
Qed.

(** ** Parallel execution *)

(** C3, as the code is.  No cell imports a module for threads, processes
    or coroutines, but ten code cells request parallel execution from a
    library: [n_jobs=-1] in chapter 07, [num_parallel_calls] and [prefetch]
    of [tf.data] in chapters 13, 14 and 18, and a
    [tf.distribute.MirroredStrategy] in chapter 19. *)
Theorem cells_requesting_parallel_execution :
  report parallel_requests repository
  = [(ch07_file, 3%nat, ["BaggingClassifier"]);
     (ch07_file, 4%nat, ["BaggingClassifier"]);
     (ch07_file, 5%nat, ["RandomForestClassifier"]);
     (ch07_file, 6%nat, ["ExtraTreesClassifier"]);
     (ch13_file, 2%nat, ["dataset.interleave"]);
     (ch13_file, 4%nat, ["dataset.map"]);
     (ch13_file, 5%nat, ["dataset.interleave"; "dataset.prefetch"]);
     (ch19_file, 6%nat, ["tf.distribute.MirroredStrategy"]);
     ("unnamed/part_002", 4%nat, ["dataset[].map().batch().prefetch"]);
     ("unnamed/part_003", 6%nat,
      ["replay_buffer.as_dataset().prefetch"; "replay_buffer.as_dataset"])] /\
  report concurrency_imports repository = [].
Proof. split; vm_compute; reflexivity. Qed.

(** It is not so that no cell requests multi-device execution or parallel
    jobs: the sixth code cell of chapter 19 builds a
    [tf.distribute.MirroredStrategy], and the fifth of chapter 07 gives its
    [RandomForestClassifier] [n_jobs=-1]. *)
Lemma chapters_19_and_07_request_parallelism :
  ch19 ∈ repository /\ ch07 ∈ repository /\
  nb_cells ch19 !! 5%nat = Some ch19_cell_6 /\
  nb_cells ch07 !! 4%nat = Some ch07_cell_5 /\
  parallel_requests ch19_cell_6 = ["tf.distribute.MirroredStrategy"] /\
  parallel_requests ch07_cell_5 = ["RandomForestClassifier"].
Proof.
  split; [apply list_elem_of_In; simpl; tauto|].
  split; [apply list_elem_of_In; simpl; tauto|].
  split; [reflexivity|]. split; [reflexivity|].
  split; vm_compute; reflexivity.
Qed.

End PyFacts.

(** * Chapter 18, continued: facts *)

Module PolicyGradientFacts.

Import RL PolicyGradient.

Section Returns.

Context {F : Type} `{Arith F}.

Lemma discounted_fold (gamma : F) (rewards : list F) :
  fold_left
    (fun '(G_t, discounted_rewards) reward =>
       let G_t := add reward (mul gamma G_t) in
       (G_t, G_t :: discounted_rewards))
    (rev rewards) (of_int 0, [])
  = (hd (of_int 0) (discounted_returns gamma rewards),
     discounted_returns gamma rewards).
Proof.
  unfold discounted_returns.
  induction rewards as [|r rs IH]; [reflexivity|].
  cbn [rev]. rewrite !fold_left_app. rewrite IH. reflexivity.
Qed.

Lemma discounted_returns_cons (gamma reward : F) (rewards : list F) :
  discounted_returns gamma (reward :: rewards)
  = add reward (mul gamma (hd (of_int 0) (discounted_returns gamma rewards)))
      :: discounted_returns gamma rewards.
Proof.
  unfold discounted_returns at 1. cbn [rev]. rewrite fold_left_app.
  rewrite discounted_fold. reflexivity.
Qed.

Lemma length_discounted_returns (gamma : F) (rewards : list F) :
  length (discounted_returns gamma rewards) = length rewards.
Proof.
  induction rewards as [|r rs IH]; [reflexivity|].
  rewrite discounted_returns_cons. cbn [length]. rewrite IH. reflexivity.
Qed.

Lemma length_normalize (d : list F) : length (normalize d) = length d.
Proof. unfold normalize. apply length_map. Qed.

(** X2.  The first loop of [PGAgent.train] walks the rewards backwards and
    inserts each return at the front; what it builds is the list of the
    discounted returns of the textbook, in the order of the rewards: one
    return per reward, the return of a step being its reward plus [gamma]
    times the return of the next step, and [0] standing for the return
    after the last step. *)
Theorem discounted_returns_backward_recursion (gamma : F) (rewards : list F) :
  length (discounted_returns gamma rewards) = length rewards /\
  forall (t : nat) (reward : F),
    rewards !! t = Some reward ->
    discounted_returns gamma rewards !! t
    = Some (add reward
              (mul gamma
                 (default (of_int 0)
                    (discounted_returns gamma rewards !! S t)))).
Proof.
  split; [apply length_discounted_returns|].
  induction rewards as [|r rs IH]; intros t reward Ht; [discriminate|].
  rewrite discounted_returns_cons.
  destruct t as [|t].
  - injection Ht as ->. cbn [lookup list_lookup].
    destruct (discounted_returns gamma rs); reflexivity.
  - cbn [lookup list_lookup] in *. apply IH. exact Ht.
Qed.

End Returns.

Section Agent.

Context {F Obs Net Rng : Type} {arith : Arith F} {keras : Keras F Obs Net Rng}
  {reshape : Reshape Obs}.

Definition in_step (a : @PGAgent F Obs Net) : Prop :=
  length (pg_actions a) = length (pg_states a) /\
  length (pg_rewards a) = length (pg_states a).

Lemma pg_train_clears (a a' : @PGAgent F Obs Net) :
  pg_train a = Ok a' ->
  pg_states a <> [] /\
  pg_states a' = [] /\ pg_actions a' = [] /\ pg_rewards a' = [] /\
  pg_gamma a' = pg_gamma a /\ pg_state_size a' = pg_state_size a /\
  pg_action_size a' = pg_action_size a.
Proof.
  unfold pg_train. intros E.
  destruct (to_categorical (pg_actions a) (pg_action_size a)) as [acts|e];
    [|discriminate].
  cbn in E. case_bool_decide as Hl; [discriminate|].
  cbn in E. injection E as <-. cbn.
  split; [|tauto]. intros E. apply Hl. rewrite E. reflexivity.
Qed.

Lemma pg_step_in_step (a a' : @PGAgent F Obs Net) :
  pg_step a a' -> in_step a -> in_step a'.
Proof.
  intros Hs [Ha Hr]. destruct Hs as [a state action reward | a state g r _ | a a' Ht].
  - split; cbn; rewrite !length_app; cbn; lia.
  - split; assumption.
  - apply pg_train_clears in Ht as (_ & E1 & E2 & E3 & _).
    unfold in_step. rewrite E1, E2, E3. split; reflexivity.
Qed.

Lemma pg_reachable_in_step (a : @PGAgent F Obs Net) :
  pg_reachable a -> in_step a.
Proof.
  induction 1 as [ss asz g | a a' _ IH Hs].
  - unfold pg_init. destruct (build_sequential _ _ _ _ _ _). split; reflexivity.
  - exact (pg_step_in_step a a' Hs IH).
Qed.

(** X1.  The three lists of [PGAgent] stay in step: whatever the sequence
    of [remember], [act] and [train] calls on a new agent, it holds as many
    actions and rewards as states, so that [train] hands [train_on_batch]
    one sample weight per stored state. *)
Theorem pg_memory_lists_stay_in_step (a : @PGAgent F Obs Net) :
  pg_reachable a ->
  length (pg_actions a) = length (pg_states a) /\
  length (pg_rewards a) = length (pg_states a) /\
  length (sample_weights a) = length (pg_states a).
Proof.
  intros Hr. destruct (pg_reachable_in_step a Hr) as [Ha Hw].
  split; [exact Ha|]. split; [exact Hw|].
  unfold sample_weights. rewrite length_normalize, length_discounted_returns.
  exact Hw.
Qed.

(** X3.  [train] on an agent that has remembered nothing never succeeds:
    [np.vstack] of the empty list of states raises [ValueError], unless
    [to_categorical] has raised before; and a [train] that succeeds leaves
    the memory empty and the discount and the sizes as they were. *)
Theorem pg_train_needs_a_remembered_step (a : @PGAgent F Obs Net) :
  (pg_states a = [] ->
   pg_train a = Raise ValueError \/
   exists e, to_categorical (pg_actions a) (pg_action_size a) = Raise e /\
             pg_train a = Raise e) /\
  (forall a', pg_train a = Ok a' ->
     pg_states a <> [] /\
     pg_states a' = [] /\ pg_actions a' = [] /\ pg_rewards a' = [] /\
     pg_gamma a' = pg_gamma a /\ pg_state_size a' = pg_state_size a /\
     pg_action_size a' = pg_action_size a).
Proof.
  split; [|apply pg_train_clears].
  intros E. unfold pg_train.
  destruct (to_categorical (pg_actions a) (pg_action_size a)) as [acts|e].
  - left. cbn. rewrite E. reflexivity.
  - right. exists e. split; reflexivity.
Qed.

End Agent.

(** The theorems at an agent for CartPole that has remembered two steps. *)

Definition two_steps : @PGAgent Binary64.float Z Toy.Net :=
  pg_remember
    (pg_remember (pg_init 4 2 (0 : Toy.Rng)).1 0 1 (Binary64.float_of_int 1))
    1 0 (Binary64.float_of_int 1).

Lemma two_steps_reachable :
  pg_reachable (Rng := Toy.Rng) (reshape := ToyWorld.reshape_number) two_steps.
Proof.
  unfold two_steps.
  eapply pg_reach_step; [eapply pg_reach_step; [apply pg_reach_init|]|];
    apply pg_step_remember.
Qed.

Lemma pg_memory_lists_stay_in_step_witness :
  pg_reachable (Rng := Toy.Rng) (reshape := ToyWorld.reshape_number) two_steps /\
  length (pg_actions two_steps) = length (pg_states two_steps) /\
  length (pg_rewards two_steps) = length (pg_states two_steps) /\
  length (sample_weights two_steps) = length (pg_states two_steps).
Proof.
  split; [exact two_steps_reachable|].
  exact (pg_memory_lists_stay_in_step (Rng := Toy.Rng)
           (reshape := ToyWorld.reshape_number) two_steps two_steps_reachable).
Defined.

Lemma discounted_returns_backward_recursion_witness :
  let gamma := Binary64.truediv 95 100 in
  let one := Binary64.float_of_int 1 in
  ([one; one] !! 0%nat = Some one) /\
  (discounted_returns gamma [one; one] !! 0%nat
   = Some (add one
             (mul gamma
                (default (of_int 0)
                   (discounted_returns gamma [one; one] !! 1%nat))))).
Proof.
  intros gamma one. split; [reflexivity|].
  exact (proj2 (discounted_returns_backward_recursion gamma [one; one])
           0%nat one eq_refl).
Defined.

Lemma pg_train_needs_a_remembered_step_witness :
  let a : @PGAgent Binary64.float Z Toy.Net := (pg_init 4 2 (0 : Toy.Rng)).1 in
  (pg_states a = [] /\
   (pg_train (Rng := Toy.Rng) a = Raise ValueError \/
    exists e, to_categorical (Rng := Toy.Rng) (pg_actions a) (pg_action_size a)
              = Raise e /\
              pg_train (Rng := Toy.Rng) a = Raise e)) /\
  (exists a', pg_train (Rng := Toy.Rng) two_steps = Ok a' /\
              pg_states two_steps <> [] /\ pg_states a' = [] /\
              pg_actions a' = [] /\ pg_rewards a' = []).
Proof.
  intros a. split.
  - split; [reflexivity|].
    exact (proj1 (pg_train_needs_a_remembered_step (Rng := Toy.Rng) a) eq_refl).
  - assert (E : exists a', pg_train (Rng := Toy.Rng) two_steps = Ok a')
      by (vm_compute; eexists; reflexivity).
    destruct E as [a' E]. exists a'. split; [exact E|].
    destruct (proj2 (pg_train_needs_a_remembered_step (Rng := Toy.Rng) two_steps)
                a' E) as (H1 & H2 & H3 & H4 & _).
    repeat split; assumption.
Defined.

End PolicyGradientFacts.

Module DQNFacts.

Import RL Binary64.

(** ** What the operations leave alone *)

Section Frame.

Context {F Obs Net Rng : Type} `{Arith F} `{Keras F Obs Net Rng}.

Lemma replay_frame (a a' : @DQNAgent F Obs Net) (batch_size : Z) (g g' : Rng) :
  replay a batch_size g = Ok (a', g') ->
  epsilon_min a' = epsilon_min a /\ epsilon_decay a' = epsilon_decay a /\
  target_model a' = target_model a /\ gamma a' = gamma a /\
  learning_rate a' = learning_rate a /\
  state_size a' = state_size a /\ action_size a' = action_size a /\
  epsilon a' = (if ltb (epsilon_min a) (epsilon a)
                then mul (epsilon a) (epsilon_decay a)
                else epsilon a).
Proof.
  unfold replay. intros E.
  destruct (sample _ (memory a) batch_size g) as [[minibatch g1]|e];
    [|discriminate].
  cbn in E.
  destruct (replay_loop (model a) (target_model a) (gamma a) minibatch)
    as [[online calls]|e]; [|discriminate].
  cbn in E. injection E as <- <-.
  cbn [set_model epsilon_min epsilon].
  destruct (ltb (epsilon_min a) (epsilon a)); cbn; tauto.
Qed.

(** A [replay] that raises leaves everything but the online network as it
    was. *)
Lemma replay_raised_frame (a : @DQNAgent F Obs Net) (batch_size : Z) (g : Rng) :
  let a' := replay_raised a batch_size g in
  epsilon a' = epsilon a /\ memory a' = memory a /\
  target_model a' = target_model a /\
  epsilon_min a' = epsilon_min a /\ epsilon_decay a' = epsilon_decay a /\
  gamma a' = gamma a /\ learning_rate a' = learning_rate a /\
  state_size a' = state_size a /\ action_size a' = action_size a.
Proof.
  unfold replay_raised.
  destruct (sample _ (memory a) batch_size g) as [[minibatch g1]|e];
    cbn; tauto.
Qed.

(** The loop that ends has fitted the network it returns; the loop that
    raises has fitted the network on the transitions before the one whose
    target raised. *)
Lemma fitted_by_loop_spec (target_net : Net) (gamma : F)
    (minibatch : list (transition Obs F)) :
  forall online : Net,
    match replay_loop online target_net gamma minibatch with
    | Ok (final, calls) =>
        fitted_by_loop online target_net gamma minibatch = final /\
        final = online_after online calls (length minibatch)
    | Raise e =>
        exists (calls : list (Obs * list (list F))) (tr : transition Obs F),
          minibatch !! length calls = Some tr /\
          replay_loop online target_net gamma (take (length calls) minibatch)
          = Ok (fitted_by_loop online target_net gamma minibatch, calls) /\
          replay_target (fitted_by_loop online target_net gamma minibatch)
            target_net gamma tr = Raise e
    end.
Proof.
  induction minibatch as [|tr rest IH]; intros online; cbn.
  - split; reflexivity.
  - destruct (replay_target online target_net gamma tr) as [target|e] eqn:Et;
      cbn.
    + specialize (IH (fit online (tr_state tr) target)).
      destruct (replay_loop (fit online (tr_state tr) target) target_net gamma
                  rest) as [[final calls]|e]; cbn.
      * destruct IH as [IH1 IH2]. split; [exact IH1|].
        rewrite IH2. reflexivity.
      * destruct IH as (calls & tr' & Hk & Hloop & Hraise).
        exists ((tr_state tr, target) :: calls), tr'. cbn.
        split; [exact Hk|]. rewrite Et. cbn. rewrite Hloop. cbn.
        split; [reflexivity|exact Hraise].
    + exists [], tr. cbn. split; [reflexivity|]. split; [reflexivity|exact Et].
Qed.

Definition hyperparameters (a : @DQNAgent F Obs Net) : Prop :=
  gamma a = int_truediv 95 100 /\ epsilon_min a = int_truediv 1 100 /\
  epsilon_decay a = int_truediv 995 1000 /\
  learning_rate a = int_truediv 1 1000.

Lemma dqn_step_frame (a a' : @DQNAgent F Obs Net) :
  dqn_step a a' ->
  gamma a' = gamma a /\ epsilon_min a' = epsilon_min a /\
  epsilon_decay a' = epsilon_decay a /\ learning_rate a' = learning_rate a /\
  state_size a' = state_size a /\ action_size a' = action_size a /\
  (model a' = model a \/
   (exists batch_size g g', replay a batch_size g = Ok (a', g')) \/
   (exists batch_size g e, replay a batch_size g = Raise e /\
                           a' = replay_raised a batch_size g)) /\
  (target_model a' = target_model a \/ a' = update_target_model a).
Proof.
  intros Hs.
  destruct Hs as [a state action reward next_state done | a state g r _
                 | a batch_size g a' g' Hr | a batch_size g e Hr | a].
  - cbn. tauto.
  - tauto.
  - pose proof (replay_frame a a' batch_size g g' Hr) as Hf.
    repeat (split; [tauto|]). split; [right; left; eauto|left; tauto].
  - pose proof (replay_raised_frame a batch_size g) as Hf. cbv zeta in Hf.
    repeat (split; [tauto|]). split; [right; right; eauto|left; tauto].
  - cbn. tauto.
Qed.

Lemma hyperparameters_of_reachable (a : @DQNAgent F Obs Net) :
  dqn_reachable a -> hyperparameters a.
Proof.
  induction 1 as [ss asz g | a a' _ IH Hs].
  - unfold init, _build_model.
    destruct (build_sequential _ _ _ _ _ _) as [m1 g1].
    destruct (build_sequential _ _ _ _ _ _) as [m2 g2].
    repeat split.
  - apply dqn_step_frame in Hs as (E1 & E2 & E3 & E4 & _).
    destruct IH as (I1 & I2 & I3 & I4).
    unfold hyperparameters. rewrite E1, E2, E3, E4. tauto.
Qed.

(** X5.  No operation of [DQNAgent] touches its hyperparameters: a new
    agent has discount 0.95, minimal rate 0.01, decay 0.995 and learning
    rate 0.001, and so has it after any sequence of calls, those that raise
    included, with the sizes it was built with.  A call changes the online
    network only if it is a [replay], one that returns or one that raises,
    and the target network only if it is [update_target_model].  A
    [replay] that raises does change the online network: [fit] works in
    place, so the network stays fitted on the transitions before the one
    that raised, while the memory, the exploration rate and the target
    network are as before the call. *)
Theorem dqn_operations_keep_hyperparameters (a : @DQNAgent F Obs Net) :
  dqn_reachable a ->
  gamma a = int_truediv 95 100 /\ epsilon_min a = int_truediv 1 100 /\
  epsilon_decay a = int_truediv 995 1000 /\
  learning_rate a = int_truediv 1 1000 /\
  (forall a' : @DQNAgent F Obs Net,
     dqn_step a a' ->
     state_size a' = state_size a /\ action_size a' = action_size a /\
     (model a' = model a \/
      (exists batch_size g g', replay a batch_size g = Ok (a', g')) \/
      (exists batch_size g e, replay a batch_size g = Raise e /\
                              a' = replay_raised a batch_size g)) /\
     (target_model a' = target_model a \/ a' = update_target_model a)) /\
  (forall (batch_size : Z) (g : Rng) (e : exn),
     replay a batch_size g = Raise e ->
     let a' := replay_raised a batch_size g in
     dqn_reachable a' /\
     memory a' = memory a /\ epsilon a' = epsilon a /\
     target_model a' = target_model a /\
     (forall e', sample _ (memory a) batch_size g = Raise e' ->
                 e = e' /\ model a' = model a) /\
     (forall minibatch g1,
        sample _ (memory a) batch_size g = Ok (minibatch, g1) ->
        exists (calls : list (Obs * list (list F))) (tr : transition Obs F),
          minibatch !! length calls = Some tr /\
          replay_loop (model a) (target_model a) (gamma a)
            (take (length calls) minibatch)
          = Ok (model a', calls) /\
          replay_target (model a') (target_model a) (gamma a) tr = Raise e)).
Proof.
  intros Hr. destruct (hyperparameters_of_reachable a Hr) as (I1 & I2 & I3 & I4).
  repeat (split; [assumption|]). split.
  { intros a' Hs. apply dqn_step_frame in Hs. tauto. }
  intros batch_size g e He a'.
  pose proof (replay_raised_frame a batch_size g) as Hf. cbv zeta in Hf.
  split; [eapply reach_step; [exact Hr|eapply step_replay_raises; exact He]|].
  repeat (split; [apply Hf|]). subst a'. unfold replay_raised.
  unfold replay in He.
  destruct (sample _ (memory a) batch_size g) as [[minibatch g1]|e0].
  - split; [intros e' [=]|]. intros mb g1' [= <- <-]. cbn in He.
    pose proof (fitted_by_loop_spec (target_model a) (gamma a) minibatch
                  (model a)) as Hl.
    destruct (replay_loop (model a) (target_model a) (gamma a) minibatch)
      as [[final calls]|e1]; [cbn in He; discriminate|].
    cbn in He. injection He as ->. exact Hl.
  - cbn in He. injection He as ->.
    split; [intros e' [= ->]; split; reflexivity|]. intros mb g1 [=].
Qed.

End Frame.

(** ** The exploration rate *)

Definition same_float (x y : float) : bool :=
  match x, y with
  | S754_zero s, S754_zero s' => Bool.eqb s s'
  | S754_infinity s, S754_infinity s' => Bool.eqb s s'
  | S754_nan, S754_nan => true
  | S754_finite s m e, S754_finite s' m' e' =>
      Bool.eqb s s' && Pos.eqb m m' && Z.eqb e e'
  | _, _ => false
  end.

Lemma same_float_eq (x y : float) : same_float x y = true -> x = y.
Proof.
  destruct x as [s | s | | s m e], y as [s' | s' | | s' m' e'];
    try discriminate; cbn; intros E.
  - apply Bool.eqb_prop in E. congruence.
  - apply Bool.eqb_prop in E. congruence.
  - reflexivity.
  - apply andb_prop in E as [E E3]. apply andb_prop in E as [E1 E2].
    apply Bool.eqb_prop in E1. apply Pos.eqb_eq in E2. apply Z.eqb_eq in E3.
    congruence.
Qed.

Definition eps_min : float := truediv 1 100.
Definition eps_decay : float := truediv 995 1000.

(** The values the exploration rate takes: [1.0], then the product with
    [0.995] as long as the value is above [0.01]. *)
Fixpoint decay_values (n : nat) (e : float) : list float :=
  match n with
  | O => [e]
  | S n' =>
      if SFltb eps_min e then e :: decay_values n' (SFmul prec emax e eps_decay)
      else [e]
  end.

Definition epsilon_values : list float :=
  Eval vm_compute in decay_values 2000 (float_of_int 1).

(** The last of them is the 920th: 919 decays, and the rate stays. *)
Definition last_decay : nat := 919.

Definition value_at (k : nat) : float := nth k epsilon_values S754_nan.

(** What [replay] makes of the [k]-th value is the next one, the last one
    staying as it is. *)
Definition decays_to_next (k : nat) : bool :=
  let e := value_at k in
  if SFltb eps_min e
  then same_float (SFmul prec emax e eps_decay) (value_at (Nat.min (S k) last_decay))
  else (k =? last_decay)%nat.

Lemma values_decay : forallb decays_to_next (seq 0 (S last_decay)) = true.
Proof. vm_compute. reflexivity. Qed.

Definition in_range (e : float) : bool :=
  SFltb (truediv 99 10000) e && SFleb e (float_of_int 1).

Lemma values_in_range :
  forallb (fun k => in_range (value_at k)) (seq 0 (S last_decay)) = true.
Proof. vm_compute. reflexivity. Qed.

Lemma last_value_below_min : SFltb (value_at last_decay) eps_min = true.
Proof. vm_compute. reflexivity. Qed.

Lemma forallb_seq (p : nat -> bool) (n k : nat) :
  forallb p (seq 0 n) = true -> (k < n)%nat -> p k = true.
Proof.
  intros Hall Hk. rewrite forallb_forall in Hall. apply Hall.
  apply in_seq. lia.
Qed.

Lemma value_step (k : nat) :
  (k <= last_decay)%nat ->
  (if SFltb eps_min (value_at k)
   then SFmul prec emax (value_at k) eps_decay
   else value_at k) = value_at (Nat.min (S k) last_decay).
Proof.
  intros Hk.
  assert (Hc := forallb_seq decays_to_next (S last_decay) k values_decay
                  ltac:(lia)).
  unfold decays_to_next in Hc. cbv zeta in Hc.
  destruct (SFltb eps_min (value_at k)).
  - apply same_float_eq in Hc. exact Hc.
  - apply Nat.eqb_eq in Hc. subst k.
    rewrite Nat.min_r by lia. reflexivity.
Qed.

(** The rate after [k] decays: [1.0] multiplied [k] times by [0.995]. *)
Definition rate_after (k : nat) : float :=
  Nat.iter k (fun e => SFmul prec emax e eps_decay) (float_of_int 1).

Lemma values_above_min :
  forallb (fun k => SFltb eps_min (value_at k)) (seq 0 last_decay) = true.
Proof. vm_compute. reflexivity. Qed.

Lemma value_at_rate_after (k : nat) :
  (k <= last_decay)%nat -> value_at k = rate_after k.
Proof.
  induction k as [|k IH]; intros Hk; [reflexivity|].
  assert (Ha := forallb_seq _ last_decay k values_above_min ltac:(lia)).
  cbv beta in Ha.
  assert (Hs := value_step k ltac:(lia)). rewrite Ha in Hs.
  rewrite Nat.min_l in Hs by lia.
  change (value_at (S k) = SFmul prec emax (rate_after k) eps_decay).
  rewrite <- IH by lia. symmetry. exact Hs.
Qed.

Lemma min_test (k : nat) :
  (k <= last_decay)%nat -> SFltb eps_min (value_at k) = (k <? 919)%nat.
Proof.
  intros Hk.
  assert (Hc := forallb_seq
                  (fun k => Bool.eqb (SFltb eps_min (value_at k)) (k <? 919)%nat)
                  (S last_decay) k ltac:(vm_compute; reflexivity) ltac:(lia)).
  apply Bool.eqb_prop in Hc. exact Hc.
Qed.

Section Rate.

Context {Obs Net Rng : Type} `{Keras float Obs Net Rng}.

(** The rate is the [k]-th value. *)
Definition rate_is (k : nat) (a : @DQNAgent float Obs Net) : Prop :=
  (k <= last_decay)%nat /\ epsilon a = value_at k /\
  epsilon_min a = eps_min /\ epsilon_decay a = eps_decay.

Lemma rate_after_replay (k : nat) (a a' : @DQNAgent float Obs Net)
    (batch_size : Z) (g g' : Rng) :
  rate_is k a -> replay a batch_size g = Ok (a', g') ->
  rate_is (Nat.min (S k) last_decay) a'.
Proof.
  intros (Hk & He & Hm & Hd) Hr.
  apply replay_frame in Hr as (Hm' & Hd' & _ & _ & _ & _ & _ & He').
  cbn [ltb mul binary64] in He'. rewrite Hm, Hd, He in He'.
  split; [lia|]. split; [|split; congruence].
  rewrite He'. exact (value_step k Hk).
Qed.

Lemma rate_of_reachable (a : @DQNAgent float Obs Net) :
  dqn_reachable a -> exists k, rate_is k a.
Proof.
  induction 1 as [ss asz g | a a' _ [k IH] Hs].
  - exists 0%nat. unfold init, _build_model.
    destruct (build_sequential _ _ _ _ _ _) as [m1 g1].
    destruct (build_sequential _ _ _ _ _ _) as [m2 g2].
    split; [unfold last_decay; lia|]. repeat split.
  - destruct Hs as [a state action reward next_state done | a state g r _
                   | a batch_size g a' g' Hr | a batch_size g e Hr | a].
    + exists k. exact IH.
    + exists k. exact IH.
    + exists (Nat.min (S k) last_decay).
      exact (rate_after_replay k a a' batch_size g g' IH Hr).
    + exists k.
      pose proof (replay_raised_frame a batch_size g) as Hf. cbv zeta in Hf.
      destruct IH as (Hk & He & Hm & Hd), Hf as (E1 & _ & _ & E2 & E3 & _).
      split; [exact Hk|]. split; [|split]; congruence.
    + exists k. exact IH.
Qed.

(** X4.  The exploration rate of [DQNAgent] starts at [1.0] and only
    [replay] changes it: whatever is done with a new agent, its rate is
    [1.0] multiplied [k] times by [0.995] in binary64, for some [k] up to
    919; it is above 0.0099 and at most 1; a [replay] that succeeds makes it
    the next of these values, and leaves it as it is once [k] is 919. *)
Theorem exploration_rate_decays_919_times (a : @DQNAgent float Obs Net) :
  dqn_reachable a ->
  exists k : nat,
    (k <= 919)%nat /\ epsilon a = rate_after k /\
    SFltb (truediv 99 10000) (epsilon a) = true /\
    SFleb (epsilon a) (float_of_int 1) = true /\
    SFltb (epsilon_min a) (epsilon a) = (k <? 919)%nat /\
    (k = 919%nat -> SFltb (epsilon a) (epsilon_min a) = true) /\
    forall (batch_size : Z) (g g' : Rng) (a' : @DQNAgent float Obs Net),
      replay a batch_size g = Ok (a', g') ->
      epsilon a' = rate_after (Nat.min (S k) 919).
Proof.
  intros Hr. destruct (rate_of_reachable a Hr) as [k Hk].
  exists k. destruct Hk as (Hk & He & Hm & Hd).
  split; [exact Hk|]. split; [rewrite He; apply value_at_rate_after, Hk|].
  assert (Hin := forallb_seq _ (S last_decay) k values_in_range ltac:(lia)).
  cbv beta in Hin. apply andb_prop in Hin as [Hlo Hhi].
  rewrite He, Hm. split; [exact Hlo|]. split; [exact Hhi|].
  split; [apply (min_test k Hk)|].
  split; [intros ->; exact last_value_below_min|].
  intros batch_size g g' a' Hrp.
  destruct (rate_after_replay k a a' batch_size g g'
              (conj Hk (conj He (conj Hm Hd))) Hrp) as (Hk' & He' & _).
  rewrite He'. apply value_at_rate_after. exact Hk'.
Qed.

End Rate.

(** The rate after the 919 decays is below [epsilon_min]: the test
    [self.epsilon > self.epsilon_min] comes before the multiplication. *)
Lemma last_rate_below_epsilon_min :
  SFltb (rate_after 919) (truediv 1 100) = true /\
  SFltb (truediv 1 100) (rate_after 918) = true.
Proof.
  rewrite <- !value_at_rate_after by (unfold last_decay; lia).
  split; vm_compute; reflexivity.
Qed.


(** The theorems at a new agent for CartPole. *)

Definition new_agent : @DQNAgent float Z Toy.Net := (init 4 2 (0 : Toy.Rng)).1.

Lemma new_agent_reachable : dqn_reachable (Rng := Toy.Rng) new_agent.
Proof. apply reach_init. Qed.

Lemma exploration_rate_decays_919_times_witness :
  dqn_reachable (Rng := Toy.Rng) new_agent /\
  exists k : nat,
    (k <= 919)%nat /\ epsilon new_agent = rate_after k /\
    SFltb (truediv 99 10000) (epsilon new_agent) = true /\
    SFleb (epsilon new_agent) (float_of_int 1) = true /\
    SFltb (epsilon_min new_agent) (epsilon new_agent) = (k <? 919)%nat /\
    (k = 919%nat -> SFltb (epsilon new_agent) (epsilon_min new_agent) = true) /\
    forall (batch_size : Z) (g g' : Toy.Rng) (a' : @DQNAgent float Z Toy.Net),
      replay new_agent batch_size g = Ok (a', g') ->
      epsilon a' = rate_after (Nat.min (S k) 919).
Proof.
  split; [exact new_agent_reachable|].
  exact (exploration_rate_decays_919_times (Rng := Toy.Rng) new_agent
           new_agent_reachable).
Defined.

(** An agent that has remembered two transitions, the second one with an
    action that the network does not have. *)
Definition two_transitions : @DQNAgent float Z Toy.Net :=
  remember (remember new_agent 0 1 (float_of_int 1) 1 true)
    1 2 (float_of_int 1) 2 true.

Lemma two_transitions_reachable : dqn_reachable (Rng := Toy.Rng) two_transitions.
Proof.
  eapply reach_step; [eapply reach_step; [exact new_agent_reachable|]|];
    apply step_remember.
Qed.

(** [replay] on both of them raises [IndexError] at the second, after the
    online network has been fitted on the first. *)
Lemma replay_raises_after_fitting :
  replay two_transitions 2 (0 : Toy.Rng) = Raise IndexError /\
  model two_transitions = (float_of_int 0, float_of_int 0) /\
  model (replay_raised two_transitions 2 (0 : Toy.Rng))
  = (float_of_int 0, float_of_int 1).
Proof. vm_compute. repeat split. Qed.

(** The theorem at this agent and this call. *)
Lemma dqn_operations_keep_hyperparameters_witness :
  let a := two_transitions in
  let a' := replay_raised a 2 (0 : Toy.Rng) in
  dqn_reachable (Rng := Toy.Rng) a /\
  replay a 2 (0 : Toy.Rng) = Raise IndexError /\
  gamma a = truediv 95 100 /\ epsilon_min a = truediv 1 100 /\
  epsilon_decay a = truediv 995 1000 /\
  learning_rate a = truediv 1 1000 /\
  dqn_reachable (Rng := Toy.Rng) a' /\
  memory a' = memory a /\ epsilon a' = epsilon a /\
  target_model a' = target_model a /\
  model a' <> model a.
Proof.
  intros a a'.
  assert (Hraise : replay a 2 (0 : Toy.Rng) = Raise IndexError)
    by (vm_compute; reflexivity).
  split; [exact two_transitions_reachable|]. split; [exact Hraise|].
  destruct (dqn_operations_keep_hyperparameters (Rng := Toy.Rng) a
              two_transitions_reachable)
    as (H1 & H2 & H3 & H4 & _ & Hfail).
  repeat (split; [assumption|]).
  destruct (Hfail 2 (0 : Toy.Rng) IndexError Hraise) as (R & M & E & T & _).
  repeat (split; [assumption|]).
  vm_compute. discriminate.
Defined.

End DQNFacts.

Module ReplayBounds.

Import RL.

Lemma np_index_cases (n : nat) (i : Z) :
  (0 <= i < Z.of_nat n -> np_index n i = Ok (Z.to_nat i)) /\
  (- Z.of_nat n <= i < 0 -> np_index n i = Ok (Z.to_nat (Z.of_nat n + i))) /\
  (i < - Z.of_nat n \/ Z.of_nat n <= i -> np_index n i = Raise IndexError).
Proof.
  unfold np_index.
  destruct (Z.leb_spec 0 i), (Z.ltb_spec i (Z.of_nat n)),
    (Z.leb_spec (- Z.of_nat n) i), (Z.ltb_spec i 0); cbn [andb];
    repeat split; intros; try reflexivity; lia.
Qed.

Section Bounds.

Context {F Obs Net Rng : Type} `{Arith F} `{Keras F Obs Net Rng}.

(** The networks have one output row with [n] Q-values, [n] positive. *)
Variable n : nat.
Hypothesis n_pos : (0 < n)%nat.
Hypothesis predict_shape :
  forall (net : Net) (s : Obs), exists row, predict net s = [row] /\ length row = n.

Lemma target_value (target_net : Net) (gamma : F) (tr : transition Obs F) :
  exists v,
    (if tr_done tr then Ok (tr_reward tr)
     else
       t0 ← np_getitem (predict target_net (tr_next_state tr)) 0;
       m ← amax t0;
       Ok (add (tr_reward tr) (mul gamma m))) = Ok v.
Proof.
  destruct (tr_done tr); [eauto|].
  destruct (predict_shape target_net (tr_next_state tr)) as (q & -> & Hq).
  cbn. destruct q as [|x q]; [cbn in Hq; lia|]. cbn. eauto.
Qed.

(** X6.  [replay] does not check the stored action.  An action from [-n]
    to [-1], [n] being the number of Q-values of a prediction, counts from
    the end, as NumPy's indexes do: the target of the transition is the
    prediction with the Q-value number [n + action] replaced.  An action
    below [-n] or from [n] on raises [IndexError], in [replay_target] and so
    in the loop of [replay] when it comes to the transition. *)
Theorem replay_counts_a_negative_action_from_the_end
    (online target_net : Net) (gamma : F) (tr : transition Obs F) :
  let a := tr_action tr in
  (- Z.of_nat n <= a < 0 ->
   exists row v,
     predict online (tr_state tr) = [row] /\
     replay_target online target_net gamma tr
     = Ok [<[Z.to_nat (Z.of_nat n + a) := v]> row]) /\
  (a < - Z.of_nat n \/ Z.of_nat n <= a ->
   replay_target online target_net gamma tr = Raise IndexError /\
   forall rest, replay_loop online target_net gamma (tr :: rest)
                = Raise IndexError).
Proof.
  intros a.
  destruct (predict_shape online (tr_state tr)) as (row & Hrow & Hlen).
  destruct (target_value target_net gamma tr) as [v Hv].
  destruct (np_index_cases n a) as (_ & Hneg & Hout).
  split.
  - intros Ha. exists row, (float32 v). split; [exact Hrow|].
    unfold replay_target. cbv zeta. rewrite Hv, Hrow. cbn [mbind result_bind].
    change (np_getitem [row] 0) with (Ok row). cbn [mbind result_bind].
    unfold np_setitem. rewrite Hlen. fold a. rewrite (Hneg Ha). reflexivity.
  - intros Ha.
    assert (E : replay_target online target_net gamma tr = Raise IndexError).
    { unfold replay_target. cbv zeta. rewrite Hv, Hrow. cbn [mbind result_bind].
      change (np_getitem [row] 0) with (Ok row). cbn [mbind result_bind].
      unfold np_setitem. rewrite Hlen. fold a. rewrite (Hout Ha). reflexivity. }
    split; [exact E|]. intros rest. cbn [replay_loop]. rewrite E. reflexivity.
Qed.

End Bounds.

(** The theorem on the two-action network, for the actions -1 and 2. *)
Lemma replay_counts_a_negative_action_from_the_end_witness :
  let online : Toy.Net := (Binary64.float_of_int 0, Binary64.float_of_int 0) in
  let gamma := Binary64.truediv 95 100 in
  let last_action := Transition (0 : Z) (-1) (Binary64.float_of_int 1) 1 true in
  let no_action := Transition (0 : Z) 2 (Binary64.float_of_int 1) 1 true in
  (- Z.of_nat 2 <= tr_action last_action < 0) /\
  (exists row v,
     predict (Rng := Toy.Rng) online (tr_state last_action) = [row] /\
     replay_target (Rng := Toy.Rng) online online gamma last_action
     = Ok [<[Z.to_nat (Z.of_nat 2 + tr_action last_action) := v]> row]) /\
  (tr_action no_action < - Z.of_nat 2 \/ Z.of_nat 2 <= tr_action no_action) /\
  replay_target (Rng := Toy.Rng) online online gamma no_action
  = Raise IndexError.
Proof.
  intros online gamma last_action no_action.
  assert (Hshape : forall (net : Toy.Net) (s : Z),
            exists row, predict (Rng := Toy.Rng) net s = [row] /\
                        length row = 2%nat)
    by (intros net s; eexists; split; reflexivity).
  assert (Hneg : - Z.of_nat 2 <= tr_action last_action < 0) by (cbn; lia).
  assert (Hout : tr_action no_action < - Z.of_nat 2 \/
                 Z.of_nat 2 <= tr_action no_action) by (cbn; lia).
  split; [exact Hneg|]. split.
  - exact (proj1 (replay_counts_a_negative_action_from_the_end (Rng := Toy.Rng)
                    2 ltac:(lia) Hshape online online gamma last_action) Hneg).
  - split; [exact Hout|].
    exact (proj1 (proj2 (replay_counts_a_negative_action_from_the_end
                           (Rng := Toy.Rng) 2 ltac:(lia) Hshape online online
                           gamma no_action) Hout)).
Defined.

End ReplayBounds.

Module QLearningFacts.

Import QLearning.

Lemma np_index_nonneg (n : nat) (i : Z) :
  0 <= i < Z.of_nat n -> np_index n i = Ok (Z.to_nat i).
Proof.
  intros Hi. unfold np_index.
  destruct (Z.leb_spec 0 i); [|lia].
  destruct (Z.ltb_spec i (Z.of_nat n)); [|lia]. reflexivity.
Qed.

Lemma np_getitem_nonneg {A : Type} (a : list A) (i : Z) :
  0 <= i < Z.of_nat (length a) ->
  exists x, a !! Z.to_nat i = Some x /\ np_getitem a i = Ok x.
Proof.
  intros Hi. unfold np_getitem. rewrite np_index_nonneg by exact Hi. cbn.
  destruct (lookup_lt_is_Some_2 a (Z.to_nat i) ltac:(lia)) as [x Hx].
  exists x. rewrite Hx. split; reflexivity.
Qed.

Section Table.

Context {F W : Type} {arith : Arith F} {gym : Gym F W}.

(** A table of [ns] rows of [na] values. *)
Definition has_shape (ns na : Z) (Q : list (list F)) : Prop :=
  Z.of_nat (length Q) = ns /\ Forall (fun row => Z.of_nat (length row) = na) Q.

Lemma np_zeros_shape (ns na : Z) :
  0 <= ns -> 0 <= na -> has_shape ns na (np_zeros ns na).
Proof.
  intros Hs Ha. unfold np_zeros. split.
  - rewrite length_replicate. lia.
  - apply Forall_replicate. rewrite length_replicate. lia.
Qed.

Lemma argmax_loop_bounds (ip : list F) :
  forall (i : Z) (mp : F) (max_ind : Z),
    0 <= max_ind < i ->
    0 <= argmax_loop ip i mp max_ind < i + Z.of_nat (length ip).
Proof.
  induction ip as [|x ip IH]; intros i mp max_ind Hm; cbn [argmax_loop length].
  - lia.
  - destruct (negb (leb x mp)).
    + destruct (isnan x); [lia|].
      specialize (IH (i + 1) x i ltac:(lia)). lia.
    + specialize (IH (i + 1) mp max_ind ltac:(lia)). lia.
Qed.

Lemma np_argmax_bounds (a : list F) :
  a <> [] ->
  exists k, np_argmax a = Ok k /\ 0 <= k < Z.of_nat (length a).
Proof.
  destruct a as [|mp ip]; [congruence|]. intros _.
  eexists. split; [reflexivity|]. cbn [length].
  destruct (isnan mp); [lia|].
  pose proof (argmax_loop_bounds ip 1 mp 0 ltac:(lia)). lia.
Qed.

Lemma amax_ok (a : list F) : a <> [] -> exists best, amax a = Ok best.
Proof. destruct a; [congruence|]. intros _. eexists. reflexivity. Qed.

Lemma row_of_shape (ns na : Z) (Q : list (list F)) (s : Z) :
  has_shape ns na Q -> 0 <= s < ns ->
  exists row, Q !! Z.to_nat s = Some row /\ np_getitem Q s = Ok row /\
              Z.of_nat (length row) = na.
Proof.
  intros [Hl Hr] Hs.
  destruct (np_getitem_nonneg Q s ltac:(lia)) as (row & Hrow & Hget).
  exists row. split; [exact Hrow|]. split; [exact Hget|].
  rewrite Forall_lookup in Hr. exact (Hr _ _ Hrow).
Qed.

(** The entry [Q[s, a]]. *)
Definition entry (Q : list (list F)) (s a : nat) : option F :=
  row ← Q !! s; row !! a.

Lemma q_update_spec (ns na : Z) (Q : list (list F)) (state action : Z) (reward : F)
    (new_state : Z) :
  has_shape ns na Q ->
  0 <= state < ns -> 0 <= action < na -> 0 <= new_state < ns ->
  exists row q next best,
    Q !! Z.to_nat state = Some row /\ row !! Z.to_nat action = Some q /\
    Q !! Z.to_nat new_state = Some next /\ amax next = Ok best /\
    q_update Q state action reward new_state
    = Ok (<[Z.to_nat state :=
             <[Z.to_nat action :=
                add q (mul alpha (sub (add reward (mul gamma best)) q))]> row]>
            Q).
Proof.
  intros HQ Hs Ha Hn.
  destruct (row_of_shape ns na Q state HQ Hs) as (row & Hrow & Hget & Hlen).
  destruct (row_of_shape ns na Q new_state HQ Hn) as (next & Hnext & Hgetn & Hlenn).
  destruct (np_getitem_nonneg row action ltac:(lia)) as (q & Hq & Hgq).
  destruct (amax_ok next) as [best Hbest].
  { intros ->. cbn in Hlenn. lia. }
  exists row, q, next, best.
  repeat (split; [assumption|]).
  unfold q_update. rewrite Hget. cbn. rewrite Hgq. cbn. rewrite Hgetn. cbn.
  rewrite Hbest. cbn.
  destruct HQ as [Hl _].
  rewrite np_index_nonneg by lia. cbn.
  unfold np_setitem. rewrite np_index_nonneg by lia. reflexivity.
Qed.

Lemma insert_shape (ns na : Z) (Q : list (list F)) (i j : nat) (row : list F) (v : F) :
  has_shape ns na Q -> Q !! i = Some row ->
  has_shape ns na (<[i := <[j := v]> row]> Q).
Proof.
  intros [Hl Hr] Hrow. split.
  - rewrite length_insert. exact Hl.
  - apply Forall_insert; [exact Hr|]. rewrite length_insert.
    rewrite Forall_lookup in Hr. exact (Hr _ _ Hrow).
Qed.

(** X7.  One update of the Q-table rewrites one entry.  On a table of
    [ns] rows of [na] values, for a state, an action and a new state within
    these bounds, the update returns: the table keeps its shape, the entry
    of the state and the action becomes
    [q + alpha * (reward + gamma * best - q)], [q] being the entry before and
    [best] the largest value of the row of the new state, and every other
    entry is as before. *)
Theorem q_update_rewrites_one_entry (ns na : Z) (Q : list (list F))
    (state action : Z) (reward : F) (new_state : Z) :
  has_shape ns na Q ->
  0 <= state < ns -> 0 <= action < na -> 0 <= new_state < ns ->
  exists (Q' : list (list F)) (q best : F) (next : list F),
    q_update Q state action reward new_state = Ok Q' /\
    has_shape ns na Q' /\
    entry Q (Z.to_nat state) (Z.to_nat action) = Some q /\
    Q !! Z.to_nat new_state = Some next /\ amax next = Ok best /\
    entry Q' (Z.to_nat state) (Z.to_nat action)
    = Some (add q (mul alpha (sub (add reward (mul gamma best)) q))) /\
    forall s a : nat,
      (s, a) <> (Z.to_nat state, Z.to_nat action) ->
      entry Q' s a = entry Q s a.
Proof.
  intros HQ Hs Ha Hn.
  destruct (q_update_spec ns na Q state action reward new_state HQ Hs Ha Hn)
    as (row & q & next & best & Hrow & Hq & Hnext & Hbest & Hup).
  eexists _, q, best, next. split; [exact Hup|].
  split; [exact (insert_shape ns na Q _ _ row _ HQ Hrow)|].
  split; [unfold entry; rewrite Hrow; exact Hq|].
  split; [exact Hnext|]. split; [exact Hbest|].
  assert (Hi : (Z.to_nat state < length Q)%nat)
    by (apply lookup_lt_is_Some; eauto).
  assert (Hj : (Z.to_nat action < length row)%nat)
    by (apply lookup_lt_is_Some; eauto).
  split.
  - unfold entry. rewrite list_lookup_insert_eq by exact Hi. cbn.
    rewrite list_lookup_insert_eq by exact Hj. reflexivity.
  - intros s a Hsa. unfold entry.
    destruct (decide (s = Z.to_nat state)) as [->|Hne].
    + rewrite list_lookup_insert_eq by exact Hi. rewrite Hrow. cbn.
      rewrite list_lookup_insert_ne by congruence. reflexivity.
    + rewrite list_lookup_insert_ne by congruence. reflexivity.
Qed.

(** ** The loops *)

(** An environment that behaves: it never raises, its states are in
    [0 .. ns - 1] and the actions it samples are in [0 .. na - 1]. *)
Definition well_behaved (ns na : Z) : Prop :=
  (forall w : W, exists s w', env_reset w = Ok (s, w') /\ 0 <= s < ns) /\
  (forall (w : W) (a : Z), 0 <= a < na ->
     exists s r d w', env_step w a = Ok (s, r, d, w') /\ 0 <= s < ns) /\
  (forall w : W, 0 <= (action_space_sample w).1 < na).

Lemma select_action_ok (ns na : Z) (Q : list (list F)) (state : Z) (w : W) :
  well_behaved ns na -> 0 < na -> has_shape ns na Q -> 0 <= state < ns ->
  exists a w', select_action Q state w = Ok (a, w') /\ 0 <= a < na.
Proof.
  intros (_ & _ & Hsample) Hna HQ Hs. unfold select_action.
  destruct (np_random_uniform w) as [u w1].
  destruct (ltb u epsilon).
  - specialize (Hsample w1). destruct (action_space_sample w1) as [a w2].
    exists a, w2. split; [reflexivity|exact Hsample].
  - destruct (row_of_shape ns na Q state HQ Hs) as (row & _ & Hget & Hlen).
    rewrite Hget. cbn.
    destruct (np_argmax_bounds row) as (k & Hk & Hr).
    { intros ->. cbn in Hlen. lia. }
    rewrite Hk. cbn. exists k, w1. split; [reflexivity|lia].
Qed.

Section Invariant.

(** A property of the table that one step of the inner loop keeps. *)
Variables (ns na : Z) (P : list (list F) -> Prop).

Hypothesis step_keeps : forall (Q : list (list F)) (state : Z) (w : W),
  P Q -> 0 <= state < ns ->
  exists Q' s' d w',
    q_step Q state w = Ok (Q', s', d, w') /\ P Q' /\ 0 <= s' < ns.

Hypothesis behaves : well_behaved ns na.

Lemma episode_keeps (fuel : nat) :
  forall (Q : list (list F)) (state : Z) (w : W),
    P Q -> 0 <= state < ns ->
    exists r, episode fuel Q state w = Ok r /\
              forall Q' w', r = Some (Q', w') -> P Q'.
Proof.
  induction fuel as [|fuel IH]; intros Q state w HP Hs; cbn [episode].
  - eexists. split; [reflexivity|]. discriminate.
  - destruct (step_keeps Q state w HP Hs) as (Q' & s' & d & w' & E & HP' & Hs').
    rewrite E. cbn. destruct d.
    + eexists. split; [reflexivity|]. intros Q'' w'' [= <- <-]. exact HP'.
    + apply IH; assumption.
Qed.

Lemma episodes_keep (fuel : nat) (n : nat) :
  forall (Q : list (list F)) (w : W),
    P Q ->
    exists r, episodes fuel n Q w = Ok r /\
              forall Q' w', r = Some (Q', w') -> P Q'.
Proof.
  induction n as [|n IH]; intros Q w HP; cbn [episodes].
  - eexists. split; [reflexivity|]. intros Q' w' [= <- <-]. exact HP.
  - destruct behaves as (Hreset & _ & _).
    destruct (Hreset w) as (s & w1 & E & Hs). rewrite E. cbn.
    destruct (episode_keeps fuel Q s w1 HP Hs) as (r & Er & Hr).
    rewrite Er. cbn. destruct r as [[Q1 w2]|].
    + apply IH. exact (Hr Q1 w2 eq_refl).
    + eexists. split; [reflexivity|]. discriminate.
Qed.

End Invariant.

Lemma q_step_keeps_shape (ns na : Z) :
  well_behaved ns na -> 0 < na ->
  forall (Q : list (list F)) (state : Z) (w : W),
    has_shape ns na Q -> 0 <= state < ns ->
    exists Q' s' d w',
      q_step Q state w = Ok (Q', s', d, w') /\ has_shape ns na Q' /\
      0 <= s' < ns.
Proof.
  intros Hwb Hna Q state w HQ Hs. unfold q_step.
  destruct (select_action_ok ns na Q state w Hwb Hna HQ Hs)
    as (a & w1 & Ea & Ha).
  rewrite Ea. cbn.
  destruct Hwb as (_ & Hstep & _).
  destruct (Hstep w1 a Ha) as (s' & r & d & w2 & Es & Hs').
  rewrite Es. cbn.
  destruct (q_update_spec ns na Q state a r s' HQ Hs Ha Hs')
    as (row & q & next & best & Hrow & Hq & Hnext & Hbest & Hup).
  rewrite Hup. cbn. eexists _, s', d, w2. split; [reflexivity|].
  split; [|exact Hs'].
  exact (insert_shape ns na Q _ _ row _ HQ Hrow).
Qed.

(** X8.  On an environment that behaves, the Q-learning cell raises
    neither [IndexError] nor [ValueError].  Every pass of the inner loop
    returns: from a table of one row per state and one value per action,
    and a state of the environment, it selects an action, steps and
    updates, and the table has the same shape afterwards.  So, however
    many steps the episodes are given, the cell ends with a table or is
    still running, and the table it ends with has the shape it started
    with. *)
Theorem q_learning_keeps_the_table_shape (ns na : Z) (w : W) (fuel : nat) :
  well_behaved ns na -> 0 <= ns -> 0 < na ->
  observation_space_n w = ns -> action_space_n w = na ->
  (forall (Q : list (list F)) (state : Z) (w0 : W),
     has_shape ns na Q -> 0 <= state < ns ->
     exists Q' s' d w',
       q_step Q state w0 = Ok (Q', s', d, w') /\ has_shape ns na Q' /\
       0 <= s' < ns) /\
  exists r, q_learning fuel w = Ok r /\
            forall Q w', r = Some (Q, w') -> has_shape ns na Q.
Proof.
  intros Hwb Hns Hna En Ea.
  split; [apply q_step_keeps_shape; assumption|].
  unfold q_learning. rewrite En, Ea.
  apply (episodes_keep ns na (has_shape ns na)).
  - apply q_step_keeps_shape; assumption.
  - exact Hwb.
  - apply np_zeros_shape; lia.
Qed.

End Table.

(** ** Before the first reward *)

Section NoReward.

Import Binary64.

Context {W : Type} {gym : Gym float W}.

Definition pzero : float := S754_zero false.

Lemma amax_zeros (n : nat) : amax (replicate (S n) pzero) = Ok pzero.
Proof.
  cbn [replicate amax]. f_equal.
  induction n as [|n IH]; [reflexivity|]. cbn [replicate fold_left]. exact IH.
Qed.

Lemma argmax_loop_zeros (n : nat) (i : Z) :
  argmax_loop (replicate n pzero) i pzero 0 = 0.
Proof.
  revert i. induction n as [|n IH]; intros i; [reflexivity|].
  cbn [replicate argmax_loop]. change (negb (leb pzero pzero)) with false.
  cbn [negb]. apply IH.
Qed.

(** The greedy action on a row of zeros is action 0. *)
Lemma np_argmax_zeros (n : nat) : np_argmax (replicate (S n) pzero) = Ok 0.
Proof.
  cbn [replicate np_argmax]. change (isnan pzero) with false.
  rewrite argmax_loop_zeros. reflexivity.
Qed.

Lemma update_of_zero (reward : float) :
  is_zero reward = true ->
  add pzero (mul alpha (sub (add reward (mul gamma pzero)) pzero)) = pzero.
Proof.
  destruct reward as [[|] | | |]; try discriminate; intros _;
    vm_compute; reflexivity.
Qed.

Lemma q_update_zeros (ns na : Z) (state action : Z) (reward : float)
    (new_state : Z) :
  0 <= state < ns -> 0 <= action < na -> 0 <= new_state < ns ->
  is_zero reward = true ->
  q_update (np_zeros ns na) state action reward new_state
  = Ok (np_zeros ns na).
Proof.
  intros Hs Ha Hn Hr.
  destruct (q_update_spec ns na (np_zeros ns na) state action reward new_state
              (np_zeros_shape ns na ltac:(lia) ltac:(lia)) Hs Ha Hn)
    as (row & q & next & best & Hrow & Hq & Hnext & Hbest & Hup).
  rewrite Hup. f_equal.
  unfold np_zeros in Hrow, Hnext.
  apply lookup_replicate in Hrow as [-> _].
  apply lookup_replicate in Hnext as [-> _].
  apply lookup_replicate in Hq as [-> _].
  change (of_int 0) with pzero in *.
  replace (Z.to_nat na) with (S (Z.to_nat (na - 1))) in Hbest by lia.
  rewrite amax_zeros in Hbest. injection Hbest as <-.
  rewrite (update_of_zero reward Hr).
  unfold np_zeros. change (of_int 0) with pzero.
  rewrite (list_insert_id (replicate (Z.to_nat na) pzero)).
  - apply list_insert_id. apply lookup_replicate. split; [reflexivity|lia].
  - apply lookup_replicate. split; [reflexivity|lia].
Qed.

Lemma q_step_keeps_zeros (ns na : Z) :
  well_behaved ns na -> 0 <= ns -> 0 < na ->
  (forall (w : W) (a : Z) s r d w',
     env_step w a = Ok (s, r, d, w') -> is_zero r = true) ->
  forall (Q : list (list float)) (state : Z) (w0 : W),
    Q = np_zeros ns na -> 0 <= state < ns ->
    exists Q' s' d w',
      q_step Q state w0 = Ok (Q', s', d, w') /\ Q' = np_zeros ns na /\
      0 <= s' < ns.
Proof.
  intros Hwb Hns Hna Hzero Q state w0 -> Hs. unfold q_step.
  destruct (select_action_ok ns na (np_zeros ns na) state w0 Hwb Hna
              (np_zeros_shape ns na ltac:(lia) ltac:(lia)) Hs)
    as (a & w1 & Ea' & Ha).
  rewrite Ea'. cbn.
  destruct Hwb as (_ & Hstep & _).
  destruct (Hstep w1 a Ha) as (s' & r & d & w2 & Es & Hs').
  rewrite Es. cbn.
  rewrite (q_update_zeros ns na state a r s' Hs Ha Hs' (Hzero _ _ _ _ _ _ Es)).
  cbn. eexists _, s', d, w2. split; [reflexivity|]. split; [reflexivity|exact Hs'].
Qed.

(** X9.  Nothing is learned before the first reward.  On an environment
    that behaves and whose rewards are all zero, every row of the table of
    zeros has action 0 as its greedy action, every pass of the inner loop
    on the table of zeros returns and leaves the table of zeros, and so the
    table that the cell ends with is still the table of zeros. *)
Theorem q_table_stays_zero_without_reward (ns na : Z) (w : W) (fuel : nat) :
  well_behaved ns na -> 0 <= ns -> 0 < na ->
  observation_space_n w = ns -> action_space_n w = na ->
  (forall (w : W) (a : Z) s r d w',
     env_step w a = Ok (s, r, d, w') -> is_zero r = true) ->
  (forall state : Z, 0 <= state < ns ->
     exists row, np_getitem (np_zeros ns na) state = Ok row /\
                 np_argmax row = Ok 0) /\
  (forall (state : Z) (w0 : W), 0 <= state < ns ->
     exists s' d w',
       q_step (np_zeros ns na) state w0 = Ok (np_zeros ns na, s', d, w') /\
       0 <= s' < ns) /\
  exists r, q_learning fuel w = Ok r /\
            forall Q w', r = Some (Q, w') -> Q = np_zeros ns na.
Proof.
  intros Hwb Hns Hna En Ea Hzero. split; [|split].
  - intros state Hs.
    destruct (row_of_shape ns na (np_zeros ns na) state
                (np_zeros_shape ns na ltac:(lia) ltac:(lia)) Hs)
      as (row & Hrow & Hget & _).
    exists row. split; [exact Hget|].
    unfold np_zeros in Hrow. apply lookup_replicate in Hrow as [-> _].
    replace (Z.to_nat na) with (S (Z.to_nat (na - 1))) by lia.
    apply np_argmax_zeros.
  - intros state w0 Hs.
    destruct (q_step_keeps_zeros ns na Hwb Hns Hna Hzero _ state w0 eq_refl Hs)
      as (Q' & s' & d & w' & E & -> & Hs').
    exists s', d, w'. split; [exact E|exact Hs'].
  - unfold q_learning. rewrite En, Ea.
    apply (episodes_keep ns na (fun Q => Q = np_zeros ns na));
      [|exact Hwb|reflexivity].
    apply q_step_keeps_zeros; assumption.
Qed.

End NoReward.

(** ** The greedy action *)

Import Binary64.

(** ** The order of binary64 *)

(** A number that is not NaN has a rank: its class, then its exponent and
    its mantissa, both negated for a negative number.  The comparison of
    [SpecFloat] is the lexicographic order of the ranks. *)
Definition rank (x : float) : Z * Z * Z :=
  match x with
  | S754_zero _ => (0, 0, 0)
  | S754_infinity false => (2, 0, 0)
  | S754_infinity true => (-2, 0, 0)
  | S754_finite false m e => (1, e, Zpos m)
  | S754_finite true m e => (-1, - e, - Zpos m)
  | S754_nan => (0, 0, 0)
  end.

Definition below (a b : Z * Z * Z) : Prop :=
  a.1.1 < b.1.1 \/
  (a.1.1 = b.1.1 /\ (a.1.2 < b.1.2 \/ (a.1.2 = b.1.2 /\ a.2 < b.2))).

Definition same (a b : Z * Z * Z) : Prop :=
  a.1.1 = b.1.1 /\ a.1.2 = b.1.2 /\ a.2 = b.2.

Definition not_nan (x : float) : Prop := x <> S754_nan.

Lemma compare_rank (x y : float) :
  not_nan x -> not_nan y ->
  match SFcompare x y with
  | Some Lt => below (rank x) (rank y)
  | Some Eq => same (rank x) (rank y)
  | Some Gt => below (rank y) (rank x)
  | None => False
  end.
Proof.
  unfold not_nan, below, same.
  destruct x as [s1 | s1 | | s1 m1 e1], y as [s2 | s2 | | s2 m2 e2];
    try congruence; intros _ _; cbn [SFcompare rank];
    try destruct s1; try destruct s2; cbn; try lia.
  - destruct (Z.compare_spec e1 e2); cbn; try lia.
    rewrite Pos.compare_cont_spec. cbn [Pos.switch_Eq].
    destruct (Pos.compare_spec m1 m2); cbn; subst; lia.
  - destruct (Z.compare_spec e1 e2); cbn; try lia.
    rewrite Pos.compare_cont_spec. cbn [Pos.switch_Eq].
    destruct (Pos.compare_spec m1 m2); cbn; subst; lia.
Qed.

Lemma leb_rank (x y : float) :
  not_nan x -> not_nan y ->
  SFleb x y = true <-> (same (rank x) (rank y) \/ below (rank x) (rank y)).
Proof.
  intros Hx Hy. pose proof (compare_rank x y Hx Hy) as H.
  unfold SFleb. unfold below, same in *.
  destruct (SFcompare x y) as [[| |]|]; [| | |tauto];
    (split; [intros E; try discriminate; tauto|intros E; try reflexivity; lia]).
Qed.

Lemma ltb_rank (x y : float) :
  not_nan x -> not_nan y -> SFltb x y = true <-> below (rank x) (rank y).
Proof.
  intros Hx Hy. pose proof (compare_rank x y Hx Hy) as H.
  unfold SFltb. unfold below, same in *.
  destruct (SFcompare x y) as [[| |]|]; [| | |tauto];
    (split; [intros E; try discriminate; tauto|intros E; try reflexivity; lia]).
Qed.

Lemma isnan_false (x : float) : not_nan x -> isnan x = false.
Proof.
  intros Hx. unfold isnan. cbn [leb binary64].
  rewrite (proj2 (leb_rank x x Hx Hx)); [reflexivity|].
  left. unfold same. lia.
Qed.

(** One pass of the two loops on the next item. *)
Lemma maximum_step (mp x : float) :
  not_nan mp -> not_nan x ->
  (SFleb x mp = true /\ fmaximum mp x = mp /\
   (same (rank x) (rank mp) \/ below (rank x) (rank mp))) \/
  (SFleb x mp = false /\ fmaximum mp x = x /\ below (rank mp) (rank x)).
Proof.
  intros Hm Hx.
  pose proof (compare_rank mp x Hm Hx) as Hc.
  pose proof (leb_rank x mp Hx Hm) as Hl.
  unfold fmaximum. unfold below, same in *.
  destruct (SFcompare mp x) as [[| |]|]; [| | |tauto].
  - left. split; [apply Hl; lia|]. split; [reflexivity|lia].
  - right. split; [|split; [reflexivity|lia]].
    destruct (SFleb x mp); [|reflexivity]. exfalso.
    destruct (proj1 Hl eq_refl); lia.
  - left. split; [apply Hl; lia|]. split; [reflexivity|lia].
Qed.

(** [best] at position [k] is the first greatest item of [row]. *)
Definition first_greatest (row : list float) (k : nat) (best : float) : Prop :=
  row !! k = Some best /\
  (forall (j : nat) (v : float), row !! j = Some v ->
     same (rank v) (rank best) \/ below (rank v) (rank best)) /\
  (forall (j : nat) (v : float), (j < k)%nat -> row !! j = Some v ->
     below (rank v) (rank best)).

Lemma argmax_loop_first_greatest (ip : list float) :
  forall (pre : list float) (mp : float) (max_ind : nat),
    Forall not_nan (pre ++ ip) ->
    first_greatest pre max_ind mp ->
    exists k : nat,
      argmax_loop ip (Z.of_nat (length pre)) mp (Z.of_nat max_ind)
      = Z.of_nat k /\
      first_greatest (pre ++ ip) k (fold_left fmaximum ip mp).
Proof.
  induction ip as [|x ip IH]; intros pre mp max_ind Hnn Hg.
  - exists max_ind. rewrite app_nil_r. split; [reflexivity|exact Hg].
  - assert (Hx : not_nan x).
    { rewrite Forall_app in Hnn. destruct Hnn as [_ Hnn].
      inversion Hnn; assumption. }
    assert (Hm : not_nan mp).
    { destruct Hg as (Hk & _). rewrite Forall_app in Hnn.
      destruct Hnn as [Hnn _]. rewrite Forall_lookup in Hnn.
      exact (Hnn _ _ Hk). }
    cbn [argmax_loop fold_left]. cbn [leb binary64].
    replace (pre ++ x :: ip) with ((pre ++ [x]) ++ ip)
      by (rewrite <- app_assoc; reflexivity).
    replace (Z.of_nat (length pre) + 1) with (Z.of_nat (length (pre ++ [x])))
      by (rewrite length_app; cbn; lia).
    destruct Hg as (Hk & Hall & Hbefore).
    destruct (maximum_step mp x Hm Hx) as [(El & Ef & Hr)|(El & Ef & Hr)];
      rewrite El, Ef; cbn [negb].
    + apply IH; [rewrite <- app_assoc; exact Hnn|].
      split; [apply lookup_app_l_Some; exact Hk|]. split.
      * intros j v Hj. apply lookup_app_Some in Hj as [Hj|[_ Hj]].
        -- exact (Hall j v Hj).
        -- destruct (j - length pre)%nat; [|discriminate].
           injection Hj as <-. exact Hr.
      * intros j v Hlt Hj. apply lookup_app_Some in Hj as [Hj|[Hge _]].
        -- exact (Hbefore j v Hlt Hj).
        -- apply lookup_lt_Some in Hk. lia.
    + rewrite (isnan_false x Hx).
      assert (Hgoal : first_greatest (pre ++ [x]) (length pre) x).
      { split; [rewrite lookup_app_r by lia; rewrite Nat.sub_diag; reflexivity|].
        split.
        - intros j v Hj. apply lookup_app_Some in Hj as [Hj|[_ Hj]].
          + right. specialize (Hall j v Hj). unfold same, below in *. lia.
          + destruct (j - length pre)%nat; [|discriminate].
            injection Hj as <-. left. unfold same. lia.
        - intros j v Hlt Hj. apply lookup_app_Some in Hj as [Hj|[Hge _]]; [|lia].
          specialize (Hall j v Hj). unfold same, below in *. lia. }
      destruct (IH (pre ++ [x]) x (length pre)
                  ltac:(rewrite <- app_assoc; exact Hnn) Hgoal) as (k & Ek & Hk').
      exists k. split; [|exact Hk'].
      rewrite <- Ek. reflexivity.
Qed.

Section Greedy.

Context {W : Type} {gym : Gym float W}.

(** X24.  When it does not explore, the cell takes the best action: on a
    table without NaN, if the number drawn is not below [epsilon], the
    action selected for a state is the position of the first greatest value
    of the row of the state, every value of the row being at most this one
    and every value before it smaller; and this greatest value is what
    [np.max] gives for the row. *)
Theorem greedy_action_is_the_first_best (ns na : Z) (Q : list (list float))
    (state : Z) (w : W) :
  has_shape ns na Q -> 0 <= state < ns -> 0 < na ->
  Forall (Forall (fun v => v <> S754_nan)) Q ->
  SFltb (np_random_uniform w).1 (epsilon (F := float)) = false ->
  exists (row : list float) (k : nat) (best : float),
    Q !! Z.to_nat state = Some row /\
    select_action Q state w = Ok (Z.of_nat k, (np_random_uniform w).2) /\
    row !! k = Some best /\ amax row = Ok best /\
    (forall (j : nat) (v : float), row !! j = Some v -> SFleb v best = true) /\
    (forall (j : nat) (v : float), (j < k)%nat -> row !! j = Some v ->
       SFltb v best = true).
Proof.
  intros HQ Hs Hna HnnQ Hu.
  destruct (row_of_shape ns na Q state HQ Hs) as (row & Hrow & Hget & Hlen).
  assert (Hnn : Forall not_nan row).
  { rewrite Forall_lookup in HnnQ. exact (HnnQ _ _ Hrow). }
  destruct row as [|mp ip]; [cbn in Hlen; lia|].
  assert (Hm : not_nan mp) by (inversion Hnn; assumption).
  assert (Hg : first_greatest [mp] 0 mp).
  { split; [reflexivity|]. split.
    - intros [|j] v Hj; [|discriminate]. injection Hj as <-.
      left. unfold same. lia.
    - intros j v Hlt. lia. }
  destruct (argmax_loop_first_greatest ip [mp] mp 0%nat Hnn Hg)
    as (k & Ek & Hk & Hall & Hbefore).
  cbn [app length] in *.
  exists (mp :: ip), k, (fold_left fmaximum ip mp).
  assert (Hb : not_nan (fold_left fmaximum ip mp)).
  { rewrite Forall_lookup in Hnn. exact (Hnn _ _ Hk). }
  split; [exact Hrow|]. split.
  - unfold select_action. destruct (np_random_uniform w) as [u w1].
    cbn [fst snd] in *. cbn [ltb binary64]. rewrite Hu, Hget.
    cbn [mbind result_bind np_argmax]. rewrite (isnan_false mp Hm).
    change (Z.of_nat 1) with 1 in Ek. change (Z.of_nat 0) with 0 in Ek.
    rewrite Ek. reflexivity.
  - split; [exact Hk|]. split; [reflexivity|]. split.
    + intros j v Hj. apply leb_rank; [|exact Hb|exact (Hall j v Hj)].
      rewrite Forall_lookup in Hnn. exact (Hnn _ _ Hj).
    + intros j v Hlt Hj.
      apply ltb_rank; [|exact Hb|exact (Hbefore j v Hlt Hj)].
      rewrite Forall_lookup in Hnn. exact (Hnn _ _ Hj).
Qed.

End Greedy.

(** The theorems on the corridor and on the runway. *)

Import Binary64.

Lemma q_update_rewrites_one_entry_witness :
  let Q := np_zeros (F := float) 4 2 in
  let reward := float_of_int 1 in
  has_shape 4 2 Q /\
  exists (Q' : list (list float)) (q best : float) (next : list float),
    q_update Q 2 1 reward 3 = Ok Q' /\
    has_shape 4 2 Q' /\
    entry Q 2 1 = Some q /\
    Q !! 3%nat = Some next /\ amax next = Ok best /\
    entry Q' 2 1
    = Some (add q (mul alpha (sub (add reward (mul gamma best)) q))) /\
    forall s a : nat, (s, a) <> (2%nat, 1%nat) -> entry Q' s a = entry Q s a.
Proof.
  intros Q reward.
  assert (HQ : has_shape 4 2 Q) by (apply np_zeros_shape; lia).
  split; [exact HQ|].
  exact (q_update_rewrites_one_entry 4 2 Q 2 1 reward 3 HQ
           ltac:(lia) ltac:(lia) ltac:(lia)).
Defined.

Lemma runway_behaves (goal : float) :
  well_behaved (gym := ToyWorld.runway goal) 4 2.
Proof.
  split; [|split].
  - intros w. eexists _, _. split; [reflexivity|lia].
  - intros w a Ha. eexists _, _, _, _. split; [reflexivity|]. cbn. lia.
  - intros w. cbn. apply Z.mod_pos_bound. lia.
Qed.

(** On the runway with the reward 1 at the goal the thousand episodes end,
    none of them needing more than 50 steps, and the table that the cell
    ends with has learned something. *)
Lemma q_learning_keeps_the_table_shape_witness :
  let w : ToyWorld.World := (0, 1) in
  well_behaved (gym := ToyWorld.runway (float_of_int 1)) 4 2 /\
  exists (Q : list (list float)) (w' : ToyWorld.World),
    q_learning (gym := ToyWorld.runway (float_of_int 1)) 50 w
    = Ok (Some (Q, w')) /\
    has_shape 4 2 Q /\ Q <> np_zeros 4 2.
Proof.
  intros w. split; [apply runway_behaves|].
  destruct (q_learning_keeps_the_table_shape
              (gym := ToyWorld.runway (float_of_int 1))
              4 2 w 50 (runway_behaves _) ltac:(lia) ltac:(lia) eq_refl eq_refl)
    as (_ & r & Er & Hshape).
  assert (Eend : exists Q w',
            q_learning (gym := ToyWorld.runway (float_of_int 1)) 50 w
            = Ok (Some (Q, w')) /\ Q <> np_zeros 4 2).
  { eexists _, _. split; [vm_compute; reflexivity|]. vm_compute. discriminate. }
  destruct Eend as (Q & w' & Eend & Hlearned).
  exists Q, w'. split; [exact Eend|]. split; [|exact Hlearned].
  apply (Hshape Q w'). rewrite Eend in Er. injection Er as <-. reflexivity.
Defined.

Lemma runway_without_reward (w : ToyWorld.World) (a : Z) s r d w' :
  env_step (Gym := ToyWorld.runway (float_of_int 0)) w a = Ok (s, r, d, w') ->
  is_zero r = true.
Proof. cbn. intros [= _ <- _ _]. destruct (_ =? 3); reflexivity. Qed.

(** On the runway without a reward the thousand episodes end as well, and
    the table that the cell ends with is the table of zeros. *)
Lemma q_table_stays_zero_without_reward_witness :
  let w : ToyWorld.World := (0, 1) in
  well_behaved (gym := ToyWorld.runway (float_of_int 0)) 4 2 /\
  (forall (w : ToyWorld.World) (a : Z) s r d w',
     env_step (Gym := ToyWorld.runway (float_of_int 0)) w a
     = Ok (s, r, d, w') -> is_zero r = true) /\
  (forall state : Z, 0 <= state < 4 ->
     exists row, np_getitem (np_zeros (F := float) 4 2) state = Ok row /\
                 np_argmax row = Ok 0) /\
  exists w' : ToyWorld.World,
    q_learning (gym := ToyWorld.runway (float_of_int 0)) 50 w
    = Ok (Some (np_zeros 4 2, w')).
Proof.
  intros w. split; [apply runway_behaves|].
  split; [exact runway_without_reward|].
  destruct (q_table_stays_zero_without_reward
              (gym := ToyWorld.runway (float_of_int 0)) 4 2 w 50
              (runway_behaves _) ltac:(lia) ltac:(lia) eq_refl eq_refl
              runway_without_reward)
    as (Hgreedy & _ & r & Er & Hzero).
  split; [exact Hgreedy|].
  assert (Eend : exists Q w',
            q_learning (gym := ToyWorld.runway (float_of_int 0)) 50 w
            = Ok (Some (Q, w'))).
  { eexists _, _. vm_compute. reflexivity. }
  destruct Eend as (Q & w' & Eend).
  exists w'. rewrite Eend. do 3 f_equal.
  apply (Hzero Q w'). rewrite Eend in Er. injection Er as <-. reflexivity.
Defined.

Lemma greedy_action_is_the_first_best_witness :
  let Q := [[float_of_int 0; float_of_int 1; float_of_int 1];
            [float_of_int 2; float_of_int 0; float_of_int 0]] in
  let w : ToyWorld.World := (0, 7) in
  has_shape 2 3 Q /\
  Forall (Forall (fun v => v <> S754_nan)) Q /\
  SFltb (np_random_uniform (Gym := ToyWorld.corridor (float_of_int 1)) w).1
    (epsilon (F := float)) = false /\
  exists (row : list float) (k : nat) (best : float),
    Q !! 0%nat = Some row /\
    select_action (gym := ToyWorld.corridor (float_of_int 1)) Q 0 w
    = Ok (Z.of_nat k,
          (np_random_uniform (Gym := ToyWorld.corridor (float_of_int 1)) w).2) /\
    row !! k = Some best /\ amax row = Ok best.
Proof.
  intros Q w.
  assert (HQ : has_shape 2 3 Q) by (split; [reflexivity|repeat constructor]).
  assert (Hnn : Forall (Forall (fun v => v <> S754_nan)) Q)
    by (repeat constructor; discriminate).
  assert (Hu : SFltb (np_random_uniform
                        (Gym := ToyWorld.corridor (float_of_int 1)) w).1
                 (epsilon (F := float)) = false) by (vm_compute; reflexivity).
  split; [exact HQ|]. split; [exact Hnn|]. split; [exact Hu|].
  destruct (greedy_action_is_the_first_best
              (gym := ToyWorld.corridor (float_of_int 1)) 2 3 Q 0 w HQ
              ltac:(lia) ltac:(lia) Hnn Hu)
    as (row & k & best & H1 & H2 & H3 & H4 & _).
  exists row, k, best. repeat split; assumption.
Defined.

End QLearningFacts.

Module PPOFacts.

Import PPO.

Section Memory.

Context {State Action Prob Val Reward Size : Type}.

(** X10.  The six lists of [PPOMemory] stay in step and its batch size
    stays what the constructor was given: after any sequence of [store] and
    [clear] calls on a new memory the lists have one common length, which a
    [store] raises by one, putting its six arguments last, and which is zero
    after a [clear]. *)
Theorem ppo_memory_lists_stay_in_step (b : Size)
    (m : @PPOMemory State Action Prob Val Reward Size) :
  memory_reachable b m ->
  batch_size m = b /\
  length (actions m) = length (states m) /\
  length (probs m) = length (states m) /\
  length (vals m) = length (states m) /\
  length (rewards m) = length (states m) /\
  length (dones m) = length (states m) /\
  (forall state action prob val reward done,
     let m' := store m state action prob val reward done in
     length (states m') = S (length (states m)) /\
     last (states m') = Some state /\ last (actions m') = Some action /\
     last (probs m') = Some prob /\ last (vals m') = Some val /\
     last (rewards m') = Some reward /\ last (dones m') = Some done) /\
  length (states (clear m)) = 0%nat.
Proof.
  intros Hr.
  assert (Hinv : batch_size m = b /\
                 length (actions m) = length (states m) /\
                 length (probs m) = length (states m) /\
                 length (vals m) = length (states m) /\
                 length (rewards m) = length (states m) /\
                 length (dones m) = length (states m)).
  { induction Hr as [| m state action prob val reward done _ IH | m _ IH].
    - cbn. tauto.
    - destruct IH as (Hb & H1 & H2 & H3 & H4 & H5).
      cbn. rewrite !length_app. cbn. repeat split; [exact Hb|lia..].
    - destruct IH as (Hb & _). cbn. tauto. }
  destruct Hinv as (Hb & H1 & H2 & H3 & H4 & H5).
  repeat (split; [assumption|]).
  split; [|reflexivity].
  intros state action prob val reward done. cbn.
  rewrite length_app, !last_snoc. cbn. repeat split. lia.
Qed.

End Memory.

Section Agent.

Context {State Action Prob Val Reward Size F Tensor Net Rng : Type}
  {layers : Layers Tensor Net Rng}.

(** X11.  A [PPOAgent] cannot be built.  In the notebook, [__init__] of
    [PPOMemory] has the parameter [batch_size] besides [self], without a
    default, and the one call of [PPOMemory], in [PPOAgent.__init__], has no
    argument at all.  So no construction of a [PPOAgent] returns, whatever
    the dimensions: it raises what [_build_network] raises, when one of the
    two networks cannot be built, and [TypeError] as soon as both are
    built. *)
Theorem ppo_agent_constructor_always_raises
    (state_dim action_dim : Z) (action_std_init : F) (g : Rng) :
  let construct :=
    agent_init (State := State) (Action := Action) (Prob := Prob) (Val := Val)
      (Reward := Reward) (Size := Size)
      state_dim action_dim action_std_init g in
  PyClasses.init_of "PPOMemory" Py.part_003 = Some (["self"; "batch_size"], 0%nat) /\
  PyClasses.calls_of "PPOMemory" Py.part_003 = [(0%nat, 0%nat)] /\
  (exists e, construct = Raise e) /\
  (forall e, _build_network state_dim action_dim g = Raise e ->
             construct = Raise e) /\
  (forall policy g1 e,
     _build_network state_dim action_dim g = Ok (policy, g1) ->
     _build_network state_dim action_dim g1 = Raise e ->
     construct = Raise e) /\
  (forall policy g1 policy_old g2,
     _build_network state_dim action_dim g = Ok (policy, g1) ->
     _build_network state_dim action_dim g1 = Ok (policy_old, g2) ->
     construct = Raise TypeError).
Proof.
  intros construct.
  split; [reflexivity|]. split; [vm_compute; reflexivity|].
  subst construct. unfold agent_init.
  destruct (_build_network state_dim action_dim g) as [[policy g1]|e1] eqn:E1;
    cbn [mbind result_bind].
  - destruct (_build_network state_dim action_dim g1) as [[policy_old g2]|e2]
      eqn:E2; cbn [mbind result_bind].
    + split; [eexists; reflexivity|]. split; [intros e [=]|].
      split; [intros p g' e [= <- <-] H; congruence|]. reflexivity.
    + split; [eexists; reflexivity|]. split; [intros e [=]|].
      split; [intros p g' e [= <- <-] H; congruence|].
      intros p g' p' g'' [= <- <-] H. congruence.
  - split; [eexists; reflexivity|].
    split; [intros e [= ->]; reflexivity|].
    split; [intros p g' e [=]|intros p g' p' g'' [=]].
Qed.

End Agent.

(** The theorem at a memory of batch size 5 that was filled, cleared and
    filled again. *)
Lemma ppo_memory_lists_stay_in_step_witness :
  let m : @PPOMemory Z Z Z Z Z Z :=
    store (clear (store (memory_init 5) 0 1 2 3 4 false)) 1 0 2 3 4 true in
  memory_reachable 5 m /\
  batch_size m = 5 /\
  length (actions m) = length (states m) /\
  length (probs m) = length (states m) /\
  length (vals m) = length (states m) /\
  length (rewards m) = length (states m) /\
  length (dones m) = length (states m).
Proof.
  intros m.
  assert (Hr : memory_reachable 5 m)
    by (apply reach_store, reach_clear, reach_store, reach_new).
  split; [exact Hr|].
  destruct (ppo_memory_lists_stay_in_step 5 m Hr)
    as (H0 & H1 & H2 & H3 & H4 & H5 & _).
  repeat split; assumption.
Defined.

(** The theorem on layers that check their arguments: [PPOAgent(4, 2)]
    raises [TypeError], both networks being built, and [PPOAgent(-1, 2)] the
    [ValueError] of an input of negative dimension. *)
Lemma ppo_agent_constructor_always_raises_witness :
  let build := _build_network (layers := ToyWorld.checked_layers) in
  let construct :=
    agent_init (State := Z) (Action := Z) (Prob := Z) (Val := Z) (Reward := Z)
      (Size := Z) (layers := ToyWorld.checked_layers) in
  (exists policy g1 policy_old g2,
     build 4 2 0 = Ok (policy, g1) /\ build 4 2 g1 = Ok (policy_old, g2) /\
     construct 4 2 (Binary64.truediv 6 10) 0 = Raise TypeError) /\
  build (-1) 2 0 = Raise ValueError /\
  construct (-1) 2 (Binary64.truediv 6 10) 0 = Raise ValueError.
Proof.
  intros build construct.
  pose proof (ppo_agent_constructor_always_raises (State := Z) (Action := Z)
                (Prob := Z) (Val := Z) (Reward := Z) (Size := Z)
                (layers := ToyWorld.checked_layers) 4 2
                (Binary64.truediv 6 10) 0) as (_ & _ & _ & _ & _ & Hboth).
  pose proof (ppo_agent_constructor_always_raises (State := Z) (Action := Z)
                (Prob := Z) (Val := Z) (Reward := Z) (Size := Z)
                (layers := ToyWorld.checked_layers) (-1) 2
                (Binary64.truediv 6 10) 0) as (_ & _ & _ & Hfirst & _).
  assert (E1 : build 4 2 0 = Ok ([2; 2], 4)) by reflexivity.
  assert (E2 : build 4 2 4 = Ok ([2; 2], 8)) by reflexivity.
  assert (E3 : build (-1) 2 0 = Raise ValueError) by reflexivity.
  split.
  - exists [2; 2], 4, [2; 2], 8.
    split; [exact E1|]. split; [exact E2|]. exact (Hboth _ _ _ _ E1 E2).
  - split; [exact E3|]. exact (Hfirst _ E3).
Defined.

End PPOFacts.

(** * The functions of the other notebooks: facts *)

Module CurvesFacts.

Import Curves.

Lemma slice_prefix {A : Type} (a : list A) (m : nat) :
  slice a 0 (Z.of_nat m) = take m a.
Proof.
  unfold slice. change (0 <? 0) with false. cbv iota.
  destruct (Z.ltb_spec (Z.of_nat m) 0) as [Hlt|_]; [lia|].
  replace (Z.min 0 (Z.of_nat (length a))) with 0 by lia.
  rewrite drop_0, Z.sub_0_r.
  destruct (Z.min_spec (Z.of_nat m) (Z.of_nat (length a))) as [[_ ->]|[Hle ->]].
  - rewrite Nat2Z.id. reflexivity.
  - rewrite Nat2Z.id. rewrite !take_ge by lia. reflexivity.
Qed.

Lemma range2_from_1 (n : nat) :
  range2 1 (Z.of_nat (S n)) = map (fun k => Z.of_nat (S k)) (seq 0 n).
Proof.
  unfold range2. replace (Z.to_nat (Z.of_nat (S n) - 1)) with n by lia.
  apply map_ext. intros k. lia.
Qed.

Section Function.

Context {F X Y Model : Type} {arith : Arith F} {sklearn : Sklearn F X Y Model}.

(** The model after the first [k] passes of the loop: fitted on the first
    instance, then on the first two, and so on. *)
Fixpoint fitted (X_train : list X) (y_train : list Y) (model : Model)
    (k : nat) : Model :=
  match k with
  | O => model
  | S k' =>
      fit (fitted X_train y_train model k') (take k X_train) (take k y_train)
  end.

Definition train_error (X_train : list X) (y_train : list Y) (model : Model)
    (k : nat) : F :=
  mean_squared_error (take (S k) y_train)
    (predict (fitted X_train y_train model (S k)) (take (S k) X_train)).

Definition val_error (X_train X_val : list X) (y_train y_val : list Y)
    (model : Model) (k : nat) : F :=
  mean_squared_error y_val (predict (fitted X_train y_train model (S k)) X_val).

Lemma loop_spec (X_train X_val : list X) (y_train y_val : list Y)
    (model : Model) (n : nat) :
  fold_left (fun s m => curves_body X_train X_val y_train y_val m s)
    (map (fun k => Z.of_nat (S k)) (seq 0 n)) (model, [], [])
  = (fitted X_train y_train model n,
     map (train_error X_train y_train model) (seq 0 n),
     map (val_error X_train X_val y_train y_val model) (seq 0 n)).
Proof.
  induction n as [|n IH]; [reflexivity|].
  rewrite seq_S, !map_app, fold_left_app, IH. cbn [map fold_left Nat.add].
  unfold curves_body. rewrite !slice_prefix. reflexivity.
Qed.

(** X13.  [plot_learning_curves] fits the model on the first instance of
    the training set, then on the first two, and so on, and stops one short
    of the whole training set: for a training set of [n] instances it fits
    [n - 1] times and plots two curves of [n - 1] points, none at all for a
    training set of one instance.  Point [k] of the first curve is the
    square root of the error of the model, fitted [k + 1] times, on the
    first [k + 1] training instances; point [k] of the second curve is the
    square root of its error on the validation set. *)
Theorem learning_curves_stop_one_short (model : Model) (X_ : list X)
    (y : list Y) (X_train X_val : list X) (y_train y_val : list Y) :
  train_test_split X_ y = Ok (X_train, X_val, y_train, y_val) ->
  exists (model' : Model) (train_curve val_curve : list F),
    plot_learning_curves model X_ y = Ok (model', train_curve, val_curve) /\
    length train_curve = (length X_train - 1)%nat /\
    length val_curve = (length X_train - 1)%nat /\
    model' = fitted X_train y_train model (length X_train - 1) /\
    forall k : nat, (k < length X_train - 1)%nat ->
      train_curve !! k = Some (sqrt (train_error X_train y_train model k)) /\
      val_curve !! k
      = Some (sqrt (val_error X_train X_val y_train y_val model k)).
Proof.
  intros Hsplit. unfold plot_learning_curves. rewrite Hsplit.
  cbn [mbind result_bind].
  assert (Hloop :
    fold_left (fun s m => curves_body X_train X_val y_train y_val m s)
      (range2 1 (Z.of_nat (length X_train))) (model, [], [])
    = (fitted X_train y_train model (length X_train - 1),
       map (train_error X_train y_train model) (seq 0 (length X_train - 1)),
       map (val_error X_train X_val y_train y_val model)
         (seq 0 (length X_train - 1)))).
  { destruct (length X_train) as [|n]; [reflexivity|].
    rewrite range2_from_1, loop_spec. cbn [Nat.sub]. rewrite Nat.sub_0_r.
    reflexivity. }
  rewrite Hloop.
  eexists _, _, _. split; [reflexivity|].
  rewrite !length_map, !length_seq. repeat split.
  - rewrite list_lookup_fmap, list_lookup_fmap, lookup_seq_lt by lia.
    reflexivity.
  - rewrite list_lookup_fmap, list_lookup_fmap, lookup_seq_lt by lia.
    reflexivity.
Qed.

End Function.

(** The theorem on ten instances, eight of them for training. *)
Lemma learning_curves_stop_one_short_witness :
  let X_ : list Z := [1; 2; 3; 4; 5; 6; 7; 8; 9; 10] in
  let y : list Z := [2; 4; 6; 8; 10; 12; 14; 16; 18; 20] in
  train_test_split (Sklearn := ToyWorld.memorizer) X_ y
  = Ok (take 8 X_, drop 8 X_, take 8 y, drop 8 y) /\
  exists (model' : list Z) (train_curve val_curve : list Binary64.float),
    plot_learning_curves (sklearn := ToyWorld.memorizer) [] X_ y
    = Ok (model', train_curve, val_curve) /\
    length train_curve = 7%nat /\ length val_curve = 7%nat.
Proof.
  intros X_ y.
  assert (Hs : train_test_split (Sklearn := ToyWorld.memorizer) X_ y
               = Ok (take 8 X_, drop 8 X_, take 8 y, drop 8 y))
    by reflexivity.
  split; [exact Hs|].
  destruct (learning_curves_stop_one_short (sklearn := ToyWorld.memorizer)
              [] X_ y _ _ _ _ Hs)
    as (model' & train_curve & val_curve & E & H1 & H2 & _).
  exists model', train_curve, val_curve. repeat split; assumption.
Defined.

End CurvesFacts.

Module Ch04Errors.

Import Ch04.

Section Errors.

Context {F Rng : Type} `{Arith F} `{NumPyLib F Rng}.

Lemma for_each_raises {A S : Type} (xs : list A) (body : A -> S -> result S)
    (P : exn -> Prop) :
  (forall x s e, x ∈ xs -> body x s = Raise e -> P e) ->
  forall s e, for_each xs body s = Raise e -> P e.
Proof.
  induction xs as [|x xs IH]; intros Hbody s e; cbn [for_each]; [discriminate|].
  destruct (body x s) as [s'|e'] eqn:E; cbn [mbind result_bind].
  - apply IH. intros x' s0 e0 Hx'. apply Hbody. right. exact Hx'.
  - intros [= <-]. eapply Hbody; [left|exact E].
Qed.

Lemma for_each_first_raises {A S : Type} (x : A) (xs : list A)
    (body : A -> S -> result S) (s : S) (e : exn) :
  body x s = Raise e -> for_each (x :: xs) body s = Raise e.
Proof. intros E. cbn [for_each]. rewrite E. reflexivity. Qed.

Lemma for_each_ok {A S : Type} (xs : list A) (body : A -> S -> result S) :
  (forall x s, exists s', body x s = Ok s') ->
  forall s, exists s', for_each xs body s = Ok s'.
Proof.
  intros Hbody. induction xs as [|x xs IH]; intros s; cbn [for_each].
  - eauto.
  - destruct (Hbody x s) as [s' ->]. cbn [mbind result_bind]. apply IH.
Qed.

Lemma length_dot (X_b : list (@vec2 F)) (theta : @vec2 F) :
  length (dot_X_theta X_b theta) = length X_b.
Proof. apply length_map. Qed.

Lemma col_sub_raises (u v : list F) (e : exn) :
  col_sub u v = Raise e -> e = ValueError.
Proof.
  unfold col_sub. case_bool_decide; [discriminate|].
  destruct u as [|a [|a' u]], v as [|b [|b' v]]; cbn; congruence.
Qed.

Lemma dot_XT_raises (X_b : list (@vec2 F)) (v : list F) (e : exn) :
  dot_XT X_b v = Raise e -> e = ValueError.
Proof. unfold dot_XT. case_bool_decide; congruence. Qed.

Lemma bgd_body_shapes (X_b : list (@vec2 F)) (y : list F) (theta : @vec2 F) :
  (length y = length X_b \/ length y = 1%nat ->
   exists theta', bgd_body X_b y theta = Ok theta') /\
  (length y <> length X_b -> length y <> 1%nat ->
   bgd_body X_b y theta = Raise ValueError).
Proof.
  unfold bgd_body, col_sub. rewrite length_dot. split.
  - intros Hy. case_bool_decide as Hl.
    + cbn [mbind result_bind]. unfold dot_XT.
      rewrite bool_decide_eq_true_2
        by (rewrite length_zip_with, length_dot; lia).
      cbn [mbind result_bind]. eauto.
    + destruct Hy as [Hy|Hy]; [congruence|].
      destruct y as [|b [|b' y]]; try discriminate.
      destruct (dot_X_theta X_b theta) as [|a [|a' u]] eqn:Eu;
        cbn [mbind result_bind]; unfold dot_XT;
        rewrite bool_decide_eq_true_2
          by (rewrite length_map, <- Eu, length_dot; reflexivity);
        cbn [mbind result_bind]; eauto.
  - intros H1 H2. rewrite bool_decide_eq_false_2 by congruence.
    pose proof (length_dot X_b theta) as Hl.
    destruct (dot_X_theta X_b theta) as [|a [|a' u]] eqn:Eu,
             y as [|b [|b' y]]; cbn [length] in *; try congruence;
      cbn [mbind result_bind]; try reflexivity.
    + unfold dot_XT. rewrite bool_decide_eq_false_2; [reflexivity|].
      cbn [map length]. congruence.
    + unfold dot_XT. rewrite bool_decide_eq_false_2; [reflexivity|].
      cbn [map length]. rewrite length_map. cbn [length]. lia.
Qed.

(** X14.  Batch gradient descent returns whenever [y] has one target per
    row of [X_b], and also when [y] has a single target, which NumPy
    broadcasts over all rows without a word; for any other length of [y] the
    first pass of the loop raises [ValueError]. *)
Theorem batch_descent_broadcasts_a_single_target (X_b : list (@vec2 F))
    (y : list F) (g : Rng) :
  (length y = length X_b \/ length y = 1%nat ->
   exists theta g', batch_gradient_descent X_b y g = Ok (theta, g')) /\
  (length y <> length X_b -> length y <> 1%nat ->
   batch_gradient_descent X_b y g = Raise ValueError).
Proof.
  unfold batch_gradient_descent. destruct (randn_2_1 g) as [theta g1]. split.
  - intros Hy.
    destruct (for_each_ok (range n_iterations)
                (fun _ theta => bgd_body X_b y theta)
                (fun _ theta => proj1 (bgd_body_shapes X_b y theta) Hy) theta)
      as [theta' ->].
    cbn [mbind result_bind]. eauto.
  - intros H1 H2.
    rewrite (for_each_first_raises 0 (map Z.of_nat (seq 1 999)) _ theta ValueError);
      [reflexivity|].
    apply (proj2 (bgd_body_shapes X_b y theta)); assumption.
Qed.

Lemma learning_schedule_raises (t : Z) :
  learning_schedule (F := F) t = Raise ZeroDivisionError <-> t = -50.
Proof.
  unfold learning_schedule, t1.
  destruct (Z.eqb_spec (t + 50) 0); split; intros; try lia; try discriminate.
  reflexivity.
Qed.

Lemma sgd_body_raises (X_b : list (@vec2 F)) (y : list F) (epoch i : Z)
    (s : @vec2 F * Rng) (e : exn) :
  0 <= epoch -> 0 <= i ->
  sgd_body X_b y epoch i s = Raise e -> e = ValueError.
Proof.
  intros He Hi. unfold sgd_body. destruct s as [theta g].
  destruct (randint m g) as [random_index g1].
  destruct (col_sub _ _) as [residual|e1] eqn:E1; cbn [mbind result_bind].
  - destruct (dot_XT _ residual) as [gr|e2] eqn:E2; cbn [mbind result_bind].
    + unfold learning_schedule, t1, m.
      destruct (Z.eqb_spec (epoch * 100 + i + 50) 0); [lia|].
      cbn [mbind result_bind]. discriminate.
    + intros [= <-]. eapply dot_XT_raises. exact E2.
  - intros [= <-]. eapply col_sub_raises. exact E1.
Qed.

Lemma elem_of_range (n i : Z) : i ∈ range n -> 0 <= i < n.
Proof.
  unfold range. intros Hi. apply list_elem_of_fmap in Hi as (k & -> & Hk).
  apply elem_of_seq in Hk. lia.
Qed.

(** X15.  [learning_schedule] raises [ZeroDivisionError] at [t = -t1],
    that is at -50, and nowhere else; the steps of stochastic gradient
    descent are never negative, so that the only exception the descent can
    raise, whatever the data, is the [ValueError] of arrays whose shapes do
    not fit. *)
Theorem stochastic_descent_never_divides_by_zero (X_b : list (@vec2 F))
    (y : list F) (g : Rng) :
  (forall t : Z,
     learning_schedule (F := F) t = Raise ZeroDivisionError <-> t = - t1) /\
  (forall e : exn,
     stochastic_gradient_descent X_b y g = Raise e -> e = ValueError).
Proof.
  split; [apply learning_schedule_raises|].
  unfold stochastic_gradient_descent. destruct (randn_2_1 g) as [theta g1].
  intros e. apply (for_each_raises _ _ (fun e => e = ValueError)).
  intros epoch s e' Hepoch. apply (for_each_raises _ _ (fun e => e = ValueError)).
  intros i s' e'' Hi.
  apply elem_of_range in Hepoch. apply elem_of_range in Hi.
  apply sgd_body_raises; lia.
Qed.

End Errors.

(** The theorems on two instances with one target or none, and on a
    hundred instances without targets. *)

Definition two_rows : list (@vec2 Binary64.float) :=
  [(Binary64.float_of_int 1, Binary64.float_of_int 1);
   (Binary64.float_of_int 1, Binary64.float_of_int 2)].

Lemma batch_descent_broadcasts_a_single_target_witness :
  let one_target := [Binary64.float_of_int 3] in
  ((length one_target = length two_rows \/ length one_target = 1%nat) /\
   exists theta g',
     batch_gradient_descent two_rows one_target (0 : Toy.Rng) = Ok (theta, g')) /\
  (length (@nil Binary64.float) <> length two_rows /\
   length (@nil Binary64.float) <> 1%nat /\
   batch_gradient_descent two_rows [] (0 : Toy.Rng) = Raise ValueError).
Proof.
  intros one_target.
  assert (H1 : length one_target = length two_rows \/ length one_target = 1%nat)
    by (right; reflexivity).
  assert (H2 : length (@nil Binary64.float) <> length two_rows) by discriminate.
  assert (H3 : length (@nil Binary64.float) <> 1%nat) by discriminate.
  split.
  - split; [exact H1|].
    exact (proj1 (batch_descent_broadcasts_a_single_target two_rows one_target
                    (0 : Toy.Rng)) H1).
  - split; [exact H2|]. split; [exact H3|].
    exact (proj2 (batch_descent_broadcasts_a_single_target two_rows []
                    (0 : Toy.Rng)) H2 H3).
Defined.

Lemma stochastic_descent_never_divides_by_zero_witness :
  let X_b : list (@vec2 Binary64.float) :=
    replicate 100 (Binary64.float_of_int 1, Binary64.float_of_int 1) in
  learning_schedule (F := Binary64.float) (- t1) = Raise ZeroDivisionError /\
  exists e, stochastic_gradient_descent X_b [] (0 : Toy.Rng) = Raise e /\
            e = ValueError.
Proof.
  intros X_b.
  destruct (stochastic_descent_never_divides_by_zero X_b [] (0 : Toy.Rng))
    as [Hs He].
  split.
  - apply (Hs (- t1)). reflexivity.
  - assert (E : exists e, stochastic_gradient_descent X_b [] (0 : Toy.Rng)
                          = Raise e)
      by (vm_compute; eexists; reflexivity).
    destruct E as [e E]. exists e. split; [exact E|exact (He e E)].
Defined.

End Ch04Errors.

Module Ch02Facts.

Import Ch02.

Section Adder.

Context {F : Type} `{Arith F}.

Lemma column_ok (X : @ndarray F) (j : Z) :
  0 <= j < Z.of_nat (length (columns X)) ->
  exists c, columns X !! Z.to_nat j = Some c /\ column X j = Ok c.
Proof.
  intros Hj. unfold column, np_getitem, np_index.
  destruct (Z.leb_spec 0 j); [|lia].
  destruct (Z.ltb_spec j (Z.of_nat (length (columns X)))); [|lia].
  cbn.
  destruct (lookup_lt_is_Some_2 (columns X) (Z.to_nat j) ltac:(lia)) as [c Hc].
  exists c. rewrite Hc. split; reflexivity.
Qed.

Lemma column_out_of_range (X : @ndarray F) (j : Z) :
  Z.of_nat (length (columns X)) <= j -> column X j = Raise IndexError.
Proof.
  intros Hj. unfold column, np_getitem, np_index.
  destruct (Z.leb_spec 0 j); [|lia].
  destruct (Z.ltb_spec j (Z.of_nat (length (columns X)))); [lia|].
  cbn.
  destruct (Z.leb_spec (- Z.of_nat (length (columns X))) j); [|reflexivity].
  destruct (Z.ltb_spec j 0); [lia|]. reflexivity.
Qed.

Lemma divide_columns (a b : list F) :
  length a = length b -> divide a b = Ok (zip_with div a b).
Proof. intros E. unfold divide. rewrite bool_decide_eq_true_2 by exact E. reflexivity. Qed.

(** X16.  [CombinedAttributesAdder.transform] needs an array of at least
    seven columns: on fewer it raises [IndexError].  On a well-formed array
    of seven columns or more it always returns, division by a zero count of
    households or rooms included: the result has the rows and the columns of
    [X], unchanged and in place, followed by the column of
    [X[:, 3] / X[:, 6]], the column of [X[:, 5] / X[:, 6]] and, if
    [add_bedrooms_per_room] is set, the column of [X[:, 4] / X[:, 3]]. *)
Theorem transform_appends_the_ratio_columns
    (self : CombinedAttributesAdder) (X : @ndarray F) :
  ((length (columns X) < 7)%nat -> transform self X = Raise IndexError) /\
  (well_formed X -> (7 <= length (columns X))%nat ->
   exists x3 x4 x5 x6 X',
     columns X !! 3%nat = Some x3 /\ columns X !! 4%nat = Some x4 /\
     columns X !! 5%nat = Some x5 /\ columns X !! 6%nat = Some x6 /\
     transform self X = Ok X' /\
     well_formed X' /\ nrows X' = nrows X /\
     columns X'
     = columns X
         ++ [zip_with div x3 x6; zip_with div x5 x6]
         ++ (if add_bedrooms_per_room self then [zip_with div x4 x3] else [])).
Proof.
  split.
  - intros Hn. unfold transform.
    destruct (Z_lt_le_dec 3 (Z.of_nat (length (columns X)))) as [H3|H3].
    + destruct (column_ok X 3 ltac:(lia)) as (x3 & _ & ->). cbn [mbind result_bind].
      rewrite (column_out_of_range X 6) by lia. reflexivity.
    + rewrite (column_out_of_range X 3) by lia. reflexivity.
  - intros Hwf Hn.
    destruct (column_ok X 3 ltac:(lia)) as (x3 & H3 & E3).
    destruct (column_ok X 4 ltac:(lia)) as (x4 & H4 & E4).
    destruct (column_ok X 5 ltac:(lia)) as (x5 & H5 & E5).
    destruct (column_ok X 6 ltac:(lia)) as (x6 & H6 & E6).
    change (Z.to_nat 3) with 3%nat in H3. change (Z.to_nat 4) with 4%nat in H4.
    change (Z.to_nat 5) with 5%nat in H5. change (Z.to_nat 6) with 6%nat in H6.
    pose proof Hwf as Hwf'. unfold well_formed in Hwf'.
    rewrite Forall_lookup in Hwf'.
    pose proof (Hwf' _ _ H3) as L3. pose proof (Hwf' _ _ H4) as L4.
    pose proof (Hwf' _ _ H5) as L5. pose proof (Hwf' _ _ H6) as L6.
    exists x3, x4, x5, x6.
    unfold transform. rewrite E3. cbn [mbind result_bind]. rewrite E6. cbn [mbind result_bind].
    rewrite (divide_columns x3 x6) by congruence. cbn [mbind result_bind].
    rewrite E5. cbn [mbind result_bind].
    rewrite (divide_columns x5 x6) by congruence. cbn [mbind result_bind].
    assert (Hz : forall a b : list F, length a = nrows X -> length b = nrows X ->
                 length (zip_with div a b) = nrows X).
    { intros a b Ha Hb. rewrite length_zip_with. lia. }
    destruct (add_bedrooms_per_room self).
    + rewrite E4. cbn [mbind result_bind].
      rewrite (divide_columns x4 x3) by congruence. cbn [mbind result_bind].
      unfold c_. cbn [forallb]. rewrite !Hz by assumption.
      rewrite Nat.eqb_refl. cbn [mbind result_bind].
      eexists. repeat (split; [eassumption || reflexivity|]).
      split; [|split; reflexivity].
      unfold well_formed. cbn. apply Forall_app. split; [exact Hwf|].
      repeat constructor; apply Hz; assumption.
    + unfold c_. cbn [forallb]. rewrite !Hz by assumption.
      rewrite Nat.eqb_refl. cbn [mbind result_bind].
      eexists. repeat (split; [eassumption || reflexivity|]).
      split; [|split; [reflexivity|]].
      * unfold well_formed. cbn. apply Forall_app. split; [exact Hwf|].
        repeat constructor; apply Hz; assumption.
      * cbn. reflexivity.
Qed.

End Adder.

(** The theorem on an array of two districts and seven columns, the
    second district without households, and on its first two columns. *)

Definition districts : @ndarray Binary64.float :=
  {| nrows := 2;
     columns := map (map Binary64.float_of_int)
                  [[1; 2]; [3; 4]; [5; 6]; [880; 7099]; [129; 1106];
                   [322; 2401]; [126; 0]] |}.

Definition two_columns : @ndarray Binary64.float :=
  {| nrows := 2; columns := take 2 (columns districts) |}.

Lemma transform_appends_the_ratio_columns_witness :
  let self := init None in
  ((length (columns two_columns) < 7)%nat /\
   transform self two_columns = Raise IndexError) /\
  well_formed districts /\ (7 <= length (columns districts))%nat /\
  exists x3 x4 x5 x6 X',
    columns districts !! 3%nat = Some x3 /\
    columns districts !! 4%nat = Some x4 /\
    columns districts !! 5%nat = Some x5 /\
    columns districts !! 6%nat = Some x6 /\
    transform self districts = Ok X' /\
    well_formed X' /\ nrows X' = nrows districts /\
    columns X'
    = columns districts
        ++ [zip_with div x3 x6; zip_with div x5 x6]
        ++ (if add_bedrooms_per_room self then [zip_with div x4 x3] else []).
Proof.
  intros self.
  assert (Hs : (length (columns two_columns) < 7)%nat) by (cbn; lia).
  assert (Hwf : well_formed districts) by (repeat constructor).
  assert (Hn : (7 <= length (columns districts))%nat) by (cbn; lia).
  split.
  - split; [exact Hs|].
    exact (proj1 (transform_appends_the_ratio_columns self two_columns) Hs).
  - split; [exact Hwf|]. split; [exact Hn|].
    exact (proj2 (transform_appends_the_ratio_columns self districts) Hwf Hn).
Defined.

End Ch02Facts.

Module Ch10Facts.

Import Binary64 Ch10.

Definition relu1 (v : float) : float := fmaximum (float_of_int 0) v.

Lemma relu1_cases (v : float) :
  relu1 v = match v with
            | S754_nan => S754_nan
            | S754_zero _ => S754_zero false
            | S754_infinity s | S754_finite s _ _ =>
                if s then S754_zero false else v
            end.
Proof. destruct v as [s | s | | s m e]; try destruct s; reflexivity. Qed.

(** X18.  [relu] clips an array at zero, item by item: the result has
    the length of the array; a NaN stays a NaN; an item above zero stays as
    it is; any other item, [-0.0] and minus infinity included, becomes a
    zero; no item of the result is below zero, and [relu] of the result is
    the result. *)
Theorem relu_clips_at_zero (x : list float) :
  length (relu x) = length x /\
  relu (relu x) = relu x /\
  forall (k : nat) (v : float), x !! k = Some v ->
    exists r, relu x !! k = Some r /\
      (v = S754_nan -> r = S754_nan) /\
      (SFltb (float_of_int 0) v = true -> r = v) /\
      (SFleb v (float_of_int 0) = true -> is_zero r = true) /\
      SFltb r (float_of_int 0) = false.
Proof.
  split; [apply length_map|]. split.
  - unfold relu. rewrite map_map. apply map_ext. intros v.
    change (maximum (of_int 0) (maximum (of_int 0) v)) with (relu1 (relu1 v)).
    change (maximum (of_int 0) v) with (relu1 v).
    rewrite !relu1_cases.
    destruct v as [s | s | | s m e]; try destruct s; reflexivity.
  - intros k v Hk. exists (relu1 v). split.
    + unfold relu. rewrite list_lookup_fmap, Hk. reflexivity.
    + rewrite relu1_cases.
      destruct v as [s | s | | s m e]; try destruct s;
        repeat split; try reflexivity; try discriminate.
Qed.

Lemma relu_clips_at_zero_witness :
  let x := [float_of_int (-2); float_of_int 3] in
  (x !! 0%nat = Some (float_of_int (-2))) /\
  exists r, relu x !! 0%nat = Some r /\ is_zero r = true.
Proof.
  intros x.
  assert (Hk : x !! 0%nat = Some (float_of_int (-2))) by reflexivity.
  split; [exact Hk|].
  destruct (proj2 (proj2 (relu_clips_at_zero x)) 0%nat _ Hk)
    as (r & Hr & _ & _ & Hz & _).
  exists r. split; [exact Hr|]. apply Hz. reflexivity.
Defined.

End Ch10Facts.

Module Ch14Facts.

Import Ch14.

Lemma conv_shape (filters kernel_size strides height width channels : Z) :
  0 < filters -> 0 < strides ->
  output_shape (Conv2D filters kernel_size strides) [height; width; channels]
  = Ok [(height + strides - 1) / strides; (width + strides - 1) / strides;
        filters].
Proof.
  intros Hf Hs. cbn [output_shape].
  destruct (Z.ltb_spec 0 filters); [|lia].
  destruct (Z.ltb_spec 0 strides); [|lia]. reflexivity.
Qed.

Lemma keeps_shape (l : layer) (s : shape) :
  l = BatchNormalization \/ l = Activation -> output_shape l s = Ok s.
Proof. intros [-> | ->]; reflexivity. Qed.

Lemma main_path (filters strides height width channels : Z) :
  0 < filters -> 0 < strides ->
  apply_layers (main_layers (init filters (Some strides)))
    [height; width; channels]
  = Ok [(height + strides - 1) / strides; (width + strides - 1) / strides;
        filters].
Proof.
  intros Hf Hs. unfold apply_layers, init.
  cbn [main_layers for_each from_option id].
  rewrite conv_shape by assumption. cbn [mbind result_bind].
  rewrite keeps_shape by tauto. cbn [mbind result_bind].
  rewrite keeps_shape by tauto. cbn [mbind result_bind].
  rewrite conv_shape by lia. cbn [mbind result_bind].
  rewrite keeps_shape by tauto. cbn [mbind result_bind].
  f_equal. f_equal; [|f_equal]; rewrite Z.div_1_r; lia.
Qed.

Lemma broadcast_same (k : kind) (s : shape) : broadcast k s s = Ok s.
Proof.
  induction s as [|x s IH]; [reflexivity|].
  cbn [broadcast]. rewrite Z.eqb_refl. cbn [mbind result_bind].
  rewrite IH. reflexivity.
Qed.

(** X19.  [ResidualBlock] with the default stride adds its input to the
    output of its main layers, which has one channel per filter: [call]
    returns only if the input has as many channels as the block has filters,
    or one of the two numbers is 1.  Otherwise the addition raises:
    [ValueError] on a symbolic input, while a model is built, and
    [InvalidArgumentError] on an input that holds data.  With a stride above
    1 the input goes through a convolution of its own and [call] returns
    for any number of channels, height and width divided by the stride,
    rounded up. *)
Theorem residual_block_needs_matching_channels
    (k : kind) (filters height width channels : Z) :
  0 < filters -> 0 < channels ->
  (* strides = 1, the default: the input itself is added *)
  (channels = filters \/ channels = 1 \/ filters = 1 ->
   call (init filters None) k [height; width; channels]
   = Ok [height; width; Z.max channels filters]) /\
  (channels <> filters -> channels <> 1 -> filters <> 1 ->
   call (init filters None) k [height; width; channels]
   = Raise (match k with
            | Symbolic => ValueError
            | Concrete => Exception "InvalidArgumentError"
            end)) /\
  (* strides > 1: the input goes through a convolution of its own *)
  (forall strides : Z, 1 < strides ->
   call (init filters (Some strides)) k [height; width; channels]
   = Ok [(height + strides - 1) / strides; (width + strides - 1) / strides;
         filters]).
Proof.
  intros Hf Hc.
  assert (Hmain :
    apply_layers (main_layers (init filters None)) [height; width; channels]
    = Ok [height; width; filters]).
  { change (init filters None) with (init filters (Some 1)).
    rewrite main_path by lia. f_equal.
    f_equal; [|f_equal]; rewrite Z.div_1_r; lia. }
  assert (Hskip :
    apply_layers (skip_layers (init filters None)) [height; width; channels]
    = Ok [height; width; channels]) by reflexivity.
  split; [|split].
  - intros Hcase. unfold call. rewrite Hmain, Hskip.
    cbn [mbind result_bind broadcast]. rewrite !Z.eqb_refl.
    cbn [mbind result_bind].
    destruct (Z.eqb_spec filters channels) as [->|Hne].
    + cbn [mbind result_bind output_shape]. rewrite Z.max_id. reflexivity.
    + destruct (Z.eqb_spec filters 1) as [->|Hne1].
      * cbn [mbind result_bind output_shape]. rewrite Z.max_l by lia.
        reflexivity.
      * destruct (Z.eqb_spec channels 1) as [->|Hne2]; [|lia].
        cbn [mbind result_bind output_shape]. rewrite Z.max_r by lia.
        reflexivity.
  - intros H1 H2 H3. unfold call. rewrite Hmain, Hskip.
    cbn [mbind result_bind broadcast]. rewrite !Z.eqb_refl.
    cbn [mbind result_bind].
    destruct (Z.eqb_spec filters channels); [lia|].
    destruct (Z.eqb_spec filters 1); [lia|].
    destruct (Z.eqb_spec channels 1); [lia|]. destruct k; reflexivity.
  - intros strides Hs. unfold call.
    rewrite (main_path filters strides height width channels Hf ltac:(lia)).
    cbn [mbind result_bind]. unfold init at 1.
    cbn [skip_layers from_option id].
    destruct (Z.ltb_spec 1 strides); [|lia].
    unfold apply_layers. cbn [for_each].
    rewrite conv_shape by lia. cbn [mbind result_bind].
    rewrite keeps_shape by tauto. cbn [mbind result_bind].
    rewrite broadcast_same. reflexivity.
Qed.

(** The two blocks of the notebook's example, which builds a model:
    [ResidualBlock(64)] on the symbolic input of 32 x 32 x 3, which raises
    [ValueError], and [ResidualBlock(128, strides=2)] on 64 channels; and
    [ResidualBlock(64)] on an image of 32 x 32 x 3. *)
Lemma residual_block_needs_matching_channels_witness :
  (0 < 64 /\ 0 < 3 /\ 3 <> 64 /\ 3 <> 1 /\ 64 <> 1 /\
   call (init 64 None) Symbolic [32; 32; 3] = Raise ValueError /\
   call (init 64 None) Concrete [32; 32; 3]
   = Raise (Exception "InvalidArgumentError")) /\
  (0 < 128 /\ 0 < 64 /\ 1 < 2 /\
   call (init 128 (Some 2)) Symbolic [32; 32; 64] = Ok [16; 16; 128]).
Proof.
  split.
  - repeat (split; [lia|]). split.
    + exact (proj1 (proj2 (residual_block_needs_matching_channels Symbolic
                             64 32 32 3 ltac:(lia) ltac:(lia)))
               ltac:(lia) ltac:(lia) ltac:(lia)).
    + exact (proj1 (proj2 (residual_block_needs_matching_channels Concrete
                             64 32 32 3 ltac:(lia) ltac:(lia)))
               ltac:(lia) ltac:(lia) ltac:(lia)).
  - repeat (split; [lia|]).
    exact (proj2 (proj2 (residual_block_needs_matching_channels Symbolic
                           128 32 32 64 ltac:(lia) ltac:(lia))) 2 ltac:(lia)).
Defined.

End Ch14Facts.

Module Ch15Facts.

Import Ch15.

(** ** The vocabulary *)

Lemma vocab_permutation (text : list char) : vocab text ≡ₚ remove_dups text.
Proof. apply merge_sort_Permutation. Qed.

Lemma vocab_NoDup (text : list char) : NoDup (vocab text).
Proof. rewrite vocab_permutation. apply NoDup_remove_dups. Qed.

Lemma elem_of_vocab (text : list char) (c : char) : c ∈ vocab text <-> c ∈ text.
Proof. rewrite vocab_permutation. apply elem_of_remove_dups. Qed.

Lemma sorted_strict (l : list Z) :
  StronglySorted Z.le l -> NoDup l -> StronglySorted Z.lt l.
Proof.
  induction 1 as [|x l Hs IH Hx]; intros Hnd; [constructor|].
  apply NoDup_cons in Hnd as [Hnx Hnd]. constructor; [auto|].
  rewrite Forall_forall in Hx |- *. intros y Hy.
  specialize (Hx y Hy). assert (x <> y) by (intros ->; auto). lia.
Qed.

Lemma vocab_sorted (text : list char) : StronglySorted Z.lt (vocab text).
Proof.
  apply sorted_strict; [|apply vocab_NoDup].
  apply (StronglySorted_merge_sort Z.le).
Qed.

(** ** The dictionary *)

Definition dict_of (l : list char) : gmap char Z :=
  fold_left (fun d '(i, u) => <[u := i]> d) (enumerate l) ∅.

Lemma dict_of_snoc (l : list char) (x : char) :
  dict_of (l ++ [x]) = <[x := Z.of_nat (length l)]> (dict_of l).
Proof.
  unfold dict_of, enumerate. rewrite imap_app, fold_left_app. cbn.
  rewrite Nat.add_0_r. reflexivity.
Qed.

Lemma dict_of_lookup (l : list char) :
  NoDup l ->
  forall (i : nat) (c : char),
    l !! i = Some c <-> dict_of l !! c = Some (Z.of_nat i).
Proof.
  induction l as [|x l IH] using rev_ind; intros Hnd i c.
  - unfold dict_of. cbn. rewrite lookup_empty. split; discriminate.
  - apply NoDup_app in Hnd as (Hnd & Hx & _).
    rewrite dict_of_snoc.
    destruct (decide (c = x)) as [->|Hne].
    + rewrite lookup_insert_eq. split.
      * intros Hi. apply lookup_app_Some in Hi as [Hi|[Hlen Hi]].
        -- exfalso. apply (Hx x); [eapply list_elem_of_lookup_2; eauto|].
           apply list_elem_of_singleton. reflexivity.
        -- destruct (i - length l)%nat eqn:E; [|discriminate].
           do 2 f_equal. lia.
      * intros [= Hi]. apply Nat2Z.inj in Hi. subst i.
        rewrite lookup_app_r by lia. rewrite Nat.sub_diag. reflexivity.
    + rewrite lookup_insert_ne by congruence. rewrite <- (IH Hnd). split.
      * intros Hi. apply lookup_app_Some in Hi as [Hi|[Hlen Hi]]; [exact Hi|].
        destruct (i - length l)%nat; simpl in Hi; [|discriminate].
        congruence.
      * intros Hi. apply lookup_app_l_Some. exact Hi.
Qed.

Lemma char2idx_lookup (text : list char) (i : nat) (c : char) :
  vocab text !! i = Some c <-> char2idx text !! c = Some (Z.of_nat i).
Proof. apply (dict_of_lookup (vocab text)), vocab_NoDup. Qed.

(** X20.  The vocabulary of a text numbers its characters.  [vocab] holds
    the characters of the text, each once, in increasing order; [char2idx]
    maps a character to its position in [vocab], and nothing else: the
    index of a character that is not in the text raises [KeyError]. *)
Theorem vocabulary_numbers_the_characters (text : list char) :
  StronglySorted Z.lt (vocab text) /\
  (forall c : char, c ∈ vocab text <-> c ∈ text) /\
  (forall (i : nat) (c : char),
     vocab text !! i = Some c <-> char2idx text !! c = Some (Z.of_nat i)) /\
  (forall c : char, c ∉ text -> dict_getitem (char2idx text) c
                                = Raise (Exception "KeyError")).
Proof.
  split; [apply vocab_sorted|]. split; [apply elem_of_vocab|].
  split; [apply char2idx_lookup|].
  intros c Hc. unfold dict_getitem.
  destruct (char2idx text !! c) as [v|] eqn:E; [|reflexivity].
  exfalso. apply Hc. apply elem_of_vocab.
  assert (Hv : exists i : nat, v = Z.of_nat i).
  { clear Hc. unfold char2idx in E. fold (dict_of (vocab text)) in E.
    revert E. generalize (vocab text). intros l.
    induction l as [|x l IH] using rev_ind.
    - unfold dict_of. cbn. rewrite lookup_empty. discriminate.
    - rewrite dict_of_snoc. destruct (decide (c = x)) as [->|Hne].
      + rewrite lookup_insert_eq. intros [= <-]. eauto.
      + rewrite lookup_insert_ne by congruence. exact IH. }
  destruct Hv as [i ->]. apply char2idx_lookup in E.
  eapply list_elem_of_lookup_2. exact E.
Qed.

(** ** The encoding *)

Lemma encode_char (text : list char) (c : char) :
  c ∈ text ->
  exists i : nat,
    vocab text !! i = Some c /\
    dict_getitem (char2idx text) c = Ok (Z.of_nat i).
Proof.
  intros Hc. apply elem_of_vocab in Hc.
  apply list_elem_of_lookup_1 in Hc as [i Hi]. exists i.
  split; [exact Hi|].
  unfold dict_getitem. apply char2idx_lookup in Hi. rewrite Hi. reflexivity.
Qed.

Lemma encode_part (text part : list char) :
  (forall c, c ∈ part -> c ∈ text) ->
  exists ids : list Z,
    mapM (dict_getitem (char2idx text)) part = Ok ids /\
    Forall2 (fun i c => 0 <= i /\ vocab text !! Z.to_nat i = Some c) ids part.
Proof.
  induction part as [|c part IH]; intros Hin.
  - exists []. split; [reflexivity|constructor].
  - destruct (encode_char text c) as (i & Hi & Henc).
    { apply Hin. left. }
    destruct IH as (ids & E & Hall).
    { intros c' Hc'. apply Hin. right. exact Hc'. }
    exists (Z.of_nat i :: ids). split.
    + cbn [mapM]. rewrite Henc. cbn [mbind result_bind]. rewrite E. reflexivity.
    + constructor; [|exact Hall]. rewrite Nat2Z.id. split; [lia|exact Hi].
Qed.

(** The cell on its own, in a kernel where the names that the five cells
    before it bind are all bound, or none of them. *)
Definition kernel_before_cell_6 (all_bound : bool) : Py.state :=
  fold_right Py.bind_name Py.fresh_kernel
    (if all_bound
     then flat_map (flat_map Py.assigned) (take 5 (Py.nb_cells Py.ch15))
     else []).

(** The text of the notebook. *)
Definition fox : list char :=
  ToyWorld.code_points "The quick brown fox jumps over the lazy dog.".

(** X21.  The text-generation cell stops before it encodes its text,
    though the encoding itself cannot fail.  No cell of chapter 15 binds
    [np]: run with the 29 characters of the vocabulary of its text, nothing
    failing, the cell binds [text], [vocab] and [char2idx] and stops with
    [NameError] for [np] at [idx2char = np.array(vocab)]; [text_as_int],
    [split_input_target] and [dataset] stay unbound.  The comprehension
    [[char2idx[c] for c in text]], for any text, raises no [KeyError] and
    gives one number per character, the position of the character in
    [vocab]. *)
Theorem text_is_encodable_but_np_is_unbound (text : list char)
    (all_bound : bool) (choose : nat -> bool) (n : nat) :
  let o := {| Py.fails := fun _ => None;
              Py.choose := fun j => if (j <? 29)%nat then true
                                    else if (j =? 29)%nat then false
                                    else choose j |} in
  let run := Py.run_cells o (100 + n) 6 [Py.ch15_cell_6]
               (kernel_before_cell_6 all_bound) in
  length (vocab fox) = 29%nat /\
  Py.in_list "np" (PyClasses.bound_at_top_level Py.ch15) = false /\
  run.1 = Py.StoppedAt 6 (NameError "np") /\
  map (fun x => Py.in_list x (Py.globals run.2)) ["text"; "vocab"; "char2idx"]
  = [true; true; true] /\
  map (fun x => Py.in_list x (Py.globals run.2))
    ["idx2char"; "text_as_int"; "split_input_target"; "dataset"]
  = [false; false; false; false] /\
  exists ids : list Z,
    encoded text = Ok ids /\ length ids = length text /\
    Forall2 (fun i c => 0 <= i /\ vocab text !! Z.to_nat i = Some c) ids text.
Proof.
  intros o run. subst o run.
  split; [vm_compute; reflexivity|]. split; [vm_compute; reflexivity|].
  split; [destruct all_bound; vm_compute; reflexivity|].
  split; [destruct all_bound; vm_compute; reflexivity|].
  split; [destruct all_bound; vm_compute; reflexivity|].
  destruct (encode_part text text ltac:(auto)) as (ids & E & Hall).
  exists ids. split; [exact E|]. split; [|exact Hall].
  apply Forall2_length in Hall. exact Hall.
Qed.

(** ** Inputs and targets *)

Lemma slice_all_but_last {A : Type} (chunk : list A) :
  slice chunk 0 (-1) = take (length chunk - 1) chunk.
Proof.
  unfold slice. change (0 <? 0) with false. change (-1 <? 0) with true.
  cbv iota.
  replace (Z.min 0 (Z.of_nat (length chunk))) with 0 by lia.
  rewrite drop_0, Z.sub_0_r. f_equal. lia.
Qed.

Lemma slice_from_1 {A : Type} (chunk : list A) :
  slice chunk 1 (Z.of_nat (length chunk)) = drop 1 chunk.
Proof.
  unfold slice. change (1 <? 0) with false. cbv iota.
  destruct (Z.ltb_spec (Z.of_nat (length chunk)) 0); [lia|].
  rewrite Z.min_id.
  destruct chunk as [|x chunk]; [reflexivity|].
  replace (Z.min 1 (Z.of_nat (length (x :: chunk)))) with 1
    by (cbn [length]; lia).
  change (Z.to_nat 1) with 1%nat.
  apply take_ge. rewrite length_drop. lia.
Qed.

Lemma split_input_target_eq {A : Type} (chunk : list A) :
  split_input_target chunk = (take (length chunk - 1) chunk, drop 1 chunk).
Proof.
  unfold split_input_target. rewrite slice_all_but_last, slice_from_1.
  reflexivity.
Qed.

(** X22.  [split_input_target] pairs every item of a chunk with the next
    one: input and target both have one item less than the chunk (none for
    an empty chunk), the input holds the items of the chunk in place, the
    last one left out, and the target at a position is the item of the chunk
    at the next position. *)
Theorem split_input_target_shifts_by_one {A : Type} (chunk : list A) :
  let '(input_text, target_text) := split_input_target chunk in
  length input_text = (length chunk - 1)%nat /\
  length target_text = (length chunk - 1)%nat /\
  forall k : nat,
    target_text !! k = chunk !! S k /\
    ((k < length chunk - 1)%nat -> input_text !! k = chunk !! k) /\
    ((length chunk - 1 <= k)%nat -> input_text !! k = None).
Proof.
  rewrite split_input_target_eq.
  split; [rewrite length_take; lia|]. split; [rewrite length_drop; lia|].
  intros k. split; [apply lookup_drop|]. split.
  - intros Hk. apply lookup_take_lt. exact Hk.
  - intros Hk. apply lookup_take_ge. exact Hk.
Qed.

(** ** The data set *)

Lemma batch_lookup {A : Type} (n : nat) (items : list A) (j : nat)
    (chunk : list A) :
  (0 < n)%nat -> batch n items !! j = Some chunk ->
  (j < length items / n)%nat /\ chunk = take n (drop (j * n) items) /\
  length chunk = n.
Proof.
  intros Hn Hj. unfold batch in Hj. rewrite list_lookup_fmap in Hj.
  destruct (seq 0 (length items / n) !! j) as [k|] eqn:E; [|discriminate].
  apply lookup_seq in E as [-> Hlt]. cbn in Hj. injection Hj as <-.
  split; [exact Hlt|]. split; [reflexivity|].
  rewrite length_take, length_drop.
  assert (n * (length items / n) <= length items)%nat
    by (apply Nat.Div0.mul_div_le).
  nia.
Qed.

(** X23.  The two [tf.data] steps after the encoding cut a data set of
    numbers into examples of [seq_length] items.  Whatever items
    [char_dataset] holds, [sequences.map(split_input_target)] has one
    example for every 11 of them, the items that are left after the last
    full sequence taking no part: that is [examples_per_epoch] for a data
    set of one item per character.  The [j]-th example is the pair of the
    items [11 j .. 11 j + 9] and of the items [11 j + 1 .. 11 j + 10]: each
    target is the item after its input. *)
Theorem dataset_pairs_each_item_with_the_next (char_dataset : list Z) :
  let examples := dataset char_dataset in
  length examples = (length char_dataset / 11)%nat /\
  (forall text : list char,
     length text = length char_dataset ->
     Z.of_nat (length examples) = examples_per_epoch text) /\
  forall (j : nat) (input_text target_text : list Z),
    examples !! j = Some (input_text, target_text) ->
    Z.of_nat (length input_text) = seq_length /\
    Z.of_nat (length target_text) = seq_length /\
    forall k : nat, (k < 10)%nat ->
      input_text !! k = char_dataset !! (11 * j + k)%nat /\
      target_text !! k = char_dataset !! (11 * j + k + 1)%nat /\
      is_Some (input_text !! k) /\ is_Some (target_text !! k).
Proof.
  intros examples. subst examples. unfold dataset.
  assert (Hn : length (map split_input_target (sequences char_dataset))
               = (length char_dataset / 11)%nat).
  { rewrite length_map. unfold sequences, batch.
    rewrite length_map, length_seq. reflexivity. }
  split; [exact Hn|]. split.
  - intros text Hlen. rewrite Hn. unfold examples_per_epoch. rewrite Hlen.
    rewrite Nat2Z.inj_div. reflexivity.
  - intros j input_text target_text Hj.
    rewrite list_lookup_fmap in Hj.
    destruct (sequences char_dataset !! j) as [chunk|] eqn:Ec; [|discriminate].
    cbn in Hj. rewrite split_input_target_eq in Hj.
    injection Hj as <- <-.
    unfold sequences in Ec. change (Z.to_nat (seq_length + 1)) with 11%nat in Ec.
    apply batch_lookup in Ec as (Hlt & -> & Hl); [|lia].
    rewrite length_take, length_drop, Hl.
    split; [reflexivity|]. split; [reflexivity|].
    intros k Hk.
    assert (Hin : forall i : nat, (i < 11)%nat ->
              take 11 (drop (j * 11) char_dataset) !! i
              = char_dataset !! (11 * j + i)%nat).
    { intros i Hi. rewrite lookup_take_lt by exact Hi. rewrite lookup_drop.
      f_equal. lia. }
    assert (Hsome : forall i : nat, (i < 11)%nat ->
              is_Some (take 11 (drop (j * 11) char_dataset) !! i)).
    { intros i Hi. apply lookup_lt_is_Some. rewrite Hl. exact Hi. }
    rewrite lookup_take_lt by lia. rewrite lookup_drop.
    rewrite !Hin by lia.
    replace (11 * j + (1 + k))%nat with (11 * j + k + 1)%nat by lia.
    split; [reflexivity|]. split; [reflexivity|].
    rewrite <- !Hin by lia.
    replace (11 * j + k + 1)%nat with (11 * j + (1 + k))%nat by lia.
    rewrite <- Hin by lia. split; apply Hsome; lia.
Qed.

(** The theorems on the text of the notebook. *)

Lemma vocabulary_numbers_the_characters_witness :
  (* "T" is the third character of the vocabulary, after " " and "." *)
  ((84 ∈ fox) /\ (84 ∈ vocab fox)) /\
  ((vocab fox !! 2%nat = Some 84) /\ (char2idx fox !! 84 = Some 2)) /\
  (* there is no "!" in the text *)
  ((33 ∉ fox) /\
   dict_getitem (char2idx fox) 33 = Raise (Exception "KeyError")).
Proof.
  destruct (vocabulary_numbers_the_characters fox) as (_ & Hin & Hidx & Hkey).
  assert (HT : 84 ∈ fox) by (apply list_elem_of_In; left; reflexivity).
  assert (H2 : vocab fox !! 2%nat = Some 84) by (vm_compute; reflexivity).
  assert (Hno : 33 ∉ fox).
  { apply (bool_decide_unpack (33 ∉ fox)). vm_compute. exact I. }
  split; [split; [exact HT|apply Hin; exact HT]|].
  split; [split; [exact H2|apply (Hidx 2%nat); exact H2]|].
  split; [exact Hno|exact (Hkey 33 Hno)].
Defined.

Lemma split_input_target_shifts_by_one_witness :
  let chunk : list Z := [19; 13; 8; 0] in
  exists input_text target_text,
    split_input_target chunk = (input_text, target_text) /\
    length input_text = 3%nat /\ length target_text = 3%nat /\
    ((1 < length chunk - 1)%nat /\ input_text !! 1%nat = chunk !! 1%nat) /\
    target_text !! 1%nat = chunk !! 2%nat /\
    ((length chunk - 1 <= 3)%nat /\ input_text !! 3%nat = None).
Proof.
  intros chunk.
  pose proof (split_input_target_shifts_by_one chunk) as H.
  destruct (split_input_target chunk) as [input_text target_text] eqn:E.
  destruct H as (H1 & H2 & H3).
  exists input_text, target_text. split; [reflexivity|].
  split; [exact H1|]. split; [exact H2|].
  assert (Hlt : (1 < length chunk - 1)%nat) by (cbn; lia).
  assert (Hge : (length chunk - 1 <= 3)%nat) by (cbn; lia).
  split; [split; [exact Hlt|exact (proj1 (proj2 (H3 1%nat)) Hlt)]|].
  split; [exact (proj1 (H3 1%nat))|].
  split; [exact Hge|exact (proj2 (proj2 (H3 3%nat)) Hge)].
Defined.

(** The theorem on the numbers of the text of the notebook: 44 items give
    4 examples. *)
Lemma dataset_pairs_each_item_with_the_next_witness :
  exists (ids : list Z) (input_text target_text : list Z),
    encoded fox = Ok ids /\
    length (dataset ids) = 4%nat /\
    (length fox = length ids /\
     Z.of_nat (length (dataset ids)) = examples_per_epoch fox) /\
    dataset ids !! 3%nat = Some (input_text, target_text) /\
    Z.of_nat (length input_text) = seq_length /\
    Z.of_nat (length target_text) = seq_length /\
    ((1 < 10)%nat /\ target_text !! 1%nat = input_text !! 2%nat /\
     target_text !! 1%nat = ids !! 35%nat).
Proof.
  assert (E : exists ids, encoded fox = Ok ids /\ length fox = length ids /\
                          is_Some (dataset ids !! 3%nat)).
  { vm_compute. eexists. split; [reflexivity|]. split; [reflexivity|].
    eexists. reflexivity. }
  destruct E as (ids & E & Hlen & [[input_text target_text] Hj]).
  destruct (dataset_pairs_each_item_with_the_next ids) as (Hn & Hper & H).
  destruct (H 3%nat input_text target_text Hj) as (H1 & H2 & Hk).
  exists ids, input_text, target_text.
  split; [exact E|]. split; [rewrite Hn, <- Hlen; reflexivity|].
  split; [split; [exact Hlen|exact (Hper fox Hlen)]|].
  split; [exact Hj|]. split; [exact H1|]. split; [exact H2|].
  assert (Hlt1 : (1 < 10)%nat) by lia. assert (Hlt2 : (2 < 10)%nat) by lia.
  split; [exact Hlt1|].
  destruct (Hk 1%nat Hlt1) as (_ & Ht & _).
  destruct (Hk 2%nat Hlt2) as (Hi & _).
  rewrite Ht, Hi. split; reflexivity.
Defined.

End Ch15Facts.

(** * Calls and failures in the kernel *)

Module PyCalls.

Import Py.

(** A kernel in which the sixth cell of [unnamed/part_003], the definition
    of [train_agent], has run: either on its own, or after every name that a
    cell of the notebook binds at top level has been bound. *)
Definition kernel_with_train_agent (all_bound : bool) : state :=
  let names := if all_bound then PyClasses.bound_at_top_level part_003 else [] in
  (exec_block one_item_each 10 part_003_cell_6
     (fold_right bind_name fresh_kernel names)).2.

(** A call of [train_agent] in such a kernel: its body, the parameters
    bound to the arguments. *)
Definition call_train_agent (o : oracle) (fuel : nat) (all_bound : bool)
    : res unit * state :=
  call o fuel (EName "train_agent") (kernel_with_train_agent all_bound).

(** The decisions of a run whose first decision is [first]. *)
Definition first_then (first : bool) (choose : nat -> bool) (j : nat) : bool :=
  match j with
  | O => first
  | S _ => choose j
  end.

Definition operations (st : state) : list string := map snd (log st).

(** The position of an operation in the list of those performed. *)
Fixpoint position (what : string) (l : list string) : option nat :=
  match l with
  | [] => None
  | x :: l' =>
      if String.eqb x what then Some O else option_map S (position what l')
  end.

(** X12.  [train_agent] never trains.  Its loop refers to the name
    [trajectory], which no cell of [unnamed/part_003] binds or imports.  In
    a call of the function seven operations come before the loop knows
    whether it has an item (the data set of the replay buffer, [range],
    the first [next]); if one of them raises, the call raises its
    exception.  If [range(num_iterations)] has no item, the call returns.
    Otherwise the first pass does eight operations and stops with
    [NameError] for [trajectory], unless one of the eight raises before.
    In no case is a batch added to the replay buffer or [agent.train]
    called, whichever operation fails, whatever the later decisions and
    however much fuel. *)
Theorem train_agent_never_trains (k : nat) (e : exn) (has_item : bool)
    (choose : nat -> bool) (n : nat) (all_bound : bool) :
  let o := fails_at k e (first_then has_item choose) in
  let run := call_train_agent o (100 + n) all_bound in
  in_list "trajectory" (PyClasses.bound_at_top_level part_003) = false /\
  lookup_function "train_agent" (kernel_with_train_agent all_bound)
  = Some (["agent"; "env"; "replay_buffer"; "num_iterations"],
          match part_003_cell_6 with
          | [SFunctionDef _ _ _ _ _ _ body] => body
          | _ => []
          end) /\
  run.1 = (if (k <=? 6)%nat then Sig (SigRaise e)
           else if negb has_item then Val tt
           else if (k <=? 14)%nat then Sig (SigRaise e)
           else Sig (SigRaise (NameError "trajectory"))) /\
  position "replay_buffer.add_batch()" (operations run.2) = None /\
  position "agent.train()" (operations run.2) = None.
Proof.
  intros o run. subst o run.
  split; [vm_compute; reflexivity|].
  split; [destruct all_bound; vm_compute; reflexivity|].
  do 15 (destruct k as [|k];
         [destruct all_bound, has_item; vm_compute; repeat split|]).
  destruct all_bound, has_item; vm_compute; repeat split.
Qed.

(** X17.  [fetch_housing_data] creates the directory, downloads the
    archive, opens it and extracts it, in this order, and
    [load_housing_data] reads the table afterwards.  When the download fails
    with an exception [e], the second cell of chapter 02 stops with [e]: the
    directory has been created by then, nothing is opened, extracted or
    read, and [housing] stays unbound. *)
Theorem failed_download_leaves_the_directory (e : exn) (choose : nat -> bool)
    (n : nat) :
  let ok := {| fails := fun _ => None; choose := choose |} in
  let ops_ok :=
    performed (run_cells ok (100 + n) 1 (take 2 (nb_cells ch02)) fresh_kernel) in
  let failing := fails_at 24 e choose in
  let run := run_notebook failing (100 + n) ch02 in
  (position "os.makedirs()" ops_ok = Some 18%nat /\
   position "urllib.request.urlretrieve()" ops_ok = Some 24%nat /\
   position "tarfile.open()" ops_ok = Some 26%nat /\
   position "housing_tgz.extractall()" ops_ok = Some 29%nat /\
   position "pd.read_csv()" ops_ok = Some 34%nat) /\
  run.1 = StoppedAt 2 e /\
  last (performed run) = Some "urllib.request.urlretrieve()" /\
  position "os.makedirs()" (performed run) = Some 18%nat /\
  position "tarfile.open()" (performed run) = None /\
  position "housing_tgz.extractall()" (performed run) = None /\
  position "pd.read_csv()" (performed run) = None /\
  in_list "housing" (globals run.2) = false.
Proof. vm_compute. repeat split. Qed.

End PyCalls.
